(** * Full-node core of the chia blockchain: a shallow embedding

    The development follows the Python sources file by file:

    - [program]: [src/types/program.py], the two tree-hash routines;
    - [mempool_check_conditions]: [src/consensus/mempool_check_conditions.py];
    - [full_node]: [src/full_node/full_node.py], the handlers of the
      [FullNode] class, written as programs over the calls they make to
      their collaborators (block chain, stores, peers, server).

    Python integers are unbounded, so heights, weights and iteration counts
    are [Z]; [bytes] values are lists of [Byte.byte]. The mempool's time
    check multiplies the clock reading [time.time()] by 1000, so there the
    reading is an IEEE 754 binary64 float and the product is rounded. The
    handlers of the full node only subtract a whole number of seconds from
    the reading, which binary64 does without rounding for readings between
    600 and 2^53 seconds; there the reading is a rational number. *)

From Stdlib Require Import List ZArith Lia Bool String QArith SpecFloat.
From Stdlib Require Import Strings.Byte.
Import ListNotations.

Set Implicit Arguments.

Local Open Scope Z_scope.

(** ** Byte strings *)

Definition bytes := list byte.

Fixpoint bytes_eqb (a b : bytes) : bool :=
  match a, b with
  | [], [] => true
  | x :: a', y :: b' => Byte.eqb x y && bytes_eqb a' b'
  | _, _ => false
  end.

(** [x in s] for a Python collection of [bytes]. *)
Definition bytes_in (x : bytes) (s : list bytes) : bool :=
  existsb (bytes_eqb x) s.

(** [int(x)] on a Python float: truncation towards zero. *)
Definition py_int (x : Q) : Z := Z.quot (Qnum x) (Zpos (Qden x)).

(** ** Python floats

    A Python float is an IEEE 754 binary64 value: a signed zero, an
    infinity, a NaN, or [(-1)^s * m * 2^e]. [x * y] is the exact product
    rounded to the nearest float, ties to even; an integer operand is first
    converted to a float. *)
Definition float_mul (x y : spec_float) : spec_float := SFmul 53 1024 x y.

(** The float [1000.0]. *)
Definition float_1000 : spec_float := S754_finite false 1000 0.

(** ** [src/types/program.py] *)

Module program.

(** The clvm [SExp] tree: an atom holding bytes, or a pair. *)
Inductive SExp : Type :=
| Atom (atom : bytes)
| Cons (first rest : SExp).

Definition listp (node : SExp) : bool :=
  match node with Cons _ _ => true | Atom _ => false end.

(** What the file imports: [std_hash] is sha256 ([src/util/hash.py]);
    [bytes32] is the sized-bytes constructor ([src/types/sized_bytes.py]),
    which answers [None] where the Python constructor raises;
    [sexp_from_stream] is [sexp_from_stream(io.BytesIO(buf), SExp.to)] of the
    clvm library, [None] where it raises. *)
Class Imports : Type := {
  std_hash : bytes -> bytes;
  bytes32 : bytes -> option bytes;
  sexp_from_stream : bytes -> option SExp
}.

(** Module-level [_tree_hash(node, precalculated)], lines 112-125. *)
Fixpoint _tree_hash `{Imports} (node : SExp) (precalculated : list bytes)
  : option bytes :=
  match node with
  | Cons first rest =>
      match _tree_hash first precalculated with
      | None => None
      | Some left_hash =>
          match _tree_hash rest precalculated with
          | None => None
          | Some right_hash => bytes32 (std_hash ([x02] ++ left_hash ++ right_hash))
          end
      end
  | Atom atom =>
      if bytes_in atom precalculated then bytes32 atom
      else bytes32 (std_hash ([x01] ++ atom))
  end.

Module Program.

(** [cls.to(v)] on a value that is already an s-expression keeps its tree. *)
Definition to (v : SExp) : SExp := v.

(** [Program._tree_hash(self, precalculated)], lines 66-79. *)
Fixpoint _tree_hash `{Imports} (self : SExp) (precalculated : list bytes)
  {struct self}
  : option bytes :=
  if listp self then
    match self with
    | Cons first rest =>
        match _tree_hash (to first) precalculated with
        | None => None
        | Some left_hash =>
            match _tree_hash (to rest) precalculated with
            | None => None
            | Some right_hash => bytes32 (std_hash ([x02] ++ left_hash ++ right_hash))
            end
        end
    | Atom _ => None
    end
  else
    match self with
    | Atom atom =>
        if bytes_in atom precalculated then bytes32 atom
        else bytes32 (std_hash ([x01] ++ atom))
    | Cons _ _ => None
    end.

(** [Program.get_tree_hash(self, *args)], lines 81-86: [set(args)] has the
    members of [args]. *)
Definition get_tree_hash `{Imports} (self : SExp) (args : list bytes) : option bytes :=
  _tree_hash self args.

End Program.

Module SerializedProgram.

(** [SerializedProgram.get_tree_hash(self, *args)], lines 155-164, on the
    buffer [_buf]; the two [print] calls write to standard output and do not
    touch the digest. *)
Definition get_tree_hash `{Imports} (_buf : bytes) (args : list bytes) : option bytes :=
  match sexp_from_stream _buf with
  | None => None
  | Some tmp => _tree_hash tmp args
  end.

End SerializedProgram.

End program.

(** ** Error codes and Python exceptions *)

(** The members of [Err] ([src/util/errors.py]) that the sources name; every
    other member is [OTHER_ERR] with its numeric code. *)
Inductive Err : Type :=
| INVALID_PREV_BLOCK_HASH
| INVALID_CONDITION
| ASSERT_COIN_CONSUMED_FAILED
| ASSERT_MY_COIN_ID_FAILED
| ASSERT_BLOCK_INDEX_EXCEEDS_FAILED
| ASSERT_BLOCK_AGE_EXCEEDS_FAILED
| ASSERT_TIME_EXCEEDS_FAILED
| OTHER_ERR (code : Z).

(** The exceptions the sources raise. [ConsensusError(code)] carries the
    error code; the others carry their message with the interpolated values
    left out. *)
Inductive PyExn : Type :=
| ValueError (msg : string)
| RuntimeError (msg : string)
| AssertionError
| IndexError
| AttributeError
| OverflowError
| CancelledError
| ConsensusError (code : Err).

(** ** [src/consensus/mempool_check_conditions.py] *)

Module mempool_check_conditions.

(** Modelled from the spec: [ConditionOpcode] is declared in
    [src/util/condition_tools.py], which is not among the sources. The five
    members below are the known opcodes the spec lists and the function
    tests; every other member of the enumeration (AGG_SIG, CREATE_COIN, ...)
    is [OTHER_OPCODE] with its byte value. *)
Inductive ConditionOpcode : Type :=
| ASSERT_COIN_CONSUMED
| ASSERT_MY_COIN_ID
| ASSERT_BLOCK_INDEX_EXCEEDS
| ASSERT_BLOCK_AGE_EXCEEDS
| ASSERT_TIME_EXCEEDS
| OTHER_OPCODE (value : bytes).

(** [ConditionVarPair]: an opcode and its arguments. *)
Record ConditionVarPair : Type := {
  opcode : ConditionOpcode;
  vars : list bytes
}.

(** [SpendBundle], as far as the checks read it: [removal_names()]. *)
Record SpendBundle : Type := {
  removal_names : list bytes
}.

(** [CoinRecord], as far as the checks read it: [coin.name()] and
    [confirmed_block_index]. *)
Record CoinRecord : Type := {
  coin_name : bytes;
  confirmed_block_index : Z
}.

(** A call either returns a value or raises. *)
Inductive result (R : Type) : Type :=
| Returns (r : R)
| Raises (e : PyExn).
Arguments Raises {R} e.

(** [int(x)] on a float: the integer part, towards zero; OverflowError on an
    infinity and ValueError on a NaN. *)
Definition int_of_float (x : spec_float) : result Z :=
  match x with
  | S754_zero _ => Returns 0
  | S754_finite s m e =>
      let magnitude := if 0 <=? e then Zpos m * 2 ^ e else Zpos m / 2 ^ (- e) in
      Returns (if s then - magnitude else magnitude)
  | S754_infinity _ => Raises OverflowError
  | S754_nan => Raises (ValueError "cannot convert float NaN to integer")
  end.

(** [uint64] is declared in [src/util/ints.py], which is not among the
    sources: the constructor keeps an integer of [0, 2^64) and raises
    ValueError on any other. *)
Definition uint64 (value : Z) : result Z :=
  if (0 <=? value) && (value <? 2 ^ 64) then Returns value
  else Raises (ValueError "Value does not fit into uint64").

(** [uint64(int(time.time() * 1000))], line 83, on the clock reading
    [now]. *)
Definition current_time_of (now : spec_float) : result Z :=
  match int_of_float (float_mul now float_1000) with
  | Raises e => Raises e
  | Returns milliseconds => uint64 milliseconds
  end.

(** [condition.vars[0]]: IndexError on an empty list. *)
Definition vars0 (condition : ConditionVarPair) (k : bytes -> result (option Err))
  : result (option Err) :=
  match vars condition with
  | [] => Raises IndexError
  | v :: _ => k v
  end.

Section Checks.

(** [int_from_bytes] ([src/util/clvm.py]); [None] where it raises
    ValueError. *)
Variable int_from_bytes : bytes -> option Z.

(** The reading of [time.time()], in seconds. *)
Variable now : spec_float.

(** Lines 16-27. *)
Definition mempool_assert_coin_consumed (condition : ConditionVarPair)
  (spend_bundle : SpendBundle) : result (option Err) :=
  let bundle_removals := removal_names spend_bundle in
  vars0 condition (fun coin_name =>
    if negb (bytes_in coin_name bundle_removals)
    then Returns (Some ASSERT_COIN_CONSUMED_FAILED)
    else Returns None).

(** Lines 30-38. *)
Definition mempool_assert_my_coin_id (condition : ConditionVarPair)
  (unspent : CoinRecord) : result (option Err) :=
  vars0 condition (fun v =>
    if negb (bytes_eqb (coin_name unspent) v)
    then Returns (Some ASSERT_MY_COIN_ID_FAILED)
    else Returns None).

(** Lines 41-54. *)
Definition mempool_assert_block_index_exceeds (condition : ConditionVarPair)
  (peak_height : Z) : result (option Err) :=
  vars0 condition (fun v =>
    match int_from_bytes v with
    | None => Returns (Some INVALID_CONDITION)
    | Some expected_block_index =>
        if peak_height + 1 <=? expected_block_index
        then Returns (Some ASSERT_BLOCK_INDEX_EXCEEDS_FAILED)
        else Returns None
    end).

(** Lines 57-70. *)
Definition mempool_assert_block_age_exceeds (condition : ConditionVarPair)
  (unspent : CoinRecord) (peak_height : Z) : result (option Err) :=
  vars0 condition (fun v =>
    match int_from_bytes v with
    | None => Returns (Some INVALID_CONDITION)
    | Some expected_block_age =>
        let expected_block_index :=
          expected_block_age + confirmed_block_index unspent in
        if peak_height + 1 <=? expected_block_index
        then Returns (Some ASSERT_BLOCK_AGE_EXCEEDS_FAILED)
        else Returns None
    end).

(** Lines 73-85. The clock is read after the argument has been parsed. *)
Definition mempool_assert_time_exceeds (condition : ConditionVarPair)
  : result (option Err) :=
  vars0 condition (fun v =>
    match int_from_bytes v with
    | None => Returns (Some INVALID_CONDITION)
    | Some expected_mili_time =>
        match current_time_of now with
        | Raises e => Raises e
        | Returns current_time =>
            if current_time <=? expected_mili_time
            then Returns (Some ASSERT_TIME_EXCEEDS_FAILED)
            else Returns None
        end
    end).

(** The body of the inner loop, lines 130-143: the opcode dispatch on one
    condition. An opcode outside the five branches leaves [error = None]. *)
Definition check_condition (unspent : CoinRecord) (spend_bundle : SpendBundle)
  (peak_height : Z) (cvp : ConditionVarPair) : result (option Err) :=
  match opcode cvp with
  | ASSERT_COIN_CONSUMED => mempool_assert_coin_consumed cvp spend_bundle
  | ASSERT_MY_COIN_ID => mempool_assert_my_coin_id cvp unspent
  | ASSERT_BLOCK_INDEX_EXCEEDS => mempool_assert_block_index_exceeds cvp peak_height
  | ASSERT_BLOCK_AGE_EXCEEDS => mempool_assert_block_age_exceeds cvp unspent peak_height
  | ASSERT_TIME_EXCEEDS => mempool_assert_time_exceeds cvp
  | OTHER_OPCODE _ => Returns None
  end.

(** [for cvp in con_list], lines 129-143: the first error (or exception)
    ends the function; [None] lets the outer loop go on. *)
Fixpoint check_con_list (unspent : CoinRecord) (spend_bundle : SpendBundle)
  (peak_height : Z) (con_list : list ConditionVarPair) : result (option Err) :=
  match con_list with
  | [] => Returns None
  | cvp :: con_list' =>
      match check_condition unspent spend_bundle peak_height cvp with
      | Raises e => Raises e
      | Returns (Some error) => Returns (Some error)
      | Returns None => check_con_list unspent spend_bundle peak_height con_list'
      end
  end.

(** [mempool_check_conditions_dict], lines 118-145. The dictionary is the
    list of its items in insertion order, which is the order
    [conditions_dict.values()] walks. *)
Fixpoint mempool_check_conditions_dict (unspent : CoinRecord)
  (spend_bundle : SpendBundle)
  (conditions_dict : list (ConditionOpcode * list ConditionVarPair))
  (peak_height : Z) : result (option Err) :=
  match conditions_dict with
  | [] => Returns None
  | (_, con_list) :: rest =>
      match check_con_list unspent spend_bundle peak_height con_list with
      | Raises e => Raises e
      | Returns (Some error) => Returns (Some error)
      | Returns None =>
          mempool_check_conditions_dict unspent spend_bundle rest peak_height
      end
  end.

End Checks.

(** The opcodes with a branch in the dispatch. *)
Definition known_opcode (o : ConditionOpcode) : bool :=
  match o with OTHER_OPCODE _ => false | _ => true end.

(** The dictionary with only the conditions whose opcode has no branch. *)
Definition unknown_conditions
  (conditions_dict : list (ConditionOpcode * list ConditionVarPair))
  : list (ConditionOpcode * list ConditionVarPair) :=
  map (fun item =>
         (fst item, filter (fun cvp => negb (known_opcode (opcode cvp))) (snd item)))
    conditions_dict.

(** The dictionary without the conditions whose opcode has no branch. *)
Definition known_conditions
  (conditions_dict : list (ConditionOpcode * list ConditionVarPair))
  : list (ConditionOpcode * list ConditionVarPair) :=
  map (fun item => (fst item, filter (fun cvp => known_opcode (opcode cvp)) (snd item)))
    conditions_dict.

(** The examples' inputs. *)
Module Example.

(** The clvm [int_from_bytes]: a big-endian two's complement integer, zero
    for the empty string; it raises on no input. *)
Definition int_from_bytes (blob : bytes) : option Z :=
  let unsigned := fold_left (fun acc b => acc * 256 + Z.of_N (Byte.to_N b)) blob 0 in
  let bits := 8 * Z.of_nat (List.length blob) in
  Some (if (bits =? 0) || (unsigned <? 2 ^ (bits - 1)) then unsigned
        else unsigned - 2 ^ bits).

Definition unspent : CoinRecord := {| coin_name := [x0c]; confirmed_block_index := 3 |}.

(** The clock readings 1600000000.0, the same an hour later, and
    1600000000.001 rounded to the nearest float. *)
Definition clock : spec_float := S754_finite false 1600000000 0.
Definition clock_later : spec_float := S754_finite false 1600003600 0.
Definition clock_001 : spec_float := S754_finite false 6710886400004194 (-22).

Definition spend_bundle : SpendBundle := {| removal_names := [[x0c]] |}.

(** A dictionary whose only condition has the opcode 50 (AGG_SIG), for
    which the dispatch has no branch. *)
Definition aggsig_only : list (ConditionOpcode * list ConditionVarPair) :=
  [(OTHER_OPCODE [x32], [{| opcode := OTHER_OPCODE [x32]; vars := [[x0a]; [x0b]] |}])].

End Example.

End mempool_check_conditions.

(** ** [src/full_node/full_node.py]: data *)

Module full_node.

Local Open Scope string_scope.
Local Open Scope Z_scope.

Definition bytes32 := bytes.

(** The records below keep the attributes that [full_node.py] reads. Their
    classes are declared in modules outside these files; a [get_hash()]
    method or a computed property appears as a field holding its value. *)

Inductive NodeType : Type :=
| FULL_NODE | HARVESTER | FARMER | TIMELORD | INTRODUCER | WALLET.

Inductive ReceiveBlockResult : Type :=
| NEW_PEAK | ADDED_AS_ORPHAN | INVALID_BLOCK | ALREADY_HAVE_BLOCK | DISCONNECTED_BLOCK.

Definition ReceiveBlockResult_eqb (a b : ReceiveBlockResult) : bool :=
  match a, b with
  | NEW_PEAK, NEW_PEAK | ADDED_AS_ORPHAN, ADDED_AS_ORPHAN
  | INVALID_BLOCK, INVALID_BLOCK | ALREADY_HAVE_BLOCK, ALREADY_HAVE_BLOCK
  | DISCONNECTED_BLOCK, DISCONNECTED_BLOCK => true
  | _, _ => false
  end.

Definition Err_eqb (a b : Err) : bool :=
  match a, b with
  | INVALID_PREV_BLOCK_HASH, INVALID_PREV_BLOCK_HASH
  | INVALID_CONDITION, INVALID_CONDITION
  | ASSERT_COIN_CONSUMED_FAILED, ASSERT_COIN_CONSUMED_FAILED
  | ASSERT_MY_COIN_ID_FAILED, ASSERT_MY_COIN_ID_FAILED
  | ASSERT_BLOCK_INDEX_EXCEEDS_FAILED, ASSERT_BLOCK_INDEX_EXCEEDS_FAILED
  | ASSERT_BLOCK_AGE_EXCEEDS_FAILED, ASSERT_BLOCK_AGE_EXCEEDS_FAILED
  | ASSERT_TIME_EXCEEDS_FAILED, ASSERT_TIME_EXCEEDS_FAILED => true
  | OTHER_ERR x, OTHER_ERR y => x =? y
  | _, _ => false
  end.

Module VDFInfo.
Record t : Type := { challenge : bytes32 }.
End VDFInfo.

Module ChallengeChainSubSlot.
Record t : Type := {
  challenge_chain_end_of_slot_vdf : VDFInfo.t;
  new_difficulty : option Z;
  get_hash : bytes32
}.
End ChallengeChainSubSlot.

Module RewardChainSubSlot.
Record t : Type := {
  end_of_slot_vdf : VDFInfo.t;
  deficit : Z;
  get_hash : bytes32
}.
End RewardChainSubSlot.

Module EndOfSubSlotBundle.
Record t : Type := {
  challenge_chain : ChallengeChainSubSlot.t;
  reward_chain : RewardChainSubSlot.t
}.
End EndOfSubSlotBundle.

Module SubEpochSummary.
Record t : Type := { new_difficulty : option Z }.
End SubEpochSummary.

Module SubBlockRecord.
Record t : Type := {
  header_hash : bytes32;
  prev_hash : bytes32;
  sub_block_height : Z;
  weight : Z;
  total_iters : Z;
  signage_point_index : Z;
  required_iters : Z;
  deficit : Z;
  overflow : bool;
  sub_slot_iters : Z;
  first_in_sub_slot : bool;
  reward_infusion_new_challenge : bytes32;
  sub_epoch_summary_included : option SubEpochSummary.t
}.
End SubBlockRecord.

Module ProofOfSpace.
Record t : Type := { pool_public_key : bytes }.
End ProofOfSpace.

Module RewardChainSubBlockUnfinished.
Record t : Type := {
  signage_point_index : Z;
  pos_ss_cc_challenge_hash : bytes32;
  proof_of_space : ProofOfSpace.t;
  reward_chain_sp_vdf : option VDFInfo.t;
  get_hash : bytes32
}.
End RewardChainSubBlockUnfinished.

Module RewardChainSubBlock.
Record t : Type := {
  sub_block_height : Z;
  weight : Z;
  signage_point_index : Z;
  pos_ss_cc_challenge_hash : bytes32;
  proof_of_space : ProofOfSpace.t;
  challenge_chain_sp_vdf : option VDFInfo.t;
  reward_chain_sp_vdf : option VDFInfo.t;
  get_unfinished : RewardChainSubBlockUnfinished.t;
  get_hash : bytes32
}.
End RewardChainSubBlock.

Module PoolTarget.
Record t : Type := { puzzle_hash : bytes32; max_height : Z }.
Definition eqb (a b : t) : bool :=
  bytes_eqb (puzzle_hash a) (puzzle_hash b) && (max_height a =? max_height b).
End PoolTarget.

Module FoliageSubBlockData.
Record t : Type := {
  pool_target : PoolTarget.t;
  pool_signature : option bytes
}.
End FoliageSubBlockData.

Module FoliageSubBlock.
Record t : Type := {
  prev_sub_block_hash : bytes32;
  foliage_sub_block_data : FoliageSubBlockData.t;
  get_hash : bytes32
}.
End FoliageSubBlock.

Module FoliageBlock.
Record t : Type := { timestamp : Z }.
End FoliageBlock.

Module FullBlock.
Record t : Type := {
  finished_sub_slots : list EndOfSubSlotBundle.t;
  reward_chain_sub_block : RewardChainSubBlock.t;
  challenge_chain_sp_proof : option bytes;
  reward_chain_sp_proof : option bytes;
  foliage_sub_block : FoliageSubBlock.t;
  foliage_block : option FoliageBlock.t;
  transactions_generator : option bytes;
  header_hash : bytes32;
  prev_header_hash : bytes32;
  sub_block_height : Z;
  weight : Z
}.
(** [dataclasses.replace(sub_block, transactions_generator=g)]. *)
Definition replace_transactions_generator (b : t) (g : option bytes) : t :=
  {| finished_sub_slots := finished_sub_slots b;
     reward_chain_sub_block := reward_chain_sub_block b;
     challenge_chain_sp_proof := challenge_chain_sp_proof b;
     reward_chain_sp_proof := reward_chain_sp_proof b;
     foliage_sub_block := foliage_sub_block b;
     foliage_block := foliage_block b;
     transactions_generator := g;
     header_hash := header_hash b;
     prev_header_hash := prev_header_hash b;
     sub_block_height := sub_block_height b;
     weight := weight b |}.
End FullBlock.

Module UnfinishedBlock.
Record t : Type := {
  finished_sub_slots : list EndOfSubSlotBundle.t;
  reward_chain_sub_block : RewardChainSubBlockUnfinished.t;
  foliage_sub_block : FoliageSubBlock.t;
  transactions_generator : option bytes;
  get_hash : bytes32;
  partial_hash : bytes32;
  prev_header_hash : bytes32;
  total_iters : Z
}.
(** [dataclasses.replace(unfinished_block, finished_sub_slots=s)]. *)
Definition replace_finished_sub_slots (b : t) (s : list EndOfSubSlotBundle.t) : t :=
  {| finished_sub_slots := s;
     reward_chain_sub_block := reward_chain_sub_block b;
     foliage_sub_block := foliage_sub_block b;
     transactions_generator := transactions_generator b;
     get_hash := get_hash b;
     partial_hash := partial_hash b;
     prev_header_hash := prev_header_hash b;
     total_iters := total_iters b |}.
End UnfinishedBlock.

Module PreValidationResult.
Record t : Type := {
  error : option Z;
  required_iters : option Z
}.
End PreValidationResult.

Module HeaderBlock.
Record t : Type := { reward_chain_sub_block : RewardChainSubBlock.t }.
End HeaderBlock.

Module WeightProof.
Record t : Type := { recent_chain_data : list HeaderBlock.t }.
End WeightProof.

(** [SignagePoint(cc_vdf, cc_proof, rc_vdf, rc_proof)]. *)
Module SignagePoint.
Record t : Type := {
  cc_vdf : option VDFInfo.t;
  cc_proof : option bytes;
  rc_vdf : option VDFInfo.t;
  rc_proof : option bytes
}.
End SignagePoint.

(** [ws.WSChiaConnection]: the attributes that do not change while the
    connection lives. [closed] changes, and is read through a call. *)
Module WSChiaConnection.
Record t : Type := {
  peer_node_id : bytes32;
  connection_type : NodeType;
  peer_host : string
}.
End WSChiaConnection.

Module NewInfusionPointVDF.
Record t : Type := {
  unfinished_reward_hash : bytes32;
  challenge_chain_ip_vdf : VDFInfo.t;
  challenge_chain_ip_proof : bytes;
  reward_chain_ip_vdf : VDFInfo.t;
  reward_chain_ip_proof : bytes;
  infused_challenge_chain_ip_vdf : option VDFInfo.t;
  infused_challenge_chain_ip_proof : option bytes
}.
End NewInfusionPointVDF.

(** [full_node_protocol.NewPeak]. *)
Module NewPeak.
Record t : Type := {
  header_hash : bytes32;
  sub_block_height : Z;
  weight : Z;
  fork_point_with_previous_peak : Z;
  unfinished_reward_block_hash : bytes32
}.
End NewPeak.

(** The requests [full_node.py] sends to a peer. *)
Inductive Request : Type :=
| RequestSubBlock (height : Z) (include_transaction_block : bool)
| RequestSubBlocks (start_height end_height : Z) (include_transaction_block : bool)
| RequestProofOfWeight (total_number_of_blocks : Z) (tip : bytes32).

(** What a peer call hands back inside its [Optional]: the protocol
    messages the handlers test with [isinstance], or any other object. *)
Inductive Response : Type :=
| RespondSubBlock (sub_block : FullBlock.t)
| RespondSubBlocks (sub_blocks : list FullBlock.t)
| RejectSubBlocks
| RespondProofOfWeight (wp : WeightProof.t)
| OtherResponse.

(** The payloads of the outbound messages. *)
Inductive Payload : Type :=
| full_node_NewPeak (p : NewPeak.t)
| wallet_NewPeak (header_hash : bytes32) (sub_block_height weight fork_point : Z)
| timelord_NewPeak (reward_chain_sub_block : RewardChainSubBlock.t)
    (difficulty deficit sub_slot_iters : Z)
    (sub_epoch_summary : option SubEpochSummary.t)
    (previous_reward_challenges : list (bytes32 * Z))
    (last_challenge_sb_or_eos_total_iters : Z)
| NewSignagePointOrEndOfSubSlot (prev_challenge_hash challenge_hash : bytes32)
    (index_from_challenge : Z) (last_rc_infusion : bytes32)
| timelord_NewUnfinishedSubBlock
    (reward_chain_sub_block : RewardChainSubBlockUnfinished.t)
    (difficulty sub_slot_iters : Z) (foliage_sub_block : FoliageSubBlock.t)
    (sub_epoch_summary : option SubEpochSummary.t) (rc_prev : bytes32)
| full_node_NewUnfinishedSubBlock (unfinished_reward_hash : bytes32).

(** [Message(function, data)]. *)
Record Message : Type := { function : string; data : Payload }.

(** The consensus constants and configuration keys the handlers read. *)
Record ConsensusConstants : Type := {
  MAX_BLOCK_COUNT_PER_REQUESTS : Z;
  WEIGHT_PROOF_RECENT_BLOCKS : Z;
  SUB_BLOCKS_CACHE_SIZE : Z;
  MAX_SUB_SLOT_SUB_BLOCKS : Z;
  GENESIS_PREV_HASH : bytes32;
  FIRST_CC_CHALLENGE : bytes32;
  FIRST_RC_CHALLENGE : bytes32;
  GENESIS_PRE_FARM_POOL_PUZZLE_HASH : bytes32
}.

Record Config : Type := {
  short_sync_sub_blocks_behind_threshold : Z;
  sync_sub_blocks_behind_threshold : Z
}.

(** The node's fixed attributes ([self.constants], [self.config]) and the
    pure routines the file imports from modules outside these files:
    [is_overflow_sub_block] and [calculate_sp_iters]
    ([src/consensus/pot_iterations.py]), three methods of [SubBlockRecord],
    the [Err(code)] conversion ([None] where it raises ValueError: [code] is
    the value of no member of the enumeration), [bytes(pool_target)] and
    [AugSchemeMPL.verify] of blspy. *)
Class Node : Type := {
  constants : ConsensusConstants;
  config : Config;
  is_overflow_sub_block : ConsensusConstants -> Z -> bool;
  calculate_sp_iters : ConsensusConstants -> Z -> Z -> Z;
  is_challenge_sub_block : SubBlockRecord.t -> ConsensusConstants -> bool;
  sp_total_iters : SubBlockRecord.t -> ConsensusConstants -> Z;
  ip_sub_slot_total_iters : SubBlockRecord.t -> ConsensusConstants -> Z;
  Err_of_code : Z -> option Err;
  PoolTarget_bytes : PoolTarget.t -> bytes;
  AugSchemeMPL_verify : bytes -> bytes -> option bytes -> bool
}.

(** ** Calls to the collaborators *)

Inductive Lock : Type := blockchain_lock | timelord_lock.

Inductive LogLevel : Type := debug | info | warning | error.

(** Either kind of block, where a routine accepts both. *)
Definition AnyBlock : Type := (FullBlock.t + UnfinishedBlock.t)%type.

(** One constructor per call [full_node.py] makes on an object it does not
    define (or on a mutable attribute of the node that other tasks write),
    indexed by the type of the answer. The comment gives the Python call. *)
Inductive Call : Type -> Type :=
(* self.log.<level>(msg) *)
| log (level : LogLevel) (msg : string) : Call unit
(* self._state_changed(change) *)
| _state_changed (change : string) : Call unit
(* self._shut_down *)
| get_shut_down : Call bool
(* self.server is None *)
| server_is_none : Call bool
(* self._sync_task = asyncio.create_task(self._sync()) *)
| create_sync_task : Call unit
(* self.sync_peers_handler = None *)
| clear_sync_peers_handler : Call unit
(* await asyncio.sleep(seconds) *)
| asyncio_sleep (seconds : Q) : Call unit
(* whether the task is cancelled while the coroutine waits at an await *)
| task_cancelled : Call bool
(* time.time() *)
| time_time : Call Q
(* random.choice(peers), on a list that is not empty *)
| random_choice (peers : list WSChiaConnection.t) : Call WSChiaConnection.t
(* async with lock: entering and leaving *)
| acquire (l : Lock) : Call unit
| release (l : Lock) : Call unit
(* self.sync_store *)
| sync_store_add_peak_peer (peak_hash peer_id : bytes32) (weight height : Z) : Call unit
| sync_store_get_sync_mode : Call bool
| sync_store_set_sync_mode (sync_mode : bool) : Call unit
| sync_store_get_sync_target_hash : Call (option bytes32)
| sync_store_get_sync_target_height : Call (option Z)
| sync_store_get_peak_peers (peak_hash : bytes32) : Call (list bytes32)
| sync_store_get_peer_peaks (peer_ids : list bytes32)
    : Call (list (bytes32 * (bytes32 * Z * Z)))
| sync_store_get_heaviest_peak (peer_ids : list bytes32) : Call (option (bytes32 * Z * Z))
| sync_store_set_peak_target (peak_hash : bytes32) (target_sub_height : Z) : Call unit
| sync_store_clear_sync_info : Call unit
| sync_store_peers_changed_is_set : Call bool
| sync_store_peers_changed_clear : Call unit
(* peer_id in self.sync_store.batch_syncing, .add(peer_id), .remove(peer_id) *)
| batch_syncing_contains (peer_id : bytes32) : Call bool
| batch_syncing_add (peer_id : bytes32) : Call unit
| batch_syncing_remove (peer_id : bytes32) : Call unit
(* self.blockchain *)
| blockchain_contains_sub_block (header_hash : bytes32) : Call bool
| blockchain_get_peak : Call (option SubBlockRecord.t)
| blockchain_get_full_peak : Call (option FullBlock.t)
| blockchain_get_block_peak : Call (option FullBlock.t)
| blockchain_sub_block_record (header_hash : bytes32) : Call SubBlockRecord.t
| blockchain_try_sub_block (header_hash : bytes32) : Call (option SubBlockRecord.t)
| blockchain_get_next_difficulty (header_hash : bytes32) (new_slot : bool) : Call Z
| blockchain_get_next_slot_iters (header_hash : bytes32) (new_slot : bool) : Call Z
| blockchain_get_recent_reward_challenges : Call (list (bytes32 * Z))
| blockchain_pre_validate_blocks_multiprocessing (blocks : list FullBlock.t)
    : Call (option (list PreValidationResult.t))
| blockchain_receive_block (block : FullBlock.t)
    (pre_validation_result : PreValidationResult.t) (fork_point_with_peak : option Z)
    : Call (ReceiveBlockResult * option Err * option Z)
| blockchain_validate_unfinished_block (block : UnfinishedBlock.t)
    : Call (option Z * option Err)
| blockchain_get_sp_and_ip_sub_slots (header_hash : bytes32)
    : Call (option (option EndOfSubSlotBundle.t * option EndOfSubSlotBundle.t))
| blockchain_clean_sub_block_records : Call unit
| blockchain_clean_sub_block_record (sub_height : Z) : Call unit
| blockchain_warmup (fork_point : Z) : Call unit
(* self.full_node_store; new_peak answers a triple, of which the handlers
   keep the first component; finished_sub_slots is a list of triples, of
   which the handlers read the first components *)
| full_node_store_seen_unfinished_block (object_hash : bytes32) : Call bool
| full_node_store_get_unfinished_block (unfinished_reward_hash : bytes32)
    : Call (option UnfinishedBlock.t)
| full_node_store_add_unfinished_block (sub_height : Z) (block : UnfinishedBlock.t)
    : Call unit
| full_node_store_new_peak (peak : SubBlockRecord.t)
    (sp_sub_slot ip_sub_slot : option EndOfSubSlotBundle.t) (reorg : bool)
    : Call (option EndOfSubSlotBundle.t)
| full_node_store_new_signage_point (index : Z) (peak : SubBlockRecord.t)
    (next_sub_slot_iters : Z) (signage_point : SignagePoint.t) : Call bool
| full_node_store_clear_seen_unfinished_blocks : Call unit
| full_node_store_clear_candidate_blocks_below (sub_height : Z) : Call unit
| full_node_store_clear_unfinished_blocks_below (sub_height : Z) : Call unit
| full_node_store_get_sub_slot (challenge_hash : bytes32)
    : Call (option (EndOfSubSlotBundle.t * Z * Z))
| full_node_store_finished_sub_slots : Call (list (option EndOfSubSlotBundle.t))
| full_node_store_add_to_future_ip (infusion_point : NewInfusionPointVDF.t) : Call unit
| full_node_store_get_finished_sub_slots (prev_sb : option SubBlockRecord.t)
    (pos_ss_challenge_hash : bytes32) (extra_sub_slot : bool)
    : Call (list EndOfSubSlotBundle.t)
(* self.mempool_manager.new_peak(peak) *)
| mempool_manager_new_peak (peak : option SubBlockRecord.t) : Call unit
(* self.weight_proof_handler *)
| weight_proof_handler_create_prev_sub_epoch_segments : Call unit
| weight_proof_handler_validate_weight_proof (wp : WeightProof.t) : Call (bool * Z)
| weight_proof_handler_get_proof_of_weight (tip : bytes32) : Call unit
(* self.server *)
| server_all_connections : Call (list WSChiaConnection.t)
| server_send_to_all (messages : list Message) (node_type : NodeType) : Call unit
| server_send_to_all_except (messages : list Message) (node_type : NodeType)
    (exclude : bytes32) : Call unit
(* a peer connection *)
| peer_request_sub_block (peer : WSChiaConnection.t) (height : Z)
    (include_transaction_block : bool) (timeout : option Z) : Call (option Response)
| peer_request_sub_blocks (peer : WSChiaConnection.t) (start_height end_height : Z)
    (include_transaction_block : bool) : Call (option Response)
| peer_request_proof_of_weight (peer : WSChiaConnection.t)
    (total_number_of_blocks : Z) (tip : bytes32) : Call (option Response)
| peer_close (peer : WSChiaConnection.t) : Call unit
| peer_closed (peer : WSChiaConnection.t) : Call bool
(* routines of src/consensus that read self.blockchain *)
| next_sub_epoch_summary (required_iters : Z) (block : AnyBlock) (can_finish_soon : bool)
    : Call (option SubEpochSummary.t)
| can_finish_sub_and_full_epoch (sub_height deficit : Z)
    (prev_header_hash : option bytes32) (can_finish_soon : bool) : Call (bool * bool)
| get_sub_slot_iters_and_difficulty (header_block : UnfinishedBlock.t)
    (prev_sb : option SubBlockRecord.t) : Call (Z * Z)
| unfinished_block_to_full_block (unfinished_block : UnfinishedBlock.t)
    (request : NewInfusionPointVDF.t) (finished_sub_slots : list EndOfSubSlotBundle.t)
    (prev_sub_block : option SubBlockRecord.t) (total_iters_sp difficulty : Z)
    : Call FullBlock.t.

(** ** Programs over the calls *)

(** A handler body: it returns, raises, performs a call and goes on with the
    answer, or exhausts the iteration bound of a chain walk. *)
Inductive Prog (R : Type) : Type :=
| Ret (r : R)
| Raise (e : PyExn)
| OutOfFuel
| Vis (X : Type) (c : Call X) (k : X -> Prog R).
Arguments Raise {R} e.
Arguments OutOfFuel {R}.

Fixpoint bind {A B : Type} (p : Prog A) (f : A -> Prog B) : Prog B :=
  match p with
  | Ret a => f a
  | Raise e => Raise e
  | OutOfFuel => OutOfFuel
  | Vis c k => Vis c (fun x => bind (k x) f)
  end.

Definition call {X : Type} (c : Call X) : Prog X := Vis c (fun x => Ret x).

Declare Scope prog_scope.
Delimit Scope prog_scope with prog.
Notation "x <- p ;; q" := (bind p (fun x => q))
  (at level 100, p at next level, right associativity) : prog_scope.
Notation "' pat <- p ;; q" := (bind p (fun x => match x with pat => q end))
  (at level 100, pat pattern, p at next level, right associativity) : prog_scope.
Notation "p ;; q" := (bind p (fun _ => q))
  (at level 100, right associativity) : prog_scope.
Local Open Scope prog_scope.

(** [try: p except ...: handler e]: the handler is given every exception and
    raises again the ones its [except] clauses do not catch. *)
Fixpoint try_except {R : Type} (p : Prog R) (handler : PyExn -> Prog R) : Prog R :=
  match p with
  | Ret r => Ret r
  | Raise e => handler e
  | OutOfFuel => OutOfFuel
  | Vis c k => Vis c (fun x => try_except (k x) handler)
  end.

(** [try: p finally: fin]. The final block answers [Some r] where it
    executes [return r], which replaces the outcome of [p], and [None]
    where it runs to its end, after which the outcome of [p] stands. *)
Fixpoint try_finally {R : Type} (p : Prog R) (fin : Prog (option R)) : Prog R :=
  match p with
  | Ret r => o <- fin ;; match o with Some r' => Ret r' | None => Ret r end
  | Raise e => o <- fin ;; match o with Some r' => Ret r' | None => Raise e end
  | OutOfFuel => OutOfFuel
  | Vis c k => Vis c (fun x => try_finally (k x) fin)
  end.

(** [async with lock: p]. *)
Definition with_lock {R : Type} (l : Lock) (p : Prog R) : Prog R :=
  call (acquire l) ;;
  try_finally p (call (release l) ;; Ret None).

(** [assert cond]. *)
Definition py_assert (cond : bool) : Prog unit :=
  if cond then Ret tt else Raise AssertionError.

(** [range(start, stop, step)]; [None] where Python raises ValueError
    (a zero step). *)
Definition py_range (start stop step : Z) : option (list Z) :=
  if step =? 0 then None
  else if 0 <? step then
    Some (map (fun i => start + Z.of_nat i * step)
            (seq 0 (Z.to_nat ((stop - start + step - 1) / step))))
  else
    Some (map (fun i => start + Z.of_nat i * step)
            (seq 0 (Z.to_nat ((start - stop - step - 1) / (- step))))).

Definition is_some {A : Type} (o : option A) : bool :=
  match o with Some _ => true | None => false end.

(** ** Running a program against its collaborators *)

(** One performed call and its answer. *)
Record entry : Type := Ev { ev_type : Type; ev_call : Call ev_type; ev_answer : ev_type }.
Arguments Ev {ev_type} ev_call ev_answer.

Inductive outcome (R : Type) : Type :=
| Returned (r : R)
| Raised (e : PyExn)
| Diverged.
Arguments Raised {R} e.
Arguments Diverged {R}.

Section Run.

(** The collaborators: a state [W] and, for every call, its answer and the
    state it leaves. *)
Variable W : Type.
Variable env : forall X : Type, Call X -> W -> X * W.

Definition answer {X : Type} (c : Call X) (w : W) : X := fst (env c w).
Definition after {X : Type} (c : Call X) (w : W) : W := snd (env c w).

(** The outcome of [p] started in [w], the final state, and the calls made
    in order with their answers. *)
Fixpoint run {R : Type} (p : Prog R) (w : W) : outcome R * W * list entry :=
  match p with
  | Ret r => (Returned r, w, [])
  | Raise e => (Raised e, w, [])
  | OutOfFuel => (Diverged, w, [])
  | Vis c k =>
      let '(o, w', t) := run (k (answer c w)) (after c w) in
      (o, w', Ev c (answer c w) :: t)
  end.

Definition result_of {R : Type} (r : outcome R * W * list entry) : outcome R :=
  fst (fst r).
Definition state_of {R : Type} (r : outcome R * W * list entry) : W := snd (fst r).
Definition trace_of {R : Type} (r : outcome R * W * list entry) : list entry := snd r.

End Run.

(** ** [src/full_node/full_node.py]: the handlers of [FullNode] *)

Section FullNode.

Context {node : Node}.

(** The bound on the iterations of a walk along [prev_hash] links; a walk
    that needs more ends in [OutOfFuel]. *)
Variable fuel : nat.

Definition peer_node_id := WSChiaConnection.peer_node_id.

(** [self.server.all_connections[peer_hash]], guarded by
    [peer_hash in self.server.all_connections]. *)
Definition find_connection (peer_hash : bytes32) (conns : list WSChiaConnection.t)
  : option WSChiaConnection.t :=
  find (fun c => bytes_eqb (peer_node_id c) peer_hash) conns.

(** Lines 556-559: the inner loop of [get_peers_with_peaks]. *)
Fixpoint peers_with_peak_loop (peers_with_peak : list bytes32)
  (filtered_peers : list WSChiaConnection.t) : Prog (list WSChiaConnection.t) :=
  match peers_with_peak with
  | [] => Ret filtered_peers
  | peer_hash :: rest =>
      conns <- call server_all_connections ;;
      match find_connection peer_hash conns with
      | Some peer => peers_with_peak_loop rest (filtered_peers ++ [peer])%list
      | None => peers_with_peak_loop rest filtered_peers
      end
  end.

Fixpoint peak_hashes_loop (peak_hashes : list bytes32)
  (filtered_peers : list WSChiaConnection.t) : Prog (list WSChiaConnection.t) :=
  match peak_hashes with
  | [] => Ret filtered_peers
  | peak_hash :: rest =>
      peers_with_peak <- call (sync_store_get_peak_peers peak_hash) ;;
      filtered_peers' <- peers_with_peak_loop peers_with_peak filtered_peers ;;
      peak_hashes_loop rest filtered_peers'
  end.

(** [get_peers_with_peaks], lines 548-560. *)
Definition get_peers_with_peaks (peak_hashes : list bytes32)
  : Prog (list WSChiaConnection.t) :=
  peak_hashes_loop peak_hashes [].

(** Lines 333-334: walk back to a challenge sub-block or to the first
    sub-block of the sub-slot. *)
Fixpoint last_csb_or_first_in_ss (n : nat) (curr : SubBlockRecord.t)
  : Prog SubBlockRecord.t :=
  if negb (is_challenge_sub_block curr constants)
     && negb (SubBlockRecord.first_in_sub_slot curr)
  then
    match n with
    | O => OutOfFuel
    | S n' =>
        curr' <- call (blockchain_sub_block_record (SubBlockRecord.prev_hash curr)) ;;
        last_csb_or_first_in_ss n' curr'
    end
  else Ret curr.

(** [send_peak_to_timelords], lines 315-351. *)
Definition send_peak_to_timelords : Prog unit :=
  peak_block <- call blockchain_get_full_peak ;;
  match peak_block with
  | None => Ret tt
  | Some peak_block =>
      peak <- call (blockchain_sub_block_record (FullBlock.header_hash peak_block)) ;;
      difficulty <- call (blockchain_get_next_difficulty
                            (SubBlockRecord.header_hash peak) false) ;;
      ses <- call (next_sub_epoch_summary (SubBlockRecord.required_iters peak)
                     (inl peak_block) true) ;;
      recent_rc <- call blockchain_get_recent_reward_challenges ;;
      curr <- last_csb_or_first_in_ss fuel peak ;;
      let last_csb_or_eos :=
        if is_challenge_sub_block curr constants
        then SubBlockRecord.total_iters curr
        else ip_sub_slot_total_iters curr constants in
      let timelord_new_peak :=
        timelord_NewPeak (FullBlock.reward_chain_sub_block peak_block) difficulty
          (SubBlockRecord.deficit peak) (SubBlockRecord.sub_slot_iters peak)
          ses recent_rc last_csb_or_eos in
      let msg := {| function := "new_peak"; data := timelord_new_peak |} in
      call (server_send_to_all [msg] TIMELORD)
  end.

(** [synced], lines 353-364. *)
Definition synced : Prog bool :=
  full_peak <- call blockchain_get_block_peak ;;
  now <- call time_time ;;
  match full_peak with
  | None => Ret false
  | Some full_peak =>
      match FullBlock.foliage_block full_peak with
      | None => Ret false
      | Some foliage_block =>
          if FoliageBlock.timestamp foliage_block <? py_int (now - 60 * 20)
          then Ret false
          else
            sync_mode <- call sync_store_get_sync_mode ;;
            if sync_mode then Ret false else Ret true
      end
  end.

Definition block_foliage_sub_block (block : AnyBlock) : FoliageSubBlock.t :=
  match block with
  | inl b => FullBlock.foliage_sub_block b
  | inr b => UnfinishedBlock.foliage_sub_block b
  end.

Definition block_proof_of_space (block : AnyBlock) : ProofOfSpace.t :=
  match block with
  | inl b => RewardChainSubBlock.proof_of_space (FullBlock.reward_chain_sub_block b)
  | inr b =>
      RewardChainSubBlockUnfinished.proof_of_space
        (UnfinishedBlock.reward_chain_sub_block b)
  end.

(** [has_valid_pool_sig], lines 690-702. *)
Definition has_valid_pool_sig (block : AnyBlock) : bool :=
  let foliage := block_foliage_sub_block block in
  let foliage_data := FoliageSubBlock.foliage_sub_block_data foliage in
  if PoolTarget.eqb (FoliageSubBlockData.pool_target foliage_data)
       {| PoolTarget.puzzle_hash := GENESIS_PRE_FARM_POOL_PUZZLE_HASH constants;
          PoolTarget.max_height := 0 |}
     && negb (bytes_eqb (FoliageSubBlock.prev_sub_block_hash foliage)
                (GENESIS_PREV_HASH constants))
  then
    if negb (AugSchemeMPL_verify
               (ProofOfSpace.pool_public_key (block_proof_of_space block))
               (PoolTarget_bytes (FoliageSubBlockData.pool_target foliage_data))
               (FoliageSubBlockData.pool_signature foliage_data))
    then false
    else true
  else true.

(** [peak_post_processing], lines 704-806. [sub_block] is optional because
    [_finish_sync] passes what [get_full_peak()] answers. *)
Definition peak_post_processing (sub_block : option FullBlock.t)
  (record : SubBlockRecord.t) (fork_height : Z) (peer : option WSChiaConnection.t)
  : Prog unit :=
  difficulty <- call (blockchain_get_next_difficulty
                        (SubBlockRecord.header_hash record) false) ;;
  sub_slot_iters <- call (blockchain_get_next_slot_iters
                            (SubBlockRecord.header_hash record) false) ;;
  call (log info "Updated peak") ;;
  match sub_block with
  | None => Raise AttributeError
  | Some sub_block =>
      sub_slots <- call (blockchain_get_sp_and_ip_sub_slots
                           (FullBlock.header_hash sub_block)) ;;
      match sub_slots with
      | None => Raise AssertionError
      | Some (sub_slots0, sub_slots1) =>
          sync_mode <- call sync_store_get_sync_mode ;;
          (if negb sync_mode then call blockchain_clean_sub_block_records else Ret tt) ;;
          added_eos <- call (full_node_store_new_peak record sub_slots0 sub_slots1
                               (negb (fork_height =? FullBlock.sub_block_height sub_block - 1)
                                && negb (FullBlock.sub_block_height sub_block =? 0))) ;;
          (if is_some sub_slots1 then Ret tt
           else py_assert (ip_sub_slot_total_iters record constants =? 0)) ;;
          call (full_node_store_new_signage_point
                  (SubBlockRecord.signage_point_index record) record
                  (SubBlockRecord.sub_slot_iters record)
                  {| SignagePoint.cc_vdf :=
                       RewardChainSubBlock.challenge_chain_sp_vdf
                         (FullBlock.reward_chain_sub_block sub_block);
                     SignagePoint.cc_proof := FullBlock.challenge_chain_sp_proof sub_block;
                     SignagePoint.rc_vdf :=
                       RewardChainSubBlock.reward_chain_sp_vdf
                         (FullBlock.reward_chain_sub_block sub_block);
                     SignagePoint.rc_proof := FullBlock.reward_chain_sp_proof sub_block |}) ;;
          new_peak <- call blockchain_get_peak ;;
          call (mempool_manager_new_peak new_peak) ;;
          match added_eos with
          | Some added_eos =>
              let cc := EndOfSubSlotBundle.challenge_chain added_eos in
              let broadcast :=
                NewSignagePointOrEndOfSubSlot
                  (VDFInfo.challenge
                     (ChallengeChainSubSlot.challenge_chain_end_of_slot_vdf cc))
                  (ChallengeChainSubSlot.get_hash cc) 0
                  (VDFInfo.challenge
                     (RewardChainSubSlot.end_of_slot_vdf
                        (EndOfSubSlotBundle.reward_chain added_eos))) in
              let msg := {| function := "new_signage_point_or_end_of_sub_slot";
                            data := broadcast |} in
              call (server_send_to_all [msg] FULL_NODE)
          | None => Ret tt
          end ;;
          (if SubBlockRecord.sub_block_height record mod 1000 =? 0
           then call full_node_store_clear_seen_unfinished_blocks
           else Ret tt) ;;
          sync_mode' <- call sync_store_get_sync_mode ;;
          (if negb sync_mode' then
             send_peak_to_timelords ;;
             let msg :=
               {| function := "new_peak";
                  data := full_node_NewPeak
                    {| NewPeak.header_hash := FullBlock.header_hash sub_block;
                       NewPeak.sub_block_height := FullBlock.sub_block_height sub_block;
                       NewPeak.weight := FullBlock.weight sub_block;
                       NewPeak.fork_point_with_previous_peak := fork_height;
                       NewPeak.unfinished_reward_block_hash :=
                         RewardChainSubBlockUnfinished.get_hash
                           (RewardChainSubBlock.get_unfinished
                              (FullBlock.reward_chain_sub_block sub_block)) |} |} in
             match peer with
             | Some peer =>
                 call (server_send_to_all_except [msg] FULL_NODE (peer_node_id peer))
             | None => call (server_send_to_all [msg] FULL_NODE)
             end
           else Ret tt) ;;
          let msg :=
            {| function := "new_peak";
               data := wallet_NewPeak (FullBlock.header_hash sub_block)
                         (FullBlock.sub_block_height sub_block)
                         (FullBlock.weight sub_block) fork_height |} in
          call (server_send_to_all [msg] WALLET) ;;
          call (_state_changed "new_peak")
      end
  end.

(** [respond_sub_block], lines 808-900. The argument is the [sub_block] of
    the [RespondSubBlock] message. Inside the [async with] block the value
    [Some r] stands for [return r] and [None] for reaching the end of the
    block. *)
Definition respond_sub_block (sub_block : FullBlock.t)
  (peer : option WSChiaConnection.t) : Prog (option Message) :=
  sync_mode <- call sync_store_get_sync_mode ;;
  if sync_mode then Ret None
  else
    let header_hash := FoliageSubBlock.get_hash (FullBlock.foliage_sub_block sub_block) in
    have_it <- call (blockchain_contains_sub_block header_hash) ;;
    if have_it then Ret None
    else
      sub_block <-
        (if is_some (FullBlock.transactions_generator sub_block) then Ret sub_block
         else
           let unfinished_rh :=
             RewardChainSubBlockUnfinished.get_hash
               (RewardChainSubBlock.get_unfinished
                  (FullBlock.reward_chain_sub_block sub_block)) in
           unf_block <- call (full_node_store_get_unfinished_block unfinished_rh) ;;
           match unf_block with
           | Some unf_block =>
               if is_some (UnfinishedBlock.transactions_generator unf_block)
               then Ret (FullBlock.replace_transactions_generator sub_block
                           (UnfinishedBlock.transactions_generator unf_block))
               else Ret sub_block
           | None => Ret sub_block
           end) ;;
      returned <-
        with_lock blockchain_lock
          (validation_start <- call time_time ;;
           pre_validation_results <-
             call (blockchain_pre_validate_blocks_multiprocessing [sub_block]) ;;
           match pre_validation_results with
           | None => Raise (ValueError "Failed to validate sub_block")
           | Some [] => Raise IndexError
           | Some (result0 :: _) =>
               '(added, error_code, fork_height) <-
                 match PreValidationResult.error result0 with
                 | Some code =>
                     match Err_of_code code with
                     | None => Raise (ValueError "is not a valid Err")
                     | Some err =>
                         if Err_eqb err INVALID_PREV_BLOCK_HASH
                         then Ret (DISCONNECTED_BLOCK, Some INVALID_PREV_BLOCK_HASH, None)
                         else Raise (ValueError "Failed to validate sub_block")
                     end
                 | None => call (blockchain_receive_block sub_block result0 None)
                 end ;;
               validation_end <- call time_time ;;
               match added with
               | ALREADY_HAVE_BLOCK => Ret (Some None)
               | INVALID_BLOCK =>
                   match error_code with
                   | None => Raise AssertionError
                   | Some error_code =>
                       call (log error "Block is invalid") ;;
                       Raise (ConsensusError error_code)
                   end
               | DISCONNECTED_BLOCK =>
                   call (log info "Disconnected block") ;;
                   Ret (Some None)
               | NEW_PEAK =>
                   new_peak <- call blockchain_get_peak ;;
                   match new_peak, fork_height with
                   | Some new_peak, Some fork_height =>
                       call (log debug "Validation time for peak") ;;
                       peak_post_processing (Some sub_block) new_peak fork_height peer ;;
                       Ret None
                   | _, _ => Raise AssertionError
                   end
               | ADDED_AS_ORPHAN =>
                   call (log info "Received orphan block") ;;
                   Ret None
               end
           end) ;;
      match returned with
      | Some r => Ret r
      | None =>
          peak <- call blockchain_get_peak ;;
          match peak with
          | None => Raise AssertionError
          | Some peak =>
              let clear_height := Z.max 0 (SubBlockRecord.sub_block_height peak - 50) in
              call (full_node_store_clear_candidate_blocks_below clear_height) ;;
              call (full_node_store_clear_unfinished_blocks_below clear_height) ;;
              (if SubBlockRecord.sub_block_height peak mod 1000 =? 0 then
                 sync_mode' <- call sync_store_get_sync_mode ;;
                 if negb sync_mode' then call sync_store_clear_sync_info else Ret tt
               else Ret tt) ;;
              call (_state_changed "sub_block") ;;
              Ret None
          end
      end.

(** The loop of [receive_sub_block_batch], lines 645-664, over the blocks
    that remain and the pre-validation results from the same index on. The
    answer [(false, _, _)] leaves the function from inside the loop;
    [(true, advanced_peak, fork_height)] is the state at the end of the
    loop. The message of line 648 converts the error code with [Err(code)]
    before it is logged, so a code outside the enumeration raises
    ValueError there. *)
Fixpoint receive_sub_block_batch_loop (blocks : list FullBlock.t)
  (pre_validation_results : list PreValidationResult.t)
  (peer : WSChiaConnection.t) (fork_point : option Z)
  (advanced_peak : bool) (fork_height : option Z)
  : Prog (bool * bool * option Z) :=
  match blocks with
  | [] => Ret (true, advanced_peak, fork_height)
  | block :: blocks' =>
      match pre_validation_results with
      | [] => Raise IndexError
      | result_i :: results' =>
          match PreValidationResult.error result_i with
          | Some code =>
              match Err_of_code code with
              | None => Raise (ValueError "is not a valid Err")
              | Some _ =>
                  call (log error "Invalid block from peer") ;;
                  Ret (false, advanced_peak, fork_height)
              end
          | None =>
            py_assert (is_some (PreValidationResult.required_iters result_i)) ;;
            '(result, error_code, fork_height') <-
              call (blockchain_receive_block block result_i
                      (if advanced_peak then None else fork_point)) ;;
            match result with
            | INVALID_BLOCK | DISCONNECTED_BLOCK =>
                (if is_some error_code
                 then call (log error "Error, Invalid block from peer")
                 else Ret tt) ;;
                Ret (false, advanced_peak, fork_height')
            | _ =>
                let advanced_peak' :=
                  if ReceiveBlockResult_eqb result NEW_PEAK then true else advanced_peak in
                sub_block <- call (blockchain_sub_block_record
                                     (FullBlock.header_hash block)) ;;
                (if is_some (SubBlockRecord.sub_epoch_summary_included sub_block)
                 then call weight_proof_handler_create_prev_sub_epoch_segments
                 else Ret tt) ;;
                receive_sub_block_batch_loop blocks' results' peer fork_point
                  advanced_peak' fork_height'
            end
          end
      end
  end.

(** [receive_sub_block_batch], lines 635-666. *)
Definition receive_sub_block_batch (blocks : list FullBlock.t)
  (peer : WSChiaConnection.t) (fork_point : option Z)
  : Prog (bool * bool * option Z) :=
  let advanced_peak := false in
  let fork_height := Some 0 in
  pre_validation_results <-
    call (blockchain_pre_validate_blocks_multiprocessing blocks) ;;
  match pre_validation_results with
  | None => Ret (false, false, None)
  | Some pre_validation_results =>
      '(success, advanced_peak, fork_height) <-
        receive_sub_block_batch_loop blocks pre_validation_results peer fork_point
          advanced_peak fork_height ;;
      if success then
        call (_state_changed "new_peak") ;;
        Ret (true, advanced_peak, fork_height)
      else Ret (false, advanced_peak, fork_height)
  end.

(** An [await] at which the task that runs the coroutine can be cancelled:
    [asyncio] then raises CancelledError out of the [await], which does not
    go on to what it waits for. *)
Definition cancellation_point : Prog unit :=
  cancelled <- call task_cancelled ;;
  if cancelled then Raise CancelledError else Ret tt.

(** The body of the loop of [short_sync_batch], lines 195-213. The task can
    be cancelled where the body itself waits for a collaborator: for the
    peer's response, for the lock and for the full peak. *)
Definition short_sync_batch_step (peer : WSChiaConnection.t)
  (target_sub_height batch_size sub_height : Z) : Prog unit :=
  let end_height := Z.min target_sub_height (sub_height + batch_size) in
  cancellation_point ;;
  response <- call (peer_request_sub_blocks peer sub_height end_height true) ;;
  match response with
  | None => Raise (ValueError "Error short batch syncing, invalid/no response")
  | Some response =>
      cancellation_point ;;
      with_lock blockchain_lock
        (match response with
         | RespondSubBlocks sub_blocks =>
             '(success, advanced_peak, fork_height) <-
               receive_sub_block_batch sub_blocks peer None ;;
             if negb success then
               Raise (ValueError "Error short batch syncing, failed to validate sub-blocks")
             else if advanced_peak then
               peak <- call blockchain_get_peak ;;
               cancellation_point ;;
               peak_fb <- call blockchain_get_full_peak ;;
               match peak, peak_fb, fork_height with
               | Some peak, Some peak_fb, Some fork_height =>
                   peak_post_processing (Some peak_fb) peak fork_height (Some peer) ;;
                   call (log info "Added sub-blocks")
               | _, _, _ => Raise AssertionError
               end
             else Ret tt
         | _ => Raise AttributeError
         end)
  end.

Fixpoint for_each {A : Type} (l : list A) (body : A -> Prog unit) : Prog unit :=
  match l with
  | [] => Ret tt
  | x :: l' => body x ;; for_each l' body
  end.

(** [short_sync_batch], lines 158-218. [except Exception] of line 214 does
    not catch CancelledError, which derives from [BaseException]: a
    cancellation inside the [try] block leaves the function without the
    [remove] of line 215. *)
Definition short_sync_batch (peer : WSChiaConnection.t)
  (start_sub_height target_sub_height : Z) : Prog bool :=
  returned <-
    (if 0 <? start_sub_height then
       first <- call (peer_request_sub_block peer start_sub_height false None) ;;
       match first with
       | Some (RespondSubBlock first_sub_block) =>
           connected <- call (blockchain_contains_sub_block
                                (FullBlock.prev_header_hash first_sub_block)) ;;
           if negb connected then
             call (log info "Batch syncing stopped, this is a deep chain") ;;
             Ret (Some false)
           else Ret None
       | _ =>
           Raise (ValueError "Error short batch syncing, could not fetch sub-block")
       end
     else Ret None) ;;
  match returned with
  | Some r => Ret r
  | None =>
      let batch_size := MAX_BLOCK_COUNT_PER_REQUESTS constants in
      syncing <- call (batch_syncing_contains (peer_node_id peer)) ;;
      if syncing then Ret true
      else
        call (batch_syncing_add (peer_node_id peer)) ;;
        call (log info "Starting batch short sync") ;;
        try_except
          (match py_range start_sub_height (target_sub_height + 1) batch_size with
           | None => Raise (ValueError "range() arg 3 must not be zero")
           | Some heights =>
               for_each heights (short_sync_batch_step peer target_sub_height batch_size)
           end)
          (fun e =>
             match e with
             | CancelledError => Raise e
             | _ => call (batch_syncing_remove (peer_node_id peer)) ;; Raise e
             end) ;;
        call (batch_syncing_remove (peer_node_id peer)) ;;
        Ret true
  end.

(** The [while] loop of [short_sync_backtrack], lines 237-245. The height
    falls by one in each iteration, so [n] iterations suffice when [n] is
    the distance from [curr_sub_height] down to [peak_sub_height - 5]. *)
Fixpoint short_sync_backtrack_loop (n : nat) (peer : WSChiaConnection.t)
  (peak_sub_height curr_sub_height : Z) (responses : list FullBlock.t)
  : Prog (bool * list FullBlock.t) :=
  if peak_sub_height - 5 <? curr_sub_height then
    match n with
    | O => OutOfFuel
    | S n' =>
        curr <- call (peer_request_sub_block peer curr_sub_height true None) ;;
        match curr with
        | Some (RespondSubBlock curr_sub_block) =>
            let responses' := (responses ++ [curr_sub_block])%list in
            connected <- call (blockchain_contains_sub_block
                                 (FullBlock.prev_header_hash curr_sub_block)) ;;
            if connected || (curr_sub_height =? 0) then Ret (true, responses')
            else short_sync_backtrack_loop n' peer peak_sub_height
                   (curr_sub_height - 1) responses'
        | _ => Raise (ValueError "Failed to fetch sub block")
        end
    end
  else Ret (false, responses).

(** [short_sync_backtrack], lines 220-249. *)
Definition short_sync_backtrack (peer : WSChiaConnection.t)
  (peak_sub_height target_sub_height : Z) : Prog bool :=
  '(found_fork_point, responses) <-
    short_sync_backtrack_loop (Z.to_nat (target_sub_height - (peak_sub_height - 5)))
      peer peak_sub_height target_sub_height [] ;;
  (if found_fork_point then
     for_each (rev responses) (fun response => respond_sub_block response None ;; Ret tt)
   else Ret tt) ;;
  Ret found_fork_point.

(** [new_peak], lines 251-313. *)
Definition new_peak (request : NewPeak.t) (peer : WSChiaConnection.t) : Prog unit :=
  call (sync_store_add_peak_peer (NewPeak.header_hash request) (peer_node_id peer)
          (NewPeak.weight request) (NewPeak.sub_block_height request)) ;;
  have_it <- call (blockchain_contains_sub_block (NewPeak.header_hash request)) ;;
  if have_it then Ret tt
  else
    peak <- call blockchain_get_peak ;;
    let curr_peak_sub_height :=
      match peak with None => 0 | Some peak => SubBlockRecord.sub_block_height peak end in
    if match peak with
       | Some peak => NewPeak.weight request <? SubBlockRecord.weight peak
       | None => false
       end
    then Ret tt
    else
      sync_mode <- call sync_store_get_sync_mode ;;
      if sync_mode then
        peak_sync_hash <- call sync_store_get_sync_target_hash ;;
        peak_sync_height <- call sync_store_get_sync_target_height ;;
        match peak_sync_hash, peak_sync_height with
        | Some peak_sync_hash, Some peak_sync_height =>
            if negb (bytes_eqb (NewPeak.header_hash request) peak_sync_hash) then
              peak_peers <- call (sync_store_get_peak_peers peak_sync_hash) ;;
              if negb (bytes_in (peer_node_id peer) peak_peers) then
                target_peak_response <-
                  call (peer_request_sub_block peer peak_sync_height false (Some 10)) ;;
                match target_peak_response with
                | Some (RespondSubBlock target_sub_block) =>
                    call (sync_store_add_peak_peer peak_sync_hash (peer_node_id peer)
                            (FullBlock.weight target_sub_block) peak_sync_height)
                | _ => Ret tt
                end
              else Ret tt
            else Ret tt
        | _, _ => Ret tt
        end
      else
        returned <-
          (if NewPeak.sub_block_height request
              <=? curr_peak_sub_height + short_sync_sub_blocks_behind_threshold config
           then
             call (log debug "Doing backtrack sync") ;;
             short_sync_backtrack peer curr_peak_sub_height
               (NewPeak.sub_block_height request)
           else Ret false) ;;
        if returned then Ret tt
        else if NewPeak.sub_block_height request <? WEIGHT_PROOF_RECENT_BLOCKS constants
        then
          call (log debug "Doing batch sync, no backup") ;;
          short_sync_batch peer 0 (NewPeak.sub_block_height request) ;;
          Ret tt
        else
          returned' <-
            (if NewPeak.sub_block_height request
                <? curr_peak_sub_height + sync_sub_blocks_behind_threshold config
             then
               call (log debug "Doing batch sync") ;;
               short_sync_batch peer (Z.max (curr_peak_sub_height - 20) 0)
                 (NewPeak.sub_block_height request)
             else Ret false) ;;
          if returned' then Ret tt
          else call create_sync_task.

(** [peers_with_peak.remove(peer)]: the first occurrence goes; [None]
    where Python raises ValueError. Connections are told apart by their
    node id, the key of [all_connections]. *)
Fixpoint list_remove (peer : WSChiaConnection.t) (l : list WSChiaConnection.t)
  : option (list WSChiaConnection.t) :=
  match l with
  | [] => None
  | p :: l' =>
      if bytes_eqb (peer_node_id p) (peer_node_id peer) then Some l'
      else option_map (cons p) (list_remove peer l')
  end.

Fixpoint remove_all (to_remove peers_with_peak : list WSChiaConnection.t)
  : Prog (list WSChiaConnection.t) :=
  match to_remove with
  | [] => Ret peers_with_peak
  | peer :: rest =>
      match list_remove peer peers_with_peak with
      | None => Raise (ValueError "list.remove(x): x not in list")
      | Some l => remove_all rest l
      end
  end.

(** The loop over the peers in [sync_from_fork_point], lines 578-598; it
    answers [(to_remove, advanced_peak, batch_added)]. *)
Fixpoint fetch_from_peers (peers : list WSChiaConnection.t)
  (fork_point_height start_height end_height : Z)
  (to_remove : list WSChiaConnection.t) (advanced_peak : bool)
  : Prog (list WSChiaConnection.t * bool * bool) :=
  match peers with
  | [] => Ret (to_remove, advanced_peak, false)
  | peer :: rest =>
      closed <- call (peer_closed peer) ;;
      if closed then
        fetch_from_peers rest fork_point_height start_height end_height
          (to_remove ++ [peer])%list advanced_peak
      else
        response <- call (peer_request_sub_blocks peer start_height end_height true) ;;
        match response with
        | Some (RespondSubBlocks sub_blocks) =>
            '(success, advanced_peak', _) <-
              receive_sub_block_batch sub_blocks peer
                (if advanced_peak then None else Some fork_point_height) ;;
            if negb success then
              call (peer_close peer) ;;
              fetch_from_peers rest fork_point_height start_height end_height
                to_remove advanced_peak'
            else Ret (to_remove, advanced_peak', true)
        | _ =>
            fetch_from_peers rest fork_point_height start_height end_height
              to_remove advanced_peak
        end
  end.

(** The loop over the windows in [sync_from_fork_point], lines 570-633. *)
Fixpoint sync_windows (starts : list Z) (fork_point_height target_peak_sb_height : Z)
  (peak_hash : bytes32) (batch_size : Z)
  (peers_with_peak : list WSChiaConnection.t) (advanced_peak : bool) : Prog unit :=
  match starts with
  | [] => Ret tt
  | start_height :: rest =>
      let end_height := Z.min target_peak_sb_height (start_height + batch_size) in
      call (log info "Requesting sub-blocks") ;;
      '(to_remove, advanced_peak', batch_added) <-
        fetch_from_peers peers_with_peak fork_point_height start_height end_height
          [] advanced_peak ;;
      peak <- call blockchain_get_peak ;;
      match peak with
      | None => Raise AssertionError
      | Some peak =>
          let msg :=
            {| function := "new_peak";
               data := wallet_NewPeak (SubBlockRecord.header_hash peak)
                         (SubBlockRecord.sub_block_height peak)
                         (SubBlockRecord.weight peak)
                         (Z.max (SubBlockRecord.sub_block_height peak - 1) 0) |} in
          call (server_send_to_all [msg] WALLET) ;;
          peers_with_peak' <- remove_all to_remove peers_with_peak ;;
          changed <- call sync_store_peers_changed_is_set ;;
          peers_with_peak'' <-
            (if changed then
               refreshed <- get_peers_with_peaks [peak_hash] ;;
               call (log info "Number of peers we are syncing from") ;;
               call sync_store_peers_changed_clear ;;
               Ret refreshed
             else Ret peers_with_peak') ;;
          if negb batch_added then
            call (log info "Failed to fetch sub-blocks from peers")
          else
            call (log info "Added sub-blocks") ;;
            call (blockchain_clean_sub_block_record
                    (Z.min (end_height - SUB_BLOCKS_CACHE_SIZE constants)
                       (SubBlockRecord.sub_block_height peak
                        - SUB_BLOCKS_CACHE_SIZE constants))) ;;
            sync_windows rest fork_point_height target_peak_sb_height peak_hash
              batch_size peers_with_peak'' advanced_peak'
      end
  end.

(** [sync_from_fork_point], lines 562-633. *)
Definition sync_from_fork_point (fork_point_height target_peak_sb_height : Z)
  (peak_hash : bytes32) : Prog unit :=
  call (log info "Start syncing from fork point") ;;
  peers_with_peak <- get_peers_with_peaks [peak_hash] ;;
  if (List.length peers_with_peak =? 0)%nat then
    Raise (RuntimeError "Not syncing, no peers with header_hash")
  else
    let advanced_peak := false in
    let batch_size := MAX_BLOCK_COUNT_PER_REQUESTS constants in
    match py_range fork_point_height target_peak_sb_height batch_size with
    | None => Raise (ValueError "range() arg 3 must not be zero")
    | Some starts =>
        sync_windows starts fork_point_height target_peak_sb_height peak_hash
          batch_size peers_with_peak advanced_peak
    end.

(** [_finish_sync], lines 668-688. *)
Definition _finish_sync : Prog unit :=
  call (sync_store_set_sync_mode false) ;;
  call (_state_changed "sync_mode") ;;
  no_server <- call server_is_none ;;
  if no_server then Ret tt
  else
    peak <- call blockchain_get_peak ;;
    with_lock blockchain_lock
      (call sync_store_clear_sync_info ;;
       peak_fb <- call blockchain_get_full_peak ;;
       match peak with
       | Some peak =>
           peak_post_processing peak_fb peak
             (SubBlockRecord.sub_block_height peak - 1) None
       | None => Ret tt
       end) ;;
    match peak with
    | Some peak =>
        call (weight_proof_handler_get_proof_of_weight (SubBlockRecord.header_hash peak)) ;;
        call (_state_changed "sub_block")
    | None => Ret tt
    end.

(** The waiting loop of [_sync], lines 461-466; [None] stands for the
    [return] inside it, [Some peaks] for the end of the loop. *)
Fixpoint wait_for_peaks (n : nat) (current_peer_ids : list bytes32)
  (peaks : list bytes32) : Prog (option (list bytes32)) :=
  match n with
  | O => Ret (Some peaks)
  | S n' =>
      peer_peaks <- call (sync_store_get_peer_peaks current_peer_ids) ;;
      let peaks' := map (fun item => fst (fst (snd item))) peer_peaks in
      with_peaks <- get_peers_with_peaks peaks' ;;
      if (List.length with_peaks <? 3)%nat then
        shut_down <- call get_shut_down ;;
        if shut_down then Ret None
        else
          call (asyncio_sleep (1 # 10)) ;;
          wait_for_peaks n' current_peer_ids peaks'
      else wait_for_peaks n' current_peer_ids peaks'
  end.

(** [await asyncio.gather] on the coroutines, lines 486-494: the requests are
    started in the order of the list and their answers come back in that
    order. *)
Fixpoint gather_requests (peers : list WSChiaConnection.t) (height : Z)
  : Prog (list (option Response)) :=
  match peers with
  | [] => Ret []
  | peer :: rest =>
      r <- call (peer_request_sub_block peer height true (Some 10)) ;;
      rs <- gather_requests rest height ;;
      Ret (r :: rs)
  end.

(** Lines 494-498. *)
Fixpoint record_peers_with_peak (peers : list bytes32)
  (responses : list (option Response))
  (heaviest_peak_hash : bytes32) (heaviest_peak_weight heaviest_peak_height : Z)
  : Prog unit :=
  match responses, peers with
  | target_peak_response :: responses', peer_id :: peers' =>
      match target_peak_response with
      | Some (RespondSubBlock _) =>
          call (sync_store_add_peak_peer heaviest_peak_hash peer_id
                  heaviest_peak_weight heaviest_peak_height)
      | _ => Ret tt
      end ;;
      record_peers_with_peak peers' responses' heaviest_peak_hash
        heaviest_peak_weight heaviest_peak_height
  | _, _ => Ret tt
  end.

Definition is_full_node (peer : WSChiaConnection.t) : bool :=
  match WSChiaConnection.connection_type peer with FULL_NODE => true | _ => false end.

(** The [try] block of [_sync], lines 455-537. *)
Definition _sync_body : Prog unit :=
  call (log info "Starting to perform sync.") ;;
  call (log info "Waiting to receive peaks from peers.") ;;
  conns <- call server_all_connections ;;
  let current_peer_ids := map peer_node_id conns in
  waited <- wait_for_peaks 200 current_peer_ids [] ;;
  match waited with
  | None => Ret tt
  | Some peaks =>
      call (log info "Collected a total of peaks.") ;;
      call clear_sync_peers_handler ;;
      conns <- call server_all_connections ;;
      let current_peer_ids := map peer_node_id conns in
      target_peak <- call (sync_store_get_heaviest_peak current_peer_ids) ;;
      match target_peak with
      | None => Raise (RuntimeError "Not performing sync, no peaks collected")
      | Some (heaviest_peak_hash, heaviest_peak_height, heaviest_peak_weight) =>
          call (sync_store_set_peak_target heaviest_peak_hash heaviest_peak_height) ;;
          call (log info "Selected peak") ;;
          conns <- call server_all_connections ;;
          let full_nodes := filter is_full_node conns in
          let peers := map peer_node_id full_nodes in
          responses <- gather_requests full_nodes heaviest_peak_height ;;
          record_peers_with_peak peers responses heaviest_peak_hash
            heaviest_peak_weight heaviest_peak_height ;;
          peers_with_peak <- get_peers_with_peaks [heaviest_peak_hash] ;;
          call (log info "Total of peers with peak") ;;
          match peers_with_peak with
          | [] => Raise IndexError
          | _ :: _ =>
              weight_proof_peer <- call (random_choice peers_with_peak) ;;
              call (log info "Requesting weight proof from peer") ;;
              our_peak <- call blockchain_get_peak ;;
              (if is_some our_peak then
                 our_peak' <- call blockchain_get_peak ;;
                 match our_peak' with
                 | None => Raise AttributeError
                 | Some our_peak' =>
                     if heaviest_peak_weight <=? SubBlockRecord.weight our_peak'
                     then Raise (ValueError "Not performing sync, already caught up.")
                     else Ret tt
                 end
               else Ret tt) ;;
              response <- call (peer_request_proof_of_weight weight_proof_peer
                                  heaviest_peak_height heaviest_peak_hash) ;;
              match response with
              | Some (RespondProofOfWeight wp) =>
                  match last (map Some (WeightProof.recent_chain_data wp)) None with
                  | None => Raise IndexError
                  | Some latest =>
                      let rc := HeaderBlock.reward_chain_sub_block latest in
                      if negb (RewardChainSubBlock.sub_block_height rc
                               =? heaviest_peak_height) then
                        call (peer_close weight_proof_peer) ;;
                        Raise (RuntimeError "Weight proof had the wrong sub-height")
                      else if negb (RewardChainSubBlock.weight rc
                                    =? heaviest_peak_weight) then
                        call (peer_close weight_proof_peer) ;;
                        Raise (RuntimeError "Weight proof had the wrong weight")
                      else
                        '(validated, fork_point) <-
                          call (weight_proof_handler_validate_weight_proof wp) ;;
                        if negb validated then
                          Raise (ValueError "Weight proof validation failed")
                        else
                          call (log info "Re-checked peers") ;;
                          with_lock blockchain_lock
                            (call (blockchain_warmup fork_point) ;;
                             sync_from_fork_point fork_point heaviest_peak_height
                               heaviest_peak_hash)
                  end
              | _ =>
                  call (peer_close weight_proof_peer) ;;
                  Raise (RuntimeError "Weight proof did not arrive in time from peer")
              end
          end
      end
  end.

(** [_sync], lines 436-546. *)
Definition _sync : Prog unit :=
  sync_mode <- call sync_store_get_sync_mode ;;
  if sync_mode then Ret tt
  else
    call (sync_store_set_sync_mode true) ;;
    call (_state_changed "sync_mode") ;;
    try_finally
      (try_except _sync_body
         (fun e =>
            match e with
            | CancelledError => call (log warning "Syncing failed, CancelledError")
            | _ => call (log error "Error with syncing")
            end))
      (shut_down <- call get_shut_down ;;
       if shut_down then Ret (Some tt)
       else _finish_sync ;; Ret None).

(** The trunk hash of an unfinished block: the hash of its reward chain
    sub-block. *)
Definition trunk_hash (block : UnfinishedBlock.t) : bytes32 :=
  RewardChainSubBlockUnfinished.get_hash (UnfinishedBlock.reward_chain_sub_block block).

(** Lines 913-943 of [respond_unfinished_sub_block]: the checks that drop
    the block. [None] stands for [return]; [Some prev_sb] carries on. *)
Definition unfinished_entry_checks (block : UnfinishedBlock.t)
  : Prog (option (option SubBlockRecord.t)) :=
  seen <- call (full_node_store_seen_unfinished_block (UnfinishedBlock.get_hash block)) ;;
  if seen then Ret None
  else
    stored <- call (full_node_store_get_unfinished_block (trunk_hash block)) ;;
    if is_some stored then Ret None
    else
      let genesis :=
        bytes_eqb (UnfinishedBlock.prev_header_hash block) (GENESIS_PREV_HASH constants) in
      disconnected <-
        (if negb genesis then
           connected <- call (blockchain_contains_sub_block
                                (UnfinishedBlock.prev_header_hash block)) ;;
           Ret (negb connected)
         else Ret false) ;;
      if disconnected then
        call (log debug "Received a disconnected unfinished block") ;;
        Ret None
      else
        peak <- call blockchain_get_peak ;;
        if match peak with
           | Some peak =>
               UnfinishedBlock.total_iters block <? sp_total_iters peak constants
           | None => false
           end
        then Ret None
        else if genesis then Ret (Some None)
        else
          prev_sb <- call (blockchain_sub_block_record
                             (UnfinishedBlock.prev_header_hash block)) ;;
          Ret (Some (Some prev_sb)).

(** Lines 956-958: walk back to the first sub-block of the sub-slot,
    counting. *)
Fixpoint walk_to_first_in_sub_slot (n : nat) (curr : option SubBlockRecord.t)
  (num_sub_blocks_in_ss : Z) : Prog (option SubBlockRecord.t * Z) :=
  match curr with
  | Some c =>
      if negb (SubBlockRecord.first_in_sub_slot c) then
        match n with
        | O => OutOfFuel
        | S n' =>
            curr' <- call (blockchain_try_sub_block (SubBlockRecord.prev_hash c)) ;;
            walk_to_first_in_sub_slot n' curr' (num_sub_blocks_in_ss + 1)
        end
      else Ret (curr, num_sub_blocks_in_ss)
  | None => Ret (curr, num_sub_blocks_in_ss)
  end.

(** The test shared by both handlers (lines 959-964 and 1170-1175): [curr]
    is the first sub-block of its sub-slot and includes a sub-epoch summary
    with a new difficulty. *)
Definition starts_new_epoch (curr : option SubBlockRecord.t) : bool :=
  match curr with
  | Some c =>
      SubBlockRecord.first_in_sub_slot c
      && match SubBlockRecord.sub_epoch_summary_included c with
         | Some ses => is_some (SubEpochSummary.new_difficulty ses)
         | None => false
         end
  | None => false
  end.

(** [finished_sub_slots[0].challenge_chain.new_difficulty is not None], on
    a list that is not empty. *)
Definition first_slot_has_new_difficulty (first_slot : EndOfSubSlotBundle.t) : bool :=
  is_some (ChallengeChainSubSlot.new_difficulty
             (EndOfSubSlotBundle.challenge_chain first_slot)).

(** Lines 947-978 of [respond_unfinished_sub_block]: the pair
    [(num_sub_blocks_in_ss, first_ss_new_epoch)]. *)
Definition unfinished_count_and_new_epoch (block : UnfinishedBlock.t)
  (prev_sb : option SubBlockRecord.t) : Prog (Z * bool) :=
  match UnfinishedBlock.finished_sub_slots block with
  | first_slot :: _ => Ret (1, first_slot_has_new_difficulty first_slot)
  | [] =>
      curr <- call (blockchain_try_sub_block (UnfinishedBlock.prev_header_hash block)) ;;
      '(curr, num_sub_blocks_in_ss) <- walk_to_first_in_sub_slot fuel curr 2 ;;
      if starts_new_epoch curr then Ret (num_sub_blocks_in_ss, true)
      else
        match prev_sb with
        | Some prev_sb =>
            prev_prev <- call (blockchain_try_sub_block (SubBlockRecord.prev_hash prev_sb)) ;;
            '(_, can_finish_epoch) <-
              call (can_finish_sub_and_full_epoch
                      (SubBlockRecord.sub_block_height prev_sb)
                      (SubBlockRecord.deficit prev_sb)
                      (if is_some prev_prev
                       then Some (SubBlockRecord.header_hash prev_sb) else None)
                      false) ;;
            Ret (num_sub_blocks_in_ss, can_finish_epoch)
        | None => Ret (num_sub_blocks_in_ss, false)
        end
  end.

(** Lines 988-1061 of [respond_unfinished_sub_block]: validation, storing
    and the two broadcasts. *)
Definition unfinished_validate_store_broadcast (block : UnfinishedBlock.t)
  (prev_sb : option SubBlockRecord.t) (peer : option WSChiaConnection.t)
  (farmed_block : bool) : Prog unit :=
  let rc := UnfinishedBlock.reward_chain_sub_block block in
  let genesis :=
    bytes_eqb (UnfinishedBlock.prev_header_hash block) (GENESIS_PREV_HASH constants) in
  '(required_iters, error_code) <-
    with_lock blockchain_lock
      ('(required_iters, error_code) <-
         call (blockchain_validate_unfinished_block block) ;;
       match error_code with
       | Some error_code => Raise (ConsensusError error_code)
       | None => Ret (required_iters, error_code)
       end) ;;
  match required_iters with
  | None => Raise AssertionError
  | Some required_iters =>
      stored <- call (full_node_store_get_unfinished_block (trunk_hash block)) ;;
      if is_some stored then Ret tt
      else
        sub_height <-
          (if genesis then Ret 0
           else
             prev <- call (blockchain_sub_block_record
                             (UnfinishedBlock.prev_header_hash block)) ;;
             Ret (SubBlockRecord.sub_block_height prev + 1)) ;;
        ses <- call (next_sub_epoch_summary required_iters (inr block) true) ;;
        call (full_node_store_add_unfinished_block sub_height block) ;;
        (if farmed_block then call (log info "Farmed unfinished_block")
         else call (log info "Added unfinished_block, not farmed")) ;;
        '(sub_slot_iters, difficulty) <-
          call (get_sub_slot_iters_and_difficulty block prev_sb) ;;
        rc_prev <-
          (if RewardChainSubBlockUnfinished.signage_point_index rc =? 0 then
             res <- call (full_node_store_get_sub_slot
                            (RewardChainSubBlockUnfinished.pos_ss_cc_challenge_hash rc)) ;;
             match res with
             | None =>
                 if bytes_eqb (RewardChainSubBlockUnfinished.pos_ss_cc_challenge_hash rc)
                      (FIRST_CC_CHALLENGE constants)
                 then Ret (Some (FIRST_RC_CHALLENGE constants))
                 else
                   call (log warning "Do not have sub slot") ;;
                   Ret None
             | Some (eos, _, _) =>
                 Ret (Some (RewardChainSubSlot.get_hash
                              (EndOfSubSlotBundle.reward_chain eos)))
             end
           else
             match RewardChainSubBlockUnfinished.reward_chain_sp_vdf rc with
             | None => Raise AssertionError
             | Some vdf => Ret (Some (VDFInfo.challenge vdf))
             end) ;;
        match rc_prev with
        | None => Ret tt
        | Some rc_prev =>
            let timelord_request :=
              timelord_NewUnfinishedSubBlock rc difficulty sub_slot_iters
                (UnfinishedBlock.foliage_sub_block block) ses rc_prev in
            let msg := {| function := "new_unfinished_sub_block";
                          data := timelord_request |} in
            call (server_send_to_all [msg] TIMELORD) ;;
            let full_node_request := full_node_NewUnfinishedSubBlock (trunk_hash block) in
            let msg := {| function := "new_unfinished_sub_block";
                          data := full_node_request |} in
            match peer with
            | Some peer =>
                call (server_send_to_all_except [msg] FULL_NODE (peer_node_id peer))
            | None => call (server_send_to_all [msg] FULL_NODE)
            end ;;
            call (_state_changed "unfinished_sub_block")
        end
  end.

(** [respond_unfinished_sub_block], lines 902-1061. The argument is the
    [unfinished_sub_block] of the message. *)
Definition respond_unfinished_sub_block (block : UnfinishedBlock.t)
  (peer : option WSChiaConnection.t) (farmed_block : bool) : Prog unit :=
  entry <- unfinished_entry_checks block ;;
  match entry with
  | None => Ret tt
  | Some prev_sb =>
      let is_overflow :=
        is_overflow_sub_block constants
          (RewardChainSubBlockUnfinished.signage_point_index
             (UnfinishedBlock.reward_chain_sub_block block)) in
      '(num_sub_blocks_in_ss, first_ss_new_epoch) <-
        unfinished_count_and_new_epoch block prev_sb ;;
      if is_overflow && first_ss_new_epoch then Ret tt
      else if MAX_SUB_SLOT_SUB_BLOCKS constants <? num_sub_blocks_in_ss then
        call (log warning "Too many sub-blocks added, not adding sub-block")
      else unfinished_validate_store_broadcast block prev_sb peer farmed_block
  end.

(** Lines 1081-1083: walk the end-of-slot objects from the newest. *)
Definition backtrack_end_of_slots (finished : list (option EndOfSubSlotBundle.t))
  (target_rc_hash : bytes32) : bytes32 :=
  fold_left
    (fun target eos =>
       match eos with
       | Some eos =>
           if bytes_eqb (RewardChainSubSlot.get_hash (EndOfSubSlotBundle.reward_chain eos))
                target
           then VDFInfo.challenge
                  (RewardChainSubSlot.end_of_slot_vdf (EndOfSubSlotBundle.reward_chain eos))
           else target
       | None => target
       end)
    (rev finished) target_rc_hash.

(** Lines 1091-1098: look for the previous sub-block among the last ten. *)
Fixpoint find_prev_sb (n : nat) (curr : option SubBlockRecord.t)
  (target_rc_hash : bytes32) : Prog (option SubBlockRecord.t) :=
  match n with
  | O => Ret None
  | S n' =>
      match curr with
      | None => Ret None
      | Some c =>
          if bytes_eqb (SubBlockRecord.reward_infusion_new_challenge c) target_rc_hash
          then Ret (Some c)
          else
            curr' <- call (blockchain_try_sub_block (SubBlockRecord.prev_hash c)) ;;
            find_prev_sb n' curr' target_rc_hash
      end
  end.

(** Lines 1066-1162 of [new_infusion_point_vdf]: from the request to the
    assembled block. [None] stands for [return None]; otherwise the answer
    is [(overflow, prev_sb, block)]. *)
Definition infusion_point_assemble (request : NewInfusionPointVDF.t)
  : Prog (option (bool * option SubBlockRecord.t * FullBlock.t)) :=
  unfinished_block <-
    call (full_node_store_get_unfinished_block
            (NewInfusionPointVDF.unfinished_reward_hash request)) ;;
  match unfinished_block with
  | None =>
      call (log warning "Do not have unfinished reward chain block, cannot finish.") ;;
      Ret None
  | Some unfinished_block =>
      let rc := UnfinishedBlock.reward_chain_sub_block unfinished_block in
      finished <- call full_node_store_finished_sub_slots ;;
      let target_rc_hash :=
        backtrack_end_of_slots finished
          (VDFInfo.challenge (NewInfusionPointVDF.reward_chain_ip_vdf request)) in
      found <-
        (if bytes_eqb target_rc_hash (FIRST_RC_CHALLENGE constants) then Ret (Some None)
         else
           curr <- call blockchain_get_peak ;;
           prev_sb <- find_prev_sb 10 curr target_rc_hash ;;
           match prev_sb with
           | None =>
               call (full_node_store_add_to_future_ip request) ;;
               call (log warning "Previous block is None, infusion point") ;;
               Ret None
           | Some prev_sb => Ret (Some (Some prev_sb))
           end) ;;
      match found with
      | None => Ret None
      | Some prev_sb =>
          let overflow :=
            is_overflow_sub_block constants
              (RewardChainSubBlockUnfinished.signage_point_index rc) in
          finished_sub_slots <-
            call (full_node_store_get_finished_sub_slots prev_sb
                    (RewardChainSubBlockUnfinished.pos_ss_cc_challenge_hash rc) overflow) ;;
          '(sub_slot_iters, difficulty) <-
            call (get_sub_slot_iters_and_difficulty
                    (UnfinishedBlock.replace_finished_sub_slots unfinished_block
                       finished_sub_slots)
                    prev_sb) ;;
          start <-
            (if bytes_eqb (RewardChainSubBlockUnfinished.pos_ss_cc_challenge_hash rc)
                  (FIRST_CC_CHALLENGE constants)
             then Ret (Some 0)
             else
               ss_res <- call (full_node_store_get_sub_slot
                                 (RewardChainSubBlockUnfinished.pos_ss_cc_challenge_hash rc)) ;;
               match ss_res with
               | None =>
                   call (log warning "Do not have sub slot") ;;
                   Ret None
               | Some (_, _, sub_slot_start_iters) => Ret (Some sub_slot_start_iters)
               end) ;;
          match start with
          | None => Ret None
          | Some sub_slot_start_iters =>
              let sp_total_iters :=
                sub_slot_start_iters
                + calculate_sp_iters constants sub_slot_iters
                    (RewardChainSubBlockUnfinished.signage_point_index rc) in
              block <- call (unfinished_block_to_full_block unfinished_block request
                               finished_sub_slots prev_sb sp_total_iters difficulty) ;;
              if negb (has_valid_pool_sig (inl block)) then
                call (log warning "Trying to make a pre-farm block but height is not 0") ;;
                Ret None
              else Ret (Some (overflow, prev_sb, block))
          end
      end
  end.

(** Lines 1168-1169: walk back to the first sub-block of the sub-slot. *)
Fixpoint walk_records_to_first_in_sub_slot (n : nat) (curr : option SubBlockRecord.t)
  : Prog (option SubBlockRecord.t) :=
  match curr with
  | Some c =>
      if negb (SubBlockRecord.first_in_sub_slot c) then
        match n with
        | O => OutOfFuel
        | S n' =>
            curr' <- call (blockchain_sub_block_record (SubBlockRecord.prev_hash c)) ;;
            walk_records_to_first_in_sub_slot n' (Some curr')
        end
      else Ret curr
  | None => Ret curr
  end.

(** Lines 1159-1176 of [new_infusion_point_vdf]: [first_ss_new_epoch]. *)
Definition infusion_first_ss_new_epoch (block : FullBlock.t)
  (prev_sb : option SubBlockRecord.t) : Prog bool :=
  match FullBlock.finished_sub_slots block with
  | first_slot :: _ => Ret (first_slot_has_new_difficulty first_slot)
  | [] =>
      curr <- walk_records_to_first_in_sub_slot fuel prev_sb ;;
      Ret (starts_new_epoch curr)
  end.

(** [new_infusion_point_vdf], lines 1063-1184. *)
Definition new_infusion_point_vdf (request : NewInfusionPointVDF.t)
  : Prog (option Message) :=
  returned <-
    with_lock timelord_lock
      (assembled <- infusion_point_assemble request ;;
       match assembled with
       | None => Ret (Some None)
       | Some (overflow, prev_sb, block) =>
           first_ss_new_epoch <- infusion_first_ss_new_epoch block prev_sb ;;
           if first_ss_new_epoch && overflow then Ret (Some None)
           else
             try_except (respond_sub_block block None ;; Ret tt)
               (fun e =>
                  match e with
                  | ConsensusError _ =>
                      call (log warning "Consensus error validating sub-block")
                  | _ => Raise e
                  end) ;;
             Ret None
       end) ;;
  match returned with
  | Some r => Ret r
  | None => Ret None
  end.

End FullNode.

(** ** Reading a trace *)

(** Calls that hand blocks to the block chain: what
    [receive_sub_block_batch] and [respond_sub_block] do to add a block and
    move the peak. *)
Definition adds_blocks {X : Type} (c : Call X) : bool :=
  match c with
  | blockchain_pre_validate_blocks_multiprocessing _ => true
  | blockchain_receive_block _ _ _ => true
  | _ => false
  end.

(** Calls that send a message to connected nodes. *)
Definition broadcasts {X : Type} (c : Call X) : bool :=
  match c with
  | server_send_to_all _ _ => true
  | server_send_to_all_except _ _ _ => true
  | _ => false
  end.

(** The call that stores an unfinished block. *)
Definition stores_unfinished {X : Type} (c : Call X) : bool :=
  match c with
  | full_node_store_add_unfinished_block _ _ => true
  | _ => false
  end.

(** Calls by which a sync starts or proceeds: a block request to a peer
    (backtrack and batch sync), the batch-sync registration, the launch of
    the long-sync task, and handing blocks to the block chain. *)
Definition syncs {X : Type} (c : Call X) : bool :=
  match c with
  | peer_request_sub_block _ _ _ _ => true
  | peer_request_sub_blocks _ _ _ _ => true
  | batch_syncing_add _ => true
  | create_sync_task => true
  | c' => adds_blocks c'
  end.

(** The call that registers a peer in [batch_syncing]. *)
Definition batch_syncing_adds {X : Type} (c : Call X) : bool :=
  match c with
  | batch_syncing_add _ => true
  | _ => false
  end.

(** The launch of the long-sync task. *)
Definition launches_long_sync {X : Type} (c : Call X) : bool :=
  match c with
  | create_sync_task => true
  | _ => false
  end.

(** The call that empties the set of seen unfinished blocks. *)
Definition clears_seen {X : Type} (c : Call X) : bool :=
  match c with
  | full_node_store_clear_seen_unfinished_blocks => true
  | _ => false
  end.

(** [on e p]: the classification [p] at the call of the entry [e]. *)
Definition on (p : forall X : Type, Call X -> bool) (e : entry) : bool :=
  p (ev_type e) (ev_call e).

(** The result of [receive_block], where the entry is such a call. *)
Definition receive_block_result (e : entry) : option ReceiveBlockResult :=
  match e with
  | Ev c a =>
      match c in Call X return X -> option ReceiveBlockResult with
      | blockchain_receive_block _ _ _ => fun a => Some (fst (fst a))
      | _ => fun _ => None
      end a
  end.

(** The results of the [receive_block] calls of a trace, in order. *)
Fixpoint receive_block_results (t : list entry) : list ReceiveBlockResult :=
  match t with
  | [] => []
  | e :: t' =>
      match receive_block_result e with
      | Some r => r :: receive_block_results t'
      | None => receive_block_results t'
      end
  end.

(** The answer of [get_heaviest_peak], where the entry is such a call. *)
Definition heaviest_peak_answer (e : entry) : option (option (bytes32 * Z * Z)) :=
  match e with
  | Ev c a =>
      match c in Call X return X -> option (option (bytes32 * Z * Z)) with
      | sync_store_get_heaviest_peak _ => fun a => Some a
      | _ => fun _ => None
      end a
  end.

(** The target a long sync selected: the first answer of
    [get_heaviest_peak] in the trace, [(hash, height, weight)]. *)
Fixpoint sync_target (t : list entry) : option (bytes32 * Z * Z) :=
  match t with
  | [] => None
  | e :: t' =>
      match heaviest_peak_answer e with
      | Some a => a
      | None => sync_target t'
      end
  end.

(** The peer asked and its answer, where the entry is a weight-proof
    request. *)
Definition proof_of_weight_answer (e : entry)
  : option (WSChiaConnection.t * option Response) :=
  match e with
  | Ev c a =>
      match c in Call X return X -> option (WSChiaConnection.t * option Response) with
      | peer_request_proof_of_weight peer _ _ => fun a => Some (peer, a)
      | _ => fun _ => None
      end a
  end.

(** The calls that select the sync target or request a weight proof. *)
Definition selects_target_or_requests_proof {X : Type} (c : Call X) : bool :=
  match c with
  | sync_store_get_heaviest_peak _ => true
  | peer_request_proof_of_weight _ _ _ => true
  | _ => false
  end.

(** The last entry of the weight proof's recent chain differs from the
    target in sub-block height or in weight. *)
Definition wrong_weight_proof (target : bytes32 * Z * Z) (wp : WeightProof.t) : bool :=
  match last (map Some (WeightProof.recent_chain_data wp)) None with
  | Some latest =>
      let rc := HeaderBlock.reward_chain_sub_block latest in
      negb (RewardChainSubBlock.sub_block_height rc =? snd (fst target))
      || negb (RewardChainSubBlock.weight rc =? snd target)
  | None => false
  end.

(** The call that sets the sync mode to the given value. *)
Definition sets_sync_mode (b : bool) {X : Type} (c : Call X) : bool :=
  match c with
  | sync_store_set_sync_mode b' => Bool.eqb b b'
  | _ => false
  end.

(** The calls that only the long-sync task makes before it downloads
    blocks: entering sync mode, selecting the target, requesting the weight
    proof. *)
Definition starts_long_sync {X : Type} (c : Call X) : bool :=
  sets_sync_mode true c || selects_target_or_requests_proof c.

Definition rejects (r : ReceiveBlockResult) : bool :=
  match r with INVALID_BLOCK | DISCONNECTED_BLOCK => true | _ => false end.

Definition has_error (r : PreValidationResult.t) : bool :=
  is_some (PreValidationResult.error r).

(** A pre-validation result that carries no error carries the required
    iterations. *)
Definition well_formed (r : PreValidationResult.t) : bool :=
  has_error r || is_some (PreValidationResult.required_iters r).

(** The error code of a pre-validation result, where it carries one, is the
    value of a member of [Err]. *)
Definition known_error {node : Node} (r : PreValidationResult.t) : bool :=
  match PreValidationResult.error r with
  | Some code => is_some (Err_of_code code)
  | None => true
  end.

(** ** Properties of runs *)

(** What follows a program in a sequence runs from the state it leaves,
    when it returns; otherwise its outcome is the outcome of the sequence. *)
Definition then_run (W : Type) (env : forall X : Type, Call X -> W -> X * W)
  (A B : Type) (f : A -> Prog B) (r : outcome A * W * list entry)
  : outcome B * W * list entry :=
  match result_of r with
  | Returned a =>
      (result_of (run env (f a) (state_of r)),
       state_of (run env (f a) (state_of r)),
       (trace_of r ++ trace_of (run env (f a) (state_of r)))%list)
  | Raised e => (Raised e, state_of r, trace_of r)
  | Diverged => (Diverged, state_of r, trace_of r)
  end.

(** [all_runs p Q]: whatever the collaborators answer, the outcome of [p]
    and the calls it made satisfy [Q]. *)
Fixpoint all_runs {R : Type} (p : Prog R) (Q : outcome R -> list entry -> Prop) : Prop :=
  match p with
  | Ret r => Q (Returned r) []
  | Raise e => Q (Raised e) []
  | OutOfFuel => Q Diverged []
  | Vis c k => forall x, all_runs (k x) (fun o t => Q o (Ev c x :: t))
  end.

(** The condition on the first part of a sequence. *)
Definition then_all (A B : Type) (f : A -> Prog B) (Q : outcome B -> list entry -> Prop)
  (o : outcome A) (t : list entry) : Prop :=
  match o with
  | Returned a => all_runs (f a) (fun o' t' => Q o' (t ++ t')%list)
  | Raised e => Q (Raised e) t
  | Diverged => Q Diverged t
  end.

(** [silent P p]: no run of [p] makes a call of the class [P]. *)
Definition silent (P : forall X : Type, Call X -> bool) {R : Type} (p : Prog R) : Prop :=
  all_runs p (fun _ t => Forall (fun e => on P e = false) t).

(** A trace without the calls that start a long sync. *)
Definition quiet (t : list entry) : Prop :=
  Forall (fun e => on (@starts_long_sync) e = false) t.

(** A postcondition that holds of every quiet trace and survives a quiet
    prefix. *)
Definition tolerant (Q : outcome unit -> list entry -> Prop) : Prop :=
  (forall o t, quiet t -> Q o t)
  /\ (forall o tl t, quiet tl -> Q o t -> Q o (tl ++ t)%list).

(** What the body of [_sync] guarantees once the target is known: after a
    weight proof that contradicts the target the peer is closed, nothing
    else is called, and the body raises. *)
Definition refuses_wrong_proof (target : bytes32 * Z * Z) (o : outcome unit)
  (t : list entry) : Prop :=
  forall t1 e t2 peer wp,
    t = (t1 ++ e :: t2)%list ->
    proof_of_weight_answer e = Some (peer, Some (RespondProofOfWeight wp)) ->
    wrong_weight_proof target wp = true ->
    t2 = [Ev (peer_close peer) tt] /\ exists msg, o = Raised (RuntimeError msg).

(** The same before the target is selected: the target is read off the
    trace. *)
Definition refuses_wrong_proofs (o : outcome unit) (t : list entry) : Prop :=
  forall t1 e t2 peer wp target,
    t = (t1 ++ e :: t2)%list ->
    proof_of_weight_answer e = Some (peer, Some (RespondProofOfWeight wp)) ->
    sync_target t1 = Some target ->
    wrong_weight_proof target wp = true ->
    t2 = [Ev (peer_close peer) tt] /\ exists msg, o = Raised (RuntimeError msg).

(** [try: ... except ...] of [_sync]: the error is logged and swallowed. *)
Definition logs_wrong_proof (o : outcome unit) (t : list entry) : Prop :=
  forall t1 e t2 peer wp target,
    t = (t1 ++ e :: t2)%list ->
    proof_of_weight_answer e = Some (peer, Some (RespondProofOfWeight wp)) ->
    sync_target t1 = Some target ->
    wrong_weight_proof target wp = true ->
    t2 = [Ev (peer_close peer) tt; Ev (log error "Error with syncing") tt]
    /\ o = Returned tt.

(** What [_sync] does after a weight proof that contradicts the target. *)
Definition closes_and_finishes (o : outcome unit) (t : list entry) : Prop :=
  forall t1 e t2 peer wp target,
    t = (t1 ++ e :: t2)%list ->
    proof_of_weight_answer e = Some (peer, Some (RespondProofOfWeight wp)) ->
    sync_target t1 = Some target ->
    wrong_weight_proof target wp = true ->
    exists (shut_down : bool) (t3 : list entry),
      t2 = Ev (peer_close peer) tt :: Ev (log error "Error with syncing") tt
           :: Ev get_shut_down shut_down :: t3
      /\ if shut_down
         then t3 = [] /\ o = Returned tt
         else exists t4, t3 = Ev (sync_store_set_sync_mode false) tt :: t4
                         /\ Forall (fun e' => on (@sets_sync_mode true) e' = false) t4.

(** ** Sample collaborators for the examples *)

(** Modelled from the spec: [SyncStore], [FullNodeStore], [Blockchain], the
    server and the peers are not among the sources. The sample collaborators
    below follow sections 3 and 4 of the spec as far as the examples need: a
    sync store with its sync mode, peer peaks and batch-syncing set, a store
    of unfinished blocks with its set of seen partial hashes, a block chain
    that keeps the heaviest record as its peak, and peers that serve a fixed
    list of blocks. The sample store finishes an overflow block with one
    sub-slot that carries a new difficulty. Every other call gets a fixed
    answer. *)
Module Sample.

Definition hash (b : byte) : bytes32 := repeat b 32.

Definition vdf (b : byte) : VDFInfo.t := {| VDFInfo.challenge := hash b |}.

Definition end_of_slot (b : byte) (new_difficulty : option Z) : EndOfSubSlotBundle.t :=
  {| EndOfSubSlotBundle.challenge_chain :=
       {| ChallengeChainSubSlot.challenge_chain_end_of_slot_vdf := vdf b;
          ChallengeChainSubSlot.new_difficulty := new_difficulty;
          ChallengeChainSubSlot.get_hash := hash b |};
     EndOfSubSlotBundle.reward_chain :=
       {| RewardChainSubSlot.end_of_slot_vdf := vdf b;
          RewardChainSubSlot.deficit := 0;
          RewardChainSubSlot.get_hash := hash b |} |}.

(** A record at [height] with the given hashes and weight. *)
Definition record (header prev : byte) (height weight : Z) : SubBlockRecord.t :=
  {| SubBlockRecord.header_hash := hash header;
     SubBlockRecord.prev_hash := hash prev;
     SubBlockRecord.sub_block_height := height;
     SubBlockRecord.weight := weight;
     SubBlockRecord.total_iters := 1000 * height;
     SubBlockRecord.signage_point_index := 1;
     SubBlockRecord.required_iters := 10;
     SubBlockRecord.deficit := 15;
     SubBlockRecord.overflow := false;
     SubBlockRecord.sub_slot_iters := 6400;
     SubBlockRecord.first_in_sub_slot := false;
     SubBlockRecord.reward_infusion_new_challenge := hash header;
     SubBlockRecord.sub_epoch_summary_included := None |}.

Definition proof_of_space : ProofOfSpace.t := {| ProofOfSpace.pool_public_key := [x0a] |}.

Definition unfinished_reward_chain (trunk : byte) (signage_point_index : Z)
  : RewardChainSubBlockUnfinished.t :=
  {| RewardChainSubBlockUnfinished.signage_point_index := signage_point_index;
     RewardChainSubBlockUnfinished.pos_ss_cc_challenge_hash := hash xcc;
     RewardChainSubBlockUnfinished.proof_of_space := proof_of_space;
     RewardChainSubBlockUnfinished.reward_chain_sp_vdf := Some (vdf x5c);
     RewardChainSubBlockUnfinished.get_hash := hash trunk |}.

Definition foliage (header prev : byte) : FoliageSubBlock.t :=
  {| FoliageSubBlock.prev_sub_block_hash := hash prev;
     FoliageSubBlock.foliage_sub_block_data :=
       {| FoliageSubBlockData.pool_target :=
            {| PoolTarget.puzzle_hash := hash x70; PoolTarget.max_height := 0 |};
          FoliageSubBlockData.pool_signature := Some [x51] |};
     FoliageSubBlock.get_hash := hash header |}.

(** A full block at [height] with the given hashes and weight, whose
    foliage block carries [timestamp]. *)
Definition full_block (header prev : byte) (height weight timestamp : Z)
  (finished_sub_slots : list EndOfSubSlotBundle.t) : FullBlock.t :=
  {| FullBlock.finished_sub_slots := finished_sub_slots;
     FullBlock.reward_chain_sub_block :=
       {| RewardChainSubBlock.sub_block_height := height;
          RewardChainSubBlock.weight := weight;
          RewardChainSubBlock.signage_point_index := 1;
          RewardChainSubBlock.pos_ss_cc_challenge_hash := hash xcc;
          RewardChainSubBlock.proof_of_space := proof_of_space;
          RewardChainSubBlock.challenge_chain_sp_vdf := Some (vdf x5c);
          RewardChainSubBlock.reward_chain_sp_vdf := Some (vdf x5c);
          RewardChainSubBlock.get_unfinished := unfinished_reward_chain header 1;
          RewardChainSubBlock.get_hash := hash header |};
     FullBlock.challenge_chain_sp_proof := Some [x01];
     FullBlock.reward_chain_sp_proof := Some [x02];
     FullBlock.foliage_sub_block := foliage header prev;
     FullBlock.foliage_block := Some {| FoliageBlock.timestamp := timestamp |};
     FullBlock.transactions_generator := Some [x80];
     FullBlock.header_hash := hash header;
     FullBlock.prev_header_hash := hash prev;
     FullBlock.sub_block_height := height;
     FullBlock.weight := weight |}.

(** An unfinished block with trunk hash [trunk] and partial hash [partial]
    on top of [prev]. *)
Definition unfinished_block (trunk partial prev : byte) (signage_point_index : Z)
  (finished_sub_slots : list EndOfSubSlotBundle.t) : UnfinishedBlock.t :=
  {| UnfinishedBlock.finished_sub_slots := finished_sub_slots;
     UnfinishedBlock.reward_chain_sub_block :=
       unfinished_reward_chain trunk signage_point_index;
     UnfinishedBlock.foliage_sub_block := foliage partial prev;
     UnfinishedBlock.transactions_generator := Some [x80];
     UnfinishedBlock.get_hash := hash partial;
     UnfinishedBlock.partial_hash := hash partial;
     UnfinishedBlock.prev_header_hash := hash prev;
     UnfinishedBlock.total_iters := 1000000 |}.

Definition connection (id : byte) (type : NodeType) : WSChiaConnection.t :=
  {| WSChiaConnection.peer_node_id := hash id;
     WSChiaConnection.connection_type := type;
     WSChiaConnection.peer_host := "127.0.0.1" |}.

(** The sample node: 64 signage points in a sub-slot, of which the last
    three overflow. *)
#[export] Instance sample_node : Node :=
  {| constants :=
       {| MAX_BLOCK_COUNT_PER_REQUESTS := 32;
          WEIGHT_PROOF_RECENT_BLOCKS := 500;
          SUB_BLOCKS_CACHE_SIZE := 2000;
          MAX_SUB_SLOT_SUB_BLOCKS := 128;
          GENESIS_PREV_HASH := hash x00;
          FIRST_CC_CHALLENGE := hash xc0;
          FIRST_RC_CHALLENGE := hash xc1;
          GENESIS_PRE_FARM_POOL_PUZZLE_HASH := hash xfa |};
     config :=
       {| short_sync_sub_blocks_behind_threshold := 20;
          sync_sub_blocks_behind_threshold := 300 |};
     is_overflow_sub_block := fun _ index => 61 <=? index;
     calculate_sp_iters := fun _ sub_slot_iters index => sub_slot_iters / 64 * index;
     is_challenge_sub_block := fun r _ => SubBlockRecord.deficit r =? 15;
     sp_total_iters := fun r _ => SubBlockRecord.total_iters r;
     ip_sub_slot_total_iters := fun r _ => 0;
     Err_of_code := fun code => if code =? 1 then Some INVALID_PREV_BLOCK_HASH
                                else if (1 <? code) && (code <? 200)
                                     then Some (OTHER_ERR code)
                                     else None;
     PoolTarget_bytes := fun t => PoolTarget.puzzle_hash t;
     AugSchemeMPL_verify := fun _ _ _ => true |}.

(** The state of the sample collaborators. *)
Record World : Type := {
  sync_mode : bool;
  shut_down : bool;
  peak : option SubBlockRecord.t;
  records : list SubBlockRecord.t;
  seen_unfinished_blocks : list bytes32;
  unfinished_blocks : list UnfinishedBlock.t;
  batch_syncing : list bytes32;
  connections : list WSChiaConnection.t;
  peer_peaks : list (bytes32 * (bytes32 * Z * Z));
  peer_blocks : list FullBlock.t;
  weight_proof : option WeightProof.t;
  clock : Q
}.

Definition set_sync_mode (b : bool) (w : World) : World :=
  {| sync_mode := b; shut_down := shut_down w; peak := peak w; records := records w;
     seen_unfinished_blocks := seen_unfinished_blocks w;
     unfinished_blocks := unfinished_blocks w; batch_syncing := batch_syncing w;
     connections := connections w; peer_peaks := peer_peaks w;
     peer_blocks := peer_blocks w; weight_proof := weight_proof w; clock := clock w |}.

Definition set_chain (p : option SubBlockRecord.t) (rs : list SubBlockRecord.t)
  (w : World) : World :=
  {| sync_mode := sync_mode w; shut_down := shut_down w; peak := p; records := rs;
     seen_unfinished_blocks := seen_unfinished_blocks w;
     unfinished_blocks := unfinished_blocks w; batch_syncing := batch_syncing w;
     connections := connections w; peer_peaks := peer_peaks w;
     peer_blocks := peer_blocks w; weight_proof := weight_proof w; clock := clock w |}.

Definition set_seen (seen : list bytes32) (w : World) : World :=
  {| sync_mode := sync_mode w; shut_down := shut_down w; peak := peak w;
     records := records w; seen_unfinished_blocks := seen;
     unfinished_blocks := unfinished_blocks w; batch_syncing := batch_syncing w;
     connections := connections w; peer_peaks := peer_peaks w;
     peer_blocks := peer_blocks w; weight_proof := weight_proof w; clock := clock w |}.

Definition set_unfinished (blocks : list UnfinishedBlock.t) (w : World) : World :=
  {| sync_mode := sync_mode w; shut_down := shut_down w; peak := peak w;
     records := records w; seen_unfinished_blocks := seen_unfinished_blocks w;
     unfinished_blocks := blocks; batch_syncing := batch_syncing w;
     connections := connections w; peer_peaks := peer_peaks w;
     peer_blocks := peer_blocks w; weight_proof := weight_proof w; clock := clock w |}.

Definition set_batch_syncing (ids : list bytes32) (w : World) : World :=
  {| sync_mode := sync_mode w; shut_down := shut_down w; peak := peak w;
     records := records w; seen_unfinished_blocks := seen_unfinished_blocks w;
     unfinished_blocks := unfinished_blocks w; batch_syncing := ids;
     connections := connections w; peer_peaks := peer_peaks w;
     peer_blocks := peer_blocks w; weight_proof := weight_proof w; clock := clock w |}.

Definition set_peer_peaks (pp : list (bytes32 * (bytes32 * Z * Z))) (w : World) : World :=
  {| sync_mode := sync_mode w; shut_down := shut_down w; peak := peak w;
     records := records w; seen_unfinished_blocks := seen_unfinished_blocks w;
     unfinished_blocks := unfinished_blocks w; batch_syncing := batch_syncing w;
     connections := connections w; peer_peaks := pp;
     peer_blocks := peer_blocks w; weight_proof := weight_proof w; clock := clock w |}.

Definition find_record (header_hash : bytes32) (w : World) : option SubBlockRecord.t :=
  find (fun r => bytes_eqb (SubBlockRecord.header_hash r) header_hash) (records w).

Definition find_unfinished (reward_hash : bytes32) (w : World) : option UnfinishedBlock.t :=
  find (fun b => bytes_eqb (trunk_hash b) reward_hash) (unfinished_blocks w).

Definition record_of_block (b : FullBlock.t) : SubBlockRecord.t :=
  {| SubBlockRecord.header_hash := FullBlock.header_hash b;
     SubBlockRecord.prev_hash := FullBlock.prev_header_hash b;
     SubBlockRecord.sub_block_height := FullBlock.sub_block_height b;
     SubBlockRecord.weight := FullBlock.weight b;
     SubBlockRecord.total_iters := 1000 * FullBlock.sub_block_height b;
     SubBlockRecord.signage_point_index := 1;
     SubBlockRecord.required_iters := 10;
     SubBlockRecord.deficit := 15;
     SubBlockRecord.overflow := false;
     SubBlockRecord.sub_slot_iters := 6400;
     SubBlockRecord.first_in_sub_slot := false;
     SubBlockRecord.reward_infusion_new_challenge := FullBlock.header_hash b;
     SubBlockRecord.sub_epoch_summary_included := None |}.

(** The sample block chain's full block for a record; its foliage block
    carries the record's total iterations as timestamp. *)
Definition block_of_record (r : SubBlockRecord.t) : FullBlock.t :=
  {| FullBlock.finished_sub_slots := [];
     FullBlock.reward_chain_sub_block :=
       FullBlock.reward_chain_sub_block
         (full_block x0f x0e (SubBlockRecord.sub_block_height r)
            (SubBlockRecord.weight r) 0 []);
     FullBlock.challenge_chain_sp_proof := Some [x01];
     FullBlock.reward_chain_sp_proof := Some [x02];
     FullBlock.foliage_sub_block := foliage x0f x0e;
     FullBlock.foliage_block :=
       Some {| FoliageBlock.timestamp := SubBlockRecord.total_iters r |};
     FullBlock.transactions_generator := Some [x80];
     FullBlock.header_hash := SubBlockRecord.header_hash r;
     FullBlock.prev_header_hash := SubBlockRecord.prev_hash r;
     FullBlock.sub_block_height := SubBlockRecord.sub_block_height r;
     FullBlock.weight := SubBlockRecord.weight r |}.

(** The sample block chain's [receive_block]: a known block is reported, a
    block whose parent is unknown is disconnected, a block heavier than the
    peak becomes the peak, any other block is an orphan. *)
Definition receive_block (b : FullBlock.t) (w : World)
  : (ReceiveBlockResult * option Err * option Z) * World :=
  if is_some (find_record (FullBlock.header_hash b) w) then
    ((ALREADY_HAVE_BLOCK, None, None), w)
  else if negb (bytes_eqb (FullBlock.prev_header_hash b) (GENESIS_PREV_HASH constants))
          && negb (is_some (find_record (FullBlock.prev_header_hash b) w)) then
    ((DISCONNECTED_BLOCK, Some INVALID_PREV_BLOCK_HASH, None), w)
  else if match peak w with
          | Some p => SubBlockRecord.weight p <? FullBlock.weight b
          | None => true
          end then
    ((NEW_PEAK, None, Some (Z.max 0 (FullBlock.sub_block_height b - 1))),
     set_chain (Some (record_of_block b)) (record_of_block b :: records w) w)
  else
    ((ADDED_AS_ORPHAN, None, None), set_chain (peak w) (record_of_block b :: records w) w).

(** The heaviest of the peaks of the given peers. *)
Fixpoint heaviest (peer_ids : list bytes32) (pp : list (bytes32 * (bytes32 * Z * Z)))
  (best : option (bytes32 * Z * Z)) : option (bytes32 * Z * Z) :=
  match pp with
  | [] => best
  | (peer_id, (peak_hash, height, weight)) :: pp' =>
      if bytes_in peer_id peer_ids
         && match best with Some (_, _, w') => w' <? weight | None => true end
      then heaviest peer_ids pp' (Some (peak_hash, height, weight))
      else heaviest peer_ids pp' best
  end.

(** The answer each call gets where the sample state has no say. *)
Definition fixed_answer {X : Type} (c : Call X) : X :=
  match c in Call X return X with
  | log _ _ => tt
  | _state_changed _ => tt
  | get_shut_down => false
  | server_is_none => false
  | create_sync_task => tt
  | clear_sync_peers_handler => tt
  | asyncio_sleep _ => tt
  | task_cancelled => false
  | time_time => 0%Q
  | random_choice peers => hd (connection x00 FULL_NODE) peers
  | acquire _ => tt
  | release _ => tt
  | sync_store_add_peak_peer _ _ _ _ => tt
  | sync_store_get_sync_mode => false
  | sync_store_set_sync_mode _ => tt
  | sync_store_get_sync_target_hash => None
  | sync_store_get_sync_target_height => None
  | sync_store_get_peak_peers _ => []
  | sync_store_get_peer_peaks _ => []
  | sync_store_get_heaviest_peak _ => None
  | sync_store_set_peak_target _ _ => tt
  | sync_store_clear_sync_info => tt
  | sync_store_peers_changed_is_set => false
  | sync_store_peers_changed_clear => tt
  | batch_syncing_contains _ => false
  | batch_syncing_add _ => tt
  | batch_syncing_remove _ => tt
  | blockchain_contains_sub_block _ => false
  | blockchain_get_peak => None
  | blockchain_get_full_peak => None
  | blockchain_get_block_peak => None
  | blockchain_sub_block_record _ => record x00 x00 0 0
  | blockchain_try_sub_block _ => None
  | blockchain_get_next_difficulty _ _ => 1
  | blockchain_get_next_slot_iters _ _ => 6400
  | blockchain_get_recent_reward_challenges => []
  | blockchain_pre_validate_blocks_multiprocessing blocks =>
      Some (map (fun _ => {| PreValidationResult.error := None;
                             PreValidationResult.required_iters := Some 10 |}) blocks)
  | blockchain_receive_block _ _ _ => (ADDED_AS_ORPHAN, None, None)
  | blockchain_validate_unfinished_block _ => (Some 10, None)
  | blockchain_get_sp_and_ip_sub_slots _ => Some (None, None)
  | blockchain_clean_sub_block_records => tt
  | blockchain_clean_sub_block_record _ => tt
  | blockchain_warmup _ => tt
  | full_node_store_seen_unfinished_block _ => false
  | full_node_store_get_unfinished_block _ => None
  | full_node_store_add_unfinished_block _ _ => tt
  | full_node_store_new_peak _ _ _ _ => None
  | full_node_store_new_signage_point _ _ _ _ => true
  | full_node_store_clear_seen_unfinished_blocks => tt
  | full_node_store_clear_candidate_blocks_below _ => tt
  | full_node_store_clear_unfinished_blocks_below _ => tt
  | full_node_store_get_sub_slot _ => Some (end_of_slot xcc None, 0, 0)
  | full_node_store_finished_sub_slots => []
  | full_node_store_add_to_future_ip _ => tt
  | full_node_store_get_finished_sub_slots _ _ _ => []
  | mempool_manager_new_peak _ => tt
  | weight_proof_handler_create_prev_sub_epoch_segments => tt
  | weight_proof_handler_validate_weight_proof _ => (true, 0)
  | weight_proof_handler_get_proof_of_weight _ => tt
  | server_all_connections => []
  | server_send_to_all _ _ => tt
  | server_send_to_all_except _ _ _ => tt
  | peer_request_sub_block _ _ _ _ => None
  | peer_request_sub_blocks _ _ _ _ => None
  | peer_request_proof_of_weight _ _ _ => None
  | peer_close _ => tt
  | peer_closed _ => false
  | next_sub_epoch_summary _ _ _ => None
  | can_finish_sub_and_full_epoch _ _ _ _ => (false, false)
  | get_sub_slot_iters_and_difficulty _ _ => (6400, 1)
  | unfinished_block_to_full_block unfinished_block _ finished_sub_slots prev_sb _ _ =>
      full_block x0f x0e
        (match prev_sb with
         | Some p => SubBlockRecord.sub_block_height p + 1
         | None => 0
         end)
        (match prev_sb with
         | Some p => SubBlockRecord.weight p + 1
         | None => 1
         end)
        0 finished_sub_slots
  end.

(** The sample collaborators. *)
Definition env (X : Type) (c : Call X) (w : World) : X * World :=
  match c in Call X return X * World with
  | get_shut_down => (shut_down w, w)
  | time_time => (clock w, w)
  | sync_store_get_sync_mode => (sync_mode w, w)
  | sync_store_set_sync_mode b => (tt, set_sync_mode b w)
  | sync_store_add_peak_peer peak_hash peer_id weight height =>
      (tt, set_peer_peaks ((peer_id, (peak_hash, height, weight)) :: peer_peaks w) w)
  | sync_store_get_peak_peers peak_hash =>
      (map fst (filter (fun item => bytes_eqb (fst (fst (snd item))) peak_hash)
                  (peer_peaks w)), w)
  | sync_store_get_peer_peaks peer_ids =>
      (filter (fun item => bytes_in (fst item) peer_ids) (peer_peaks w), w)
  | sync_store_get_heaviest_peak peer_ids => (heaviest peer_ids (peer_peaks w) None, w)
  | batch_syncing_contains peer_id => (bytes_in peer_id (batch_syncing w), w)
  | batch_syncing_add peer_id => (tt, set_batch_syncing (peer_id :: batch_syncing w) w)
  | batch_syncing_remove peer_id =>
      (tt, set_batch_syncing
             (filter (fun x => negb (bytes_eqb x peer_id)) (batch_syncing w)) w)
  | blockchain_contains_sub_block header_hash => (is_some (find_record header_hash w), w)
  | blockchain_get_peak => (peak w, w)
  | blockchain_get_full_peak => (option_map block_of_record (peak w), w)
  | blockchain_get_block_peak => (option_map block_of_record (peak w), w)
  | blockchain_sub_block_record header_hash =>
      (match find_record header_hash w with
       | Some r => r
       | None => record x00 x00 0 0
       end, w)
  | blockchain_try_sub_block header_hash => (find_record header_hash w, w)
  | blockchain_receive_block block _ _ => receive_block block w
  | full_node_store_seen_unfinished_block object_hash =>
      if bytes_in object_hash (seen_unfinished_blocks w) then (true, w)
      else (false, set_seen (object_hash :: seen_unfinished_blocks w) w)
  | full_node_store_get_unfinished_block reward_hash => (find_unfinished reward_hash w, w)
  | full_node_store_add_unfinished_block _ block =>
      (tt, set_unfinished (block :: unfinished_blocks w) w)
  | full_node_store_clear_seen_unfinished_blocks => (tt, set_seen [] w)
  | full_node_store_get_finished_sub_slots _ _ extra_sub_slot =>
      (if extra_sub_slot then [end_of_slot xe1 (Some 5)] else [], w)
  | server_all_connections => (connections w, w)
  | peer_request_sub_block _ height _ _ =>
      (option_map RespondSubBlock
         (find (fun b => FullBlock.sub_block_height b =? height) (peer_blocks w)), w)
  | peer_request_sub_blocks _ start_height end_height _ =>
      (Some (RespondSubBlocks
               (filter (fun b => (start_height <=? FullBlock.sub_block_height b)
                                 && (FullBlock.sub_block_height b <=? end_height))
                  (peer_blocks w))), w)
  | peer_request_proof_of_weight _ _ _ =>
      (option_map RespondProofOfWeight (weight_proof w), w)
  | c' => (fixed_answer c', w)
  end.

(** A node with an empty chain, no peers and nothing stored. *)
Definition empty_world : World :=
  {| sync_mode := false; shut_down := false; peak := None; records := [];
     seen_unfinished_blocks := []; unfinished_blocks := []; batch_syncing := [];
     connections := []; peer_peaks := []; peer_blocks := []; weight_proof := None;
     clock := 1600000000 |}.

End Sample.

(** ** The examples' inputs *)

Module Scenario.

Import Sample.

(** Our peak: height 5, weight 100, on top of genesis. *)
Definition our_peak : SubBlockRecord.t := record x01 x00 5 100.

Definition at_peak : World := set_chain (Some our_peak) [our_peak] empty_world.

Definition peer : WSChiaConnection.t := connection x21 FULL_NODE.

(** A peer announces a peak at height 1000 with the given weight. *)
Definition announcement (weight : Z) : NewPeak.t :=
  {| NewPeak.header_hash := hash x09;
     NewPeak.sub_block_height := 1000;
     NewPeak.weight := weight;
     NewPeak.fork_point_with_previous_peak := 999;
     NewPeak.unfinished_reward_block_hash := hash x0a |}.

(** The peer serves a block at height 5 whose parent we do not have. *)
Definition deep_block : FullBlock.t := full_block x15 x14 5 90 0 [].

Definition with_deep_peer : World :=
  {| sync_mode := false; shut_down := false; peak := Some our_peak;
     records := [our_peak]; seen_unfinished_blocks := []; unfinished_blocks := [];
     batch_syncing := []; connections := [peer]; peer_peaks := [];
     peer_blocks := [deep_block]; weight_proof := None; clock := 1600000000 |}.

Definition syncing : World := set_sync_mode true at_peak.

(** A block on top of our peak. *)
Definition next_block : FullBlock.t := full_block x02 x01 6 110 0 [].

(** An unfinished block on top of our peak, not overflowing. *)
Definition unfinished : UnfinishedBlock.t := unfinished_block x33 x34 x01 3 [].


(** Three full-node peers announce the peak [hash x09] at height 1000
    with weight 5000; the weight proof they serve ends at height 999. *)
Definition three_peers : list WSChiaConnection.t :=
  [connection x21 FULL_NODE; connection x22 FULL_NODE; connection x23 FULL_NODE].

Definition header (height weight : Z) : HeaderBlock.t :=
  {| HeaderBlock.reward_chain_sub_block :=
       FullBlock.reward_chain_sub_block (full_block x09 x08 height weight 0 []) |}.

Definition short_proof : WeightProof.t :=
  {| WeightProof.recent_chain_data := [header 998 4990; header 999 5000] |}.

Definition lied_to (shutting_down : bool) : World :=
  {| sync_mode := false; shut_down := shutting_down; peak := Some our_peak;
     records := [our_peak]; seen_unfinished_blocks := []; unfinished_blocks := [];
     batch_syncing := []; connections := three_peers;
     peer_peaks :=
       map (fun c => (WSChiaConnection.peer_node_id c, (hash x09, 1000, 5000)))
         three_peers;
     peer_blocks := []; weight_proof := Some short_proof; clock := 1600000000 |}.



Definition infusion : NewInfusionPointVDF.t :=
  {| NewInfusionPointVDF.unfinished_reward_hash := hash x53;
     NewInfusionPointVDF.challenge_chain_ip_vdf := vdf x61;
     NewInfusionPointVDF.challenge_chain_ip_proof := [x62];
     NewInfusionPointVDF.reward_chain_ip_vdf := vdf x01;
     NewInfusionPointVDF.reward_chain_ip_proof := [x63];
     NewInfusionPointVDF.infused_challenge_chain_ip_vdf := None;
     NewInfusionPointVDF.infused_challenge_chain_ip_proof := None |}.

(** The full block the sample assembles from [stored_overflow]. *)
Definition assembled : FullBlock.t :=
  full_block x0f x0e 6 101 0 [end_of_slot xe1 (Some 5)].

(** Two blocks on top of our peak: the first heavier than the peak, the
    second lighter than the first. *)
Definition batch : list FullBlock.t :=
  [full_block x02 x01 6 110 0 []; full_block x03 x01 6 105 0 []].

(** The sample collaborators with a pre-validation that gives no list of
    results. *)
Definition env_without_results (X : Type) (c : Call X) (w : World) : X * World :=
  match c in Call X return X * World with
  | blockchain_pre_validate_blocks_multiprocessing _ => (None, w)
  | c' => env c' w
  end.

(** The sample collaborators with a pre-validation that reports the error
    code [code] for every block. *)
Definition env_with_error (code : Z) (X : Type) (c : Call X) (w : World) : X * World :=
  match c in Call X return X * World with
  | blockchain_pre_validate_blocks_multiprocessing blocks =>
      (Some (map (fun _ => {| PreValidationResult.error := Some code;
                              PreValidationResult.required_iters := None |}) blocks), w)
  | c' => env c' w
  end.

End Scenario.

End full_node.

(** ** The first sub-slot of a new epoch *)

Module new_epoch.

Import full_node.

(** The records of the block chain under their header hashes. *)
Definition Chain : Type := bytes32 -> option SubBlockRecord.t.

(** The entry, where it is a look-up of a record, was answered from
    [chain]: [try_sub_block] with the record under the hash or with None,
    [sub_block_record] with the record under the hash. *)
Definition answered_from (chain : Chain) (e : entry) : Prop :=
  match e with
  | Ev c a =>
      match c in Call X return X -> Prop with
      | blockchain_try_sub_block header_hash => fun a => a = chain header_hash
      | blockchain_sub_block_record header_hash => fun a => chain header_hash = Some a
      | _ => fun _ => True
      end a
  end.

(** [slot_start chain curr first steps]: going back from [curr] along
    [prev_hash] through the records of [chain], [first] is the first record
    met that is the first sub-block of its sub-slot, [steps] records
    before [curr]; [first] is [None] when the chain has no record under a
    hash on the way. *)
Inductive slot_start (chain : Chain)
  : option SubBlockRecord.t -> option SubBlockRecord.t -> nat -> Prop :=
| slot_start_here (c : SubBlockRecord.t) :
    SubBlockRecord.first_in_sub_slot c = true ->
    slot_start chain (Some c) (Some c) 0
| slot_start_missing : slot_start chain None None 0
| slot_start_back (c : SubBlockRecord.t) (first : option SubBlockRecord.t) (steps : nat) :
    SubBlockRecord.first_in_sub_slot c = false ->
    slot_start chain (chain (SubBlockRecord.prev_hash c)) first steps ->
    slot_start chain (Some c) first (S steps).

(** The first sub-slot of a block is the first sub-slot of a new epoch:
    the first of the sub-slots that finish before the block carries a new
    difficulty; or, when no sub-slot finishes between the block and the
    sub-block [prev] before it, the first sub-block of the sub-slot of
    [prev], [steps] records before it, includes a sub-epoch summary with a
    new difficulty. *)
Definition first_sub_slot_of_new_epoch (chain : Chain)
  (finished_sub_slots : list EndOfSubSlotBundle.t) (prev : option SubBlockRecord.t)
  (steps : nat) : Prop :=
  match finished_sub_slots with
  | first_slot :: _ =>
      exists difficulty,
        ChallengeChainSubSlot.new_difficulty
          (EndOfSubSlotBundle.challenge_chain first_slot) = Some difficulty
  | [] =>
      exists first ses difficulty,
        slot_start chain prev (Some first) steps
        /\ SubBlockRecord.sub_epoch_summary_included first = Some ses
        /\ SubEpochSummary.new_difficulty ses = Some difficulty
  end.

(** The entry is an answer of [can_finish_sub_and_full_epoch] that says
    that the epoch can be finished. *)
Definition prev_can_finish_epoch (e : entry) : bool :=
  match e with
  | Ev c a =>
      match c in Call X return X -> bool with
      | can_finish_sub_and_full_epoch _ _ _ _ => fun a => snd a
      | _ => fun _ => false
      end a
  end.


(** The calls of [can_finish_sub_and_full_epoch] and of
    [unfinished_block_to_full_block]. *)
Definition asks_can_finish_epoch {X : Type} (c : Call X) : bool :=
  match c with can_finish_sub_and_full_epoch _ _ _ _ => true | _ => false end.


(** [is_overflow_sub_block] on the signage point of an unfinished block. *)
Definition is_overflow {node : Node} (block : UnfinishedBlock.t) : bool :=
  is_overflow_sub_block constants
    (RewardChainSubBlockUnfinished.signage_point_index
       (UnfinishedBlock.reward_chain_sub_block block)).



End new_epoch.

(** ** Sample chains in and before a new epoch *)

Module epoch_scenario.

Import full_node Sample Scenario new_epoch.










End epoch_scenario.

(** ** Readings of programs and condition lists *)

Module program_terms.

Import program.

(** The atoms of a tree, from left to right. *)
Fixpoint atoms (node : SExp) : list bytes :=
  match node with
  | Atom atom => [atom]
  | Cons first rest => (atoms first ++ atoms rest)%list
  end.

(** Imports for the examples: a stand-in for sha256 that keeps the first 32
    bytes of its zero-padded input, and the [bytes32] constructor, which
    accepts exactly 32 bytes. No example deserializes. *)
Definition example_imports : Imports :=
  {| std_hash := fun s => firstn 32 (s ++ repeat x00 32);
     bytes32 := fun b => if (List.length b =? 32)%nat then Some b else None;
     sexp_from_stream := fun _ => None |}.

End program_terms.

Module condition_lists.

Import mempool_check_conditions.

Section Flat.

Variable int_from_bytes : bytes -> option Z.
Variable now : spec_float.
Variable unspent : CoinRecord.
Variable spend_bundle : SpendBundle.
Variable peak_height : Z.

(** The conditions in the order [mempool_check_conditions_dict] visits
    them: the lists of [conditions_dict.values()], one after the other. *)
Definition visited (conditions_dict : list (ConditionOpcode * list ConditionVarPair))
  : list ConditionVarPair :=
  List.concat (map snd conditions_dict).

(** The check of one condition lets the loop go on. *)
Definition passes (cvp : ConditionVarPair) : bool :=
  match check_condition int_from_bytes now unspent spend_bundle peak_height cvp with
  | Returns None => true
  | _ => false
  end.

(** The outcome of the first visited condition that does not pass; [None]
    returned when all pass. *)
Definition first_not_passing (conditions : list ConditionVarPair) : result (option Err) :=
  match find (fun cvp => negb (passes cvp)) conditions with
  | Some cvp => check_condition int_from_bytes now unspent spend_bundle peak_height cvp
  | None => Returns None
  end.

End Flat.

(** A spend whose conditions hold from height 5 and the clock reading
    1600000000 on: the coin's own id, a height above 5, an age above 2 for
    a coin confirmed at 3, a time after 1000 ms, and an opcode without a
    check. *)
Definition satisfied : list (ConditionOpcode * list ConditionVarPair) :=
  [(ASSERT_MY_COIN_ID, [{| opcode := ASSERT_MY_COIN_ID; vars := [[x0c]] |}]);
   (ASSERT_BLOCK_INDEX_EXCEEDS,
    [{| opcode := ASSERT_BLOCK_INDEX_EXCEEDS; vars := [[x05]] |}]);
   (ASSERT_BLOCK_AGE_EXCEEDS, [{| opcode := ASSERT_BLOCK_AGE_EXCEEDS; vars := [[x02]] |}]);
   (ASSERT_TIME_EXCEEDS, [{| opcode := ASSERT_TIME_EXCEEDS; vars := [[x03; xe8]] |}]);
   (OTHER_OPCODE [x32], [{| opcode := OTHER_OPCODE [x32]; vars := [] |}])].

End condition_lists.

(** ** Further readings of a trace *)

Module readings.

Import full_node.

(** The values [f] reads off the entries of a trace, in order. *)
Fixpoint collect {A : Type} (f : entry -> option A) (t : list entry) : list A :=
  match t with
  | [] => []
  | e :: t' =>
      match f e with
      | Some a => a :: collect f t'
      | None => collect f t'
      end
  end.

(** The block and the pre-validation result handed to [receive_block]. *)
Definition received_block (e : entry) : option (FullBlock.t * PreValidationResult.t) :=
  match ev_call e with
  | blockchain_receive_block block pre_validation_result _ =>
      Some (block, pre_validation_result)
  | _ => None
  end.

(** The height asked of a peer with [request_sub_block]. *)
Definition requested_height (e : entry) : option Z :=
  match ev_call e with
  | peer_request_sub_block _ height _ _ => Some height
  | _ => None
  end.

(** [from, from - 1, ...]: [n] heights downwards. *)
Definition heights_down (from : Z) (n : nat) : list Z :=
  map (fun i => from - Z.of_nat i) (seq 0 n).

(** What is known of a peer that [get_peers_with_peaks] answers: the sync
    store listed its node id for one of the hashes, and the server listed
    the peer among its connections. *)
Definition listed_and_connected (peak_hashes : list bytes32) (t : list entry)
  (peer : WSChiaConnection.t) : Prop :=
  exists (peak_hash : bytes32) (ids : list bytes32) (conns : list WSChiaConnection.t),
    In peak_hash peak_hashes
    /\ In (Ev (sync_store_get_peak_peers peak_hash) ids) t
    /\ bytes_in (WSChiaConnection.peer_node_id peer) ids = true
    /\ In (Ev server_all_connections conns) t
    /\ In peer conns.

(** Every entry of the class [second] comes after some entry of the class
    [first]. *)
Definition always_after (first second : entry -> bool) (t : list entry) : Prop :=
  forall t1 e t2, t = (t1 ++ e :: t2)%list -> second e = true -> existsb first t1 = true.

(** The same, decided in one pass; [seen] tells whether an entry of the
    class [first] came before the trace. *)
Fixpoint precedes (first second : entry -> bool) (seen : bool) (t : list entry) : bool :=
  match t with
  | [] => true
  | e :: t' => (negb (second e) || seen) && precedes first second (seen || first e) t'
  end.

(** The answer of [receive_block], where the entry is such a call. *)
Definition receive_block_answer (e : entry)
  : option (ReceiveBlockResult * option Err * option Z) :=
  match e with
  | Ev c a =>
      match c in Call X return X -> option (ReceiveBlockResult * option Err * option Z) with
      | blockchain_receive_block _ _ _ => fun a => Some a
      | _ => fun _ => None
      end a
  end.

(** [validate_unfinished_block] answered the required iterations and no
    error. *)
Definition unfinished_block_validated (e : entry) : bool :=
  match e with
  | Ev c a =>
      match c in Call X return X -> bool with
      | blockchain_validate_unfinished_block _ =>
          fun a => match a with (Some _, None) => true | _ => false end
      | _ => fun _ => false
      end a
  end.

(** A read of the sync mode that answered False. *)
Definition not_in_sync_mode (e : entry) : bool :=
  match e with
  | Ev c a =>
      match c in Call X return X -> bool with
      | sync_store_get_sync_mode => fun a => negb a
      | _ => fun _ => false
      end a
  end.

Definition is_new_peak (m : Message) : bool := String.eqb (function m) "new_peak".

(** The calls that tell timelords or full nodes about a peak: any message
    to the timelords, a [new_peak] message to the full nodes. *)
Definition announces_peak {X : Type} (c : Call X) : bool :=
  match c with
  | server_send_to_all messages TIMELORD => true
  | server_send_to_all messages FULL_NODE => existsb is_new_peak messages
  | server_send_to_all_except messages FULL_NODE _ => existsb is_new_peak messages
  | _ => false
  end.

(** No [new_peak] message of the entry can reach the full node
    [peer_id]: it goes to other node types, or to all full nodes but
    [peer_id]. *)
Definition spares (peer_id : bytes32) (e : entry) : Prop :=
  match ev_call e with
  | server_send_to_all messages FULL_NODE => existsb is_new_peak messages = false
  | server_send_to_all_except messages FULL_NODE exclude =>
      existsb is_new_peak messages = true -> exclude = peer_id
  | _ => True
  end.

(** The calls by which [new_peak] starts a sync or a sync adds blocks: the
    launch of the long-sync task, the registration for a batch sync, a
    request for a batch of sub-blocks, and handing blocks to the block
    chain. *)
Definition starts_sync {X : Type} (c : Call X) : bool :=
  match c with
  | create_sync_task => true
  | batch_syncing_add _ => true
  | peer_request_sub_blocks _ _ _ _ => true
  | c' => adds_blocks c'
  end.

(** The value written by [set_sync_mode]. *)
Definition sync_mode_write (e : entry) : option bool :=
  match ev_call e with
  | sync_store_set_sync_mode sync_mode => Some sync_mode
  | _ => None
  end.

(** The value read from [self._shut_down]. *)
Definition shut_down_read (e : entry) : option bool :=
  match e with
  | Ev c a =>
      match c in Call X return X -> option bool with
      | get_shut_down => fun a => Some a
      | _ => fun _ => None
      end a
  end.

(** The number of entries of the class [counted] before the first entry
    of the class [stop]; [None] when the trace has no entry of the class
    [stop]. *)
Fixpoint count_before (stop counted : entry -> bool) (t : list entry) : option nat :=
  match t with
  | [] => None
  | e :: t' =>
      if stop e then Some 0%nat
      else match count_before stop counted t' with
           | Some n => Some (if counted e then S n else n)
           | None => None
           end
  end.

(** [sync_store.get_peer_peaks]: one poll of the waiting loop of [_sync]. *)
Definition polls_peer_peaks {X : Type} (c : Call X) : bool :=
  match c with sync_store_get_peer_peaks _ => true | _ => false end.

(** [sync_store.get_heaviest_peak]: the selection of the sync target. *)
Definition selects_target {X : Type} (c : Call X) : bool :=
  match c with sync_store_get_heaviest_peak _ => true | _ => false end.

(** [asyncio.sleep]. *)
Definition sleeps {X : Type} (c : Call X) : bool :=
  match c with asyncio_sleep _ => true | _ => false end.

(** [receive_block] answered NEW_PEAK. *)
Definition new_peak_received (e : entry) : bool :=
  match receive_block_answer e with
  | Some (NEW_PEAK, _, _) => true
  | _ => false
  end.

(** [raises_only ok p]: the exceptions that a run of [p] can end in are
    among [ok]. *)
Definition raises_only (ok : PyExn -> bool) {R : Type} (p : Prog R) : Prop :=
  all_runs p (fun o _ => match o with Raised e => ok e = true | _ => True end).

(** Every exception of the model but [ConsensusError]. *)
Definition not_consensus_error (e : PyExn) : bool :=
  match e with ConsensusError _ => false | _ => true end.

(** The calls that change [sync_store.batch_syncing]. *)
Definition batch_syncing_changes {X : Type} (c : Call X) : bool :=
  match c with
  | batch_syncing_add _ => true
  | batch_syncing_remove _ => true
  | _ => false
  end.

(** The calls of the loop of [short_sync_backtrack]: requests to the peer
    and look-ups in the block chain. *)
Definition backtrack_loop_calls {X : Type} (c : Call X) : bool :=
  match c with
  | peer_request_sub_block _ _ _ _ => true
  | blockchain_contains_sub_block _ => true
  | _ => false
  end.

(** *** The calls a routine can make *)

(** [get_peers_with_peaks]. *)
Definition peers_with_peaks_calls {X : Type} (c : Call X) : bool :=
  match c with
  | sync_store_get_peak_peers _ => true
  | server_all_connections => true
  | _ => false
  end.

(** [send_peak_to_timelords]. *)
Definition timelord_peak_calls {X : Type} (c : Call X) : bool :=
  match c with
  | blockchain_get_full_peak => true
  | blockchain_sub_block_record _ => true
  | blockchain_get_next_difficulty _ _ => true
  | next_sub_epoch_summary _ _ _ => true
  | blockchain_get_recent_reward_challenges => true
  | server_send_to_all _ TIMELORD => true
  | _ => false
  end.

(** [peak_post_processing]. *)
Definition post_processing_calls {X : Type} (c : Call X) : bool :=
  match c with
  | blockchain_get_next_slot_iters _ _ => true
  | log _ _ => true
  | blockchain_get_sp_and_ip_sub_slots _ => true
  | sync_store_get_sync_mode => true
  | blockchain_clean_sub_block_records => true
  | full_node_store_new_peak _ _ _ _ => true
  | full_node_store_new_signage_point _ _ _ _ => true
  | blockchain_get_peak => true
  | mempool_manager_new_peak _ => true
  | server_send_to_all _ FULL_NODE => true
  | server_send_to_all _ WALLET => true
  | server_send_to_all_except _ FULL_NODE _ => true
  | full_node_store_clear_seen_unfinished_blocks => true
  | _state_changed _ => true
  | c' => timelord_peak_calls c'
  end.

(** [receive_sub_block_batch]. *)
Definition batch_calls {X : Type} (c : Call X) : bool :=
  match c with
  | blockchain_pre_validate_blocks_multiprocessing _ => true
  | blockchain_receive_block _ _ _ => true
  | blockchain_sub_block_record _ => true
  | weight_proof_handler_create_prev_sub_epoch_segments => true
  | log _ _ => true
  | _state_changed _ => true
  | _ => false
  end.

(** [respond_sub_block]. *)
Definition respond_sub_block_calls {X : Type} (c : Call X) : bool :=
  match c with
  | blockchain_contains_sub_block _ => true
  | full_node_store_get_unfinished_block _ => true
  | acquire blockchain_lock => true
  | release blockchain_lock => true
  | time_time => true
  | blockchain_pre_validate_blocks_multiprocessing _ => true
  | blockchain_receive_block _ _ _ => true
  | full_node_store_clear_candidate_blocks_below _ => true
  | full_node_store_clear_unfinished_blocks_below _ => true
  | sync_store_clear_sync_info => true
  | c' => post_processing_calls c'
  end.

(** [sync_from_fork_point]. *)
Definition fork_point_sync_calls {X : Type} (c : Call X) : bool :=
  match c with
  | peer_closed _ => true
  | peer_request_sub_blocks _ _ _ _ => true
  | peer_close _ => true
  | blockchain_get_peak => true
  | server_send_to_all _ WALLET => true
  | sync_store_peers_changed_is_set => true
  | sync_store_peers_changed_clear => true
  | blockchain_clean_sub_block_record _ => true
  | sync_store_get_peak_peers _ => true
  | server_all_connections => true
  | c' => batch_calls c'
  end.

(** The [try] block of [_sync] and its two [except] clauses. *)
Definition long_sync_calls {X : Type} (c : Call X) : bool :=
  match c with
  | sync_store_get_peer_peaks _ => true
  | get_shut_down => true
  | asyncio_sleep _ => true
  | clear_sync_peers_handler => true
  | sync_store_get_heaviest_peak _ => true
  | sync_store_set_peak_target _ _ => true
  | peer_request_sub_block _ _ _ _ => true
  | sync_store_add_peak_peer _ _ _ _ => true
  | random_choice _ => true
  | peer_request_proof_of_weight _ _ _ => true
  | weight_proof_handler_validate_weight_proof _ => true
  | acquire blockchain_lock => true
  | release blockchain_lock => true
  | blockchain_warmup _ => true
  | c' => fork_point_sync_calls c'
  end.

(** [_finish_sync] after its first call. *)
Definition finish_sync_calls {X : Type} (c : Call X) : bool :=
  match c with
  | server_is_none => true
  | acquire blockchain_lock => true
  | release blockchain_lock => true
  | sync_store_clear_sync_info => true
  | weight_proof_handler_get_proof_of_weight _ => true
  | c' => post_processing_calls c'
  end.

(** The window asked of a peer with [request_sub_blocks]: the first and
    the last height, and the flag for the transaction generators. *)
Definition requested_window (e : entry) : option (Z * Z * bool) :=
  match ev_call e with
  | peer_request_sub_blocks _ start_height end_height include_transaction_block =>
      Some (start_height, end_height, include_transaction_block)
  | _ => None
  end.

(** The windows of a sync from [fork_point_height] up to
    [target_peak_sb_height] in batches of [batch_size], lines 570-573. *)
Definition fork_point_windows (fork_point_height target_peak_sb_height batch_size : Z)
  : list (Z * Z * bool) :=
  match py_range fork_point_height target_peak_sb_height batch_size with
  | Some starts =>
      map (fun start_height =>
             (start_height, Z.min target_peak_sb_height (start_height + batch_size), true))
        starts
  | None => []
  end.

(** [counts_k] times the [k]-th window, for the windows that have a count. *)
Definition repeated (windows : list (Z * Z * bool)) (counts : list nat)
  : list (Z * Z * bool) :=
  flat_map (fun wk => repeat (fst wk) (snd wk)) (combine windows counts).

(** A look-up of a sub-block record: the hash asked for and the record
    answered. *)
Definition record_lookup (e : entry) : option (bytes32 * SubBlockRecord.t) :=
  match e with
  | Ev c a =>
      match c in Call X return X -> option (bytes32 * SubBlockRecord.t) with
      | blockchain_sub_block_record header_hash => fun a => Some (header_hash, a)
      | _ => fun _ => None
      end a
  end.

(** The messages sent to the timelords. *)
Definition sent_to_timelords (e : entry) : option (list Message) :=
  match ev_call e with
  | server_send_to_all messages TIMELORD => Some messages
  | _ => None
  end.

(** The test that ends the walk of [send_peak_to_timelords], line 333. *)
Definition ends_walk `{Node} (curr : SubBlockRecord.t) : bool :=
  is_challenge_sub_block curr constants || SubBlockRecord.first_in_sub_slot curr.

(** [lookups] is a walk back from the record [from]: each look-up asks for
    the previous hash of the record before it, and no record before the
    last ends the walk. *)
Fixpoint walks_back `{Node} (from : SubBlockRecord.t)
  (lookups : list (bytes32 * SubBlockRecord.t)) : Prop :=
  match lookups with
  | [] => True
  | (header_hash, record) :: rest =>
      ends_walk from = false
      /\ header_hash = SubBlockRecord.prev_hash from
      /\ walks_back record rest
  end.

(** *** Locks *)

(** Which of the two locks are held: the lock of the block chain and the
    timelord lock. *)
Definition Held : Type := (bool * bool)%type.

Definition none_held : Held := (false, false).

Definition holds (held : Held) (l : Lock) : bool :=
  match l with
  | blockchain_lock => fst held
  | timelord_lock => snd held
  end.

Definition set_held (held : Held) (l : Lock) (b : bool) : Held :=
  match l with
  | blockchain_lock => (b, snd held)
  | timelord_lock => (fst held, b)
  end.

Definition is_lock_call {X : Type} (c : Call X) : bool :=
  match c with
  | acquire _ => true
  | release _ => true
  | _ => false
  end.

(** The calls that change the block chain or what the node keeps about
    its peak: [blockchain.receive_block], and [full_node_store.new_peak]
    and [mempool_manager.new_peak] of [peak_post_processing], which must be
    called under [self.blockchain.lock]. *)
Definition needs_blockchain_lock {X : Type} (c : Call X) : bool :=
  match c with
  | blockchain_receive_block _ _ _ => true
  | full_node_store_new_peak _ _ _ _ => true
  | mempool_manager_new_peak _ => true
  | _ => false
  end.

Definition needs_no_lock {X : Type} (c : Call X) : bool := false.

(** A call that is no use of a lock, and is not guarded or is made with
    the lock of the block chain held. *)
Definition allowed (guarded : forall X : Type, Call X -> bool) (held : Held)
  {X : Type} (c : Call X) : bool :=
  negb (is_lock_call c) && (negb (guarded X c) || holds held blockchain_lock).

(** The locks held after the trace [t], which starts with the locks
    [held]. The answer is [None] when the trace acquires a lock that is
    held ([asyncio.Lock] is not reentrant: the task would wait for
    itself), releases a lock that is not held, or makes a [guarded] call
    without the lock of the block chain. *)
Fixpoint lock_discipline (guarded : forall X : Type, Call X -> bool) (held : Held)
  (t : list entry) : option Held :=
  match t with
  | [] => Some held
  | e :: t' =>
      match ev_call e with
      | acquire l =>
          if holds held l then None
          else lock_discipline guarded (set_held held l true) t'
      | release l =>
          if holds held l then lock_discipline guarded (set_held held l false) t'
          else None
      | _ =>
          if on (@allowed guarded held) e then lock_discipline guarded held t'
          else None
      end
  end.

(** A run from [held] that keeps the discipline and, unless it exhausts the
    iteration bound, ends with the locks [held] again. *)
Definition keeps_locks (guarded : forall X : Type, Call X -> bool) (held : Held)
  {R : Type} (p : Prog R) : Prop :=
  all_runs p (fun o t =>
                match lock_discipline guarded held t with
                | Some held' => o = Diverged \/ held' = held
                | None => False
                end).

(** The same of one run that starts with no lock held. *)
Definition disciplined (guarded : forall X : Type, Call X -> bool) {R : Type}
  (o : outcome R) (t : list entry) : Prop :=
  match lock_discipline guarded none_held t with
  | Some held => o = Diverged \/ held = none_held
  | None => False
  end.

(** Every [guarded] call of the trace is made between an [acquire] and the
    next [release] of the lock of the block chain; [held] tells whether the
    lock is held when the trace starts. *)
Fixpoint under_blockchain_lock (guarded : forall X : Type, Call X -> bool) (held : bool)
  (t : list entry) : bool :=
  match t with
  | [] => true
  | e :: t' =>
      match ev_call e with
      | acquire l =>
          under_blockchain_lock guarded
            (match l with blockchain_lock => true | timelord_lock => held end) t'
      | release l =>
          under_blockchain_lock guarded
            (match l with blockchain_lock => false | timelord_lock => held end) t'
      | _ => (negb (on guarded e) || held) && under_blockchain_lock guarded held t'
      end
  end.

End readings.

(** ** A further sample world *)

Module more_scenarios.

Import full_node Sample Scenario.

(** The peer serves the block on top of our peak. *)
Definition with_next_peer : World :=
  {| sync_mode := false; shut_down := false; peak := Some our_peak;
     records := [our_peak]; seen_unfinished_blocks := []; unfinished_blocks := [];
     batch_syncing := []; connections := [peer]; peer_peaks := [];
     peer_blocks := [next_block]; weight_proof := None; clock := 1600000000 |}.

(** The sample collaborators around a task that is cancelled: the first
    [await] that can be cancelled is. *)
Definition env_cancelled (X : Type) (c : Call X) (w : World) : X * World :=
  match c in Call X return X * World with
  | task_cancelled => (true, w)
  | c' => env c' w
  end.

End more_scenarios.

(** ** [respond_end_of_sub_slot] *)

(** The handler makes two calls and builds two messages that no other
    handler of the development makes or builds. Its programs are written
    over the calls of the other handlers and these two. *)

Module end_of_sub_slot.

Import full_node.

(** [SUB_SLOT_ITERS_STARTING] and [DIFFICULTY_STARTING] of
    [self.constants]. *)
Record StartingConstants : Type := {
  SUB_SLOT_ITERS_STARTING : Z;
  DIFFICULTY_STARTING : Z
}.

(** [full_node_protocol.RequestSignagePointOrEndOfSubSlot] and
    [farmer_protocol.NewSignagePoint]. *)
Inductive SlotPayload : Type :=
| RequestSignagePointOrEndOfSubSlot (challenge_hash : bytes32)
    (index_from_challenge : Z) (last_rc_infusion : bytes32)
| farmer_NewSignagePoint (challenge_hash challenge_chain_sp reward_chain_sp : bytes32)
    (difficulty sub_slot_iters signage_point_index : Z).

Record SlotMessage : Type := { slot_function : string; slot_data : SlotPayload }.

Inductive SlotCall : Type -> Type :=
(* a call that the other handlers make too *)
| node_call (X : Type) (c : Call X) : SlotCall X
(* self.full_node_store.new_finished_sub_slot(eos, self.blockchain, peak) *)
| full_node_store_new_finished_sub_slot (eos : EndOfSubSlotBundle.t)
    (peak : option SubBlockRecord.t) : SlotCall (option (list NewInfusionPointVDF.t))
(* await self.server.send_to_all(messages, node_type) with a farmer message *)
| server_send_slot_to_all (messages : list SlotMessage) (node_type : NodeType)
    : SlotCall unit.
Arguments node_call {X} c.

Inductive SlotProg (R : Type) : Type :=
| SRet (r : R)
| SRaise (e : PyExn)
| SOutOfFuel
| SVis (X : Type) (c : SlotCall X) (k : X -> SlotProg R).
Arguments SRaise {R} e.
Arguments SOutOfFuel {R}.

Fixpoint sbind {A B : Type} (p : SlotProg A) (f : A -> SlotProg B) : SlotProg B :=
  match p with
  | SRet a => f a
  | SRaise e => SRaise e
  | SOutOfFuel => SOutOfFuel
  | SVis c k => SVis c (fun x => sbind (k x) f)
  end.

Definition scall {X : Type} (c : SlotCall X) : SlotProg X := SVis c (fun x => SRet x).

(** A program of the other handlers, as a part of this one. *)
Fixpoint lift {R : Type} (p : Prog R) : SlotProg R :=
  match p with
  | Ret r => SRet r
  | Raise e => SRaise e
  | OutOfFuel => SOutOfFuel
  | Vis c k => SVis (node_call c) (fun x => lift (k x))
  end.

Declare Scope slot_scope.
Delimit Scope slot_scope with slot.
Notation "x <- p ;; q" := (sbind p (fun x => q))
  (at level 100, p at next level, right associativity) : slot_scope.
Notation "' pat <- p ;; q" := (sbind p (fun x => match x with pat => q end))
  (at level 100, pat pattern, p at next level, right associativity) : slot_scope.
Notation "p ;; q" := (sbind p (fun _ => q))
  (at level 100, right associativity) : slot_scope.
Local Open Scope slot_scope.

(** [try: p finally: fin], as [try_finally]. *)
Fixpoint s_try_finally {R : Type} (p : SlotProg R) (fin : SlotProg (option R))
  : SlotProg R :=
  match p with
  | SRet r => o <- fin ;; match o with Some r' => SRet r' | None => SRet r end
  | SRaise e => o <- fin ;; match o with Some r' => SRet r' | None => SRaise e end
  | SOutOfFuel => SOutOfFuel
  | SVis c k => SVis c (fun x => s_try_finally (k x) fin)
  end.

(** [async with lock: p]. *)
Definition s_with_lock {R : Type} (l : Lock) (p : SlotProg R) : SlotProg R :=
  scall (node_call (acquire l)) ;;
  s_try_finally p (scall (node_call (release l)) ;; SRet None).

Fixpoint s_for_each {A : Type} (l : list A) (body : A -> SlotProg unit) : SlotProg unit :=
  match l with
  | [] => SRet tt
  | x :: l' => body x ;; s_for_each l' body
  end.

(** One performed call and its answer. *)
Record slot_entry : Type :=
  SEv { sev_type : Type; sev_call : SlotCall sev_type; sev_answer : sev_type }.
Arguments SEv {sev_type} sev_call sev_answer.

Section SlotRun.

Variable W : Type.
Variable env : forall X : Type, SlotCall X -> W -> X * W.

Fixpoint slot_run {R : Type} (p : SlotProg R) (w : W)
  : outcome R * W * list slot_entry :=
  match p with
  | SRet r => (Returned r, w, [])
  | SRaise e => (Raised e, w, [])
  | SOutOfFuel => (Diverged, w, [])
  | SVis c k =>
      let '(o, w', t) := slot_run (k (fst (env c w))) (snd (env c w)) in
      (o, w', SEv c (fst (env c w)) :: t)
  end.

Definition slot_trace {R : Type} (r : outcome R * W * list slot_entry)
  : list slot_entry := snd r.

End SlotRun.

(** [Q] holds of the outcome and the trace of [p] whatever the calls
    answer. *)
Fixpoint all_slot_runs {R : Type} (p : SlotProg R)
  (Q : outcome R -> list slot_entry -> Prop) : Prop :=
  match p with
  | SRet r => Q (Returned r) []
  | SRaise e => Q (Raised e) []
  | SOutOfFuel => Q Diverged []
  | SVis c k => forall x, all_slot_runs (k x) (fun o t => Q o (SEv c x :: t))
  end.

Section Handler.

Context {node : Node}.
Variable starting : StartingConstants.
Variable fuel : nat.

(** [respond_end_of_sub_slot], lines 1186-1264. The first argument is the
    [end_of_slot_bundle] of the request. *)
Definition respond_end_of_sub_slot (end_of_slot_bundle : EndOfSubSlotBundle.t)
  (peer : WSChiaConnection.t) : SlotProg (option SlotMessage * bool) :=
  let challenge_chain := EndOfSubSlotBundle.challenge_chain end_of_slot_bundle in
  let reward_chain := EndOfSubSlotBundle.reward_chain end_of_slot_bundle in
  let challenge :=
    VDFInfo.challenge
      (ChallengeChainSubSlot.challenge_chain_end_of_slot_vdf challenge_chain) in
  returned <-
    s_with_lock timelord_lock
      (fetched_ss <- scall (node_call (full_node_store_get_sub_slot challenge)) ;;
       if negb (is_some fetched_ss)
          && negb (bytes_eqb challenge (FIRST_CC_CHALLENGE constants))
       then
         let full_node_request :=
           RequestSignagePointOrEndOfSubSlot challenge 0 (repeat x00 32) in
         SRet (Some (Some {| slot_function := "request_signage_point_or_end_of_sub_slot";
                             slot_data := full_node_request |},
                     false))
       else
         peak <- scall (node_call blockchain_get_peak) ;;
         '(next_sub_slot_iters, next_difficulty) <-
           match peak with
           | Some peak =>
               if 2 <? SubBlockRecord.sub_block_height peak then
                 next_sub_slot_iters <-
                   scall (node_call (blockchain_get_next_slot_iters
                                       (SubBlockRecord.header_hash peak) true)) ;;
                 next_difficulty <-
                   scall (node_call (blockchain_get_next_difficulty
                                       (SubBlockRecord.header_hash peak) true)) ;;
                 SRet (next_sub_slot_iters, next_difficulty)
               else
                 SRet (SUB_SLOT_ITERS_STARTING starting, DIFFICULTY_STARTING starting)
           | None =>
               SRet (SUB_SLOT_ITERS_STARTING starting, DIFFICULTY_STARTING starting)
           end ;;
         peak' <- scall (node_call blockchain_get_peak) ;;
         new_infusions <-
           scall (full_node_store_new_finished_sub_slot end_of_slot_bundle peak') ;;
         match new_infusions with
         | Some new_infusions =>
             (* the message reads len(self.full_node_store.finished_sub_slots) *)
             scall (node_call full_node_store_finished_sub_slots) ;;
             scall (node_call (log info "Finished sub slot")) ;;
             let broadcast :=
               NewSignagePointOrEndOfSubSlot challenge
                 (ChallengeChainSubSlot.get_hash challenge_chain) 0
                 (VDFInfo.challenge (RewardChainSubSlot.end_of_slot_vdf reward_chain)) in
             let msg := {| function := "new_signage_point_or_end_of_sub_slot";
                           data := broadcast |} in
             scall (node_call (server_send_to_all_except [msg] FULL_NODE
                                 (WSChiaConnection.peer_node_id peer))) ;;
             s_for_each new_infusions
               (fun infusion => lift (new_infusion_point_vdf fuel infusion) ;; SRet tt) ;;
             let broadcast_farmer :=
               farmer_NewSignagePoint
                 (ChallengeChainSubSlot.get_hash challenge_chain)
                 (ChallengeChainSubSlot.get_hash challenge_chain)
                 (RewardChainSubSlot.get_hash reward_chain)
                 next_difficulty next_sub_slot_iters 0 in
             let msg := {| slot_function := "new_signage_point";
                           slot_data := broadcast_farmer |} in
             scall (server_send_slot_to_all [msg] FARMER) ;;
             SRet (Some (None, true))
         | None =>
             scall (node_call (log info "End of slot not added CC challenge")) ;;
             SRet None
         end) ;;
  match returned with
  | Some r => SRet r
  | None => SRet (None, false)
  end.

End Handler.

(** *** Reading a trace of the handler *)

(** The use a call makes of a lock: [true] for an acquire. *)
Definition lock_use (e : slot_entry) : option (bool * Lock) :=
  match sev_call e with
  | node_call c =>
      match c with
      | acquire l => Some (true, l)
      | release l => Some (false, l)
      | _ => None
      end
  | _ => None
  end.

Definition same_lock (a b : Lock) : bool :=
  match a, b with
  | blockchain_lock, blockchain_lock => true
  | timelord_lock, timelord_lock => true
  | _, _ => false
  end.

(** The trace acquires the lock [l] at a point where it holds it; [held]
    tells whether [l] is held when the trace starts. An [asyncio.Lock] is
    not reentrant: the task that does this waits for itself. *)
Fixpoint reacquires (l : Lock) (held : bool) (t : list slot_entry) : bool :=
  match t with
  | [] => false
  | e :: t' =>
      match lock_use e with
      | Some (true, l') =>
          if same_lock l l' then held || reacquires l true t' else reacquires l held t'
      | Some (false, l') =>
          if same_lock l l' then reacquires l false t' else reacquires l held t'
      | None => reacquires l held t'
      end
  end.

(** [new_finished_sub_slot] answered a list with at least one infusion
    point. *)
Definition gives_infusions (e : slot_entry) : bool :=
  match e with
  | SEv c a =>
      match c in SlotCall X return X -> bool with
      | full_node_store_new_finished_sub_slot _ _ =>
          fun a => match a with Some (_ :: _) => true | _ => false end
      | _ => fun _ => false
      end a
  end.

End end_of_sub_slot.

(** *** The sample node at the end of a sub-slot *)

Module slot_scenario.

Import full_node Sample Scenario end_of_sub_slot.

Definition starting : StartingConstants :=
  {| SUB_SLOT_ITERS_STARTING := 6400; DIFFICULTY_STARTING := 1 |}.

(** The store answers the given infusion points for every finished
    sub-slot; the other calls are answered as on the sample node. *)
Definition slot_env (new_infusions : option (list NewInfusionPointVDF.t))
  (X : Type) (c : SlotCall X) (w : World) : X * World :=
  match c in SlotCall X return X * World with
  | node_call c' => env c' w
  | full_node_store_new_finished_sub_slot _ _ => (new_infusions, w)
  | server_send_slot_to_all _ _ => (tt, w)
  end.

(** The end of the first sub-slot. *)
Definition first_end_of_slot : EndOfSubSlotBundle.t := end_of_slot xc0 None.

End slot_scenario.

(** * Facts about programs and their runs *)

Module run_facts.

Import full_node.
Local Open Scope prog_scope.

Section Runs.

Variable W : Type.
Variable env : forall X : Type, Call X -> W -> X * W.

Lemma run_triple (R : Type) (r : outcome R * W * list entry) :
  r = (result_of r, state_of r, trace_of r).
Proof. destruct r as [[o w] t]. reflexivity. Qed.

Lemma run_vis (R X : Type) (c : Call X) (k : X -> Prog R) (w : W) :
  run env (Vis c k) w
  = (result_of (run env (k (answer env c w)) (after env c w)),
     state_of (run env (k (answer env c w)) (after env c w)),
     Ev c (answer env c w) :: trace_of (run env (k (answer env c w)) (after env c w))).
Proof.
  cbn [run]. destruct (run env (k (answer env c w)) (after env c w)) as [[o w'] t].
  reflexivity.
Qed.

Lemma run_bind (A B : Type) (p : Prog A) (f : A -> Prog B) (w : W) :
  run env (bind p f) w = then_run env f (run env p w).
Proof.
  revert w. induction p as [a | e | | X c k IH]; intros w.
  - cbn. apply run_triple.
  - reflexivity.
  - reflexivity.
  - cbn [bind]. rewrite !run_vis. rewrite IH. unfold then_run. cbn.
    destruct (result_of (run env (k (answer env c w)) (after env c w))); reflexivity.
Qed.

Lemma run_bind_returned (A B : Type) (p : Prog A) (f : A -> Prog B) (w w1 : W)
  (a : A) (t1 : list entry) :
  run env p w = (Returned a, w1, t1) ->
  run env (bind p f) w
  = (result_of (run env (f a) w1), state_of (run env (f a) w1),
     t1 ++ trace_of (run env (f a) w1)).
Proof. intros H. rewrite run_bind, H. reflexivity. Qed.

Lemma run_try_except (R : Type) (p : Prog R) (handler : PyExn -> Prog R) (w : W) :
  run env (try_except p handler) w
  = match result_of (run env p w) with
    | Raised e =>
        (result_of (run env (handler e) (state_of (run env p w))),
         state_of (run env (handler e) (state_of (run env p w))),
         trace_of (run env p w)
         ++ trace_of (run env (handler e) (state_of (run env p w))))
    | _ => run env p w
    end.
Proof.
  revert w. induction p as [a | e | | X c k IH]; intros w.
  - reflexivity.
  - cbn. apply run_triple.
  - reflexivity.
  - cbn [try_except run]. rewrite IH.
    destruct (run env (k (answer env c w)) (after env c w)) as [[o w'] t].
    destruct o as [r | e |]; cbn; try reflexivity;
      destruct (run env (handler e) w') as [[o2 w2] t2]; reflexivity.
Qed.

Lemma run_try_finally (R : Type) (p : Prog R) (fin : Prog (option R)) (w : W) :
  run env (try_finally p fin) w
  = match result_of (run env p w) with
    | Returned r =>
        then_run env (fun o => match o with Some r' => Ret r' | None => Ret r end)
          (then_run env (fun _ : unit => fin) (Returned tt, state_of (run env p w), trace_of (run env p w)))
    | Raised e =>
        then_run env (fun o => match o with Some r' => Ret r' | None => Raise e end)
          (then_run env (fun _ : unit => fin) (Returned tt, state_of (run env p w), trace_of (run env p w)))
    | Diverged => run env p w
    end.
Proof.
  revert w. induction p as [a | e | | X c k IH]; intros w.
  - cbn [try_finally]. rewrite run_bind. cbn. unfold then_run. cbn.
    destruct (run env fin w) as [[o w'] t]. destruct o as [[r'|] | e |]; cbn;
      rewrite ?app_nil_r; reflexivity.
  - cbn [try_finally]. rewrite run_bind. cbn. unfold then_run. cbn.
    destruct (run env fin w) as [[o w'] t]. destruct o as [[r'|] | e' |]; cbn;
      rewrite ?app_nil_r; reflexivity.
  - reflexivity.
  - cbn [try_finally run]. rewrite IH.
    destruct (run env (k (answer env c w)) (after env c w)) as [[o w'] t].
    destruct o as [r | e |]; cbn; try reflexivity; unfold then_run; cbn;
      destruct (run env fin w') as [[o2 w2] t2]; destruct o2 as [[r'|] | e' |]; cbn;
      reflexivity.
Qed.

Lemma run_with_lock (R : Type) (l : Lock) (p : Prog R) (w : W) :
  run env (with_lock l p) w
  = match result_of (run env p (after env (acquire l) w)) with
    | Diverged =>
        (Diverged, state_of (run env p (after env (acquire l) w)),
         Ev (acquire l) tt :: trace_of (run env p (after env (acquire l) w)))
    | o =>
        (o, after env (release l) (state_of (run env p (after env (acquire l) w))),
         Ev (acquire l) tt
         :: trace_of (run env p (after env (acquire l) w)) ++ [Ev (release l) tt])
    end.
Proof.
  unfold with_lock. cbn [bind call]. rewrite run_vis.
  destruct (answer env (acquire l) w).
  rewrite run_try_finally.
  destruct (run env p (after env (acquire l) w)) as [[o w'] t].
  cbn [result_of state_of trace_of fst snd].
  destruct o as [r | e |]; try reflexivity;
    unfold then_run; cbn [result_of state_of trace_of fst snd bind call];
    rewrite run_vis; destruct (answer env (release l) w');
    cbn; rewrite ?app_nil_r; reflexivity.
Qed.

End Runs.

End run_facts.

(** * Properties of every run *)

Module every_run.

Import full_node run_facts.
Local Open Scope prog_scope.

Lemma all_runs_run (W : Type) (env : forall X : Type, Call X -> W -> X * W)
  (R : Type) (p : Prog R) (Q : outcome R -> list entry -> Prop) (w : W) :
  all_runs p Q -> Q (result_of (run env p w)) (trace_of (run env p w)).
Proof.
  revert Q w. induction p as [a | e | | X c k IH]; intros Q w H; try exact H.
  rewrite run_vis. cbn. apply (IH _ (fun o t => Q o (Ev c (answer env c w) :: t))).
  apply H.
Qed.

Lemma all_runs_mono (R : Type) (p : Prog R) (Q Q' : outcome R -> list entry -> Prop) :
  (forall o t, Q o t -> Q' o t) -> all_runs p Q -> all_runs p Q'.
Proof.
  revert Q Q'. induction p as [a | e | | X c k IH]; intros Q Q' HQ H; cbn in *;
    [apply HQ, H | apply HQ, H | apply HQ, H |].
  intros x. eapply IH; [| apply H]. cbn. intros o t. apply HQ.
Qed.

Lemma all_runs_always (R : Type) (p : Prog R) (Q : outcome R -> list entry -> Prop) :
  (forall o t, Q o t) -> all_runs p Q.
Proof.
  revert Q. induction p as [a | e | | X c k IH]; intros Q HQ; cbn; auto.
Qed.

Lemma all_runs_and (R : Type) (p : Prog R) (Q1 Q2 : outcome R -> list entry -> Prop) :
  all_runs p Q1 -> all_runs p Q2 -> all_runs p (fun o t => Q1 o t /\ Q2 o t).
Proof.
  revert Q1 Q2. induction p as [a | e | | X c k IH]; intros Q1 Q2 H1 H2; cbn in *;
    [split; assumption | split; assumption | split; assumption |].
  intros x. apply (IH x (fun o t => Q1 o (Ev c x :: t)) (fun o t => Q2 o (Ev c x :: t)));
    [apply H1 | apply H2].
Qed.

Lemma all_runs_bind (A B : Type) (p : Prog A) (f : A -> Prog B)
  (Q : outcome B -> list entry -> Prop) :
  all_runs p (then_all f Q) -> all_runs (bind p f) Q.
Proof.
  revert Q. induction p as [a | e | | X c k IH]; intros Q H; cbn in *;
    [exact H | exact H | exact H | intros x; apply IH; apply H].
Qed.

Lemma all_runs_bind_call (X B : Type) (c : Call X) (f : X -> Prog B)
  (Q : outcome B -> list entry -> Prop) :
  (forall x, all_runs (f x) (fun o t => Q o (Ev c x :: t))) ->
  all_runs (bind (call c) f) Q.
Proof. intros H. cbn. exact H. Qed.

Lemma all_runs_try_except (R : Type) (p : Prog R) (handler : PyExn -> Prog R)
  (Q : outcome R -> list entry -> Prop) :
  all_runs p (fun o t =>
                match o with
                | Raised e => all_runs (handler e) (fun o' t' => Q o' (t ++ t'))
                | _ => Q o t
                end) ->
  all_runs (try_except p handler) Q.
Proof.
  revert Q. induction p as [a | e | | X c k IH]; intros Q H; cbn in *;
    [exact H | exact H | exact H | intros x; apply IH; apply H].
Qed.

Lemma all_runs_try_finally (R : Type) (p : Prog R) (fin : Prog (option R))
  (Q : outcome R -> list entry -> Prop) :
  all_runs p (fun o t =>
                match o with
                | Returned r =>
                    all_runs fin (fun o' t' =>
                      match o' with
                      | Returned (Some r') => Q (Returned r') (t ++ t')
                      | Returned None => Q (Returned r) (t ++ t')
                      | Raised e' => Q (Raised e') (t ++ t')
                      | Diverged => Q Diverged (t ++ t')
                      end)
                | Raised e =>
                    all_runs fin (fun o' t' =>
                      match o' with
                      | Returned (Some r') => Q (Returned r') (t ++ t')
                      | Returned None => Q (Raised e) (t ++ t')
                      | Raised e' => Q (Raised e') (t ++ t')
                      | Diverged => Q Diverged (t ++ t')
                      end)
                | Diverged => Q Diverged t
                end) ->
  all_runs (try_finally p fin) Q.
Proof.
  revert Q. induction p as [a | e | | X c k IH]; intros Q H; cbn [try_finally].
  - apply all_runs_bind. cbn in H. eapply all_runs_mono; [| apply H].
    intros [[r' |] | e' |] t; cbn; rewrite ?app_nil_r; auto.
  - apply all_runs_bind. cbn in H. eapply all_runs_mono; [| apply H].
    intros [[r' |] | e' |] t; cbn; rewrite ?app_nil_r; auto.
  - exact H.
  - cbn. intros x. apply IH. eapply all_runs_mono; [| apply (H x)].
    intros [r | e |] t; cbn; auto.
Qed.

Section Silent.

Variable P : forall X : Type, Call X -> bool.

Lemma silent_ret (R : Type) (r : R) : silent P (Ret r).
Proof. constructor. Qed.

Lemma silent_raise (R : Type) (e : PyExn) : silent P (@Raise R e).
Proof. constructor. Qed.

Lemma silent_out_of_fuel (R : Type) : silent P (@OutOfFuel R).
Proof. constructor. Qed.

Lemma silent_vis (R X : Type) (c : Call X) (k : X -> Prog R) :
  P c = false -> (forall x, silent P (k x)) -> silent P (Vis c k).
Proof.
  intros Hc Hk x. eapply all_runs_mono; [| apply (Hk x)].
  intros o t Ht. constructor; assumption.
Qed.

Lemma silent_call (X : Type) (c : Call X) : P c = false -> silent P (call c).
Proof. intros Hc. apply silent_vis; [assumption | intros x; apply silent_ret]. Qed.

Lemma silent_bind (A B : Type) (p : Prog A) (f : A -> Prog B) :
  silent P p -> (forall a, silent P (f a)) -> silent P (bind p f).
Proof.
  intros Hp Hf. apply all_runs_bind. eapply all_runs_mono; [| apply Hp].
  intros [a | e |] t Ht; cbn; auto.
  eapply all_runs_mono; [| apply (Hf a)].
  intros o t' Ht'. apply Forall_app. split; assumption.
Qed.

Lemma silent_try_except (R : Type) (p : Prog R) (handler : PyExn -> Prog R) :
  silent P p -> (forall e, silent P (handler e)) -> silent P (try_except p handler).
Proof.
  intros Hp Hh. apply all_runs_try_except. eapply all_runs_mono; [| apply Hp].
  intros [a | e |] t Ht; cbn; auto.
  eapply all_runs_mono; [| apply (Hh e)].
  intros o t' Ht'. apply Forall_app. split; assumption.
Qed.

Lemma silent_try_finally (R : Type) (p : Prog R) (fin : Prog (option R)) :
  silent P p -> silent P fin -> silent P (try_finally p fin).
Proof.
  intros Hp Hf. apply all_runs_try_finally. eapply all_runs_mono; [| apply Hp].
  intros [a | e |] t Ht; cbn; auto;
    (eapply all_runs_mono; [| apply Hf]);
    intros [[r' |] | e' |] t' Ht'; apply Forall_app; split; assumption.
Qed.

Lemma silent_with_lock (R : Type) (l : Lock) (p : Prog R) :
  P (acquire l) = false -> P (release l) = false ->
  silent P p -> silent P (with_lock l p).
Proof.
  intros Ha Hr Hp. unfold with_lock. apply silent_bind.
  - apply silent_call. assumption.
  - intros _. apply silent_try_finally; [assumption |].
    apply silent_bind; [apply silent_call; assumption | intros; apply silent_ret].
Qed.

Lemma silent_py_assert (b : bool) : silent P (py_assert b).
Proof. destruct b; constructor. Qed.

(** The trace of any run of a silent program has no call of the class. *)
Lemma silent_run (W : Type) (env : forall X : Type, Call X -> W -> X * W)
  (R : Type) (p : Prog R) (w : W) :
  silent P p -> Forall (fun e => on P e = false) (trace_of (run env p w)).
Proof.
  intros H. apply (all_runs_run env p (fun _ t => Forall (fun e => on P e = false) t) w H).
Qed.

(** A property of the state that every call outside the class keeps is
    kept by a run whose trace has no call of the class. *)
Lemma run_keeps (W : Type) (env : forall X : Type, Call X -> W -> X * W)
  (Inv : W -> Prop) :
  (forall (X : Type) (c : Call X) (w : W), P c = false -> Inv w -> Inv (after env c w)) ->
  forall (R : Type) (p : Prog R) (w : W),
    Forall (fun e => on P e = false) (trace_of (run env p w)) ->
    Inv w -> Inv (state_of (run env p w)).
Proof.
  intros Hkeep R p. induction p as [a | e | | X c k IH]; intros w Ht Hw; try exact Hw.
  rewrite run_vis in *. cbn in *. inversion Ht as [| e0 t0 Hc Ht0]; subst.
  apply IH; [exact Ht0 |]. apply Hkeep; assumption.
Qed.

End Silent.

Lemma silent_weaken (P P' : forall X : Type, Call X -> bool) (R : Type) (p : Prog R) :
  (forall (X : Type) (c : Call X), P X c = true -> P' X c = true) ->
  silent P' p -> silent P p.
Proof.
  intros HP H. eapply all_runs_mono; [| exact H]. cbn.
  intros _ t Ht. eapply Forall_impl; [| exact Ht].
  intros [X c a]. unfold on. cbn. specialize (HP X c).
  destruct (P X c); [| reflexivity]. intros Hc. rewrite HP in Hc; auto.
Qed.

(** One step of a proof that a program is silent. *)
Ltac silent_step :=
  lazymatch goal with
  | |- silent _ (Ret _) => apply silent_ret
  | |- silent _ (Raise _) => apply silent_raise
  | |- silent _ OutOfFuel => apply silent_out_of_fuel
  | |- silent _ (call _) => apply silent_call; reflexivity
  | |- silent _ (py_assert _) => apply silent_py_assert
  | |- silent _ (bind _ _) => apply silent_bind; [| intros ?]
  | |- silent _ (with_lock _ _) =>
      apply silent_with_lock; [reflexivity | reflexivity |]
  | |- silent _ (try_except _ _) => apply silent_try_except; [| intros ?]
  | |- silent _ (try_finally _ _) => apply silent_try_finally
  | |- silent _ (Vis _ _) => apply silent_vis; [reflexivity | intros ?]
  | |- silent _ (match ?x with _ => _ end) => destruct x
  | |- silent _ (let _ := _ in _) => cbv zeta
  end.

(** Where an entry of a class can stand in a trace that is silent before
    it, or silent after it. *)
Lemma split_after_silent (P : entry -> bool) (tl : list entry) :
  Forall (fun x => P x = false) tl ->
  forall (t t1 t2 : list entry) (e : entry),
    P e = true -> tl ++ t = t1 ++ e :: t2 ->
    exists t1', t1 = tl ++ t1' /\ t = t1' ++ e :: t2.
Proof.
  induction 1 as [| x tl Hx Htl IH]; intros t t1 t2 e He Heq.
  - exists t1. split; [reflexivity | exact Heq].
  - destruct t1 as [| y t1]; cbn in Heq; injection Heq as Hhead Htail.
    + subst x. rewrite He in Hx. discriminate Hx.
    + subst y. destruct (IH _ _ _ _ He Htail) as (t1' & -> & Ht).
      exists t1'. split; [reflexivity | exact Ht].
Qed.

Lemma split_before_silent (P : entry -> bool) (tr : list entry) :
  Forall (fun x => P x = false) tr ->
  forall (t t1 t2 : list entry) (e : entry),
    P e = true -> t ++ tr = t1 ++ e :: t2 ->
    exists t2', t2 = t2' ++ tr /\ t = t1 ++ e :: t2'.
Proof.
  intros Htr t. induction t as [| x t IH]; intros t1 t2 e He Heq.
  - cbn in Heq. subst tr. apply Forall_app in Htr. destruct Htr as [_ Htr].
    inversion Htr as [| e0 t0 Hfalse _]; subst. rewrite He in Hfalse. discriminate Hfalse.
  - destruct t1 as [| y t1]; cbn in Heq; injection Heq as Hhead Htail.
    + subst x. exists t. split; [symmetry; exact Htail | reflexivity].
    + subst y. destruct (IH _ _ _ He Htail) as (t2' & -> & ->).
      exists t2'. split; reflexivity.
Qed.

End every_run.

(** * The handlers of the full node *)

Module full_node_facts.

Import full_node run_facts every_run.
Local Open Scope prog_scope.

Section Handlers.

Context {node : Node}.
Variable fuel : nat.
Variable W : Type.
Variable env : forall X : Type, Call X -> W -> X * W.

(** C8: while the sync store reports sync mode, [respond_sub_block]
    returns None after the single call that reads the sync mode: no block
    is handed to the block chain, so the peak cannot move, and nothing is
    broadcast. *)
Theorem respond_sub_block_ignored_in_sync_mode (w : W) (sub_block : FullBlock.t)
  (peer : option WSChiaConnection.t) :
  answer env sync_store_get_sync_mode w = true ->
  run env (respond_sub_block fuel sub_block peer) w
  = (Returned None, after env sync_store_get_sync_mode w,
     [Ev sync_store_get_sync_mode true])
  /\ Forall (fun e => on (@adds_blocks) e = false /\ on (@broadcasts) e = false)
       (trace_of (run env (respond_sub_block fuel sub_block peer) w)).
Proof.
  intros Hmode.
  assert (Hrun : run env (respond_sub_block fuel sub_block peer) w
                 = (Returned None, after env sync_store_get_sync_mode w,
                    [Ev sync_store_get_sync_mode true])).
  { unfold respond_sub_block. cbn [bind call]. rewrite run_vis. rewrite Hmode.
    reflexivity. }
  split; [exact Hrun |].
  rewrite Hrun. repeat constructor.
Qed.

(** C9: [synced] returns, and returns true if and only if the block chain
    has a full peak, the peak has a foliage block whose timestamp is not
    before [int(now - 60 * 20)], and the sync store does not report sync
    mode; in every other case, a missing peak included, it returns false. *)
Theorem synced_iff (w : W) :
  let full_peak := answer env blockchain_get_block_peak w in
  let w1 := after env blockchain_get_block_peak w in
  let now := answer env time_time w1 in
  let sync_mode := answer env sync_store_get_sync_mode (after env time_time w1) in
  exists b : bool,
    result_of (run env synced w) = Returned b /\
    (b = true <->
     exists peak foliage_block,
       full_peak = Some peak /\
       FullBlock.foliage_block peak = Some foliage_block /\
       py_int (now - 60 * 20) <= FoliageBlock.timestamp foliage_block /\
       sync_mode = false).
Proof.
  cbv zeta. unfold synced. cbn [bind call]. rewrite !run_vis.
  cbn [result_of fst].
  destruct (answer env blockchain_get_block_peak w) as [peak |].
  - destruct (FullBlock.foliage_block peak) as [foliage_block |] eqn:Hfoliage.
    + destruct (FoliageBlock.timestamp foliage_block
                <? py_int (answer env time_time (after env blockchain_get_block_peak w)
                           - 60 * 20)) eqn:Hold.
      * exists false. split; [reflexivity |]. split; [discriminate |].
        intros (peak' & fb' & Hp & Hf & Hts & _).
        injection Hp as <-. rewrite Hfoliage in Hf. injection Hf as <-.
        apply Z.ltb_lt in Hold. lia.
      * cbn [bind]. rewrite run_vis. cbn [result_of fst].
        destruct (answer env sync_store_get_sync_mode
                    (after env time_time (after env blockchain_get_block_peak w)))
          eqn:Hmode.
        -- exists false. split; [reflexivity |]. split; [discriminate |].
           intros (_ & _ & _ & _ & _ & Hm). discriminate Hm.
        -- exists true. split; [reflexivity |]. split; [| reflexivity].
           intros _. exists peak, foliage_block. apply Z.ltb_ge in Hold.
           repeat split; auto.
    + exists false. split; [reflexivity |]. split; [discriminate |].
      intros (peak' & fb' & Hp & Hf & _). injection Hp as <-.
      rewrite Hfoliage in Hf. discriminate Hf.
  - exists false. split; [reflexivity |]. split; [discriminate |].
    intros (peak' & fb' & Hp & _). discriminate Hp.
Qed.

(** The walks along the chain make no call but the look-up of a record. *)
Lemma walk_to_first_in_sub_slot_silent (P : forall X : Type, Call X -> bool) :
  (forall h, P _ (blockchain_try_sub_block h) = false) ->
  forall n curr num, silent P (walk_to_first_in_sub_slot n curr num).
Proof.
  intros HP n. induction n as [| n IH]; intros curr num; cbn [walk_to_first_in_sub_slot];
    repeat first [apply IH | apply silent_call, HP | silent_step].
Qed.

Lemma unfinished_entry_checks_silent (P : forall X : Type, Call X -> bool) block :
  (forall h, P _ (full_node_store_seen_unfinished_block h) = false) ->
  (forall h, P _ (full_node_store_get_unfinished_block h) = false) ->
  (forall h, P _ (blockchain_contains_sub_block h) = false) ->
  (forall h, P _ (blockchain_sub_block_record h) = false) ->
  P _ blockchain_get_peak = false ->
  (forall l m, P _ (log l m) = false) ->
  silent P (unfinished_entry_checks block).
Proof.
  intros H1 H2 H3 H4 H5 H6. unfold unfinished_entry_checks.
  repeat first [apply silent_call; solve [auto] | silent_step].
Qed.

Lemma unfinished_count_and_new_epoch_silent (P : forall X : Type, Call X -> bool)
  block prev_sb :
  (forall h, P _ (blockchain_try_sub_block h) = false) ->
  (forall a b c d, P _ (can_finish_sub_and_full_epoch a b c d) = false) ->
  silent P (unfinished_count_and_new_epoch fuel block prev_sb).
Proof.
  intros H1 H2. unfold unfinished_count_and_new_epoch.
  repeat first [apply walk_to_first_in_sub_slot_silent; assumption
               | apply silent_call; solve [auto] | silent_step].
Qed.

Lemma find_prev_sb_silent (P : forall X : Type, Call X -> bool) :
  (forall h, P _ (blockchain_try_sub_block h) = false) ->
  forall n curr target, silent P (find_prev_sb n curr target).
Proof.
  intros HP n. induction n as [| n IH]; intros curr target; cbn [find_prev_sb];
    repeat first [apply IH | apply silent_call, HP | silent_step].
Qed.

Lemma walk_records_to_first_in_sub_slot_silent (P : forall X : Type, Call X -> bool) :
  (forall h, P _ (blockchain_sub_block_record h) = false) ->
  forall n curr, silent P (walk_records_to_first_in_sub_slot n curr).
Proof.
  intros HP n. induction n as [| n IH]; intros curr;
    cbn [walk_records_to_first_in_sub_slot];
    repeat first [apply IH | apply silent_call, HP | silent_step].
Qed.

Lemma infusion_point_assemble_silent request :
  silent (fun X c => @adds_blocks X c || broadcasts c) (infusion_point_assemble request).
Proof.
  unfold infusion_point_assemble.
  repeat first [apply find_prev_sb_silent; reflexivity | silent_step].
Qed.

Lemma infusion_first_ss_new_epoch_silent block prev_sb :
  silent (fun X c => @adds_blocks X c || broadcasts c)
    (infusion_first_ss_new_epoch fuel block prev_sb).
Proof.
  unfold infusion_first_ss_new_epoch.
  repeat first [apply walk_records_to_first_in_sub_slot_silent; reflexivity | silent_step].
Qed.

Lemma respond_unfinished_sub_block_silent block peer farmed_block :
  silent (@clears_seen) (respond_unfinished_sub_block fuel block peer farmed_block).
Proof.
  unfold respond_unfinished_sub_block, unfinished_validate_store_broadcast.
  repeat first [apply unfinished_entry_checks_silent; reflexivity
               | apply unfinished_count_and_new_epoch_silent; reflexivity
               | silent_step].
Qed.

(** C7: for [short_sync_batch peer start target] with [start > 0], when the
    block fetched first, at height [start], has a [prev_header_hash] that
    the block chain does not contain, the call returns False after three
    calls (the request, the lookup, a log line): the peer is not added to
    [batch_syncing] and no block is handed to the block chain, so
    [receive_sub_block_batch] is not called and the peak does not move. *)
Theorem short_sync_batch_first_block_disconnected (w : W) (peer : WSChiaConnection.t)
  (start_sub_height target_sub_height : Z) (first : FullBlock.t) :
  let request := peer_request_sub_block peer start_sub_height false None in
  let contains := blockchain_contains_sub_block (FullBlock.prev_header_hash first) in
  let note := log info "Batch syncing stopped, this is a deep chain" in
  let w1 := after env request w in
  let w2 := after env contains w1 in
  0 < start_sub_height ->
  answer env request w = Some (RespondSubBlock first) ->
  answer env contains w1 = false ->
  run env (short_sync_batch fuel peer start_sub_height target_sub_height) w
  = (Returned false, after env note w2,
     [Ev request (Some (RespondSubBlock first)); Ev contains false; Ev note tt])
  /\ Forall (fun e => on (@batch_syncing_adds) e = false /\ on (@adds_blocks) e = false)
       (trace_of (run env (short_sync_batch fuel peer start_sub_height target_sub_height) w)).
Proof.
  cbv zeta. intros Hstart Hfirst Hcontains.
  assert (Hrun : run env (short_sync_batch fuel peer start_sub_height target_sub_height) w
                 = (Returned false,
                    after env (log info "Batch syncing stopped, this is a deep chain")
                      (after env (blockchain_contains_sub_block (FullBlock.prev_header_hash first))
                         (after env (peer_request_sub_block peer start_sub_height false None) w)),
                    [Ev (peer_request_sub_block peer start_sub_height false None)
                       (Some (RespondSubBlock first));
                     Ev (blockchain_contains_sub_block (FullBlock.prev_header_hash first)) false;
                     Ev (log info "Batch syncing stopped, this is a deep chain") tt])).
  { unfold short_sync_batch. apply Z.ltb_lt in Hstart. rewrite Hstart.
    cbn [bind call]. rewrite run_vis. rewrite Hfirst. cbn [bind].
    rewrite run_vis. rewrite Hcontains. cbn [negb bind call]. rewrite run_vis.
    destruct (answer env (log info "Batch syncing stopped, this is a deep chain")
                (after env (blockchain_contains_sub_block (FullBlock.prev_header_hash first))
                   (after env (peer_request_sub_block peer start_sub_height false None) w))).
    reflexivity. }
  split; [exact Hrun |]. rewrite Hrun. repeat constructor.
Qed.

(** C1 (amended): when the local block chain has a peak whose weight is
    strictly greater than the announced weight, [new_peak] first records
    the (peer, peak) pair in the sync store, then returns, and none of its
    later calls starts or advances a sync: no block is requested from a
    peer (backtrack or batch sync), no peer is registered for batch sync,
    no long-sync task is launched, no block is handed to the block chain. *)
Theorem new_peak_heavier_local_peak_returns (w : W) (request : NewPeak.t)
  (peer : WSChiaConnection.t) (peak : SubBlockRecord.t) :
  let record_pair :=
    sync_store_add_peak_peer (NewPeak.header_hash request) (peer_node_id peer)
      (NewPeak.weight request) (NewPeak.sub_block_height request) in
  let contains := blockchain_contains_sub_block (NewPeak.header_hash request) in
  let w1 := after env record_pair w in
  let w2 := after env contains w1 in
  answer env blockchain_get_peak w2 = Some peak ->
  NewPeak.weight request < SubBlockRecord.weight peak ->
  exists (w' : W) (t : list entry),
    run env (new_peak fuel request peer) w = (Returned tt, w', Ev record_pair tt :: t)
    /\ Forall (fun e => on (@syncs) e = false) t.
Proof.
  cbv zeta. intros Hpeak Hweight. unfold new_peak. cbn [bind call].
  rewrite run_vis.
  destruct (answer env (sync_store_add_peak_peer (NewPeak.header_hash request)
                          (peer_node_id peer) (NewPeak.weight request)
                          (NewPeak.sub_block_height request)) w).
  rewrite run_vis.
  destruct (answer env (blockchain_contains_sub_block (NewPeak.header_hash request)) _)
    eqn:Hcontains.
  - eexists; eexists. split; [reflexivity |]. repeat constructor.
  - cbn [bind]. rewrite run_vis. rewrite Hpeak.
    apply Z.ltb_lt in Hweight. rewrite Hweight.
    eexists; eexists. split; [reflexivity |]. repeat constructor.
Qed.

(** C6: [respond_unfinished_sub_block] on an unfinished block whose partial
    hash the store has already seen returns after that one call; on one
    whose trunk hash (reward-chain hash) already has a stored unfinished
    block it returns after the two lookups. Either way nothing is stored
    and nothing is sent to timelords or full nodes. With a store that
    remembers the hashes it was asked about until they are cleared,
    delivering the same unfinished block a second time returns after the
    first lookup. *)
Theorem respond_unfinished_sub_block_duplicate (w : W) (block : UnfinishedBlock.t)
  (peer : option WSChiaConnection.t) (farmed_block : bool) :
  let seen := full_node_store_seen_unfinished_block (UnfinishedBlock.get_hash block) in
  let stored := full_node_store_get_unfinished_block (trunk_hash block) in
  (answer env seen w = true ->
   run env (respond_unfinished_sub_block fuel block peer farmed_block) w
   = (Returned tt, after env seen w, [Ev seen true]))
  /\
  (forall u : UnfinishedBlock.t,
     answer env seen w = false ->
     answer env stored (after env seen w) = Some u ->
     run env (respond_unfinished_sub_block fuel block peer farmed_block) w
     = (Returned tt, after env stored (after env seen w),
        [Ev seen false; Ev stored (Some u)]))
  /\
  ((forall (w0 : W) (h : bytes32),
      answer env (full_node_store_seen_unfinished_block h)
        (after env (full_node_store_seen_unfinished_block h) w0) = true) ->
   (forall (X : Type) (c : Call X) (w0 : W) (h : bytes32),
      clears_seen c = false ->
      answer env (full_node_store_seen_unfinished_block h) w0 = true ->
      answer env (full_node_store_seen_unfinished_block h) (after env c w0) = true) ->
   forall (peer' : option WSChiaConnection.t) (farmed_block' : bool),
     let w' := state_of (run env (respond_unfinished_sub_block fuel block peer farmed_block) w) in
     run env (respond_unfinished_sub_block fuel block peer' farmed_block') w'
     = (Returned tt, after env seen w', [Ev seen true])).
Proof.
  cbv zeta.
  assert (Hseen : forall w0 peer0 farmed0,
             answer env (full_node_store_seen_unfinished_block
                           (UnfinishedBlock.get_hash block)) w0 = true ->
             run env (respond_unfinished_sub_block fuel block peer0 farmed0) w0
             = (Returned tt,
                after env (full_node_store_seen_unfinished_block
                             (UnfinishedBlock.get_hash block)) w0,
                [Ev (full_node_store_seen_unfinished_block
                       (UnfinishedBlock.get_hash block)) true])).
  { intros w0 peer0 farmed0 H.
    unfold respond_unfinished_sub_block, unfinished_entry_checks.
    cbn [bind call]. rewrite run_vis. rewrite H. reflexivity. }
  split; [apply Hseen |]. split.
  - intros u Hnew Hstored.
    unfold respond_unfinished_sub_block, unfinished_entry_checks.
    cbn [bind call]. rewrite run_vis. rewrite Hnew. cbn [bind].
    rewrite run_vis. rewrite Hstored. reflexivity.
  - intros Hmark Hkeep peer' farmed_block'. apply Hseen.
    pose proof (@silent_run _ _ env _ _ w
                  (respond_unfinished_sub_block_silent block peer farmed_block)) as Hquiet.
    remember (respond_unfinished_sub_block fuel block peer farmed_block) as p eqn:Hp.
    unfold respond_unfinished_sub_block, unfinished_entry_checks in Hp.
    cbn [bind call] in Hp. subst p. rewrite run_vis in Hquiet |- *.
    cbn [trace_of state_of fst snd] in Hquiet |- *.
    inversion Hquiet as [| e0 t0 _ Hrest]; subst.
    apply (run_keeps (@clears_seen) env
             (fun w0 => answer env (full_node_store_seen_unfinished_block
                                      (UnfinishedBlock.get_hash block)) w0 = true)).
    + intros X c w0 Hc Hw0. apply Hkeep; assumption.
    + exact Hrest.
    + apply Hmark.
Qed.

(** The loop of [receive_sub_block_batch]: it leaves the function with a
    failure exactly when a result carries an error or a block is rejected,
    and otherwise ends having advanced the peak exactly when it had before
    or a block became the peak. *)
Lemma receive_sub_block_batch_loop_result (peer : WSChiaConnection.t)
  (fork_point : option Z) (blocks : list FullBlock.t) :
  forall (pre_validation_results : list PreValidationResult.t)
         (advanced_peak : bool) (fork_height : option Z) (w : W),
    List.length pre_validation_results = List.length blocks ->
    forallb well_formed pre_validation_results = true ->
    forallb known_error pre_validation_results = true ->
    let r := run env (receive_sub_block_batch_loop blocks pre_validation_results peer
                        fork_point advanced_peak fork_height) w in
    let results := receive_block_results (trace_of r) in
    if existsb has_error pre_validation_results || existsb rejects results
    then exists a f, result_of r = Returned (false, a, f)
    else exists f,
        result_of r
        = Returned (true,
                    advanced_peak || existsb (ReceiveBlockResult_eqb NEW_PEAK) results, f).
Proof.
  induction blocks as [| block blocks IH];
    intros [| result_i results'] advanced_peak fork_height w Hlen Hwf Hknown;
    try discriminate Hlen.
  - cbn. rewrite orb_false_r. eexists. reflexivity.
  - cbn [receive_sub_block_batch_loop existsb].
    cbn [forallb] in Hwf, Hknown.
    apply andb_true_iff in Hwf. destruct Hwf as [Hwf0 Hwf].
    apply andb_true_iff in Hknown. destruct Hknown as [Hknown0 Hknown].
    injection Hlen as Hlen. unfold well_formed in Hwf0. unfold known_error in Hknown0.
    unfold has_error in *.
    destruct (PreValidationResult.error result_i) as [code |] eqn:Herr.
    + destruct (Err_of_code code) as [err |]; [| discriminate Hknown0].
      cbn. eexists; eexists. reflexivity.
    + cbn [is_some orb] in Hwf0 |- *. rewrite Hwf0. cbn [py_assert bind call].
      rewrite run_vis. cbn [result_of trace_of fst snd].
      destruct (answer env (blockchain_receive_block block result_i
                              (if advanced_peak then None else fork_point)) w)
        as [[result error_code] fork_height'] eqn:Hanswer.
      cbn [receive_block_results receive_block_result fst].
      specialize (IH results').
      destruct result;
        try (destruct (is_some error_code); cbn; rewrite orb_true_r;
             eexists; eexists; reflexivity);
        cbn [ReceiveBlockResult_eqb rejects existsb orb bind call];
        rewrite run_vis; cbn [result_of trace_of fst snd receive_block_results
                                receive_block_result];
        match goal with
        | |- context [if is_some ?x then _ else _] => destruct (is_some x)
        end;
        cbn [bind call]; rewrite ?run_vis;
        cbn [result_of trace_of fst snd receive_block_results receive_block_result];
        match goal with
        | |- context [run env (receive_sub_block_batch_loop blocks results' peer
                                 fork_point ?a ?f) ?w0] =>
            specialize (IH a f w0 Hlen Hwf Hknown); cbv zeta in IH
        end;
        rewrite ?orb_true_r, ?orb_true_l, ?orb_false_l in *;
        exact IH.
Qed.

(** C2 (amended): [receive_sub_block_batch] on an ordered batch of blocks.
    When pre-validation gives no list of results, the call returns
    [(false, false, None)] and [receive_block] is not called. When it gives
    a list with one result per block, in which every result without an
    error carries the required iterations and every error code is the
    value of a member of [Err]: if some result carries an error, or
    [receive_block] answers INVALID_BLOCK or DISCONNECTED_BLOCK for some
    block, the first component of the returned triple is false; otherwise
    the call returns [(true, advanced_peak, fork_height)], where
    [advanced_peak] is true if and only if some [receive_block] call of the
    batch answered NEW_PEAK. *)
Theorem receive_sub_block_batch_result (w : W) (blocks : list FullBlock.t)
  (peer : WSChiaConnection.t) (fork_point : option Z) :
  let pre_validation := answer env (blockchain_pre_validate_blocks_multiprocessing blocks) w in
  let r := run env (receive_sub_block_batch blocks peer fork_point) w in
  let results := receive_block_results (trace_of r) in
  match pre_validation with
  | None => result_of r = Returned (false, false, None) /\ results = []
  | Some pre_validation_results =>
      List.length pre_validation_results = List.length blocks ->
      forallb well_formed pre_validation_results = true ->
      forallb known_error pre_validation_results = true ->
      if existsb has_error pre_validation_results || existsb rejects results
      then exists advanced_peak fork_height,
          result_of r = Returned (false, advanced_peak, fork_height)
      else exists fork_height,
          result_of r
          = Returned (true, existsb (ReceiveBlockResult_eqb NEW_PEAK) results,
                      fork_height)
  end.
Proof.
  cbv zeta. unfold receive_sub_block_batch. cbn [bind call].
  rewrite run_vis. cbn [result_of trace_of fst snd receive_block_results
                          receive_block_result].
  destruct (answer env (blockchain_pre_validate_blocks_multiprocessing blocks) w)
    as [pre_validation_results |].
  - intros Hlen Hall Hknown.
    pose proof (receive_sub_block_batch_loop_result peer fork_point blocks
                  pre_validation_results false (Some 0)
                  (after env (blockchain_pre_validate_blocks_multiprocessing blocks) w)
                  Hlen Hall Hknown) as Hloop.
    cbv zeta in Hloop. rewrite run_bind. unfold then_run.
    cbn [result_of state_of trace_of fst snd].
    destruct (run env (receive_sub_block_batch_loop blocks pre_validation_results peer
                         fork_point false (Some 0)) _) as [[o w'] t].
    cbn [result_of state_of trace_of fst snd] in *.
    destruct (existsb has_error pre_validation_results || existsb rejects
                (receive_block_results t)) eqn:Hfail.
    + destruct Hloop as (a & f & ->). cbn.
      rewrite app_nil_r, Hfail. eexists; eexists; reflexivity.
    + destruct Hloop as (f & ->). cbn.
      assert (Hsame : receive_block_results (t ++ [Ev (_state_changed "new_peak")
                         (answer env (_state_changed "new_peak") w')])
                      = receive_block_results t).
      { clear. induction t as [| e t IHt]; [reflexivity |].
        cbn. destruct (receive_block_result e); rewrite IHt; reflexivity. }
      rewrite Hsame, Hfail. eexists; reflexivity.
  - cbn. split; reflexivity.
Qed.

End Handlers.

End full_node_facts.

(** * The long sync *)

Module long_sync_facts.

Import full_node run_facts every_run.
Local Open Scope prog_scope.

Section LongSync.

Context {node : Node}.
Variable fuel : nat.

(** The routines the long sync shares with the other handlers make none of
    the calls by which a long sync starts. *)

Lemma peers_with_peak_loop_quiet peers_with_peak filtered_peers :
  silent (@starts_long_sync) (peers_with_peak_loop peers_with_peak filtered_peers).
Proof.
  revert filtered_peers.
  induction peers_with_peak as [| peer_hash rest IH]; intros filtered_peers;
    cbn [peers_with_peak_loop]; repeat first [apply IH | silent_step].
Qed.

Lemma get_peers_with_peaks_quiet peak_hashes :
  silent (@starts_long_sync) (get_peers_with_peaks peak_hashes).
Proof.
  unfold get_peers_with_peaks. generalize (@nil WSChiaConnection.t).
  induction peak_hashes as [| peak_hash rest IH]; intros filtered_peers;
    cbn [peak_hashes_loop];
    repeat first [apply IH | apply peers_with_peak_loop_quiet | silent_step].
Qed.

Lemma last_csb_or_first_in_ss_quiet n curr :
  silent (@starts_long_sync) (last_csb_or_first_in_ss n curr).
Proof.
  revert curr. induction n as [| n IH]; intros curr; cbn [last_csb_or_first_in_ss];
    repeat first [apply IH | silent_step].
Qed.

Lemma send_peak_to_timelords_quiet :
  silent (@starts_long_sync) (send_peak_to_timelords fuel).
Proof.
  unfold send_peak_to_timelords.
  repeat first [apply last_csb_or_first_in_ss_quiet | silent_step].
Qed.

Lemma peak_post_processing_quiet sub_block record fork_height peer :
  silent (@starts_long_sync) (peak_post_processing fuel sub_block record fork_height peer).
Proof.
  unfold peak_post_processing.
  repeat first [apply send_peak_to_timelords_quiet | silent_step].
Qed.

Lemma receive_sub_block_batch_loop_quiet blocks :
  forall results peer fork_point advanced_peak fork_height,
    silent (@starts_long_sync)
      (receive_sub_block_batch_loop blocks results peer fork_point advanced_peak
         fork_height).
Proof.
  induction blocks as [| block blocks IH]; intros;
    cbn [receive_sub_block_batch_loop]; repeat first [apply IH | silent_step].
Qed.

Lemma receive_sub_block_batch_quiet blocks peer fork_point :
  silent (@starts_long_sync) (receive_sub_block_batch blocks peer fork_point).
Proof.
  unfold receive_sub_block_batch.
  repeat first [apply receive_sub_block_batch_loop_quiet | silent_step].
Qed.

Lemma remove_all_quiet to_remove :
  forall peers_with_peak, silent (@starts_long_sync) (remove_all to_remove peers_with_peak).
Proof.
  induction to_remove as [| peer rest IH]; intros; cbn [remove_all];
    repeat first [apply IH | silent_step].
Qed.

Lemma fetch_from_peers_quiet peers :
  forall fork_point_height start_height end_height to_remove advanced_peak,
    silent (@starts_long_sync)
      (fetch_from_peers peers fork_point_height start_height end_height to_remove
         advanced_peak).
Proof.
  induction peers as [| peer rest IH]; intros; cbn [fetch_from_peers];
    repeat first [apply IH | apply receive_sub_block_batch_quiet | silent_step].
Qed.

Lemma sync_windows_quiet starts :
  forall fork_point_height target peak_hash batch_size peers_with_peak advanced_peak,
    silent (@starts_long_sync)
      (sync_windows starts fork_point_height target peak_hash batch_size peers_with_peak
         advanced_peak).
Proof.
  induction starts as [| start_height rest IH]; intros; cbn [sync_windows];
    repeat first [apply IH | apply fetch_from_peers_quiet | apply remove_all_quiet
                 | apply get_peers_with_peaks_quiet | silent_step].
Qed.

Lemma sync_from_fork_point_quiet fork_point_height target peak_hash :
  silent (@starts_long_sync) (sync_from_fork_point fork_point_height target peak_hash).
Proof.
  unfold sync_from_fork_point.
  repeat first [apply sync_windows_quiet | apply get_peers_with_peaks_quiet | silent_step].
Qed.

Lemma _finish_sync_quiet : silent (@starts_long_sync) (_finish_sync fuel).
Proof.
  unfold _finish_sync. repeat first [apply peak_post_processing_quiet | silent_step].
Qed.

Lemma wait_for_peaks_quiet n :
  forall current_peer_ids peaks,
    silent (@starts_long_sync) (wait_for_peaks n current_peer_ids peaks).
Proof.
  induction n as [| n IH]; intros; cbn [wait_for_peaks];
    repeat first [apply IH | apply get_peers_with_peaks_quiet | silent_step].
Qed.

Lemma gather_requests_quiet peers :
  forall height, silent (@starts_long_sync) (gather_requests peers height).
Proof.
  induction peers as [| peer rest IH]; intros; cbn [gather_requests];
    repeat first [apply IH | silent_step].
Qed.

Lemma record_peers_with_peak_quiet peers :
  forall responses h wt ht,
    silent (@starts_long_sync) (record_peers_with_peak peers responses h wt ht).
Proof.
  induction peers as [| peer rest IH]; intros [| r responses] h wt ht;
    cbn [record_peers_with_peak]; repeat first [apply IH | silent_step].
Qed.

Lemma request_not_quiet e a :
  proof_of_weight_answer e = Some a -> on (@starts_long_sync) e = true.
Proof. destruct e as [X c x]. destruct c; cbn; try discriminate; reflexivity. Qed.

Lemma quiet_no_answer e :
  on (@starts_long_sync) e = false -> heaviest_peak_answer e = None.
Proof. destruct e as [X c x]. destruct c; cbn; try discriminate; reflexivity. Qed.

Lemma sync_target_quiet tl t : quiet tl -> sync_target (tl ++ t) = sync_target t.
Proof.
  induction 1 as [| e tl He Htl IH]; [reflexivity |].
  cbn. rewrite (@quiet_no_answer _ He). exact IH.
Qed.

Lemma refuses_wrong_proof_tolerant target : tolerant (refuses_wrong_proof target).
Proof.
  split.
  - intros o t Ht t1 e t2 peer wp Heq He _. exfalso.
    unfold quiet in Ht. rewrite Heq in Ht. apply Forall_app in Ht. destruct Ht as [_ Ht].
    inversion Ht as [| e0 t0 Hfalse _]; subst.
    rewrite (@request_not_quiet _ _ He) in Hfalse. discriminate Hfalse.
  - intros o tl t Htl HQ t1 e t2 peer wp Heq He Hwrong.
    destruct (@split_after_silent (on (@starts_long_sync)) tl Htl t t1 t2 e
                (@request_not_quiet _ _ He) Heq) as (t1' & -> & Ht).
    exact (HQ _ _ _ _ _ Ht He Hwrong).
Qed.

Lemma refuses_wrong_proofs_tolerant : tolerant refuses_wrong_proofs.
Proof.
  split.
  - intros o t Ht t1 e t2 peer wp target Heq He _ _. exfalso.
    unfold quiet in Ht. rewrite Heq in Ht. apply Forall_app in Ht. destruct Ht as [_ Ht].
    inversion Ht as [| e0 t0 Hfalse _]; subst.
    rewrite (@request_not_quiet _ _ He) in Hfalse. discriminate Hfalse.
  - intros o tl t Htl HQ t1 e t2 peer wp target Heq He Htarget Hwrong.
    destruct (@split_after_silent (on (@starts_long_sync)) tl Htl t t1 t2 e
                (@request_not_quiet _ _ He) Heq) as (t1' & -> & Ht).
    rewrite (@sync_target_quiet tl t1' Htl) in Htarget.
    exact (HQ _ _ _ _ _ _ Ht He Htarget Hwrong).
Qed.

Lemma all_runs_silent (Q : outcome unit -> list entry -> Prop) (p : Prog unit) :
  tolerant Q -> silent (@starts_long_sync) p -> all_runs p Q.
Proof.
  intros [HQ _] Hp. eapply all_runs_mono; [| exact Hp]. cbn. intros o t. apply HQ.
Qed.

Lemma all_runs_bind_silent (A : Type) (Q : outcome unit -> list entry -> Prop)
  (p : Prog A) (f : A -> Prog unit) :
  tolerant Q -> silent (@starts_long_sync) p -> (forall a, all_runs (f a) Q) ->
  all_runs (bind p f) Q.
Proof.
  intros [Hquiet Happ] Hp Hf. apply all_runs_bind.
  eapply all_runs_mono; [| exact Hp]. cbn.
  intros [a | e |] t Ht; cbn; try (apply Hquiet; exact Ht).
  eapply all_runs_mono; [| apply Hf]. cbn. intros o t'. apply Happ. exact Ht.
Qed.

(** The target is selected. *)
Lemma refuses_after_target ids target o t :
  refuses_wrong_proof target o t ->
  refuses_wrong_proofs o (Ev (sync_store_get_heaviest_peak ids) (Some target) :: t).
Proof.
  intros HQ t1 e t2 peer wp target' Heq He Htarget Hwrong.
  destruct t1 as [| e1 t1]; cbn in Heq; injection Heq as Hhead Htail.
  - subst e. discriminate He.
  - subst e1. cbn in Htarget. injection Htarget as <-.
    exact (HQ _ _ _ _ _ Htail He Hwrong).
Qed.

(** The weight proof is requested. *)
Lemma refuses_at_request target peer height tip x o t :
  (forall wp, x = Some (RespondProofOfWeight wp) -> wrong_weight_proof target wp = true ->
              t = [Ev (peer_close peer) tt] /\ exists msg, o = Raised (RuntimeError msg)) ->
  quiet t ->
  refuses_wrong_proof target o (Ev (peer_request_proof_of_weight peer height tip) x :: t).
Proof.
  intros Hhere Ht t1 e t2 peer' wp Heq He Hwrong.
  destruct t1 as [| e1 t1]; cbn in Heq; injection Heq as Hhead Htail.
  - subst e t2. cbn in He. injection He as <- ->. apply (Hhere wp); [reflexivity | exact Hwrong].
  - exfalso. unfold quiet in Ht. rewrite Htail in Ht. apply Forall_app in Ht.
    destruct Ht as [_ Ht]. inversion Ht as [| e0 t0 Hfalse _]; subst.
    rewrite (@request_not_quiet _ _ He) in Hfalse. discriminate Hfalse.
Qed.

Ltac quiet_tail :=
  repeat first [ apply sync_from_fork_point_quiet | silent_step ].

(** The body of [_sync] from the weight-proof request on. *)
Lemma after_request (target : bytes32 * Z * Z) (peer : WSChiaConnection.t)
  (x : option Response) :
  let '(heaviest_peak_hash, heaviest_peak_height, heaviest_peak_weight) := target in
  all_runs
    (match x with
     | Some (RespondProofOfWeight wp) =>
         match last (map Some (WeightProof.recent_chain_data wp)) None with
         | None => Raise IndexError
         | Some latest =>
             let rc := HeaderBlock.reward_chain_sub_block latest in
             if negb (RewardChainSubBlock.sub_block_height rc =? heaviest_peak_height) then
               call (peer_close peer) ;;
               Raise (RuntimeError "Weight proof had the wrong sub-height")
             else if negb (RewardChainSubBlock.weight rc =? heaviest_peak_weight) then
               call (peer_close peer) ;;
               Raise (RuntimeError "Weight proof had the wrong weight")
             else
               '(validated, fork_point) <-
                 call (weight_proof_handler_validate_weight_proof wp) ;;
               if negb validated then
                 Raise (ValueError "Weight proof validation failed")
               else
                 call (log info "Re-checked peers") ;;
                 with_lock blockchain_lock
                   (call (blockchain_warmup fork_point) ;;
                    sync_from_fork_point fork_point heaviest_peak_height
                      heaviest_peak_hash)
         end
     | _ =>
         call (peer_close peer) ;;
         Raise (RuntimeError "Weight proof did not arrive in time from peer")
     end)
    (fun o t =>
       (forall wp, x = Some (RespondProofOfWeight wp) ->
                   wrong_weight_proof target wp = true ->
                   t = [Ev (peer_close peer) tt]
                   /\ exists msg, o = Raised (RuntimeError msg))
       /\ quiet t).
Proof.
  destruct target as [[heaviest_peak_hash heaviest_peak_height] heaviest_peak_weight].
  assert (Hother :
            all_runs
              (call (peer_close peer) ;;
               Raise (RuntimeError "Weight proof did not arrive in time from peer"))
              (fun (o : outcome unit) t =>
                 t = [Ev (peer_close peer) tt]
                 /\ (exists msg, o = Raised (RuntimeError msg)) /\ quiet t)).
  { cbn. intros []. split; [reflexivity |]. split; [eexists; reflexivity |].
    repeat constructor. }
  destruct x as [[sub_block | sub_blocks | | wp |] |];
    try (eapply all_runs_mono; [| exact Hother]; cbn;
         intros o t (Ht & Ho & Hq); split; [intros wp Hx; discriminate Hx | exact Hq]).
  destruct (last (map Some (WeightProof.recent_chain_data wp)) None) as [latest |]
    eqn:Hlast.
  - destruct (negb (RewardChainSubBlock.sub_block_height
                      (HeaderBlock.reward_chain_sub_block latest) =? heaviest_peak_height))
      eqn:Hheight; cbn zeta; rewrite ?Hheight.
    + cbn. intros []. split; [| repeat constructor].
      intros wp' _ _. split; [reflexivity | eexists; reflexivity].
    + destruct (negb (RewardChainSubBlock.weight
                        (HeaderBlock.reward_chain_sub_block latest) =? heaviest_peak_weight))
        eqn:Hweight.
      * cbn. intros []. split; [| repeat constructor].
        intros wp' _ _. split; [reflexivity | eexists; reflexivity].
      * assert (Hrest : silent (@starts_long_sync)
                          ('(validated, fork_point) <-
                             call (weight_proof_handler_validate_weight_proof wp) ;;
                           if negb validated then
                             Raise (ValueError "Weight proof validation failed")
                           else
                             call (log info "Re-checked peers") ;;
                             with_lock blockchain_lock
                               (call (blockchain_warmup fork_point) ;;
                                sync_from_fork_point fork_point heaviest_peak_height
                                  heaviest_peak_hash))) by quiet_tail.
        eapply all_runs_mono; [| exact Hrest]. cbn.
        intros o t Hq. split; [| exact Hq].
        intros wp' Hx Hwrong. injection Hx as <-.
        unfold wrong_weight_proof in Hwrong. rewrite Hlast in Hwrong.
        cbn in Hwrong. rewrite Hheight, Hweight in Hwrong. discriminate Hwrong.
  - cbn. split; [| constructor].
    intros wp' Hx Hwrong. injection Hx as <-.
    unfold wrong_weight_proof in Hwrong. rewrite Hlast in Hwrong. discriminate Hwrong.
Qed.

Ltac quiet_step :=
  repeat first [ apply wait_for_peaks_quiet | apply gather_requests_quiet
               | apply record_peers_with_peak_quiet | apply get_peers_with_peaks_quiet
               | silent_step ].

Ltac skip_with Htol :=
  apply all_runs_bind_silent; [exact Htol | solve [quiet_step] | intros ?].

(** The [try] block of [_sync]. *)
Lemma _sync_body_refuses : all_runs (_sync_body) refuses_wrong_proofs.
Proof.
  pose proof refuses_wrong_proofs_tolerant as Htol0.
  unfold _sync_body.
  do 4 skip_with Htol0.
  match goal with a : option (list bytes32) |- _ => destruct a as [peaks |] end;
    [| apply all_runs_silent; [exact Htol0 | apply silent_ret]].
  do 3 skip_with Htol0.
  apply all_runs_bind_call. intros [target |].
  - eapply all_runs_mono; [intros o t; apply refuses_after_target |].
    destruct target as [[heaviest_peak_hash heaviest_peak_height] heaviest_peak_weight].
    pose proof (refuses_wrong_proof_tolerant
                  (heaviest_peak_hash, heaviest_peak_height, heaviest_peak_weight)) as Htol.
    do 7 skip_with Htol.
    match goal with a : list WSChiaConnection.t |- _ => destruct a as [| first_peer others] end;
      [apply all_runs_silent; [exact Htol | apply silent_raise] |].
    do 4 skip_with Htol.
    apply all_runs_bind_call. intros x.
    eapply all_runs_mono;
      [| exact (after_request
                  (heaviest_peak_hash, heaviest_peak_height, heaviest_peak_weight) _ x)].
    cbn beta. intros o t [Hhere Hquiet].
    apply refuses_at_request; [exact Hhere | exact Hquiet].
  - cbn. intros t1 e t2 peer wp target Heq He _ _. exfalso.
    destruct t1 as [| e1 t1]; cbn in Heq; injection Heq as Hhead Htail.
    + subst e. discriminate He.
    + destruct t1; discriminate Htail.
Qed.

Lemma _sync_protected_logs :
  all_runs
    (try_except (_sync_body)
       (fun e =>
          match e with
          | CancelledError => call (log warning "Syncing failed, CancelledError")
          | _ => call (log error "Error with syncing")
          end))
    logs_wrong_proof.
Proof.
  apply all_runs_try_except. eapply all_runs_mono; [| exact _sync_body_refuses].
  cbn beta. intros o t Hbody.
  assert (Hlogged :
            forall (o' : outcome unit) (l : LogLevel) (m : string) (x : unit),
              (forall msg, o = Raised (RuntimeError msg) ->
                           o' = Returned tt /\ l = error /\ m = "Error with syncing"%string) ->
              logs_wrong_proof o' (t ++ [Ev (log l m) x])).
  { intros o' l m x Hcase t1 e t2 peer wp target Heq He Htarget Hwrong.
    assert (Hlast : Forall (fun e0 => on (@starts_long_sync) e0 = false) [Ev (log l m) x])
      by (repeat constructor).
    destruct (@split_before_silent (on (@starts_long_sync)) _ Hlast t t1 t2 e
                (@request_not_quiet _ _ He) Heq) as (t2' & -> & Ht).
    destruct (Hbody _ _ _ _ _ _ Ht He Htarget Hwrong) as [-> [msg Ho]].
    destruct (Hcase msg Ho) as (-> & -> & ->). destruct x. split; reflexivity. }
  destruct o as [r | e |].
  - intros t1 e t2 peer wp target Heq He Htarget Hwrong.
    destruct (Hbody _ _ _ _ _ _ Heq He Htarget Hwrong) as [_ [msg Ho]]. discriminate Ho.
  - destruct e; cbn; intros []; apply Hlogged; intros msg' Ho;
      try discriminate Ho; repeat split; reflexivity.
  - intros t1 e t2 peer wp target Heq He Htarget Hwrong.
    destruct (Hbody _ _ _ _ _ _ Heq He Htarget Hwrong) as [_ [msg Ho]]. discriminate Ho.
Qed.

Lemma closes_and_finishes_cons e0 o t :
  proof_of_weight_answer e0 = None -> heaviest_peak_answer e0 = None ->
  closes_and_finishes o t -> closes_and_finishes o (e0 :: t).
Proof.
  intros Hp Hh HQ t1 e t2 peer wp target Heq He Htarget Hwrong.
  destruct t1 as [| e1 t1]; cbn in Heq; injection Heq as Hhead Htail.
  - subst e. rewrite Hp in He. discriminate He.
  - subst e1. cbn in Htarget. rewrite Hh in Htarget.
    exact (HQ _ _ _ _ _ _ Htail He Htarget Hwrong).
Qed.

Lemma closes_and_finishes_intro o t o' (shut_down : bool) t3 :
  logs_wrong_proof o t ->
  quiet t3 ->
  (if shut_down return Prop
   then t3 = [] /\ o' = Returned tt
   else exists t4, t3 = Ev (sync_store_set_sync_mode false) tt :: t4
                   /\ Forall (fun e' => on (@sets_sync_mode true) e' = false) t4) ->
  closes_and_finishes o' (t ++ Ev get_shut_down shut_down :: t3).
Proof.
  intros Hlogs Hquiet Hrest t1 e t2 peer wp target Heq He Htarget Hwrong.
  assert (Htail : Forall (fun e0 => on (@starts_long_sync) e0 = false)
                    (Ev get_shut_down shut_down :: t3))
    by (constructor; [reflexivity | exact Hquiet]).
  destruct (@split_before_silent (on (@starts_long_sync)) _ Htail t t1 t2 e
              (@request_not_quiet _ _ He) Heq) as (t2' & -> & Ht).
  destruct (Hlogs _ _ _ _ _ _ Ht He Htarget Hwrong) as [-> _].
  exists shut_down, t3. split; [reflexivity | exact Hrest].
Qed.

Lemma _finish_sync_trace :
  all_runs (_finish_sync fuel)
    (fun _ t => exists t4, t = Ev (sync_store_set_sync_mode false) tt :: t4 /\ quiet t4).
Proof.
  assert (Hfirst : all_runs (_finish_sync fuel)
                     (fun _ t => exists t4, t = Ev (sync_store_set_sync_mode false) tt :: t4)).
  { unfold _finish_sync. apply all_runs_bind_call. intros [].
    apply all_runs_always. intros o t. exists t. reflexivity. }
  pose proof (@all_runs_and unit (_finish_sync fuel)
                (fun _ t => exists t4, t = Ev (sync_store_set_sync_mode false) tt :: t4)
                (fun _ t => quiet t) Hfirst _finish_sync_quiet) as Hboth.
  eapply all_runs_mono; [| exact Hboth]. cbn beta.
  intros o t [(t4 & ->) Hquiet]. inversion Hquiet as [| e0 t0 _ Hrest]; subst.
  exists t4. split; [reflexivity | exact Hrest].
Qed.

Lemma quiet_never_enters_sync_mode t :
  quiet t -> Forall (fun e' => on (@sets_sync_mode true) e' = false) t.
Proof.
  intros Ht. eapply Forall_impl; [| exact Ht]. intros e He.
  unfold on, starts_long_sync in *. apply orb_false_iff in He. exact (proj1 He).
Qed.

Lemma _sync_closes_and_finishes : all_runs (_sync fuel) closes_and_finishes.
Proof.
  unfold _sync. apply all_runs_bind_call. intros [|].
  - cbn. intros t1 e t2 peer wp target Heq He _ _. exfalso.
    destruct t1 as [| e1 t1]; cbn in Heq; injection Heq as Hhead Htail.
    + subst e. discriminate He.
    + destruct t1; discriminate Htail.
  - apply all_runs_bind_call. intros x1. apply all_runs_bind_call. intros x2.
    eapply all_runs_mono;
      [intros o t H; do 3 (apply closes_and_finishes_cons; [reflexivity | reflexivity |]);
       exact H |].
    apply all_runs_try_finally.
    eapply all_runs_mono; [| exact _sync_protected_logs]. cbn beta.
    intros o t Hlogs.
    assert (Hfin :
              forall (kept : outcome unit),
                all_runs
                  (shut_down <- call get_shut_down ;;
                   if shut_down then Ret (Some tt) else _finish_sync fuel ;; Ret None)
                  (fun o' t' =>
                     match o' with
                     | Returned (Some r') => closes_and_finishes (Returned r') (t ++ t')
                     | Returned None => closes_and_finishes kept (t ++ t')
                     | Raised e' => closes_and_finishes (Raised e') (t ++ t')
                     | Diverged => closes_and_finishes Diverged (t ++ t')
                     end)).
    { intros kept. apply all_runs_bind_call. intros [|].
      - cbn. apply (@closes_and_finishes_intro _ _ _ true _ Hlogs).
        + constructor.
        + split; reflexivity.
      - apply all_runs_bind. eapply all_runs_mono; [| exact _finish_sync_trace]. cbn beta.
        intros o' t' (t4 & -> & Hquiet).
        assert (Hgoal : forall o'', closes_and_finishes o''
                          (t ++ Ev get_shut_down false
                             :: Ev (sync_store_set_sync_mode false) tt :: t4)).
        { intros o''. apply (@closes_and_finishes_intro _ _ _ false _ Hlogs).
          - constructor; [reflexivity | exact Hquiet].
          - exists t4. split; [reflexivity |].
            apply quiet_never_enters_sync_mode. exact Hquiet. }
        destruct o' as [[] | e' |]; cbn; rewrite ?app_nil_r; apply Hgoal. }
    destruct o as [r | e |].
    + apply Hfin.
    + apply Hfin.
    + intros t1 e t2 peer wp target Heq He Htarget Hwrong.
      destruct (Hlogs _ _ _ _ _ _ Heq He Htarget Hwrong) as [_ Ho]. discriminate Ho.
Qed.

(** C4 (amended): in a run of [_sync], when the weight-proof request is
    answered with a weight proof whose last recent-chain entry differs in
    height or in weight from the selected target, the calls that follow
    are: the connection of that peer is closed, the error raised by the
    check is logged (it is caught inside [_sync]), and the shutdown flag is
    read. When the node is shutting down [_sync] returns there, without
    [_finish_sync] and with sync mode untouched; otherwise [_finish_sync]
    comes next, its first call sets sync mode to false, and no later call
    sets it to true. *)
Theorem sync_wrong_weight_proof (W : Type) (env : forall X : Type, Call X -> W -> X * W)
  (w : W) (t1 : list entry) (e : entry) (t2 : list entry)
  (peer : WSChiaConnection.t) (wp : WeightProof.t) (target : bytes32 * Z * Z) :
  trace_of (run env (_sync fuel) w) = t1 ++ e :: t2 ->
  proof_of_weight_answer e = Some (peer, Some (RespondProofOfWeight wp)) ->
  sync_target t1 = Some target ->
  wrong_weight_proof target wp = true ->
  exists (shut_down : bool) (t3 : list entry),
    t2 = Ev (peer_close peer) tt :: Ev (log error "Error with syncing") tt
         :: Ev get_shut_down shut_down :: t3
    /\ if shut_down
       then t3 = [] /\ result_of (run env (_sync fuel) w) = Returned tt
       else exists t4, t3 = Ev (sync_store_set_sync_mode false) tt :: t4
                       /\ Forall (fun e' => on (@sets_sync_mode true) e' = false) t4.
Proof.
  intros Hsplit He Htarget Hwrong.
  exact (all_runs_run env (_sync fuel) closes_and_finishes w _sync_closes_and_finishes
           t1 e t2 peer wp target Hsplit He Htarget Hwrong).
Qed.

End LongSync.

End long_sync_facts.

(** * The tree hashes *)

Module program_facts.

Import program.

(** C10: for every s-expression and every set of precalculated hashes the
    method [Program._tree_hash] computes the digest that the module-level
    [_tree_hash] computes; hence [Program.get_tree_hash] on a program and
    [SerializedProgram.get_tree_hash] on its serialization agree, both being
    taken of the same deserialized s-expression. *)
Theorem tree_hash_agree `{Imports} :
  (forall (node : SExp) (precalculated : list bytes),
     Program._tree_hash node precalculated = _tree_hash node precalculated)
  /\
  (forall (_buf : bytes) (args : list bytes),
     SerializedProgram.get_tree_hash _buf args
     = match sexp_from_stream _buf with
       | Some node => Program.get_tree_hash node args
       | None => None
       end).
Proof.
  assert (Hsame : forall node precalculated,
             Program._tree_hash node precalculated = _tree_hash node precalculated).
  { intros node precalculated.
    induction node as [atom | first IHfirst rest IHrest].
    - reflexivity.
    - cbn [Program._tree_hash listp _tree_hash]. unfold Program.to.
      rewrite IHfirst, IHrest. reflexivity. }
  split; [exact Hsame |].
  intros _buf args. unfold SerializedProgram.get_tree_hash, Program.get_tree_hash.
  destruct (sexp_from_stream _buf) as [node |]; [| reflexivity].
  symmetry. apply Hsame.
Qed.

End program_facts.

(** * The mempool's condition checks *)

Module mempool_facts.

Import mempool_check_conditions.

Section Checks.

Variable int_from_bytes : bytes -> option Z.
Variable now : spec_float.
Variable unspent : CoinRecord.
Variable spend_bundle : SpendBundle.
Variable peak_height : Z.

Lemma check_con_list_known (con_list : list ConditionVarPair) :
  check_con_list int_from_bytes now unspent spend_bundle peak_height con_list
  = check_con_list int_from_bytes now unspent spend_bundle peak_height
      (filter (fun cvp => known_opcode (opcode cvp)) con_list).
Proof.
  induction con_list as [| cvp con_list IH]; [reflexivity |].
  cbn [filter]. destruct (known_opcode (opcode cvp)) eqn:Hknown.
  - cbn [check_con_list]. rewrite IH. reflexivity.
  - cbn [check_con_list]. unfold check_condition.
    destruct (opcode cvp); try discriminate Hknown. exact IH.
Qed.

Lemma check_con_list_unknown (con_list : list ConditionVarPair) :
  check_con_list int_from_bytes now unspent spend_bundle peak_height
    (filter (fun cvp => negb (known_opcode (opcode cvp))) con_list)
  = Returns None.
Proof.
  induction con_list as [| cvp con_list IH]; [reflexivity |].
  cbn [filter]. destruct (known_opcode (opcode cvp)) eqn:Hknown; cbn [negb].
  - exact IH.
  - cbn [check_con_list]. unfold check_condition.
    destruct (opcode cvp); try discriminate Hknown. exact IH.
Qed.

(** C5 (amended): [mempool_check_conditions_dict] skips every condition
    whose opcode is not one of the five known ones (ASSERT_COIN_CONSUMED,
    ASSERT_MY_COIN_ID, ASSERT_BLOCK_INDEX_EXCEEDS, ASSERT_BLOCK_AGE_EXCEEDS,
    ASSERT_TIME_EXCEEDS): its result is its result on the known conditions
    alone, and on the unknown conditions alone it returns None. *)
Theorem unknown_opcodes_are_skipped
  (conditions_dict : list (ConditionOpcode * list ConditionVarPair)) :
  mempool_check_conditions_dict int_from_bytes now unspent spend_bundle
    conditions_dict peak_height
  = mempool_check_conditions_dict int_from_bytes now unspent spend_bundle
      (known_conditions conditions_dict) peak_height
  /\
  mempool_check_conditions_dict int_from_bytes now unspent spend_bundle
    (unknown_conditions conditions_dict) peak_height
  = Returns None.
Proof.
  split.
  - induction conditions_dict as [| [key con_list] rest IH]; [reflexivity |].
    cbn [known_conditions map fst snd mempool_check_conditions_dict].
    rewrite <- check_con_list_known. fold (known_conditions rest). rewrite <- IH.
    reflexivity.
  - induction conditions_dict as [| [key con_list] rest IH]; [reflexivity |].
    cbn [unknown_conditions map fst snd mempool_check_conditions_dict].
    rewrite check_con_list_unknown. exact IH.
Qed.

End Checks.

(** C5 as stated fails: a dictionary that holds one condition with an
    unknown opcode, next to a satisfied known one, is accepted with None,
    not rejected with INVALID_CONDITION. *)
Lemma unknown_opcode_yields_no_error :
  let cvp := {| opcode := OTHER_OPCODE [x32]; vars := [[x0a]; [x0b]] |} in
  known_opcode (opcode cvp) = false
  /\ In cvp (List.concat (map snd Example.aggsig_only))
  /\ mempool_check_conditions_dict Example.int_from_bytes Example.clock
       Example.unspent Example.spend_bundle Example.aggsig_only 5
     = Returns None
  /\ mempool_check_conditions_dict Example.int_from_bytes Example.clock
       Example.unspent Example.spend_bundle Example.aggsig_only 5
     <> Returns (Some INVALID_CONDITION).
Proof.
  cbv zeta. split; [reflexivity |]. split; [left; reflexivity |].
  split; [reflexivity | discriminate].
Qed.

End mempool_facts.

(** * The handlers on the sample node *)

Module examples.

Import full_node run_facts every_run full_node_facts long_sync_facts.
Import Sample Scenario.

Lemma bytes_eqb_refl (a : bytes) : bytes_eqb a a = true.
Proof.
  induction a as [| x a IH]; [reflexivity |].
  cbn. rewrite IH. rewrite (Byte.byte_dec_lb eq_refl). reflexivity.
Qed.

(** The sample store answers [seen_unfinished_block] from its set. *)
Lemma sample_seen (h : bytes32) (w : World) :
  answer env (full_node_store_seen_unfinished_block h) w
  = bytes_in h (seen_unfinished_blocks w).
Proof.
  unfold answer. cbn. destruct (bytes_in h (seen_unfinished_blocks w)); reflexivity.
Qed.

Lemma sample_seen_marks (w : World) (h : bytes32) :
  answer env (full_node_store_seen_unfinished_block h)
    (after env (full_node_store_seen_unfinished_block h) w) = true.
Proof.
  rewrite sample_seen. unfold after. cbn.
  destruct (bytes_in h (seen_unfinished_blocks w)) eqn:Hin; cbn.
  - exact Hin.
  - unfold bytes_in. cbn. rewrite bytes_eqb_refl. reflexivity.
Qed.

Lemma sample_seen_kept (X : Type) (c : Call X) (w : World) (h : bytes32) :
  clears_seen c = false ->
  answer env (full_node_store_seen_unfinished_block h) w = true ->
  answer env (full_node_store_seen_unfinished_block h) (after env c w) = true.
Proof.
  rewrite !sample_seen. intros Hc Hin. unfold after.
  destruct c; try discriminate Hc; cbn; try exact Hin.
  - unfold Sample.receive_block.
    repeat match goal with
           | |- context [if ?b then _ else _] => destruct b
           end; cbn; exact Hin.
  - destruct (bytes_in object_hash (seen_unfinished_blocks w)); cbn.
    + exact Hin.
    + unfold bytes_in in *. cbn. rewrite Hin. apply orb_true_r.
Qed.

(** C1 (amended) on the sample node: the local peak weighs 100, the
    announcement 90. *)
Lemma new_peak_heavier_local_peak_returns_witness :
  exists (w' : World) (t : list entry),
    run env (new_peak 10 (announcement 90) peer) at_peak
    = (Returned tt, w',
       Ev (sync_store_add_peak_peer (hash x09) (hash x21) 90 1000) tt :: t)
    /\ Forall (fun e => on (@syncs) e = false) t.
Proof.
  apply (@new_peak_heavier_local_peak_returns sample_node 10 World env at_peak
           (announcement 90) peer our_peak); reflexivity.
Defined.

(** C1 as stated fails: the local peak weighs 100 and so does the
    announcement, of a block 995 heights ahead that the node does not have;
    [new_peak] goes on past the weight test and its fifth call launches the
    long-sync task. *)
Lemma new_peak_equal_weight_launches_long_sync :
  answer env blockchain_get_peak at_peak = Some our_peak
  /\ SubBlockRecord.weight our_peak >= NewPeak.weight (announcement 100)
  /\ result_of (run env (new_peak 10 (announcement 100) peer) at_peak) = Returned tt
  /\ map (on (@launches_long_sync))
       (trace_of (run env (new_peak 10 (announcement 100) peer) at_peak))
     = [false; false; false; false; true]
  /\ ~ Forall (fun e => on (@syncs) e = false)
         (trace_of (run env (new_peak 10 (announcement 100) peer) at_peak)).
Proof.
  split; [reflexivity |]. split; [cbn; lia |]. split; [reflexivity |].
  split; [reflexivity |].
  intros H. apply Forall_forall with (x := Ev create_sync_task tt) in H.
  - discriminate H.
  - cbn. do 4 right. left. reflexivity.
Qed.

(** C2 on the sample node: a batch of two blocks, the first a new peak,
    the second an orphan. *)
Lemma receive_sub_block_batch_result_witness :
  receive_block_results
    (trace_of (run env (receive_sub_block_batch batch peer None) at_peak))
  = [NEW_PEAK; ADDED_AS_ORPHAN]
  /\ exists fork_height,
      result_of (run env (receive_sub_block_batch batch peer None) at_peak)
      = Returned (true, true, fork_height).
Proof.
  split; [reflexivity |].
  apply (@receive_sub_block_batch_result sample_node World env at_peak batch peer None);
    reflexivity.
Defined.

(** C2 as stated fails on both sides. When pre-validation gives no list of
    results, no error is reported for any block and [receive_block] is not
    called, yet the call returns the failure triple [(false, false, None)]
    and not a success. When pre-validation reports for a block an error
    code that is the value of no member of [Err] (60000 on the sample
    node), the call raises ValueError and returns no triple. *)
Lemma receive_sub_block_batch_without_results :
  let r := run env_without_results (receive_sub_block_batch batch peer None) at_peak in
  let r' := run (env_with_error 60000) (receive_sub_block_batch batch peer None) at_peak in
  (answer env_without_results (blockchain_pre_validate_blocks_multiprocessing batch) at_peak
   = None
   /\ existsb rejects (receive_block_results (trace_of r)) = false
   /\ result_of r = Returned (false, false, None))
  /\
  (option_map (existsb has_error)
     (answer (env_with_error 60000)
        (blockchain_pre_validate_blocks_multiprocessing batch) at_peak)
   = Some true
   /\ result_of r' = Raised (ValueError "is not a valid Err")).
Proof.
  cbv zeta. split; [split; [| split] | split]; reflexivity.
Qed.

(** C4 (amended) on the sample node, not shutting down: the peer answers
    the weight-proof request (call 2625 of the run) with a proof that ends
    below the target. *)
Lemma sync_wrong_weight_proof_witness :
  let trace := trace_of (run env (_sync 10) (lied_to false)) in
  exists (shut_down : bool) (t3 : list entry),
    skipn 2626 trace
    = Ev (peer_close (connection x21 FULL_NODE)) tt
      :: Ev (log error "Error with syncing") tt :: Ev get_shut_down shut_down :: t3
    /\ if shut_down
       then t3 = [] /\ result_of (run env (_sync 10) (lied_to false)) = Returned tt
       else exists t4, t3 = Ev (sync_store_set_sync_mode false) tt :: t4
                       /\ Forall (fun e' => on (@sets_sync_mode true) e' = false) t4.
Proof.
  cbv zeta.
  apply (@sync_wrong_weight_proof sample_node 10 World env (lied_to false)
           (firstn 2625 (trace_of (run env (_sync 10) (lied_to false))))
           (Ev (peer_request_proof_of_weight (connection x21 FULL_NODE) 1000 (hash x09))
              (Some (RespondProofOfWeight short_proof)))
           (skipn 2626 (trace_of (run env (_sync 10) (lied_to false))))
           (connection x21 FULL_NODE) short_proof (hash x09, 1000, 5000));
    vm_compute; reflexivity.
Defined.

(** C4 as stated fails: with the node shutting down, the run of [_sync]
    ends after the peer is closed, the error logged and the shutdown flag
    read; no call sets sync mode to false and the sync store is left in
    sync mode. *)
Lemma sync_shutting_down_stays_in_sync_mode :
  let r := run env (_sync 10) (lied_to true) in
  nth_error (trace_of r) 2625
  = Some (Ev (peer_request_proof_of_weight (connection x21 FULL_NODE) 1000 (hash x09))
            (Some (RespondProofOfWeight short_proof)))
  /\ sync_target (firstn 2625 (trace_of r)) = Some (hash x09, 1000, 5000)
  /\ wrong_weight_proof (hash x09, 1000, 5000) short_proof = true
  /\ skipn 2626 (trace_of r)
     = [Ev (peer_close (connection x21 FULL_NODE)) tt;
        Ev (log error "Error with syncing") tt; Ev get_shut_down true]
  /\ existsb (on (@sets_sync_mode false)) (trace_of r) = false
  /\ sync_mode (state_of r) = true.
Proof.
  cbv zeta. repeat split; vm_compute; reflexivity.
Qed.

(** C6 on the sample node: the same unfinished block delivered twice; the
    first delivery stores it, the second returns after the first lookup. *)
Lemma respond_unfinished_sub_block_duplicate_witness :
  let first := run env (respond_unfinished_sub_block 10 unfinished None false) at_peak in
  existsb (on (@stores_unfinished)) (trace_of first) = true
  /\ run env (respond_unfinished_sub_block 10 unfinished (Some peer) false) (state_of first)
     = (Returned tt,
        after env (full_node_store_seen_unfinished_block (hash x34)) (state_of first),
        [Ev (full_node_store_seen_unfinished_block (hash x34)) true]).
Proof.
  cbv zeta. split; [reflexivity |].
  apply (@respond_unfinished_sub_block_duplicate sample_node 10 World env at_peak
           unfinished None false).
  - exact sample_seen_marks.
  - exact sample_seen_kept.
Defined.

(** C7 on the sample node: the peer's block at height 5 has a parent that
    the node does not have. *)
Lemma short_sync_batch_first_block_disconnected_witness :
  run env (short_sync_batch 10 peer 5 10) with_deep_peer
  = (Returned false, with_deep_peer,
     [Ev (peer_request_sub_block peer 5 false None) (Some (RespondSubBlock deep_block));
      Ev (blockchain_contains_sub_block (hash x14)) false;
      Ev (log info "Batch syncing stopped, this is a deep chain") tt])
  /\ Forall (fun e => on (@batch_syncing_adds) e = false /\ on (@adds_blocks) e = false)
       (trace_of (run env (short_sync_batch 10 peer 5 10) with_deep_peer)).
Proof.
  apply (@short_sync_batch_first_block_disconnected sample_node 10 World env
           with_deep_peer peer 5 10 deep_block); reflexivity.
Defined.

(** C8 on the sample node in sync mode. *)
Lemma respond_sub_block_ignored_in_sync_mode_witness :
  run env (respond_sub_block 10 next_block (Some peer)) syncing
  = (Returned None, syncing, [Ev sync_store_get_sync_mode true])
  /\ Forall (fun e => on (@adds_blocks) e = false /\ on (@broadcasts) e = false)
       (trace_of (run env (respond_sub_block 10 next_block (Some peer)) syncing)).
Proof.
  apply (@respond_sub_block_ignored_in_sync_mode sample_node 10 World env syncing
           next_block (Some peer)); reflexivity.
Defined.

End examples.

(** * More on the tree hashes *)

Module tree_hash_facts.

Import program program_terms.

Lemma tree_hash_membership `{Imports} (node : SExp) (p1 p2 : list bytes) :
  (forall atom, In atom (atoms node) -> bytes_in atom p1 = bytes_in atom p2) ->
  _tree_hash node p1 = _tree_hash node p2.
Proof.
  induction node as [atom | first IHfirst rest IHrest]; intros Hsame.
  - cbn [_tree_hash]. rewrite (Hsame atom); [reflexivity | left; reflexivity].
  - cbn [_tree_hash].
    rewrite IHfirst by (intros a Ha; apply Hsame; cbn; apply in_or_app; left; exact Ha).
    rewrite IHrest by (intros a Ha; apply Hsame; cbn; apply in_or_app; right; exact Ha).
    reflexivity.
Qed.

Lemma method_is_function `{Imports} (node : SExp) (precalculated : list bytes) :
  Program._tree_hash node precalculated = _tree_hash node precalculated.
Proof.
  induction node as [atom | first IHfirst rest IHrest]; [reflexivity |].
  cbn [Program._tree_hash listp _tree_hash]. unfold Program.to.
  rewrite IHfirst, IHrest. reflexivity.
Qed.

(** X1: The tree hash reads [precalculated] only through membership of the
    atoms of the tree: two collections that agree on which atoms of the
    tree they hold give the same digest (or the same failure), whatever
    their order, their repetitions and their other members. This holds of
    [_tree_hash], of [Program.get_tree_hash] and, through the deserialized
    tree, of [SerializedProgram.get_tree_hash]. *)
Theorem tree_hash_reads_membership `{Imports} (node : SExp) (p1 p2 : list bytes) :
  (forall atom, In atom (atoms node) -> bytes_in atom p1 = bytes_in atom p2) ->
  _tree_hash node p1 = _tree_hash node p2
  /\ Program.get_tree_hash node p1 = Program.get_tree_hash node p2
  /\ forall _buf, sexp_from_stream _buf = Some node ->
       SerializedProgram.get_tree_hash _buf p1 = SerializedProgram.get_tree_hash _buf p2.
Proof.
  intros Hsame. pose proof (tree_hash_membership node p1 p2 Hsame) as Heq.
  split; [exact Heq |]. split.
  - unfold Program.get_tree_hash. rewrite !method_is_function. exact Heq.
  - intros _buf Hbuf. unfold SerializedProgram.get_tree_hash. rewrite Hbuf. exact Heq.
Qed.

(** A pair of two atoms, hashed with the second atom given as
    precalculated, once alone and once repeated among values that are not
    in the tree. *)
Lemma tree_hash_reads_membership_witness :
  let node := Cons (Atom [x01; x02]) (Atom (repeat x07 32)) in
  let p1 := [repeat x07 32] in
  let p2 := [[x09]; repeat x07 32; []; repeat x07 32] in
  @_tree_hash example_imports node p1 = @_tree_hash example_imports node p2
  /\ @Program.get_tree_hash example_imports node p1
     = @Program.get_tree_hash example_imports node p2
  /\ forall _buf, @sexp_from_stream example_imports _buf = Some node ->
       @SerializedProgram.get_tree_hash example_imports _buf p1
       = @SerializedProgram.get_tree_hash example_imports _buf p2.
Proof.
  cbv zeta.
  apply (@tree_hash_reads_membership example_imports).
  intros atom Hin. cbn in Hin.
  destruct Hin as [<- | [<- | []]]; reflexivity.
Defined.

End tree_hash_facts.

(** * More on the mempool's condition checks *)

Module condition_facts.

Import mempool_check_conditions condition_lists.

Section Checks.

Variable int_from_bytes : bytes -> option Z.
Variable unspent : CoinRecord.
Variable spend_bundle : SpendBundle.

Lemma check_con_list_first (now : spec_float) (peak_height : Z) (con_list : list ConditionVarPair) :
  check_con_list int_from_bytes now unspent spend_bundle peak_height con_list
  = first_not_passing int_from_bytes now unspent spend_bundle peak_height con_list.
Proof.
  unfold first_not_passing.
  induction con_list as [| cvp con_list IH]; [reflexivity |].
  cbn [check_con_list find]. unfold passes at 1.
  destruct (check_condition int_from_bytes now unspent spend_bundle peak_height cvp)
    as [[error |] | e] eqn:Hcvp; cbn [negb];
    [rewrite Hcvp; reflexivity | exact IH | rewrite Hcvp; reflexivity].
Qed.

Lemma first_not_passing_app (now : spec_float) (peak_height : Z) (l1 l2 : list ConditionVarPair) :
  first_not_passing int_from_bytes now unspent spend_bundle peak_height (l1 ++ l2)
  = match first_not_passing int_from_bytes now unspent spend_bundle peak_height l1 with
    | Returns None =>
        first_not_passing int_from_bytes now unspent spend_bundle peak_height l2
    | r => r
    end.
Proof.
  unfold first_not_passing.
  induction l1 as [| cvp l1 IH]; [reflexivity |].
  cbn [app find]. unfold passes at 1 3.
  destruct (check_condition int_from_bytes now unspent spend_bundle peak_height cvp)
    as [[error |] | e] eqn:Hcvp; cbn [negb];
    [rewrite Hcvp; reflexivity | exact IH | rewrite Hcvp; reflexivity].
Qed.

(** X2: The result of [mempool_check_conditions_dict] is the outcome of the
    first condition, in the order of the dictionary's values and of each
    list, whose check does not answer None: its error code, or the
    exception it raises. When every check answers None the result is None.
    Under which keys the conditions are filed plays no part. *)
Theorem first_failed_condition_decides (now : spec_float) (peak_height : Z)
  (conditions_dict : list (ConditionOpcode * list ConditionVarPair)) :
  mempool_check_conditions_dict int_from_bytes now unspent spend_bundle
    conditions_dict peak_height
  = first_not_passing int_from_bytes now unspent spend_bundle peak_height
      (visited conditions_dict)
  /\ (mempool_check_conditions_dict int_from_bytes now unspent spend_bundle
        conditions_dict peak_height = Returns None
      <-> Forall (fun cvp =>
                    check_condition int_from_bytes now unspent spend_bundle
                      peak_height cvp = Returns None)
            (visited conditions_dict)).
Proof.
  assert (Hflat : mempool_check_conditions_dict int_from_bytes now unspent spend_bundle
                    conditions_dict peak_height
                  = first_not_passing int_from_bytes now unspent spend_bundle peak_height
                      (visited conditions_dict)).
  { unfold visited.
    induction conditions_dict as [| [key con_list] rest IH]; [reflexivity |].
    cbn [mempool_check_conditions_dict map snd List.concat].
    rewrite first_not_passing_app, <- check_con_list_first, <- IH. reflexivity. }
  split; [exact Hflat |]. rewrite Hflat. clear Hflat. unfold first_not_passing.
  induction (visited conditions_dict) as [| cvp l IH].
  - split; [constructor | reflexivity].
  - cbn [find]. unfold passes at 1.
    destruct (check_condition int_from_bytes now unspent spend_bundle peak_height cvp)
      as [[error |] | e] eqn:Hcvp; cbn [negb].
    + rewrite Hcvp. split; [discriminate |].
      intros Hall. inversion Hall as [| ? ? Hhead _]. rewrite Hcvp in Hhead.
      discriminate Hhead.
    + rewrite IH. split.
      * intros Hall. constructor; assumption.
      * intros Hall. inversion Hall; assumption.
    + rewrite Hcvp. split; [discriminate |].
      intros Hall. inversion Hall as [| ? ? Hhead _]. rewrite Hcvp in Hhead.
      discriminate Hhead.
Qed.

Lemma check_condition_stays (now now' : spec_float) (t t' peak_height peak_height' : Z)
  (cvp : ConditionVarPair) :
  current_time_of now = Returns t -> current_time_of now' = Returns t' -> t <= t' ->
  peak_height <= peak_height' ->
  check_condition int_from_bytes now unspent spend_bundle peak_height cvp = Returns None ->
  check_condition int_from_bytes now' unspent spend_bundle peak_height' cvp = Returns None.
Proof.
  intros Ht Ht' Hnow Hheight. unfold check_condition.
  destruct (opcode cvp); try (intros H; exact H).
  - unfold mempool_assert_block_index_exceeds, vars0.
    destruct (vars cvp) as [| v rest]; [discriminate |].
    destruct (int_from_bytes v) as [expected |]; [| discriminate].
    destruct (peak_height + 1 <=? expected) eqn:Hle; [discriminate |]. intros _.
    apply Z.leb_gt in Hle.
    destruct (peak_height' + 1 <=? expected) eqn:Hle'; [| reflexivity].
    apply Z.leb_le in Hle'. lia.
  - unfold mempool_assert_block_age_exceeds, vars0.
    destruct (vars cvp) as [| v rest]; [discriminate |].
    destruct (int_from_bytes v) as [age |]; [| discriminate]. cbv zeta.
    destruct (peak_height + 1 <=? age + confirmed_block_index unspent) eqn:Hle;
      [discriminate |]. intros _.
    apply Z.leb_gt in Hle.
    destruct (peak_height' + 1 <=? age + confirmed_block_index unspent) eqn:Hle';
      [| reflexivity].
    apply Z.leb_le in Hle'. lia.
  - unfold mempool_assert_time_exceeds, vars0.
    destruct (vars cvp) as [| v rest]; [discriminate |].
    destruct (int_from_bytes v) as [expected |]; [| discriminate].
    rewrite Ht, Ht'.
    destruct (t <=? expected) eqn:Hle; [discriminate |]. intros _.
    apply Z.leb_gt in Hle.
    destruct (t' <=? expected) eqn:Hle'; [| reflexivity].
    apply Z.leb_le in Hle'. lia.
Qed.

Lemma check_con_list_stays (now now' : spec_float) (t t' peak_height peak_height' : Z)
  (con_list : list ConditionVarPair) :
  current_time_of now = Returns t -> current_time_of now' = Returns t' -> t <= t' ->
  peak_height <= peak_height' ->
  check_con_list int_from_bytes now unspent spend_bundle peak_height con_list
  = Returns None ->
  check_con_list int_from_bytes now' unspent spend_bundle peak_height' con_list
  = Returns None.
Proof.
  intros Ht Ht' Hnow Hheight.
  induction con_list as [| cvp con_list IH]; [reflexivity |].
  cbn [check_con_list].
  destruct (check_condition int_from_bytes now unspent spend_bundle peak_height cvp)
    as [[error |] | e] eqn:Hcvp; try discriminate.
  rewrite (@check_condition_stays now now' t t' peak_height peak_height' cvp Ht Ht' Hnow Hheight Hcvp). exact IH.
Qed.

(** X3: Conditions that are satisfied stay satisfied: when
    [mempool_check_conditions_dict] answers None at some peak height and
    clock reading, it answers None at every peak height that is not smaller
    and every clock reading whose time in milliseconds,
    [uint64(int(time.time() * 1000))], is not smaller, for the same coin
    record and spend bundle. Both readings are ones for which the time in
    milliseconds is computed without an exception: a reading whose product
    is negative, not below [2^64], infinite or not a number raises
    instead. *)
Theorem satisfied_conditions_stay_satisfied (now now' : spec_float)
  (t t' peak_height peak_height' : Z)
  (conditions_dict : list (ConditionOpcode * list ConditionVarPair)) :
  current_time_of now = Returns t -> current_time_of now' = Returns t' -> t <= t' ->
  peak_height <= peak_height' ->
  mempool_check_conditions_dict int_from_bytes now unspent spend_bundle
    conditions_dict peak_height = Returns None ->
  mempool_check_conditions_dict int_from_bytes now' unspent spend_bundle
    conditions_dict peak_height' = Returns None.
Proof.
  intros Ht Ht' Hnow Hheight.
  induction conditions_dict as [| [key con_list] rest IH]; [reflexivity |].
  cbn [mempool_check_conditions_dict].
  destruct (check_con_list int_from_bytes now unspent spend_bundle peak_height con_list)
    as [[error |] | e] eqn:Hlist; try discriminate.
  rewrite (@check_con_list_stays now now' t t' peak_height peak_height' con_list Ht Ht' Hnow Hheight Hlist). exact IH.
Qed.

(** X4: A condition with one of the five checked opcodes and no argument
    makes the function raise IndexError when it is the first condition
    visited. *)
Theorem malformed_first_condition (now : spec_float) (peak_height : Z)
  (key : ConditionOpcode) (cvp : ConditionVarPair) (con_list : list ConditionVarPair)
  (rest : list (ConditionOpcode * list ConditionVarPair)) :
  known_opcode (opcode cvp) = true -> vars cvp = [] ->
  mempool_check_conditions_dict int_from_bytes now unspent spend_bundle
    ((key, cvp :: con_list) :: rest) peak_height = Raises IndexError.
Proof.
  intros Hknown Hvars. cbn [mempool_check_conditions_dict check_con_list].
  unfold check_condition, mempool_assert_coin_consumed, mempool_assert_my_coin_id,
    mempool_assert_block_index_exceeds, mempool_assert_block_age_exceeds,
    mempool_assert_time_exceeds, vars0.
  rewrite Hvars. destruct (opcode cvp); try reflexivity; discriminate Hknown.
Qed.

End Checks.

(** The product [time.time() * 1000] is rounded before [int] truncates it:
    at the reading 1600000000.001 the time is 1600000000001 ms, and a time
    condition on 1600000000000 ms holds. *)
Lemma current_time_rounds_the_product :
  current_time_of Example.clock_001 = Returns 1600000000001
  /\ mempool_check_conditions_dict Example.int_from_bytes Example.clock_001
       Example.unspent Example.spend_bundle
       [(ASSERT_TIME_EXCEEDS,
         [{| opcode := ASSERT_TIME_EXCEEDS;
             vars := [[x01; x74; x87; x6e; x80; x00]] |}])] 5
     = Returns None.
Proof.
  split; vm_compute; reflexivity.
Qed.

(** A reading whose time in milliseconds does not fit [uint64] makes a time
    condition raise; a condition list without one does not read the clock. *)
Lemma current_time_out_of_range :
  let far := S754_finite false 1 70 in
  mempool_check_conditions_dict Example.int_from_bytes far Example.unspent
    Example.spend_bundle satisfied 5
  = Raises (ValueError "Value does not fit into uint64")
  /\ mempool_check_conditions_dict Example.int_from_bytes far Example.unspent
       Example.spend_bundle Example.aggsig_only 5
     = Returns None.
Proof.
  split; vm_compute; reflexivity.
Qed.

(** The spend of [satisfied], checked at height 5 and at height 9 an hour
    later. *)
Lemma satisfied_conditions_stay_satisfied_witness :
  mempool_check_conditions_dict Example.int_from_bytes Example.clock_later
    Example.unspent Example.spend_bundle satisfied 9 = Returns None.
Proof.
  apply (@satisfied_conditions_stay_satisfied Example.int_from_bytes Example.unspent
           Example.spend_bundle Example.clock Example.clock_later
           1600000000000 1600003600000 5 9 satisfied).
  - reflexivity.
  - reflexivity.
  - lia.
  - lia.
  - reflexivity.
Defined.

(** A height condition without an argument. *)
Lemma malformed_first_condition_witness :
  mempool_check_conditions_dict Example.int_from_bytes Example.clock Example.unspent
    Example.spend_bundle
    [(ASSERT_BLOCK_INDEX_EXCEEDS,
      [{| opcode := ASSERT_BLOCK_INDEX_EXCEEDS; vars := [] |}])] 5
  = Raises IndexError.
Proof.
  apply (@malformed_first_condition Example.int_from_bytes Example.unspent
           Example.spend_bundle Example.clock 5 ASSERT_BLOCK_INDEX_EXCEEDS
           {| opcode := ASSERT_BLOCK_INDEX_EXCEEDS; vars := [] |} [] []);
    reflexivity.
Defined.

End condition_facts.

(** * Stepping through a program *)

Module stepping.

Import full_node run_facts every_run readings.
Local Open Scope prog_scope.

Lemma collect_app (A : Type) (f : entry -> option A) (t1 t2 : list entry) :
  collect f (t1 ++ t2) = collect f t1 ++ collect f t2.
Proof.
  induction t1 as [| e t1 IH]; [reflexivity |].
  cbn [app collect]. destruct (f e); rewrite IH; reflexivity.
Qed.

Lemma collect_none (A : Type) (f : entry -> option A) (t : list entry) :
  Forall (fun e => f e = None) t -> collect f t = [].
Proof.
  induction 1 as [| e t He _ IH]; [reflexivity |]. cbn [collect]. rewrite He. exact IH.
Qed.

(** A program that is called in sequence, with what is known of its runs. *)
Lemma all_runs_bind_with (A B : Type) (p : Prog A) (f : A -> Prog B)
  (P : outcome A -> list entry -> Prop) (Q : outcome B -> list entry -> Prop) :
  all_runs p P ->
  (forall o t, P o t -> then_all f Q o t) ->
  all_runs (bind p f) Q.
Proof.
  intros Hp Hf. apply all_runs_bind. eapply all_runs_mono; [exact Hf | exact Hp].
Qed.

Lemma precedes_app (first second : entry -> bool) (t1 t2 : list entry) :
  forall seen,
    precedes first second seen (t1 ++ t2)
    = precedes first second seen t1
      && precedes first second (seen || existsb first t1) t2.
Proof.
  induction t1 as [| e t1 IH]; intros seen; cbn [app precedes existsb].
  - rewrite orb_false_r. reflexivity.
  - rewrite IH, orb_assoc, andb_assoc. reflexivity.
Qed.

Lemma precedes_seen (first second : entry -> bool) (t : list entry) :
  precedes first second true t = true.
Proof.
  induction t as [| e t IH]; [reflexivity |].
  cbn [precedes orb]. rewrite orb_true_r, IH. reflexivity.
Qed.

Lemma precedes_silent (first second : entry -> bool) (t : list entry) :
  Forall (fun e => second e = false) t ->
  forall seen, precedes first second seen t = true.
Proof.
  induction 1 as [| e t He _ IH]; intros seen; [reflexivity |].
  cbn [precedes]. rewrite He, IH. reflexivity.
Qed.

Lemma precedes_mono (first second : entry -> bool) (t : list entry) :
  forall seen seen',
    (seen = true -> seen' = true) ->
    precedes first second seen t = true -> precedes first second seen' t = true.
Proof.
  induction t as [| e t IH]; intros seen seen' Himp; [reflexivity |].
  cbn [precedes]. intros H. apply andb_true_iff in H. destruct H as [Hhead Htail].
  apply andb_true_iff. split.
  - apply orb_true_iff in Hhead. apply orb_true_iff.
    destruct Hhead as [Hhead | Hhead]; [left; exact Hhead | right; exact (Himp Hhead)].
  - apply (IH (seen || first e) (seen' || first e)); [| exact Htail].
    intros H. apply orb_true_iff in H. apply orb_true_iff.
    destruct H as [H | H]; [left; exact (Himp H) | right; exact H].
Qed.

(** After calls outside the class [P], what holds of the rest of the trace
    holds of the whole. *)
Lemma all_runs_bind_precedes (first : entry -> bool)
  (P : forall X : Type, Call X -> bool) (A B : Type) (p : Prog A) (f : A -> Prog B) :
  silent P p ->
  (forall a, all_runs (f a) (fun _ t => precedes first (on P) false t = true)) ->
  all_runs (bind p f) (fun _ t => precedes first (on P) false t = true).
Proof.
  intros Hp Hf. eapply all_runs_bind_with; [exact Hp |].
  cbn beta. intros o t Ht.
  destruct o as [a | e |]; cbn [then_all];
    try (apply (@precedes_silent first (on P) t Ht)).
  eapply all_runs_mono; [| apply Hf]. cbn beta. intros _ t' Ht'.
  rewrite precedes_app, (@precedes_silent first (on P) t Ht false). cbn [andb].
  apply (@precedes_mono first (on P) t' false); [discriminate | exact Ht'].
Qed.

Lemma precedes_always_after (first second : entry -> bool) (t : list entry) :
  precedes first second false t = true -> always_after first second t.
Proof.
  assert (Hgen : forall t seen,
             precedes first second seen t = true ->
             forall t1 e t2, t = t1 ++ e :: t2 -> second e = true ->
                             seen || existsb first t1 = true).
  { clear t. induction t as [| e0 t IH]; intros seen Hp t1 e t2 Heq He.
    - destruct t1; discriminate Heq.
    - cbn [precedes] in Hp. apply andb_true_iff in Hp. destruct Hp as [Hhead Htail].
      destruct t1 as [| e1 t1]; cbn in Heq; injection Heq as Hh Ht.
      + subst e0. rewrite He in Hhead. cbn in Hhead. cbn. rewrite Hhead. reflexivity.
      + subst e1. cbn [existsb]. rewrite orb_assoc. exact (IH _ Htail _ _ _ Ht He). }
  intros Hp t1 e t2 Heq He. exact (Hgen t false Hp t1 e t2 Heq He).
Qed.


Section Raises.

Variable ok : PyExn -> bool.

Lemma raises_only_ret (R : Type) (r : R) : raises_only ok (Ret r).
Proof. exact I. Qed.

Lemma raises_only_raise (R : Type) (e : PyExn) : ok e = true -> raises_only ok (@Raise R e).
Proof. intros H. exact H. Qed.

Lemma raises_only_out_of_fuel (R : Type) : raises_only ok (@OutOfFuel R).
Proof. exact I. Qed.

Lemma raises_only_vis (R X : Type) (c : Call X) (k : X -> Prog R) :
  (forall x, raises_only ok (k x)) -> raises_only ok (Vis c k).
Proof.
  intros Hk x. eapply all_runs_mono; [| apply (Hk x)]. intros o t H. exact H.
Qed.

Lemma raises_only_call (X : Type) (c : Call X) : raises_only ok (call c).
Proof. apply raises_only_vis. intros x. apply raises_only_ret. Qed.

Lemma raises_only_bind (A B : Type) (p : Prog A) (f : A -> Prog B) :
  raises_only ok p -> (forall a, raises_only ok (f a)) -> raises_only ok (bind p f).
Proof.
  intros Hp Hf. apply all_runs_bind. eapply all_runs_mono; [| apply Hp].
  intros [a | e |] t H; cbn; auto.
  eapply all_runs_mono; [| apply (Hf a)]. intros o t' H'. exact H'.
Qed.

Lemma raises_only_try_except (R : Type) (p : Prog R) (handler : PyExn -> Prog R) :
  (forall e, raises_only ok (handler e)) -> raises_only ok (try_except p handler).
Proof.
  intros Hh. apply all_runs_try_except. apply all_runs_always.
  intros [a | e |] t; cbn; auto.
  eapply all_runs_mono; [| apply (Hh e)]. intros o t' H'. exact H'.
Qed.

Lemma raises_only_try_finally (R : Type) (p : Prog R) (fin : Prog (option R)) :
  raises_only ok p -> raises_only ok fin -> raises_only ok (try_finally p fin).
Proof.
  intros Hp Hf. apply all_runs_try_finally. eapply all_runs_mono; [| apply Hp].
  intros [a | e |] t H; cbn; auto;
    (eapply all_runs_mono; [| apply Hf]);
    intros [[r' |] | e' |] t' H'; cbn; auto.
Qed.

Lemma raises_only_with_lock (R : Type) (l : Lock) (p : Prog R) :
  raises_only ok p -> raises_only ok (with_lock l p).
Proof.
  intros Hp. unfold with_lock. apply raises_only_bind; [apply raises_only_call |].
  intros _. apply raises_only_try_finally; [exact Hp |].
  apply raises_only_bind; [apply raises_only_call | intros; apply raises_only_ret].
Qed.

Lemma raises_only_py_assert (b : bool) :
  ok AssertionError = true -> raises_only ok (py_assert b).
Proof. intros H. destruct b; [exact I | exact H]. Qed.

End Raises.

(** One step of a proof that a program raises only certain exceptions. *)
Ltac raises_step :=
  lazymatch goal with
  | |- raises_only _ (Ret _) => apply raises_only_ret
  | |- raises_only _ (Raise _) => apply raises_only_raise; reflexivity
  | |- raises_only _ OutOfFuel => apply raises_only_out_of_fuel
  | |- raises_only _ (call _) => apply raises_only_call
  | |- raises_only _ (py_assert _) => apply raises_only_py_assert; reflexivity
  | |- raises_only _ (bind _ _) => apply raises_only_bind; [| intros ?]
  | |- raises_only _ (with_lock _ _) => apply raises_only_with_lock
  | |- raises_only _ (try_finally _ _) => apply raises_only_try_finally
  | |- raises_only _ (Vis _ _) => apply raises_only_vis; intros ?
  | |- raises_only _ (match ?x with _ => _ end) => destruct x
  | |- raises_only _ (let _ := _ in _) => cbv zeta
  end.

Lemma count_before_none (stop counted : entry -> bool) (t : list entry) :
  Forall (fun e => stop e = false) t -> count_before stop counted t = None.
Proof.
  induction 1 as [| e t He _ IH]; [reflexivity |].
  cbn [count_before]. rewrite He, IH. reflexivity.
Qed.

Lemma count_before_app (stop counted : entry -> bool) (t1 t2 : list entry) :
  Forall (fun e => stop e = false) t1 ->
  count_before stop counted (t1 ++ t2)
  = option_map (fun n => (List.length (filter counted t1) + n)%nat)
      (count_before stop counted t2).
Proof.
  induction 1 as [| e t1 He _ IH]; cbn [app count_before filter].
  - destruct (count_before stop counted t2); reflexivity.
  - rewrite He, IH. destruct (count_before stop counted t2) as [n |]; [| reflexivity].
    cbn [option_map]. destruct (counted e); reflexivity.
Qed.

Lemma count_before_found (stop counted : entry -> bool) (t1 t2 : list entry) (n : nat) :
  count_before stop counted t1 = Some n ->
  count_before stop counted (t1 ++ t2) = Some n.
Proof.
  revert n. induction t1 as [| e t1 IH]; intros n; [discriminate |].
  cbn [app count_before]. destruct (stop e); [intros H; exact H |].
  destruct (count_before stop counted t1) as [m |]; [| discriminate].
  intros H. rewrite (IH m eq_refl). exact H.
Qed.

Lemma Forall_outside (P calls : forall X : Type, Call X -> bool) (t : list entry) :
  (forall (X : Type) (c : Call X), P X c = true -> calls X c = false) ->
  Forall (fun e => on (fun X c => negb (calls X c)) e = false) t ->
  Forall (fun e => on P e = false) t.
Proof.
  intros Hout Ht. eapply Forall_impl; [| exact Ht].
  intros [X c x]. unfold on. cbn. intros Hin.
  destruct (P X c) eqn:HP; [| reflexivity].
  rewrite (Hout X c HP) in Hin. discriminate Hin.
Qed.

(** An entry that stands in a trace built with [::] and [++]. *)
Ltac in_trace :=
  solve [ left; reflexivity
        | right; in_trace
        | apply in_or_app; left; in_trace
        | apply in_or_app; right; in_trace ].

(** One step of the symbolic run of a program, for a goal [all_runs p Q]. *)
Ltac run_step :=
  lazymatch goal with
  | |- all_runs (bind (call _) _) _ => apply all_runs_bind_call; intros ?
  | |- all_runs (bind (Ret _) _) _ => cbn [bind]
  | |- all_runs (bind (Raise _) _) _ => cbn [bind]
  | |- all_runs (bind OutOfFuel _) _ => cbn [bind]
  | |- all_runs (bind (py_assert ?b) _) _ => destruct b; cbn [py_assert]
  | |- all_runs (bind (if negb ?b then _ else _) _) _ => destruct b; cbn [negb]
  | |- all_runs (if negb ?b then _ else _) _ => destruct b; cbn [negb]
  | |- all_runs (bind (match ?x with _ => _ end) _) _ => destruct x
  | |- all_runs (bind (bind _ _) _) _ => apply all_runs_bind
  | |- all_runs (bind (try_except _ _) _) _ =>
      apply all_runs_bind; apply all_runs_try_except
  | |- all_runs (bind (try_finally _ _) _) _ =>
      apply all_runs_bind; apply all_runs_try_finally
  | |- all_runs (bind (with_lock _ _) _) _ => apply all_runs_bind; unfold with_lock
  | |- all_runs (with_lock _ _) _ => unfold with_lock
  | |- all_runs (call _) _ => cbn [call all_runs]; intros ?
  | |- all_runs (Ret _) _ => cbn [all_runs then_all]
  | |- all_runs (Raise _) _ => cbn [all_runs then_all]
  | |- all_runs OutOfFuel _ => cbn [all_runs then_all]
  | |- all_runs (py_assert ?b) _ => destruct b; cbn [py_assert]
  | |- all_runs (match ?x with _ => _ end) _ => destruct x
  | |- all_runs (try_finally _ _) _ => apply all_runs_try_finally
  | |- all_runs (try_except _ _) _ => apply all_runs_try_except
  | |- all_runs (let _ := _ in _) _ => cbv zeta
  | |- then_all _ _ _ _ => cbn [then_all]
  | |- match ?o with Returned _ => _ | Raised _ => _ | Diverged => _ end =>
      cbn beta iota
  end.

End stepping.

(** * Overflow blocks in the first sub-slot of a new epoch *)

Module new_epoch_facts.

Import full_node run_facts every_run full_node_facts stepping readings new_epoch.
Local Open Scope prog_scope.

Lemma all_runs_assuming (A : Prop) (R : Type) (p : Prog R)
  (Q : outcome R -> list entry -> Prop) :
  (A -> all_runs p Q) -> all_runs p (fun o t => A -> Q o t).
Proof.
  revert Q. induction p as [a | e | | X c k IH]; intros Q H; cbn in *;
    [exact H | exact H | exact H |].
  intros x. apply (IH x (fun o t => Q o (Ev c x :: t))). intros a. apply H. exact a.
Qed.

Lemma slot_start_first (chain : Chain) curr first steps :
  slot_start chain curr (Some first) steps ->
  SubBlockRecord.first_in_sub_slot first = true.
Proof.
  intros H. remember (Some first) as found eqn:Hfound.
  induction H as [c Hc | | c f n Hc H IH].
  - injection Hfound as <-. exact Hc.
  - discriminate Hfound.
  - apply IH. exact Hfound.
Qed.

Section Handlers.

Context {node : Node}.
Variable fuel : nat.
Variable chain : Chain.

(** The walk of [respond_unfinished_sub_block] finds the start of the
    sub-slot when the chain answers its look-ups. *)
Lemma walk_to_first_in_sub_slot_finds curr first steps :
  slot_start chain curr first steps ->
  forall n num, (steps <= n)%nat ->
    all_runs (walk_to_first_in_sub_slot n curr num)
      (fun o t =>
         Forall (answered_from chain) t ->
         o = Returned (first, num + Z.of_nat steps)).
Proof.
  induction 1 as [c Hc | | c first steps Hc Hstart IH]; intros n num Hn.
  - destruct n; cbn [walk_to_first_in_sub_slot]; rewrite Hc; cbn;
      intros _; rewrite Z.add_0_r; reflexivity.
  - destruct n; cbn; intros _; rewrite Z.add_0_r; reflexivity.
  - destruct n as [| n]; [lia |]. cbn [walk_to_first_in_sub_slot]. rewrite Hc.
    cbn [negb]. apply all_runs_bind_call. intros curr'.
    apply (@all_runs_mono _ _
             (fun o t =>
                curr' = chain (SubBlockRecord.prev_hash c) ->
                Forall (answered_from chain) t ->
                o = Returned (first, num + Z.of_nat (S steps)))).
    { intros o t H Hall. inversion Hall as [| e t' He Ht]; subst.
      apply H; [exact He | exact Ht]. }
    apply all_runs_assuming. intros ->.
    eapply all_runs_mono; [| apply (IH n (num + 1)); lia].
    cbn beta. intros o t H Ht. rewrite (H Ht). f_equal. f_equal. lia.
Qed.

(** The walk of [new_infusion_point_vdf] does. *)
Lemma walk_records_to_first_in_sub_slot_finds curr first steps :
  slot_start chain curr first steps ->
  forall n, (steps <= n)%nat ->
    all_runs (walk_records_to_first_in_sub_slot n curr)
      (fun o t => Forall (answered_from chain) t -> o = Returned first).
Proof.
  induction 1 as [c Hc | | c first steps Hc Hstart IH]; intros n Hn.
  - destruct n; cbn [walk_records_to_first_in_sub_slot]; rewrite Hc; cbn;
      intros _; reflexivity.
  - destruct n; cbn; intros _; reflexivity.
  - destruct n as [| n]; [lia |]. cbn [walk_records_to_first_in_sub_slot]. rewrite Hc.
    cbn [negb]. apply all_runs_bind_call. intros curr'.
    apply (@all_runs_mono _ _
             (fun o t =>
                chain (SubBlockRecord.prev_hash c) = Some curr' ->
                Forall (answered_from chain) t ->
                o = Returned first)).
    { intros o t H Hall. inversion Hall as [| e t' He Ht]; subst.
      apply H; [exact He | exact Ht]. }
    apply all_runs_assuming. intros Hcurr. rewrite Hcurr in IH.
    apply (IH n). lia.
Qed.


Lemma no_can_finish_answer (t : list entry) :
  Forall (fun e => on (@asks_can_finish_epoch) e = false) t ->
  existsb prev_can_finish_epoch t = false.
Proof.
  induction 1 as [| e t He _ IH]; [reflexivity |]. cbn [existsb]. rewrite IH, orb_false_r.
  destruct e as [X c a]. unfold on in He. cbn in He.
  destruct c; try discriminate He; reflexivity.
Qed.
















Lemma slot_start_unique curr first1 steps1 first2 steps2 :
  slot_start chain curr first1 steps1 -> slot_start chain curr first2 steps2 ->
  first1 = first2 /\ steps1 = steps2.
Proof.
  intros H1. revert first2 steps2.
  induction H1 as [c Hc | | c first steps Hc H1 IH]; intros first2 steps2 H2;
    inversion H2 as [c' Hc' | | c' first' steps' Hc' H2']; subst;
    try congruence; try (split; reflexivity).
  destruct (IH _ _ H2') as [-> ->]. split; reflexivity.
Qed.

Lemma starts_new_epoch_iff curr first steps :
  slot_start chain curr first steps ->
  starts_new_epoch first = true
  <-> first_sub_slot_of_new_epoch chain [] curr steps.
Proof.
  intros Hstart. unfold starts_new_epoch, first_sub_slot_of_new_epoch. split.
  - destruct first as [first |]; [| discriminate].
    intros H. apply andb_true_iff in H. destruct H as [_ H].
    destruct (SubBlockRecord.sub_epoch_summary_included first) as [ses |] eqn:Hses;
      [| discriminate].
    destruct (SubEpochSummary.new_difficulty ses) as [difficulty |] eqn:Hdifficulty;
      [| discriminate].
    exists first, ses, difficulty. repeat split; assumption.
  - intros (first' & ses & difficulty & Hstart' & Hses & Hdifficulty).
    destruct (slot_start_unique Hstart Hstart') as [-> _].
    rewrite (slot_start_first Hstart'), Hses, Hdifficulty. reflexivity.
Qed.

(** The detection of [new_infusion_point_vdf] is exact: it answers true if
    and only if the first sub-slot is the first of a new epoch. *)
Lemma infusion_first_ss_new_epoch_exact block prev_sb first steps :
  slot_start chain prev_sb first steps ->
  (steps <= fuel)%nat ->
  all_runs (infusion_first_ss_new_epoch fuel block prev_sb)
    (fun o t =>
       Forall (answered_from chain) t ->
       exists detected,
         o = Returned detected
         /\ (detected = true
             <-> first_sub_slot_of_new_epoch chain (FullBlock.finished_sub_slots block)
                   prev_sb steps)).
Proof.
  intros Hstart Hsteps. unfold infusion_first_ss_new_epoch.
  destruct (FullBlock.finished_sub_slots block) as [| first_slot rest].
  - eapply all_runs_bind_with;
      [apply (@walk_records_to_first_in_sub_slot_finds _ _ _ Hstart fuel Hsteps) |].
    cbn beta. intros o t Hwalk.
    destruct o as [curr | e |]; cbn [then_all all_runs];
      [| intros Ht; discriminate (Hwalk Ht) | intros Ht; discriminate (Hwalk Ht)].
    rewrite app_nil_r. intros Ht. specialize (Hwalk Ht). injection Hwalk as ->.
    eexists. split; [reflexivity |]. apply (starts_new_epoch_iff Hstart).
  - cbn [all_runs]. intros _. eexists. split; [reflexivity |].
    unfold first_slot_has_new_difficulty, first_sub_slot_of_new_epoch.
    destruct (ChallengeChainSubSlot.new_difficulty
                (EndOfSubSlotBundle.challenge_chain first_slot)) as [difficulty |].
    + split; [intros _; exists difficulty; reflexivity | reflexivity].
    + split; [discriminate | intros [difficulty H]; discriminate H].
Qed.

(** The detection of [respond_unfinished_sub_block] answers true if and
    only if the first sub-slot is the first of a new epoch or
    [can_finish_sub_and_full_epoch] says that the epoch can be finished. *)
Lemma unfinished_count_and_new_epoch_exact block prev_sb first steps :
  slot_start chain (chain (UnfinishedBlock.prev_header_hash block)) first steps ->
  (steps <= fuel)%nat ->
  all_runs (unfinished_count_and_new_epoch fuel block prev_sb)
    (fun o t =>
       Forall (answered_from chain) t ->
       exists num detected,
         o = Returned (num, detected)
         /\ (detected = true
             <-> first_sub_slot_of_new_epoch chain
                   (UnfinishedBlock.finished_sub_slots block)
                   (chain (UnfinishedBlock.prev_header_hash block)) steps
                 \/ existsb prev_can_finish_epoch t = true)).
Proof.
  intros Hstart Hsteps. unfold unfinished_count_and_new_epoch.
  destruct (UnfinishedBlock.finished_sub_slots block) as [| first_slot rest].
  - apply all_runs_bind_call. intros curr.
    apply (@all_runs_mono _ _
             (fun o t =>
                curr = chain (UnfinishedBlock.prev_header_hash block) ->
                Forall (answered_from chain) t ->
                exists num detected,
                  o = Returned (num, detected)
                  /\ (detected = true
                      <-> first_sub_slot_of_new_epoch chain []
                            (chain (UnfinishedBlock.prev_header_hash block)) steps
                          \/ existsb prev_can_finish_epoch t = true))).
    { intros o t H Hall. inversion Hall as [| e t' He Ht]; subst.
      cbn [existsb prev_can_finish_epoch orb]. apply H; [exact He | exact Ht]. }
    apply all_runs_assuming. intros ->.
    eapply all_runs_bind_with.
    { apply all_runs_and;
        [apply walk_to_first_in_sub_slot_silent with (P := @asks_can_finish_epoch);
         intros; reflexivity
        | apply (@walk_to_first_in_sub_slot_finds _ _ _ Hstart fuel 2 Hsteps)]. }
    cbn beta. intros o t [Hquiet Hwalk]. apply no_can_finish_answer in Hquiet.
    pose proof (starts_new_epoch_iff Hstart) as Hiff.
    destruct o as [[curr num] | e |]; cbn [then_all];
      [| intros Ht; discriminate (Hwalk Ht) | intros Ht; discriminate (Hwalk Ht)].
    apply (@all_runs_mono _ _
             (fun o' t' =>
                Forall (answered_from chain) t ->
                exists num' detected,
                  o' = Returned (num', detected)
                  /\ (detected = true
                      <-> first_sub_slot_of_new_epoch chain []
                            (chain (UnfinishedBlock.prev_header_hash block)) steps
                          \/ existsb prev_can_finish_epoch (t ++ t') = true))).
    { intros o' t' H Hall. apply Forall_app in Hall. destruct Hall as [Ht _].
      apply H. exact Ht. }
    apply all_runs_assuming. intros Ht. specialize (Hwalk Ht).
    injection Hwalk as -> ->.
    destruct (starts_new_epoch first) eqn:Hnew.
    { cbn [all_runs]. eexists; eexists. split; [reflexivity |].
      split; [intros _; left; apply Hiff; reflexivity | reflexivity]. }
    assert (Hold : ~ first_sub_slot_of_new_epoch chain []
                     (chain (UnfinishedBlock.prev_header_hash block)) steps).
    { intros H. apply Hiff in H. discriminate H. }
    destruct prev_sb as [prev_sb |].
    + apply all_runs_bind_call. intros prev_prev.
      apply all_runs_bind_call. intros [can_finish_sub can_finish_epoch].
      cbn [all_runs]. rewrite existsb_app, Hquiet.
      cbn [existsb prev_can_finish_epoch snd orb]. rewrite orb_false_r.
      eexists; eexists. split; [reflexivity |]. split.
      * intros ->. right. reflexivity.
      * intros [H | H]; [destruct (Hold H) | exact H].
    + cbn [all_runs]. rewrite app_nil_r, Hquiet.
      eexists; eexists. split; [reflexivity |]. split; [discriminate |].
      intros [H | H]; [destruct (Hold H) | discriminate H].
  - cbn [all_runs existsb]. intros _. eexists; eexists. split; [reflexivity |].
    unfold first_slot_has_new_difficulty, first_sub_slot_of_new_epoch.
    destruct (ChallengeChainSubSlot.new_difficulty
                (EndOfSubSlotBundle.challenge_chain first_slot)) as [difficulty |].
    + split; [intros _; left; exists difficulty; reflexivity | reflexivity].
    + split; [discriminate |].
      intros [[difficulty H] | H]; discriminate H.
Qed.

Variable W : Type.
Variable env : forall X : Type, Call X -> W -> X * W.


End Handlers.

End new_epoch_facts.

Module new_epoch_examples.

Import full_node readings Sample Scenario new_epoch epoch_scenario new_epoch_facts.




End new_epoch_examples.

(** * More on the handlers of the full node *)

Module handler_facts.

Import full_node run_facts every_run readings stepping.
Local Open Scope prog_scope.

(** [silent] for the calls outside a footprint, from a smaller footprint. *)
Ltac within lemma :=
  eapply silent_weaken; [| apply lemma];
  let c := fresh "c" in
  let H := fresh "H" in
  intros ? c; destruct c; cbn; intros H;
  solve [ reflexivity | discriminate H
        | repeat match goal with
                 | x : NodeType |- _ => destruct x
                 | x : Lock |- _ => destruct x
                 end; first [reflexivity | discriminate H] ].

Section Handlers.

Context {node : Node}.
Variable fuel : nat.

Lemma last_csb_or_first_in_ss_calls n curr :
  silent (fun X c => negb (@timelord_peak_calls X c)) (last_csb_or_first_in_ss n curr).
Proof.
  revert curr. induction n as [| n IH]; intros curr; cbn [last_csb_or_first_in_ss];
    repeat first [apply IH | silent_step].
Qed.

Lemma send_peak_to_timelords_calls :
  silent (fun X c => negb (@timelord_peak_calls X c)) (send_peak_to_timelords fuel).
Proof.
  unfold send_peak_to_timelords.
  repeat first [apply last_csb_or_first_in_ss_calls | silent_step].
Qed.

Lemma peak_post_processing_calls sub_block record fork_height peer :
  silent (fun X c => negb (@post_processing_calls X c))
    (peak_post_processing fuel sub_block record fork_height peer).
Proof.
  unfold peak_post_processing.
  repeat first [within send_peak_to_timelords_calls | silent_step].
Qed.

Lemma peers_with_peak_loop_calls ids :
  forall filtered_peers,
    silent (fun X c => negb (@peers_with_peaks_calls X c))
      (peers_with_peak_loop ids filtered_peers).
Proof.
  induction ids as [| peer_hash rest IH]; intros filtered_peers;
    cbn [peers_with_peak_loop]; repeat first [apply IH | silent_step].
Qed.

Lemma get_peers_with_peaks_calls peak_hashes :
  silent (fun X c => negb (@peers_with_peaks_calls X c)) (get_peers_with_peaks peak_hashes).
Proof.
  unfold get_peers_with_peaks. generalize (@nil WSChiaConnection.t).
  induction peak_hashes as [| peak_hash rest IH]; intros filtered_peers;
    cbn [peak_hashes_loop];
    repeat first [apply IH | apply peers_with_peak_loop_calls | silent_step].
Qed.

Lemma receive_sub_block_batch_loop_calls blocks :
  forall results peer fork_point advanced_peak fork_height,
    silent (fun X c => negb (@batch_calls X c))
      (receive_sub_block_batch_loop blocks results peer fork_point advanced_peak
         fork_height).
Proof.
  induction blocks as [| block blocks IH]; intros;
    cbn [receive_sub_block_batch_loop]; repeat first [apply IH | silent_step].
Qed.

Lemma receive_sub_block_batch_calls blocks peer fork_point :
  silent (fun X c => negb (@batch_calls X c))
    (receive_sub_block_batch blocks peer fork_point).
Proof.
  unfold receive_sub_block_batch.
  repeat first [apply receive_sub_block_batch_loop_calls | silent_step].
Qed.

Lemma remove_all_calls (P : forall X : Type, Call X -> bool) to_remove :
  forall peers_with_peak, silent P (remove_all to_remove peers_with_peak).
Proof.
  induction to_remove as [| peer rest IH]; intros; cbn [remove_all];
    repeat first [apply IH | silent_step].
Qed.

Lemma fetch_from_peers_calls peers :
  forall fork_point_height start_height end_height to_remove advanced_peak,
    silent (fun X c => negb (@fork_point_sync_calls X c))
      (fetch_from_peers peers fork_point_height start_height end_height to_remove
         advanced_peak).
Proof.
  induction peers as [| peer rest IH]; intros; cbn [fetch_from_peers];
    repeat first [apply IH | within receive_sub_block_batch_calls | silent_step].
Qed.

Lemma sync_windows_calls starts :
  forall fork_point_height target peak_hash batch_size peers_with_peak advanced_peak,
    silent (fun X c => negb (@fork_point_sync_calls X c))
      (sync_windows starts fork_point_height target peak_hash batch_size peers_with_peak
         advanced_peak).
Proof.
  induction starts as [| start_height rest IH]; intros; cbn [sync_windows];
    repeat first [apply IH | apply fetch_from_peers_calls | apply remove_all_calls
                 | within get_peers_with_peaks_calls | silent_step].
Qed.

Lemma sync_from_fork_point_calls fork_point_height target peak_hash :
  silent (fun X c => negb (@fork_point_sync_calls X c))
    (sync_from_fork_point fork_point_height target peak_hash).
Proof.
  unfold sync_from_fork_point.
  repeat first [apply sync_windows_calls | within get_peers_with_peaks_calls | silent_step].
Qed.

Lemma wait_for_peaks_calls n :
  forall current_peer_ids peaks,
    silent (fun X c => negb (@long_sync_calls X c))
      (wait_for_peaks n current_peer_ids peaks).
Proof.
  induction n as [| n IH]; intros; cbn [wait_for_peaks];
    repeat first [apply IH | within get_peers_with_peaks_calls | silent_step].
Qed.

Lemma gather_requests_calls peers :
  forall height, silent (fun X c => negb (@long_sync_calls X c))
                   (gather_requests peers height).
Proof.
  induction peers as [| peer rest IH]; intros; cbn [gather_requests];
    repeat first [apply IH | silent_step].
Qed.

Lemma record_peers_with_peak_calls peers :
  forall responses h wt ht,
    silent (fun X c => negb (@long_sync_calls X c))
      (record_peers_with_peak peers responses h wt ht).
Proof.
  induction peers as [| peer rest IH]; intros [| r responses] h wt ht;
    cbn [record_peers_with_peak]; repeat first [apply IH | silent_step].
Qed.

Lemma _sync_body_calls :
  silent (fun X c => negb (@long_sync_calls X c)) _sync_body.
Proof.
  unfold _sync_body.
  repeat first [ apply wait_for_peaks_calls | apply gather_requests_calls
               | apply record_peers_with_peak_calls
               | within get_peers_with_peaks_calls
               | within sync_from_fork_point_calls | silent_step ].
Qed.

Lemma _sync_protected_calls :
  silent (fun X c => negb (@long_sync_calls X c))
    (try_except _sync_body
       (fun e =>
          match e with
          | CancelledError => call (log warning "Syncing failed, CancelledError")
          | _ => call (log error "Error with syncing")
          end)).
Proof.
  apply silent_try_except; [exact _sync_body_calls |].
  intros e. destruct e; apply silent_call; reflexivity.
Qed.

Lemma _finish_sync_calls :
  all_runs (_finish_sync fuel)
    (fun _ t =>
       exists t', t = Ev (sync_store_set_sync_mode false) tt :: t'
                  /\ Forall (fun e => on (fun X c => negb (@finish_sync_calls X c)) e
                                      = false) t').
Proof.
  unfold _finish_sync. apply all_runs_bind_call. intros [].
  assert (Hrest : silent (fun X c => negb (@finish_sync_calls X c))
                    (call (_state_changed "sync_mode") ;;
                     no_server <- call server_is_none ;;
                     if no_server then Ret tt
                     else
                       peak <- call blockchain_get_peak ;;
                       with_lock blockchain_lock
                         (call sync_store_clear_sync_info ;;
                          peak_fb <- call blockchain_get_full_peak ;;
                          match peak with
                          | Some peak =>
                              peak_post_processing fuel peak_fb peak
                                (SubBlockRecord.sub_block_height peak - 1) None
                          | None => Ret tt
                          end) ;;
                       match peak with
                       | Some peak =>
                           call (weight_proof_handler_get_proof_of_weight
                                   (SubBlockRecord.header_hash peak)) ;;
                           call (_state_changed "sub_block")
                       | None => Ret tt
                       end))
    by (repeat first [within peak_post_processing_calls | silent_step]).
  apply (@all_runs_mono _ _
           (fun _ t =>
              Forall (fun e => on (fun X c => negb (@finish_sync_calls X c)) e = false) t));
    [| exact Hrest].
  intros _ t Ht. exists t. split; [reflexivity | exact Ht].
Qed.

Lemma respond_sub_block_footprint sub_block peer :
  silent (fun X c => negb (@respond_sub_block_calls X c))
    (respond_sub_block fuel sub_block peer).
Proof.
  unfold respond_sub_block.
  repeat first [within peak_post_processing_calls | silent_step].
Qed.

Lemma receive_sub_block_batch_loop_received (peer : WSChiaConnection.t)
  (fork_point : option Z) (blocks : list FullBlock.t) :
  forall (results : list PreValidationResult.t) (advanced_peak : bool)
         (fork_height : option Z),
    all_runs
      (receive_sub_block_batch_loop blocks results peer fork_point advanced_peak
         fork_height)
      (fun o t =>
         (exists n, collect received_block t = firstn n (combine blocks results))
         /\ forall advanced_peak' fork_height',
              o = Returned (true, advanced_peak', fork_height') ->
              map fst (collect received_block t) = blocks).
Proof.
  induction blocks as [| block blocks IH]; intros results advanced_peak fork_height.
  - cbn. split; [exists 0%nat; reflexivity | reflexivity].
  - cbn [receive_sub_block_batch_loop]. destruct results as [| result_i results].
    + cbn. split; [exists 0%nat; reflexivity | discriminate].
    + destruct (PreValidationResult.error result_i) as [code |].
      * destruct (Err_of_code code) as [err |];
          [repeat run_step |];
          cbn; (split; [exists 0%nat; reflexivity | discriminate]).
      * destruct (is_some (PreValidationResult.required_iters result_i));
          cbn [py_assert bind];
          [| cbn; split; [exists 0%nat; reflexivity | discriminate]].
        apply all_runs_bind_call. intros [[result error_code] fork_height'].
        assert (Hstop : forall (o : outcome (bool * bool * option Z)) t,
                   collect received_block t = [] ->
                   (forall ap fh, o <> Returned (true, ap, fh)) ->
                   (exists n,
                       collect received_block
                         (Ev (blockchain_receive_block block result_i
                                (if advanced_peak then None else fork_point))
                            (result, error_code, fork_height') :: t)
                       = firstn n (combine (block :: blocks) (result_i :: results)))
                   /\ forall ap fh,
                        o = Returned (true, ap, fh) ->
                        map fst
                          (collect received_block
                             (Ev (blockchain_receive_block block result_i
                                    (if advanced_peak then None else fork_point))
                                (result, error_code, fork_height') :: t))
                        = block :: blocks).
        { intros o t Hnone Hfail. split.
          - exists 1%nat. cbn. rewrite Hnone. destruct (combine blocks results); reflexivity.
          - intros ap fh Ho. destruct (Hfail _ _ Ho). }
        assert (Hgo : forall advanced_peak',
                   all_runs
                     (sub_block <- call (blockchain_sub_block_record
                                           (FullBlock.header_hash block)) ;;
                      (if is_some (SubBlockRecord.sub_epoch_summary_included sub_block)
                       then call weight_proof_handler_create_prev_sub_epoch_segments
                       else Ret tt) ;;
                      receive_sub_block_batch_loop blocks results peer fork_point
                        advanced_peak' fork_height')
                     (fun o t =>
                        (exists n,
                            collect received_block
                              (Ev (blockchain_receive_block block result_i
                                     (if advanced_peak then None else fork_point))
                                 (result, error_code, fork_height') :: t)
                            = firstn n (combine (block :: blocks) (result_i :: results)))
                        /\ forall ap fh,
                             o = Returned (true, ap, fh) ->
                             map fst
                               (collect received_block
                                  (Ev (blockchain_receive_block block result_i
                                         (if advanced_peak then None else fork_point))
                                     (result, error_code, fork_height') :: t))
                             = block :: blocks)).
        { intros advanced_peak'. apply all_runs_bind_call. intros sub_block.
          assert (Hrest : forall t0,
                     collect received_block t0 = [] ->
                     all_runs
                       (receive_sub_block_batch_loop blocks results peer fork_point
                          advanced_peak' fork_height')
                       (fun o t' =>
                          (exists n,
                              collect received_block
                                (Ev (blockchain_receive_block block result_i
                                       (if advanced_peak then None else fork_point))
                                   (result, error_code, fork_height')
                                 :: Ev (blockchain_sub_block_record
                                          (FullBlock.header_hash block)) sub_block
                                 :: t0 ++ t')
                              = firstn n (combine (block :: blocks) (result_i :: results)))
                          /\ forall ap fh,
                               o = Returned (true, ap, fh) ->
                               map fst
                                 (collect received_block
                                    (Ev (blockchain_receive_block block result_i
                                           (if advanced_peak then None else fork_point))
                                       (result, error_code, fork_height')
                                     :: Ev (blockchain_sub_block_record
                                              (FullBlock.header_hash block)) sub_block
                                     :: t0 ++ t'))
                               = block :: blocks)).
          { intros t0 Hnone. eapply all_runs_mono; [| apply IH].
            cbn beta. intros o t' [[n Hn] Hall].
            cbn [collect received_block ev_call]. rewrite collect_app, Hnone.
            cbn [app]. split.
            - exists (S n). cbn [combine firstn]. rewrite Hn. reflexivity.
            - intros ap fh Ho. cbn [map fst]. rewrite (Hall _ _ Ho). reflexivity. }
          destruct (is_some (SubBlockRecord.sub_epoch_summary_included sub_block)).
          - apply all_runs_bind_call. intros [].
            apply (Hrest [Ev weight_proof_handler_create_prev_sub_epoch_segments tt]).
            reflexivity.
          - cbn [bind]. apply (Hrest []). reflexivity. }
        destruct result; cbn [ReceiveBlockResult_eqb]; try apply Hgo.
        -- destruct (is_some error_code); repeat run_step;
             apply Hstop; [reflexivity | discriminate | reflexivity | discriminate].
        -- destruct (is_some error_code); repeat run_step;
             apply Hstop; [reflexivity | discriminate | reflexivity | discriminate].
Qed.

Lemma listed_and_connected_more (hs hs' : list bytes32) (t1 t t2 : list entry)
  (peer : WSChiaConnection.t) :
  incl hs hs' ->
  listed_and_connected hs t peer -> listed_and_connected hs' (t1 ++ t ++ t2) peer.
Proof.
  intros Hincl (h & ids & conns & Hh & Hids & Hin & Hconns & Hpeer).
  exists h, ids, conns. repeat split; auto.
  - apply in_or_app. right. apply in_or_app. left. exact Hids.
  - apply in_or_app. right. apply in_or_app. left. exact Hconns.
Qed.

Lemma bytes_eqb_same (a : bytes) : bytes_eqb a a = true.
Proof.
  induction a as [| x a IH]; [reflexivity |].
  cbn. rewrite IH. rewrite (Byte.byte_dec_lb eq_refl). reflexivity.
Qed.

Lemma peers_with_peak_loop_found (ids : list bytes32) :
  forall filtered_peers : list WSChiaConnection.t,
    all_runs (peers_with_peak_loop ids filtered_peers)
      (fun o t =>
         exists found,
           o = Returned (filtered_peers ++ found)
           /\ Forall (fun peer =>
                        bytes_in (peer_node_id peer) ids = true
                        /\ exists conns, In (Ev server_all_connections conns) t
                                         /\ In peer conns) found).
Proof.
  induction ids as [| peer_hash rest IH]; intros filtered_peers.
  - cbn. exists []. rewrite app_nil_r. split; [reflexivity | constructor].
  - cbn [peers_with_peak_loop]. apply all_runs_bind_call. intros conns.
    assert (Hrest : forall found0 acc,
               acc = filtered_peers ++ found0 ->
               Forall (fun peer =>
                         bytes_in (peer_node_id peer) (peer_hash :: rest) = true
                         /\ In peer conns) found0 ->
               all_runs (peers_with_peak_loop rest acc)
                 (fun o t =>
                    exists found,
                      o = Returned (filtered_peers ++ found)
                      /\ Forall (fun peer =>
                                   bytes_in (peer_node_id peer) (peer_hash :: rest) = true
                                   /\ exists conns',
                                        In (Ev server_all_connections conns')
                                          (Ev server_all_connections conns :: t)
                                        /\ In peer conns') found)).
    { intros found0 acc -> Hfound0. eapply all_runs_mono; [| apply IH].
      cbn beta. intros o t (found & -> & Hfound). exists (found0 ++ found).
      split; [rewrite app_assoc; reflexivity |]. apply Forall_app. split.
      - eapply Forall_impl; [| exact Hfound0]. cbn beta. intros peer [Hid Hconn].
        split; [exact Hid |]. exists conns. split; [left; reflexivity | exact Hconn].
      - eapply Forall_impl; [| exact Hfound]. cbn beta.
        intros peer [Hid (conns' & Hin & Hconn)]. split.
        + unfold bytes_in in *. cbn [existsb]. rewrite Hid. apply orb_true_r.
        + exists conns'. split; [right; exact Hin | exact Hconn]. }
    destruct (find_connection peer_hash conns) as [peer |] eqn:Hfind.
    + apply (Hrest [peer]); [reflexivity |]. constructor; [| constructor].
      unfold find_connection in Hfind. apply find_some in Hfind.
      destruct Hfind as [Hconn Hid]. split; [| exact Hconn].
      unfold bytes_in. cbn [existsb]. rewrite Hid. reflexivity.
    + apply (Hrest []); [rewrite app_nil_r; reflexivity | constructor].
Qed.

Lemma peak_hashes_loop_found (peak_hashes : list bytes32) :
  forall filtered_peers : list WSChiaConnection.t,
    all_runs (peak_hashes_loop peak_hashes filtered_peers)
      (fun o t =>
         exists found,
           o = Returned (filtered_peers ++ found)
           /\ Forall (listed_and_connected peak_hashes t) found).
Proof.
  induction peak_hashes as [| peak_hash rest IH]; intros filtered_peers.
  - cbn. exists []. rewrite app_nil_r. split; [reflexivity | constructor].
  - cbn [peak_hashes_loop]. apply all_runs_bind_call. intros ids.
    eapply all_runs_bind_with; [apply peers_with_peak_loop_found |].
    cbn beta. intros o t (found1 & -> & Hfound1). cbn [then_all].
    eapply all_runs_mono; [| apply IH].
    cbn beta. intros o t' (found2 & -> & Hfound2). exists (found1 ++ found2).
    split; [rewrite app_assoc; reflexivity |]. apply Forall_app. split.
    + eapply Forall_impl; [| exact Hfound1]. cbn beta.
      intros peer [Hid (conns & Hin & Hconn)].
      exists peak_hash, ids, conns. repeat split.
      * left. reflexivity.
      * left. reflexivity.
      * exact Hid.
      * right. apply in_or_app. left. exact Hin.
      * exact Hconn.
    + eapply Forall_impl; [| exact Hfound2]. cbn beta. intros peer Hpeer.
      apply (@listed_and_connected_more rest (peak_hash :: rest)
               (Ev (sync_store_get_peak_peers peak_hash) ids :: t) t' [] peer)
        in Hpeer; [| intros h Hh; right; exact Hh].
      rewrite app_nil_r in Hpeer. exact Hpeer.
Qed.

Lemma heights_down_succ (from : Z) (n : nat) :
  heights_down from (S n) = from :: heights_down (from - 1) n.
Proof.
  unfold heights_down. cbn [seq map]. rewrite <- seq_shift, map_map.
  f_equal; [cbn; lia |]. apply map_ext. intros i. lia.
Qed.

Lemma short_sync_backtrack_loop_requests (peer : WSChiaConnection.t)
  (peak_sub_height : Z) (n : nat) :
  forall (curr_sub_height : Z) (responses : list FullBlock.t),
    n = Z.to_nat (curr_sub_height - (peak_sub_height - 5)) ->
    all_runs
      (short_sync_backtrack_loop n peer peak_sub_height curr_sub_height responses)
      (fun o t =>
         (exists k, collect requested_height t = firstn k (heights_down curr_sub_height n))
         /\ Forall (fun e => on (@backtrack_loop_calls) e = true) t
         /\ o <> Diverged
         /\ forall rs, o = Returned (false, rs) ->
                       collect requested_height t = heights_down curr_sub_height n).
Proof.
  induction n as [| n IH]; intros curr_sub_height responses Hn;
    cbn [short_sync_backtrack_loop];
    destruct (peak_sub_height - 5 <? curr_sub_height) eqn:Hgo;
    try (apply Z.ltb_lt in Hgo; lia);
    try (apply Z.ltb_ge in Hgo; lia);
    try (cbn; split; [exists 0%nat; reflexivity |];
         split; [constructor |]; split; [discriminate | reflexivity]).
  apply Z.ltb_lt in Hgo.
  apply all_runs_bind_call. intros curr. rewrite heights_down_succ.
  destruct curr as [[curr_sub_block | sub_blocks | | wp |] |];
    try (cbn; split; [exists 1%nat; reflexivity |];
         split; [repeat constructor |]; split; discriminate).
  apply all_runs_bind_call. intros connected.
  destruct (connected || (curr_sub_height =? 0)).
  - cbn. split; [exists 1%nat; reflexivity |].
    split; [repeat constructor |]. split; discriminate.
  - eapply all_runs_mono; [| apply (IH (curr_sub_height - 1)); lia].
    cbn beta. intros o t ([k Hk] & Hcalls & Hfuel & Hall).
    cbn [collect requested_height ev_call]. split; [| split; [| split]].
    + exists (S k). cbn [firstn]. rewrite Hk. reflexivity.
    + repeat constructor. exact Hcalls.
    + exact Hfuel.
    + intros rs Ho. rewrite (Hall rs Ho). reflexivity.
Qed.

Variable W : Type.
Variable env : forall X : Type, Call X -> W -> X * W.

(** X5: [short_sync_backtrack] asks the peer for sub-blocks one height at a
    time, from the target height downwards, and for no height at or below
    [peak_sub_height - 5]. When it answers False it has asked for every
    height from the target down to [peak_sub_height - 4] and has done
    nothing else than these requests and the look-ups of the parents in
    the block chain: no block was handed to the block chain and nothing
    was broadcast. *)
Theorem short_sync_backtrack_requests (w : W) (peer : WSChiaConnection.t)
  (peak_sub_height target_sub_height : Z) :
  let r := run env (short_sync_backtrack fuel peer peak_sub_height target_sub_height) w in
  let heights :=
    heights_down target_sub_height
      (Z.to_nat (target_sub_height - (peak_sub_height - 5))) in
  (exists k, collect requested_height (trace_of r) = firstn k heights)
  /\ (result_of r = Returned false ->
      collect requested_height (trace_of r) = heights
      /\ Forall (fun e => on (@backtrack_loop_calls) e = true) (trace_of r)).
Proof.
  cbv zeta.
  apply (all_runs_run env
           (short_sync_backtrack fuel peer peak_sub_height target_sub_height)
           (fun o t =>
              (exists k,
                  collect requested_height t
                  = firstn k (heights_down target_sub_height
                                (Z.to_nat (target_sub_height - (peak_sub_height - 5)))))
              /\ (o = Returned false ->
                  collect requested_height t
                  = heights_down target_sub_height
                      (Z.to_nat (target_sub_height - (peak_sub_height - 5)))
                  /\ Forall (fun e => on (@backtrack_loop_calls) e = true) t))).
  unfold short_sync_backtrack.
  eapply all_runs_bind_with;
    [apply (@short_sync_backtrack_loop_requests peer peak_sub_height _
              target_sub_height [] eq_refl) |].
  cbn beta. intros o t ([k Hk] & Hcalls & Hfuel & Hall).
  destruct o as [[found_fork_point responses] | e |]; cbn [then_all];
    [| split; [exists k; exact Hk | discriminate] | destruct (Hfuel eq_refl)].
  destruct found_fork_point.
  - assert (Hsubmit : silent (fun X c => negb (@respond_sub_block_calls X c))
                        (for_each (rev responses)
                           (fun response =>
                              respond_sub_block fuel response None ;; Ret tt))).
    { induction (rev responses) as [| response rest IHrest]; cbn [for_each];
        repeat first [apply IHrest | apply respond_sub_block_footprint | silent_step]. }
    apply all_runs_bind. eapply all_runs_mono; [| exact Hsubmit].
    cbn beta. intros o t' Ht'.
    assert (Hnone : collect requested_height t' = []).
    { apply collect_none. eapply Forall_impl; [| exact Ht'].
      intros [X c x]. unfold on. cbn. destruct c; cbn; try reflexivity; discriminate. }
    destruct o as [[] | e |]; cbn [then_all all_runs];
      rewrite ?app_nil_r, collect_app, Hnone, app_nil_r;
      (split; [exists k; exact Hk | discriminate]).
  - cbn. rewrite app_nil_r. split; [exists k; exact Hk |].
    intros _. split; [exact (Hall _ eq_refl) | exact Hcalls].
Qed.

(** X6: [get_peers_with_peaks] always returns, and returns only peers that are
    connected and hold one of the peaks: for each peer of its answer, the
    sync store listed the peer's node id under one of the given hashes and
    the server listed the peer among its connections, both during the
    call. *)
Theorem get_peers_with_peaks_listed_and_connected (w : W) (peak_hashes : list bytes32) :
  let r := run env (get_peers_with_peaks peak_hashes) w in
  exists peers,
    result_of r = Returned peers
    /\ Forall (listed_and_connected peak_hashes (trace_of r)) peers.
Proof.
  cbv zeta.
  exact (all_runs_run env (get_peers_with_peaks peak_hashes)
           (fun o t => exists peers, o = Returned peers
                                     /\ Forall (listed_and_connected peak_hashes t) peers)
           w (peak_hashes_loop_found peak_hashes [])).
Qed.

(** X7: [receive_sub_block_batch] hands the blocks of the batch to
    [receive_block] in the order of the batch, each with the pre-validation
    result of its own index, and stops at the first block it does not
    accept: the blocks handed over are a prefix of the batch. Without
    pre-validation results no block is handed over. When the call reports
    success every block of the batch was handed over. *)
Theorem batch_blocks_received_in_order (w : W) (blocks : list FullBlock.t)
  (peer : WSChiaConnection.t) (fork_point : option Z) :
  let r := run env (receive_sub_block_batch blocks peer fork_point) w in
  let handed := collect received_block (trace_of r) in
  match answer env (blockchain_pre_validate_blocks_multiprocessing blocks) w with
  | None => handed = []
  | Some pre_validation_results =>
      (exists n, handed = firstn n (combine blocks pre_validation_results))
      /\ forall advanced_peak fork_height,
           result_of r = Returned (true, advanced_peak, fork_height) ->
           map fst handed = blocks
  end.
Proof.
  cbv zeta. unfold receive_sub_block_batch. cbn [bind call]. rewrite run_vis.
  cbn [trace_of result_of fst snd collect received_block ev_call].
  destruct (answer env (blockchain_pre_validate_blocks_multiprocessing blocks) w)
    as [results |]; [| reflexivity].
  apply (all_runs_run env _
           (fun o t =>
              (exists n, collect received_block t = firstn n (combine blocks results))
              /\ forall advanced_peak fork_height,
                   o = Returned (true, advanced_peak, fork_height) ->
                   map fst (collect received_block t) = blocks)).
  eapply all_runs_bind_with; [apply receive_sub_block_batch_loop_received |].
  cbn beta. intros [[[success advanced_peak] fork_height] | e |] t [Hprefix Hall];
    cbn [then_all]; try (split; [exact Hprefix | discriminate]).
  destruct success.
  - apply all_runs_bind_call. intros []. cbn [all_runs].
    rewrite collect_app. cbn [collect received_block ev_call]. rewrite app_nil_r.
    split; [exact Hprefix |]. intros ap fh _. exact (Hall _ _ eq_refl).
  - cbn [all_runs]. rewrite app_nil_r. split; [exact Hprefix | discriminate].
Qed.

Lemma short_sync_batch_step_quiet peer target_sub_height batch_size sub_height :
  silent (@batch_syncing_changes)
    (short_sync_batch_step fuel peer target_sub_height batch_size sub_height).
Proof.
  unfold short_sync_batch_step, cancellation_point.
  repeat first [within receive_sub_block_batch_calls
               | within peak_post_processing_calls | silent_step].
Qed.

(** X8: [short_sync_batch] and the registration of the peer in
    [batch_syncing]. A run that returns, or raises anything but
    CancelledError, either never touches [batch_syncing], or adds the
    peer's node id once and removes it with its very last call, with no
    other change of [batch_syncing] before or between. A run that ends in
    CancelledError removes nothing: either it never touches
    [batch_syncing], or it has added the peer's node id once and leaves it
    there, since [except Exception] does not catch the CancelledError that
    the task's cancellation raises inside the [try] block. *)
Theorem short_sync_batch_registration_removed (w : W) (peer : WSChiaConnection.t)
  (start_sub_height target_sub_height : Z) :
  let r := run env (short_sync_batch fuel peer start_sub_height target_sub_height) w in
  let unchanged := Forall (fun e => on (@batch_syncing_changes) e = false) in
  match result_of r with
  | Diverged => True
  | Raised CancelledError =>
      unchanged (trace_of r)
      \/ exists t1 t2,
           trace_of r = t1 ++ Ev (batch_syncing_add (peer_node_id peer)) tt :: t2
           /\ unchanged t1 /\ unchanged t2
  | _ =>
      unchanged (trace_of r)
      \/ exists t1 t2,
           trace_of r
           = t1 ++ Ev (batch_syncing_add (peer_node_id peer)) tt
                :: t2 ++ [Ev (batch_syncing_remove (peer_node_id peer)) tt]
           /\ unchanged t1 /\ unchanged t2
  end.
Proof.
  cbv zeta.
  set (unchanged := Forall (fun e => on (@batch_syncing_changes) e = false)).
  set (removed := fun t : list entry =>
         unchanged t
         \/ exists t1 t2,
              t = t1 ++ Ev (batch_syncing_add (peer_node_id peer)) tt
                    :: t2 ++ [Ev (batch_syncing_remove (peer_node_id peer)) tt]
              /\ unchanged t1 /\ unchanged t2).
  set (left_behind := fun t : list entry =>
         unchanged t
         \/ exists t1 t2,
              t = t1 ++ Ev (batch_syncing_add (peer_node_id peer)) tt :: t2
              /\ unchanged t1 /\ unchanged t2).
  set (Q := fun (o : outcome bool) (t : list entry) =>
         match o with
         | Diverged => True
         | Raised CancelledError => left_behind t
         | _ => removed t
         end).
  enough (HQ : Q (result_of (run env (short_sync_batch fuel peer start_sub_height
                                        target_sub_height) w))
                 (trace_of (run env (short_sync_batch fuel peer start_sub_height
                                       target_sub_height) w))).
  { unfold Q in HQ.
    destruct (result_of (run env (short_sync_batch fuel peer start_sub_height
                                    target_sub_height) w)) as [r | [] |];
      exact HQ. }
  apply (all_runs_run env
           (short_sync_batch fuel peer start_sub_height target_sub_height) Q).
  unfold short_sync_batch.
  eapply all_runs_bind_with.
  { assert (Hfirst : silent (@batch_syncing_changes)
                       (if 0 <? start_sub_height
                        then
                          first <- call (peer_request_sub_block peer start_sub_height
                                           false None) ;;
                          match first with
                          | Some (RespondSubBlock first_sub_block) =>
                              connected <- call (blockchain_contains_sub_block
                                                   (FullBlock.prev_header_hash
                                                      first_sub_block)) ;;
                              if negb connected then
                                call (log info "Batch syncing stopped, this is a deep chain") ;;
                                Ret (Some false)
                              else Ret None
                          | _ =>
                              Raise (ValueError
                                       "Error short batch syncing, could not fetch sub-block")
                          end
                        else Ret None)) by (repeat silent_step).
    exact Hfirst. }
  cbn beta. intros o t Ht.
  destruct o as [[r |] | e |]; cbn [then_all all_runs].
  { rewrite app_nil_r. left. exact Ht. }
  2: { destruct e; left; exact Ht. }
  2: { exact I. }
  apply all_runs_bind_call. intros syncing. destruct syncing.
  { cbn [all_runs]. left. apply Forall_app. split; [exact Ht |].
    repeat constructor. }
  apply all_runs_bind_call. intros [].
  apply all_runs_bind_call. intros [].
  assert (Hbody : silent (@batch_syncing_changes)
                    (match py_range start_sub_height (target_sub_height + 1)
                             (MAX_BLOCK_COUNT_PER_REQUESTS constants) with
                     | None => Raise (ValueError "range() arg 3 must not be zero")
                     | Some heights =>
                         for_each heights
                           (short_sync_batch_step fuel peer target_sub_height
                              (MAX_BLOCK_COUNT_PER_REQUESTS constants))
                     end)).
  { destruct (py_range start_sub_height (target_sub_height + 1)
                (MAX_BLOCK_COUNT_PER_REQUESTS constants)) as [heights |];
      [| apply silent_raise].
    induction heights as [| sub_height heights IH]; cbn [for_each];
      repeat first [apply IH | apply short_sync_batch_step_quiet | silent_step]. }
  apply all_runs_bind. apply all_runs_try_except.
  eapply all_runs_mono; [| exact Hbody].
  cbn beta. intros o t' Ht'.
  assert (Hremoved : removed
                       (t ++ Ev (batch_syncing_contains (peer_node_id peer)) false
                          :: Ev (batch_syncing_add (peer_node_id peer)) tt
                          :: Ev (log info "Starting batch short sync") tt
                          :: t' ++ [Ev (batch_syncing_remove (peer_node_id peer)) tt])).
  { right.
    exists (t ++ [Ev (batch_syncing_contains (peer_node_id peer)) false]),
      (Ev (log info "Starting batch short sync") tt :: t').
    split; [rewrite <- app_assoc; reflexivity |]. split.
    - apply Forall_app. split; [exact Ht | repeat constructor].
    - constructor; [reflexivity | exact Ht']. }
  assert (Hleft : left_behind
                    (t ++ Ev (batch_syncing_contains (peer_node_id peer)) false
                       :: Ev (batch_syncing_add (peer_node_id peer)) tt
                       :: Ev (log info "Starting batch short sync") tt :: t')).
  { right.
    exists (t ++ [Ev (batch_syncing_contains (peer_node_id peer)) false]),
      (Ev (log info "Starting batch short sync") tt :: t').
    split; [rewrite <- app_assoc; reflexivity |]. split.
    - apply Forall_app. split; [exact Ht | repeat constructor].
    - constructor; [reflexivity | exact Ht']. }
  destruct o as [[] | e |].
  - cbn [then_all]. apply all_runs_bind_call. intros []. cbn [all_runs].
    exact Hremoved.
  - destruct e;
      try (apply all_runs_bind_call; intros []; cbn [all_runs then_all];
           rewrite ?app_nil_r; exact Hremoved).
    cbn [all_runs then_all]. rewrite app_nil_r. exact Hleft.
  - cbn [then_all]. exact I.
Qed.

Lemma respond_sub_block_broadcasts sub_block peer :
  all_runs (respond_sub_block fuel sub_block peer)
    (fun _ t => precedes new_peak_received (on (@broadcasts)) false t = true).
Proof.
  unfold respond_sub_block.
  repeat run_step;
    try (apply all_runs_bind; apply all_runs_always; intros [? | ? |] ?;
         cbn [then_all]; repeat run_step);
    cbn; rewrite ?precedes_seen; reflexivity.
Qed.

(** X9: [respond_sub_block] sends nothing to other nodes unless the block
    became the new peak: every message it hands to the server comes after
    a call of [receive_block] that answered NEW_PEAK. *)
Theorem respond_sub_block_propagates_new_peaks_only (w : W) (sub_block : FullBlock.t)
  (peer : option WSChiaConnection.t) :
  always_after new_peak_received (on (@broadcasts))
    (trace_of (run env (respond_sub_block fuel sub_block peer) w)).
Proof.
  apply precedes_always_after.
  exact (all_runs_run env (respond_sub_block fuel sub_block peer)
           (fun _ t => precedes new_peak_received (on (@broadcasts)) false t = true)
           w (respond_sub_block_broadcasts sub_block peer)).
Qed.

Lemma last_csb_or_first_in_ss_raises n curr :
  raises_only not_consensus_error (last_csb_or_first_in_ss n curr).
Proof.
  revert curr. induction n as [| n IH]; intros curr; cbn [last_csb_or_first_in_ss];
    repeat first [apply IH | raises_step].
Qed.

Lemma peak_post_processing_raises sub_block record fork_height peer :
  raises_only not_consensus_error
    (peak_post_processing fuel sub_block record fork_height peer).
Proof.
  unfold peak_post_processing, send_peak_to_timelords.
  repeat first [apply last_csb_or_first_in_ss_raises | raises_step].
Qed.

Lemma peak_post_processing_receives_nothing sub_block record fork_height peer :
  all_runs (peak_post_processing fuel sub_block record fork_height peer)
    (fun o t =>
       collect receive_block_answer t = []
       /\ match o with Raised e => not_consensus_error e = true | _ => True end).
Proof.
  pose proof (@all_runs_and unit
                (peak_post_processing fuel sub_block record fork_height peer)
                (fun _ t =>
                   Forall (fun e => on (fun X c => negb (@post_processing_calls X c)) e
                                    = false) t)
                (fun o _ => match o with
                            | Raised e => not_consensus_error e = true
                            | _ => True
                            end)
                (peak_post_processing_calls sub_block record fork_height peer)
                (peak_post_processing_raises sub_block record fork_height peer))
    as Hboth.
  eapply all_runs_mono; [| exact Hboth].
  cbn beta. intros o t [Hcalls Hraises]. split.
  - apply collect_none. eapply Forall_impl; [| exact Hcalls].
    intros [X c x]. unfold on. cbn. destruct c; cbn; try reflexivity; discriminate.
  - exact Hraises.
Qed.

Lemma respond_sub_block_consensus_error sub_block peer :
  all_runs (respond_sub_block fuel sub_block peer)
    (fun o t =>
       forall code,
         o = Raised (ConsensusError code)
         <-> exists fork_height,
               collect receive_block_answer t
               = [(INVALID_BLOCK, Some code, fork_height)]).
Proof.
  unfold respond_sub_block.
  repeat run_step;
    try (eapply all_runs_bind_with; [apply peak_post_processing_receives_nothing |];
         cbn beta; intros [? | ? |] ? [Hnone Hraise];
         cbn [then_all]; repeat run_step);
    intros code;
    repeat first [ progress cbn [collect receive_block_answer app]
                 | rewrite collect_app | rewrite Hnone | rewrite app_nil_r ];
    (split;
     [ intros H;
       first [ discriminate H | injection H as ->; discriminate Hraise
             | injection H as <-; eexists; reflexivity ]
     | intros [fh H]; first [discriminate H | congruence] ]).
Qed.

(** X10: [respond_sub_block] raises [ConsensusError(code)] exactly when its
    one call of [receive_block] answered INVALID_BLOCK with the error
    [code]: the answers of [receive_block] in the run are then this one
    answer, and in no other run does the handler end in that exception. *)
Theorem respond_sub_block_raises_on_invalid_block (w : W) (sub_block : FullBlock.t)
  (peer : option WSChiaConnection.t) (code : Err) :
  let r := run env (respond_sub_block fuel sub_block peer) w in
  result_of r = Raised (ConsensusError code)
  <-> exists fork_height,
        collect receive_block_answer (trace_of r)
        = [(INVALID_BLOCK, Some code, fork_height)].
Proof.
  cbv zeta.
  exact (all_runs_run env (respond_sub_block fuel sub_block peer)
           (fun o t =>
              forall code,
                o = Raised (ConsensusError code)
                <-> exists fork_height,
                      collect receive_block_answer t
                      = [(INVALID_BLOCK, Some code, fork_height)])
           w (respond_sub_block_consensus_error sub_block peer) code).
Qed.

Lemma find_prev_sb_raises n :
  forall curr target, raises_only not_consensus_error (find_prev_sb n curr target).
Proof.
  induction n as [| n IH]; intros curr target; cbn [find_prev_sb];
    repeat first [apply IH | raises_step].
Qed.

Lemma walk_records_to_first_in_sub_slot_raises n :
  forall curr, raises_only not_consensus_error (walk_records_to_first_in_sub_slot n curr).
Proof.
  induction n as [| n IH]; intros curr; cbn [walk_records_to_first_in_sub_slot];
    repeat first [apply IH | raises_step].
Qed.

Lemma infusion_point_assemble_receives_nothing request :
  all_runs (infusion_point_assemble request)
    (fun o t =>
       collect receive_block_answer t = []
       /\ match o with Raised e => not_consensus_error e = true | _ => True end).
Proof.
  assert (Hraises : raises_only not_consensus_error (infusion_point_assemble request)).
  { unfold infusion_point_assemble.
    repeat first [apply find_prev_sb_raises | raises_step]. }
  pose proof (@all_runs_and _ (infusion_point_assemble request)
                (fun _ t =>
                   Forall (fun e => on (fun X c => @adds_blocks X c || broadcasts c) e
                                    = false) t)
                (fun o _ => match o with
                            | Raised e => not_consensus_error e = true
                            | _ => True
                            end)
                (full_node_facts.infusion_point_assemble_silent request) Hraises)
    as Hboth.
  eapply all_runs_mono; [| exact Hboth].
  cbn beta. intros o t [Hcalls Hr]. split; [| exact Hr].
  apply collect_none. eapply Forall_impl; [| exact Hcalls].
  intros [X c x]. unfold on. cbn. destruct c; cbn; try reflexivity; discriminate.
Qed.

Lemma infusion_first_ss_new_epoch_receives_nothing block prev_sb :
  all_runs (infusion_first_ss_new_epoch fuel block prev_sb)
    (fun o t =>
       collect receive_block_answer t = []
       /\ match o with Raised e => not_consensus_error e = true | _ => True end).
Proof.
  assert (Hraises : raises_only not_consensus_error
                      (infusion_first_ss_new_epoch fuel block prev_sb)).
  { unfold infusion_first_ss_new_epoch.
    repeat first [apply walk_records_to_first_in_sub_slot_raises | raises_step]. }
  pose proof (@all_runs_and _ (infusion_first_ss_new_epoch fuel block prev_sb)
                (fun _ t =>
                   Forall (fun e => on (fun X c => @adds_blocks X c || broadcasts c) e
                                    = false) t)
                (fun o _ => match o with
                            | Raised e => not_consensus_error e = true
                            | _ => True
                            end)
                (full_node_facts.infusion_first_ss_new_epoch_silent fuel block prev_sb)
                Hraises)
    as Hboth.
  eapply all_runs_mono; [| exact Hboth].
  cbn beta. intros o t [Hcalls Hr]. split; [| exact Hr].
  apply collect_none. eapply Forall_impl; [| exact Hcalls].
  intros [X c x]. unfold on. cbn. destruct c; cbn; try reflexivity; discriminate.
Qed.

Lemma new_infusion_point_vdf_swallows request :
  all_runs (new_infusion_point_vdf fuel request)
    (fun o t =>
       match o with
       | Returned m => m = None
       | Raised e => not_consensus_error e = true
       | Diverged => True
       end
       /\ forall code fork_height,
            collect receive_block_answer t = [(INVALID_BLOCK, Some code, fork_height)] ->
            o = Returned None
            /\ In (Ev (log warning "Consensus error validating sub-block") tt) t).
Proof.
  unfold new_infusion_point_vdf.
  repeat run_step.
  eapply all_runs_bind_with; [apply infusion_point_assemble_receives_nothing |].
  cbn beta. intros [[[[overflow prev_sb] block] |] | e |] t [Hnone Hraise];
    cbn [then_all]; repeat run_step;
    try (eapply all_runs_bind_with;
         [apply infusion_first_ss_new_epoch_receives_nothing |];
         cbn beta; intros [first_ss_new_epoch | ? |] ? [Hnone' Hraise'];
         cbn [then_all]; repeat run_step;
         try (eapply all_runs_bind_with; [apply respond_sub_block_consensus_error |];
              cbn beta; intros [? | [] |] ? Hiff; cbn [then_all]; repeat run_step));
    repeat match goal with x : unit |- _ => destruct x end;
    (split;
     [ first [reflexivity | exact I | assumption]
     | intros code' fork_height' H;
       repeat first [ progress cbn [collect receive_block_answer app] in H
                    | rewrite collect_app in H | rewrite Hnone in H
                    | rewrite Hnone' in H | rewrite app_nil_r in H ];
       first [ discriminate H
             | apply (fun fh Heq => proj2 (Hiff code') (ex_intro _ fh Heq)) in H;
               first [ discriminate H
                     | injection H as <-; split; [reflexivity | in_trace] ] ] ]).
Qed.

(** X11: [new_infusion_point_vdf] never lets a [ConsensusError] out, and what it
    returns is always None: when [receive_block] answers INVALID_BLOCK for
    the block it assembled, the handler logs a warning and returns None. *)
Theorem new_infusion_point_vdf_swallows_consensus_error (w : W)
  (request : NewInfusionPointVDF.t) :
  let r := run env (new_infusion_point_vdf fuel request) w in
  match result_of r with
  | Returned m => m = None
  | Raised e => not_consensus_error e = true
  | Diverged => True
  end
  /\ forall code fork_height,
       collect receive_block_answer (trace_of r)
       = [(INVALID_BLOCK, Some code, fork_height)] ->
       result_of r = Returned None
       /\ In (Ev (log warning "Consensus error validating sub-block") tt) (trace_of r).
Proof.
  cbv zeta.
  exact (all_runs_run env (new_infusion_point_vdf fuel request) _ w
           (new_infusion_point_vdf_swallows request)).
Qed.

Lemma unfinished_validate_store_broadcast_order block prev_sb peer farmed_block :
  all_runs (unfinished_validate_store_broadcast block prev_sb peer farmed_block)
    (fun _ t => precedes unfinished_block_validated (on (@stores_unfinished)) false t = true)
  /\ all_runs (unfinished_validate_store_broadcast block prev_sb peer farmed_block)
       (fun _ t => precedes (on (@stores_unfinished)) (on (@broadcasts)) false t = true).
Proof.
  split; unfold unfinished_validate_store_broadcast; repeat run_step; cbn; reflexivity.
Qed.

(** X12: [respond_unfinished_sub_block] stores an unfinished block only after
    [validate_unfinished_block] accepted it (required iterations and no
    error), and tells timelords and full nodes about it only after it has
    stored it. *)
Theorem unfinished_block_validated_stored_announced (w : W) (block : UnfinishedBlock.t)
  (peer : option WSChiaConnection.t) (farmed_block : bool) :
  let t := trace_of (run env (respond_unfinished_sub_block fuel block peer farmed_block) w) in
  always_after unfinished_block_validated (on (@stores_unfinished)) t
  /\ always_after (on (@stores_unfinished)) (on (@broadcasts)) t.
Proof.
  cbv zeta.
  split; apply precedes_always_after;
    apply (all_runs_run env (respond_unfinished_sub_block fuel block peer farmed_block)
             (fun _ t => precedes _ _ false t = true) w);
    unfold respond_unfinished_sub_block;
    (apply all_runs_bind_precedes;
     [apply full_node_facts.unfinished_entry_checks_silent; reflexivity |]);
    intros [prev_sb |]; [| reflexivity | | reflexivity]; cbv zeta;
    (apply all_runs_bind_precedes;
     [apply full_node_facts.unfinished_count_and_new_epoch_silent; reflexivity |]);
    intros [num_sub_blocks_in_ss first_ss_new_epoch];
    repeat run_step; try reflexivity;
    apply (unfinished_validate_store_broadcast_order block prev_sb peer farmed_block).
Qed.

Lemma peak_post_processing_announces sub_block record fork_height peer :
  all_runs (peak_post_processing fuel sub_block record fork_height peer)
    (fun _ t => precedes not_in_sync_mode (on (@announces_peak)) false t = true).
Proof.
  unfold peak_post_processing.
  repeat run_step;
    try (apply all_runs_bind; apply all_runs_always; intros [? | ? |] ?;
         cbn [then_all]; repeat run_step);
    cbn; rewrite ?precedes_seen; reflexivity.
Qed.

(** X13: While the sync store reports sync mode, [peak_post_processing] tells
    neither the timelords nor the full nodes about the peak: each message
    to the timelords and each [new_peak] message to full nodes comes after
    a read of the sync mode that answered False. *)
Theorem peak_post_processing_silent_while_syncing (w : W) (sub_block : option FullBlock.t)
  (record : SubBlockRecord.t) (fork_height : Z) (peer : option WSChiaConnection.t) :
  always_after not_in_sync_mode (on (@announces_peak))
    (trace_of (run env (peak_post_processing fuel sub_block record fork_height peer) w)).
Proof.
  apply precedes_always_after.
  exact (all_runs_run env (peak_post_processing fuel sub_block record fork_height peer)
           (fun _ t => precedes not_in_sync_mode (on (@announces_peak)) false t = true)
           w (peak_post_processing_announces sub_block record fork_height peer)).
Qed.

Lemma peak_post_processing_spares sub_block record fork_height peer :
  all_runs (peak_post_processing fuel sub_block record fork_height (Some peer))
    (fun _ t => Forall (spares (peer_node_id peer)) t).
Proof.
  assert (Htimelords : all_runs (send_peak_to_timelords fuel)
                         (fun _ t => Forall (spares (peer_node_id peer)) t)).
  { eapply all_runs_mono; [| apply send_peak_to_timelords_calls].
    cbn beta. intros _ t Ht. eapply Forall_impl; [| exact Ht].
    intros [X c x]. unfold on, spares. cbn.
    destruct c; cbn; try discriminate; try exact (fun _ => I).
    destruct node_type; cbn; try discriminate; exact (fun _ => I). }
  unfold peak_post_processing.
  repeat run_step;
    try (eapply all_runs_bind_with; [exact Htimelords |];
         cbn beta; intros [? | ? |] ? Hspared; cbn [then_all]; repeat run_step);
    repeat first [ apply Forall_nil | apply Forall_cons | apply Forall_app; split
                 | assumption ];
    cbn; solve [exact I | reflexivity | intros _; reflexivity].
Qed.

(** X14: The peer that delivered the new peak is not told about it:
    [peak_post_processing] with a peer hands its [new_peak] message for
    the full nodes to [send_to_all_except] with the node id of that
    peer, and never to [send_to_all]. *)
Theorem peak_post_processing_spares_sender (w : W) (sub_block : option FullBlock.t)
  (record : SubBlockRecord.t) (fork_height : Z) (peer : WSChiaConnection.t) :
  Forall (spares (peer_node_id peer))
    (trace_of (run env (peak_post_processing fuel sub_block record fork_height (Some peer))
                 w)).
Proof.
  exact (all_runs_run env
           (peak_post_processing fuel sub_block record fork_height (Some peer))
           (fun _ t => Forall (spares (peer_node_id peer)) t)
           w (peak_post_processing_spares sub_block record fork_height peer)).
Qed.

Lemma collect_outside (A : Type) (f : entry -> option A)
  (calls : forall X : Type, Call X -> bool) (t : list entry) :
  (forall e, f e <> None -> on calls e = false) ->
  Forall (fun e => on (fun X c => negb (calls X c)) e = false) t ->
  collect f t = [].
Proof.
  intros Hf Ht. apply collect_none. eapply Forall_impl; [| exact Ht].
  intros e He. destruct (f e) as [a |] eqn:Hfe; [| reflexivity].
  assert (Hon : on calls e = false) by (apply Hf; rewrite Hfe; discriminate).
  unfold on in *. cbn in He. rewrite Hon in He. discriminate He.
Qed.

Lemma sync_mode_write_outside_long_sync e :
  sync_mode_write e <> None -> on (@long_sync_calls) e = false.
Proof.
  destruct e as [X c x]. unfold on, sync_mode_write. cbn.
  destruct c; cbn; intros H; try reflexivity; destruct (H eq_refl).
Qed.

Lemma sync_mode_write_outside_finish_sync e :
  sync_mode_write e <> None -> on (@finish_sync_calls) e = false.
Proof.
  destruct e as [X c x]. unfold on, sync_mode_write. cbn.
  destruct c; cbn; intros H; try reflexivity; destruct (H eq_refl).
Qed.

Lemma shut_down_read_outside_finish_sync e :
  shut_down_read e <> None -> on (@finish_sync_calls) e = false.
Proof.
  destruct e as [X c x]. unfold on. cbn.
  destruct c; cbn; intros H; try reflexivity; destruct (H eq_refl).
Qed.

Lemma _sync_writes :
  all_runs (_sync fuel)
    (fun o t =>
       o <> Diverged ->
       (t = [Ev sync_store_get_sync_mode true] /\ o = Returned tt)
       \/ (collect sync_mode_write t = [true]
           /\ last (collect shut_down_read t) false = true /\ o = Returned tt)
       \/ (collect sync_mode_write t = [true; false]
           /\ last (collect shut_down_read t) true = false)).
Proof.
  unfold _sync. apply all_runs_bind_call. intros [|].
  { cbn. intros _. left. split; reflexivity. }
  apply all_runs_bind_call. intros [].
  apply all_runs_bind_call. intros [].
  apply all_runs_try_finally.
  apply (@all_runs_mono _ _
           (fun _ t =>
              Forall (fun e => on (fun X c => negb (@long_sync_calls X c)) e = false) t));
    [| exact _sync_protected_calls].
  intros o t Ht.
  pose proof (collect_outside sync_mode_write (@long_sync_calls)
                sync_mode_write_outside_long_sync Ht) as Hwrites.
  assert (Hfin : forall (o1 o2 : outcome unit),
             all_runs
               (shut_down <- call get_shut_down ;;
                if shut_down then Ret (Some tt) else _finish_sync fuel ;; Ret None)
               (fun o' t' =>
                  let final := match o' with
                               | Returned (Some r') => Returned r'
                               | Returned None => o1
                               | Raised e' => Raised e'
                               | Diverged => Diverged
                               end in
                  let whole := Ev sync_store_get_sync_mode false
                               :: Ev (sync_store_set_sync_mode true) tt
                               :: Ev (_state_changed "sync_mode") tt :: t ++ t' in
                  final <> Diverged ->
                  (whole = [Ev sync_store_get_sync_mode true] /\ final = Returned tt)
                  \/ (collect sync_mode_write whole = [true]
                      /\ last (collect shut_down_read whole) false = true
                      /\ final = Returned tt)
                  \/ (collect sync_mode_write whole = [true; false]
                      /\ last (collect shut_down_read whole) true = false))).
  { intros o1 o2. apply all_runs_bind_call. intros [|].
    - cbn [all_runs]. cbv zeta. intros _. right. left.
      cbn [collect sync_mode_write shut_down_read ev_call].
      rewrite !collect_app, Hwrites.
      cbn [collect sync_mode_write shut_down_read ev_call app].
      repeat split. apply last_last.
    - eapply all_runs_bind_with; [apply _finish_sync_calls |].
      cbn beta. intros o' t' (t'' & -> & Ht'').
      pose proof (collect_outside sync_mode_write (@finish_sync_calls)
                    sync_mode_write_outside_finish_sync Ht'') as Hwrites'.
      pose proof (collect_outside shut_down_read (@finish_sync_calls)
                    shut_down_read_outside_finish_sync Ht'') as Hreads'.
      assert (Hcase :
                collect sync_mode_write
                  (Ev sync_store_get_sync_mode false
                   :: Ev (sync_store_set_sync_mode true) tt
                   :: Ev (_state_changed "sync_mode") tt
                   :: t ++ Ev get_shut_down false
                        :: Ev (sync_store_set_sync_mode false) tt :: t'')
                = [true; false]
                /\ last (collect shut_down_read
                           (Ev sync_store_get_sync_mode false
                            :: Ev (sync_store_set_sync_mode true) tt
                            :: Ev (_state_changed "sync_mode") tt
                            :: t ++ Ev get_shut_down false
                                 :: Ev (sync_store_set_sync_mode false) tt :: t''))
                     true = false).
      { cbn [collect sync_mode_write shut_down_read ev_call].
        rewrite !collect_app, Hwrites.
        cbn [collect sync_mode_write shut_down_read ev_call app].
        rewrite Hwrites', Hreads'. split; [reflexivity | apply last_last]. }
      destruct o' as [[] | e' |]; cbn [then_all all_runs]; cbv zeta;
        rewrite ?app_nil_r; intros _; right; right; exact Hcase. }
  destruct o as [[] | e |].
  - eapply all_runs_mono; [| apply (Hfin (Returned tt) (Returned tt))].
    cbn beta zeta. intros [[[] |] | e' |] t' H; exact H.
  - eapply all_runs_mono; [| apply (Hfin (Raised e) (Returned tt))].
    cbn beta zeta. intros [[[] |] | e' |] t' H; exact H.
  - intros Hd. destruct (Hd eq_refl).
Qed.

(** X15: [_sync] leaves sync mode behind it unless the node is shutting down.
    A run that ends (it returns or raises) is one of three: the sync store
    was in sync mode already, and [_sync] returned after reading it; or
    [_sync] set sync mode to True, its last read of the shutdown flag
    answered True, and it returned with sync mode still set; or it set sync
    mode to True and later to False, these being its only two writes, after
    the shutdown flag last read False. *)
Theorem sync_restores_sync_mode (w : W) :
  let r := run env (_sync fuel) w in
  let writes := collect sync_mode_write (trace_of r) in
  let shut_down_reads := collect shut_down_read (trace_of r) in
  result_of r <> Diverged ->
  (trace_of r = [Ev sync_store_get_sync_mode true] /\ result_of r = Returned tt)
  \/ (writes = [true] /\ last shut_down_reads false = true
      /\ result_of r = Returned tt)
  \/ (writes = [true; false] /\ last shut_down_reads true = false).
Proof.
  cbv zeta. exact (all_runs_run env (_sync fuel) _ w _sync_writes).
Qed.

Lemma new_peak_starts_sync request peer :
  all_runs (new_peak fuel request peer)
    (fun _ t => precedes not_in_sync_mode (on (@starts_sync)) false t = true).
Proof.
  unfold new_peak.
  apply all_runs_bind_call. intros x.
  apply all_runs_bind_call. intros [|]; [reflexivity |].
  apply all_runs_bind_call. intros peak. cbv zeta.
  match goal with |- all_runs (if ?b then _ else _) _ => destruct b end;
    [reflexivity |].
  apply all_runs_bind_call. intros [|].
  - repeat run_step; cbn; reflexivity.
  - apply all_runs_always. intros o t. cbn. apply precedes_seen.
Qed.

(** X16: [new_peak] starts a sync only when the sync store says that none is
    running: the launch of the long-sync task, a registration in
    [batch_syncing], a request for a batch of sub-blocks and every block
    handed to the block chain come after a read of the sync mode that
    answered False. *)
Theorem new_peak_syncs_outside_sync_mode (w : W) (request : NewPeak.t)
  (peer : WSChiaConnection.t) :
  always_after not_in_sync_mode (on (@starts_sync))
    (trace_of (run env (new_peak fuel request peer) w)).
Proof.
  apply precedes_always_after.
  exact (all_runs_run env (new_peak fuel request peer)
           (fun _ t => precedes not_in_sync_mode (on (@starts_sync)) false t = true)
           w (new_peak_starts_sync request peer)).
Qed.

Lemma filter_none (c : entry -> bool) (t : list entry) :
  Forall (fun e => c e = false) t -> filter c t = [].
Proof.
  induction 1 as [| e t He _ IH]; [reflexivity |]. cbn [filter]. rewrite He. exact IH.
Qed.

Lemma wait_for_peaks_polls n :
  forall current_peer_ids peaks,
    all_runs (wait_for_peaks n current_peer_ids peaks)
      (fun o t =>
         Forall (fun e => on (@selects_target) e = false) t
         /\ (List.length (filter (on (@sleeps)) t) <= n)%nat
         /\ (forall p, o = Returned (Some p) ->
                       List.length (filter (on (@polls_peer_peaks)) t) = n)
         /\ exists r, o = Returned r).
Proof.
  induction n as [| n IH]; intros current_peer_ids peaks; cbn [wait_for_peaks].
  - cbn. repeat split; [constructor | lia | eexists; reflexivity].
  - apply all_runs_bind_call. intros peer_peaks.
    eapply all_runs_bind_with;
      [apply (@all_runs_and _ _
                (fun _ t =>
                   Forall (fun e => on (fun X c => negb (@peers_with_peaks_calls X c)) e
                                    = false) t)
                (fun o _ => exists l, o = Returned l)
                (get_peers_with_peaks_calls _));
       eapply all_runs_mono;
       [| apply (peak_hashes_loop_found
                   (map (fun item => fst (fst (snd item))) peer_peaks) [])];
       cbn beta; intros o t (found & -> & _); eexists; reflexivity |].
    cbn beta. intros o t [Hcalls [with_peaks ->]]. cbn [then_all].
    assert (Hselect : Forall (fun e => on (@selects_target) e = false) t)
      by (apply (Forall_outside (@selects_target) (@peers_with_peaks_calls));
          [intros X c; destruct c; cbn; intros H; first [reflexivity | discriminate H]
          | exact Hcalls]).
    assert (Hsleeps : filter (on (@sleeps)) t = [])
      by (apply filter_none;
          apply (Forall_outside (@sleeps) (@peers_with_peaks_calls));
          [intros X c; destruct c; cbn; intros H; first [reflexivity | discriminate H]
          | exact Hcalls]).
    assert (Hpolls : filter (on (@polls_peer_peaks)) t = [])
      by (apply filter_none;
          apply (Forall_outside (@polls_peer_peaks) (@peers_with_peaks_calls));
          [intros X c; destruct c; cbn; intros H; first [reflexivity | discriminate H]
          | exact Hcalls]).
    assert (Hnext : forall tl,
               Forall (fun e => on (@selects_target) e = false) tl ->
               filter (on (@polls_peer_peaks)) tl = [] ->
               (List.length (filter (on (@sleeps)) tl) <= 1)%nat ->
               all_runs
                 (wait_for_peaks n current_peer_ids
                    (map (fun item => fst (fst (snd item))) peer_peaks))
                 (fun o t' =>
                    Forall (fun e => on (@selects_target) e = false)
                      (Ev (sync_store_get_peer_peaks current_peer_ids) peer_peaks
                       :: t ++ tl ++ t')
                    /\ (List.length
                          (filter (on (@sleeps))
                             (Ev (sync_store_get_peer_peaks current_peer_ids) peer_peaks
                              :: t ++ tl ++ t')) <= S n)%nat
                    /\ (forall p, o = Returned (Some p) ->
                                  List.length
                                    (filter (on (@polls_peer_peaks))
                                       (Ev (sync_store_get_peer_peaks current_peer_ids)
                                          peer_peaks :: t ++ tl ++ t')) = S n)
                    /\ exists r, o = Returned r)).
    { intros tl Htl Hpl Hsl. eapply all_runs_mono; [| apply IH].
      cbn beta. intros o t' (Hsel' & Hsl' & Hp' & Hr').
      split; [| split; [| split]].
      - constructor; [reflexivity |]. repeat (apply Forall_app; split); assumption.
      - cbn [filter on sleeps ev_call ev_type].
        rewrite !filter_app, Hsleeps, !(@length_app entry). cbn [List.length]. lia.
      - intros p Ho. cbn [filter on polls_peer_peaks ev_call ev_type].
        rewrite !filter_app, Hpolls, Hpl. cbn [app List.length].
        rewrite (Hp' p Ho). reflexivity.
      - exact Hr'. }
    destruct (List.length with_peaks <? 3)%nat.
    + apply all_runs_bind_call. intros [|].
      * cbn [all_runs]. split; [| split; [| split]].
        -- constructor; [reflexivity |]. apply Forall_app. split; [exact Hselect |].
           repeat constructor.
        -- cbn [filter on sleeps ev_call ev_type]. rewrite filter_app, Hsleeps. cbn. lia.
        -- discriminate.
        -- eexists; reflexivity.
      * apply all_runs_bind_call. intros [].
        eapply all_runs_mono;
          [| apply (Hnext [Ev get_shut_down false; Ev (asyncio_sleep (1 # 10)) tt]);
             [repeat constructor | reflexivity | cbn; lia]].
        cbn beta. intros o t' H. exact H.
    + eapply all_runs_mono; [| apply (Hnext []); [constructor | reflexivity | cbn; lia]].
      cbn beta. intros o t' H. exact H.
Qed.

Lemma count_before_silent_suffix (stop counted : entry -> bool) (t t' : list entry) :
  Forall (fun e => stop e = false) t' ->
  count_before stop counted (t ++ t') = count_before stop counted t.
Proof.
  intros Ht'. induction t as [| e t IH]; cbn [app count_before].
  - apply count_before_none. exact Ht'.
  - rewrite IH. reflexivity.
Qed.

Lemma _sync_body_polls :
  all_runs _sync_body
    (fun _ t =>
       match count_before (on (@selects_target)) (on (@polls_peer_peaks)) t with
       | Some polls => polls = 200%nat
       | None => True
       end
       /\ match count_before (on (@selects_target)) (on (@sleeps)) t with
          | Some naps => (naps <= 200)%nat
          | None => True
          end).
Proof.
  unfold _sync_body.
  apply all_runs_bind_call. intros [].
  apply all_runs_bind_call. intros [].
  apply all_runs_bind_call. intros conns. cbv zeta.
  eapply all_runs_bind_with; [apply wait_for_peaks_polls |].
  cbn beta. intros o t (Hselect & Hsleeps & Hpolls & [waited ->]).
  cbn [then_all]. destruct waited as [peaks |].
  - apply all_runs_bind_call. intros [].
    apply all_runs_bind_call. intros [].
    apply all_runs_bind_call. intros conns'.
    apply all_runs_bind_call. intros target_peak.
    apply all_runs_always. intros _ rest.
    cbn [count_before on selects_target polls_peer_peaks sleeps ev_call ev_type].
    rewrite !(count_before_app _ _ _ Hselect).
    cbn [app count_before on selects_target polls_peer_peaks sleeps ev_call ev_type
           option_map].
    rewrite (Hpolls peaks eq_refl). split; [apply Nat.add_0_r | lia].
  - cbn [all_runs]. rewrite app_nil_r.
    cbn [count_before on selects_target polls_peer_peaks sleeps ev_call ev_type].
    rewrite !(count_before_none _ _ Hselect). split; exact I.
Qed.

Lemma _sync_polls :
  all_runs (_sync fuel)
    (fun _ t =>
       match count_before (on (@selects_target)) (on (@polls_peer_peaks)) t with
       | Some polls => polls = 200%nat
       | None => True
       end
       /\ match count_before (on (@selects_target)) (on (@sleeps)) t with
          | Some naps => (naps <= 200)%nat
          | None => True
          end).
Proof.
  assert (Hfin : silent (@selects_target)
                   (shut_down <- call get_shut_down ;;
                    if shut_down then Ret (Some tt) else _finish_sync fuel ;; Ret None)).
  { unfold _finish_sync.
    repeat first [within peak_post_processing_calls | silent_step]. }
  unfold _sync. apply all_runs_bind_call. intros [|].
  { cbn. split; exact I. }
  apply all_runs_bind_call. intros [].
  apply all_runs_bind_call. intros [].
  cbn [app].
  apply all_runs_try_finally. apply all_runs_try_except.
  eapply all_runs_mono; [| exact _sync_body_polls].
  cbn beta. intros o t Ht.
  assert (Hthen : forall (A : Type) (o1 : outcome A),
             all_runs
               (shut_down <- call get_shut_down ;;
                if shut_down then Ret (Some tt) else _finish_sync fuel ;; Ret None)
               (fun _ t' =>
                  forall tl, Forall (fun e => on (@selects_target) e = false) tl ->
                  match count_before (on (@selects_target)) (on (@polls_peer_peaks))
                          (Ev sync_store_get_sync_mode false
                           :: Ev (sync_store_set_sync_mode true) tt
                           :: Ev (_state_changed "sync_mode") tt :: (t ++ tl) ++ t') with
                  | Some polls => polls = 200%nat
                  | None => True
                  end
                  /\ match count_before (on (@selects_target)) (on (@sleeps))
                             (Ev sync_store_get_sync_mode false
                              :: Ev (sync_store_set_sync_mode true) tt
                              :: Ev (_state_changed "sync_mode") tt :: (t ++ tl) ++ t') with
                     | Some naps => (naps <= 200)%nat
                     | None => True
                     end)).
  { intros A o1. eapply all_runs_mono; [| exact Hfin].
    cbn beta. intros _ t' Ht' tl Htl.
    cbn [count_before on selects_target polls_peer_peaks sleeps ev_call ev_type].
    rewrite <- app_assoc.
    rewrite !(count_before_silent_suffix _ _ t (t' := tl ++ t'))
      by (apply Forall_app; split; assumption).
    destruct Ht as [Hp Hs]. split.
    - destruct (count_before _ (on (@polls_peer_peaks)) t); exact Hp.
    - destruct (count_before _ (on (@sleeps)) t); exact Hs. }
  destruct o as [[] | e |].
  - eapply all_runs_mono; [| exact (Hthen unit (Returned tt))].
    cbn beta. intros o' t' H. specialize (H [] (Forall_nil _)).
    rewrite app_nil_r in H. destruct o' as [[[] |] | |]; exact H.
  - destruct e;
      (apply all_runs_bind_call || cbn [call all_runs]); intros [];
      cbn [all_runs];
      (eapply all_runs_mono; [| exact (Hthen unit (Returned tt))]);
      cbn beta; intros o' t' H;
      match goal with
      | |- context [(t ++ [?e]) ++ t'] =>
          specialize (H [e] ltac:(repeat constructor))
      end;
      rewrite ?app_nil_r; destruct o' as [[[] |] | |]; exact H.
  - cbn [count_before on selects_target polls_peer_peaks sleeps ev_call ev_type].
    destruct Ht as [Hp Hs]. split.
    + destruct (count_before _ (on (@polls_peer_peaks)) t); exact Hp.
    + destruct (count_before _ (on (@sleeps)) t); exact Hs.
Qed.

(** X17: In a run of [_sync] that selects a sync target
    ([sync_store.get_heaviest_peak]), the calls before the selection hold
    exactly 200 polls of the peers' peaks ([sync_store.get_peer_peaks]) and
    at most 200 calls of [asyncio.sleep]: the waiting loop goes through
    all of [range(200)], whether or not three peers with a peak are
    known. *)
Theorem sync_polls_200_times_before_target (w : W) :
  let t := trace_of (run env (_sync fuel) w) in
  match count_before (on (@selects_target)) (on (@polls_peer_peaks)) t with
  | Some polls => polls = 200%nat
  | None => True
  end
  /\ match count_before (on (@selects_target)) (on (@sleeps)) t with
     | Some naps => (naps <= 200)%nat
     | None => True
     end.
Proof.
  cbv zeta. exact (all_runs_run env (_sync fuel) _ w _sync_polls).
Qed.

Lemma requested_window_outside_batch e :
  requested_window e <> None -> on (@batch_calls) e = false.
Proof.
  destruct e as [X c x]. unfold on, requested_window. cbn.
  destruct c; cbn; intros H; try reflexivity; destruct (H eq_refl).
Qed.

Lemma requested_window_outside_peers_with_peaks e :
  requested_window e <> None -> on (@peers_with_peaks_calls) e = false.
Proof.
  destruct e as [X c x]. unfold on, requested_window. cbn.
  destruct c; cbn; intros H; try reflexivity; destruct (H eq_refl).
Qed.

Lemma fetch_from_peers_requests fork_point_height start_height end_height peers :
  forall to_remove advanced_peak,
    all_runs
      (fetch_from_peers peers fork_point_height start_height end_height to_remove
         advanced_peak)
      (fun o t =>
         exists k, collect requested_window t
                   = repeat (start_height, end_height, true) k
                   /\ forall to_remove' advanced_peak',
                        o = Returned (to_remove', advanced_peak', true) -> (1 <= k)%nat).
Proof.
  induction peers as [| peer rest IH]; intros to_remove advanced_peak;
    cbn [fetch_from_peers].
  { cbn. exists 0%nat. split; [reflexivity | discriminate]. }
  apply all_runs_bind_call. intros [|].
  { eapply all_runs_mono; [| apply IH]. cbn beta. intros o t [k Hk].
    exists k. exact Hk. }
  apply all_runs_bind_call. intros response.
  assert (Hnext : forall to_remove' advanced_peak' tl,
             collect requested_window tl = [] ->
             all_runs
               (fetch_from_peers rest fork_point_height start_height end_height
                  to_remove' advanced_peak')
               (fun o t =>
                  exists k,
                    collect requested_window
                      (Ev (peer_closed peer) false
                       :: Ev (peer_request_sub_blocks peer start_height end_height true)
                            response :: tl ++ t)
                    = repeat (start_height, end_height, true) k
                    /\ forall to_remove'' advanced_peak'',
                         o = Returned (to_remove'', advanced_peak'', true) ->
                         (1 <= k)%nat)).
  { intros to_remove' advanced_peak' tl Htl.
    eapply all_runs_mono; [| apply IH]. cbn beta. intros o t [k [Hk _]].
    exists (S k). split; [| intros; lia].
    cbn [collect requested_window ev_call repeat].
    rewrite collect_app, Htl, Hk. reflexivity. }
  destruct response as [[curr | sub_blocks | | wp |] |];
    try (eapply all_runs_mono; [| apply (Hnext to_remove advanced_peak []); reflexivity];
         cbn beta; intros o t H; exact H).
  eapply all_runs_bind_with; [apply receive_sub_block_batch_calls |].
  cbn beta. intros o t Ht.
  pose proof (collect_outside requested_window (@batch_calls)
                requested_window_outside_batch Ht) as Hquiet.
  destruct o as [[[success advanced_peak'] fork_height] | e |]; cbn [then_all].
  - destruct success; cbn [negb].
    + cbn [all_runs]. exists 1%nat. split; [| intros; lia].
      cbn [collect requested_window ev_call repeat].
      rewrite collect_app, Hquiet. reflexivity.
    + apply all_runs_bind_call. intros [].
      eapply all_runs_mono;
        [| apply (Hnext to_remove advanced_peak' (t ++ [Ev (peer_close peer) tt]));
           rewrite collect_app, Hquiet; reflexivity].
      cbn beta. intros o t' H. rewrite <- app_assoc in H. exact H.
  - exists 1%nat. split; [| intros; lia].
    cbn [collect requested_window ev_call repeat].
    rewrite Hquiet. reflexivity.
  - exists 1%nat. split; [| intros; lia].
    cbn [collect requested_window ev_call repeat].
    rewrite Hquiet. reflexivity.
Qed.

Lemma remove_all_no_calls to_remove :
  forall peers_with_peak,
    all_runs (remove_all to_remove peers_with_peak) (fun _ t => t = []).
Proof.
  induction to_remove as [| peer rest IH]; intros peers_with_peak; cbn [remove_all].
  - reflexivity.
  - destruct (list_remove peer peers_with_peak); [apply IH | reflexivity].
Qed.

Lemma repeated_nil (ws : list (Z * Z * bool)) : repeated ws [] = [].
Proof.
  unfold repeated. destruct ws; reflexivity.
Qed.

Lemma repeated_one (w : Z * Z * bool) (ws : list (Z * Z * bool)) (k : nat) :
  repeated (w :: ws) [k] = repeat w k.
Proof.
  unfold repeated. cbn [combine flat_map fst snd].
  destruct ws; cbn [combine flat_map]; apply app_nil_r.
Qed.

Lemma sync_windows_requests fork_point_height target peak_hash batch_size starts :
  forall peers_with_peak advanced_peak,
    all_runs
      (sync_windows starts fork_point_height target peak_hash batch_size peers_with_peak
         advanced_peak)
      (fun _ t =>
         exists counts,
           (List.length counts <= List.length starts)%nat
           /\ Forall (fun k => (1 <= k)%nat) (removelast counts)
           /\ collect requested_window t
              = repeated
                  (map (fun start_height =>
                          (start_height, Z.min target (start_height + batch_size), true))
                     starts)
                  counts).
Proof.
  induction starts as [| start_height rest IH]; intros peers_with_peak advanced_peak;
    cbn [sync_windows].
  { cbn. exists []. split; [cbn; lia |]. split; [constructor | reflexivity]. }
  cbv zeta. apply all_runs_bind_call. intros [].
  eapply all_runs_bind_with; [apply fetch_from_peers_requests |].
  cbn beta. intros o tf [k [Hk Hone]].
  assert (Hstop : forall tl,
             collect requested_window tl = [] ->
             exists counts,
               (List.length counts <= List.length (start_height :: rest))%nat
               /\ Forall (fun k => (1 <= k)%nat) (removelast counts)
               /\ collect requested_window
                    (Ev (log info "Requesting sub-blocks") tt :: tf ++ tl)
                  = repeated
                      (map (fun start_height =>
                              (start_height, Z.min target (start_height + batch_size),
                               true))
                         (start_height :: rest))
                      counts).
  { intros tl Htl. exists [k]. split; [cbn; lia |]. split; [constructor |].
    cbn [map]. rewrite repeated_one.
    cbn [collect requested_window ev_call]. rewrite collect_app, Hk, Htl.
    apply app_nil_r. }
  destruct o as [[[to_remove advanced_peak'] batch_added] | e |]; cbn [then_all];
    [| rewrite <- (app_nil_r tf); apply Hstop; reflexivity
     | rewrite <- (app_nil_r tf); apply Hstop; reflexivity].
  apply all_runs_bind_call. intros [peak |];
    [| cbn [all_runs]; apply Hstop; reflexivity].
  cbv zeta. apply all_runs_bind_call. intros [].
  eapply all_runs_bind_with; [apply remove_all_no_calls |].
  cbn beta. intros o tr ->.
  destruct o as [peers_with_peak' | e |]; cbn [then_all];
    [| apply Hstop; reflexivity | apply Hstop; reflexivity].
  apply all_runs_bind_call. intros changed.
  assert (Hrefresh :
            all_runs
              (if changed
               then
                 refreshed <- get_peers_with_peaks [peak_hash] ;;
                 call (log info "Number of peers we are syncing from") ;;
                 call sync_store_peers_changed_clear ;; Ret refreshed
               else Ret peers_with_peak')
              (fun _ t => collect requested_window t = [])).
  { destruct changed; [| reflexivity].
    eapply all_runs_bind_with; [apply get_peers_with_peaks_calls |].
    cbn beta. intros o t Ht.
    pose proof (collect_outside requested_window (@peers_with_peaks_calls)
                  requested_window_outside_peers_with_peaks Ht) as Hquiet.
    destruct o as [refreshed | e |]; cbn [then_all];
      [| rewrite Hquiet; reflexivity | rewrite Hquiet; reflexivity].
    apply all_runs_bind_call. intros [].
    apply all_runs_bind_call. intros [].
    cbn [all_runs]. rewrite collect_app, Hquiet. reflexivity. }
  eapply all_runs_bind_with; [exact Hrefresh |].
  cbn beta. intros o tm Hm.
  destruct o as [peers_with_peak'' | e |]; cbn [then_all];
    [| apply Hstop; cbn [collect requested_window ev_call]; exact Hm
     | apply Hstop; cbn [collect requested_window ev_call]; exact Hm].
  destruct batch_added; cbn [negb].
  - apply all_runs_bind_call. intros [].
    apply all_runs_bind_call. intros [].
    eapply all_runs_mono; [| apply IH]. cbn beta.
    intros _ t (counts & Hlen & Hpos & Hcounts).
    exists (k :: counts). split; [cbn [List.length]; lia |]. split.
    + destruct counts as [| k' counts']; [constructor |].
      change (removelast (k :: k' :: counts')) with (k :: removelast (k' :: counts')).
      constructor; [exact (Hone _ _ eq_refl) | exact Hpos].
    + repeat first [ rewrite collect_app
                   | progress cbn [collect requested_window ev_call app] ].
      rewrite Hk, Hm, Hcounts. reflexivity.
  - cbn [call all_runs]. intros [].
    destruct (Hstop (Ev blockchain_get_peak (Some peak)
                     :: Ev (server_send_to_all
                              [{| function := "new_peak";
                                  data := wallet_NewPeak (SubBlockRecord.header_hash peak)
                                            (SubBlockRecord.sub_block_height peak)
                                            (SubBlockRecord.weight peak)
                                            (Z.max (SubBlockRecord.sub_block_height peak - 1)
                                               0) |}] WALLET) tt
                     :: Ev sync_store_peers_changed_is_set changed
                     :: tm ++ [Ev (log info "Failed to fetch sub-blocks from peers") tt]))
      as (counts & Hlen & Hpos & Hcounts).
    { cbn [collect requested_window ev_call]. rewrite collect_app, Hm. reflexivity. }
    exists counts. split; [exact Hlen |]. split; [exact Hpos |].
    rewrite <- Hcounts. reflexivity.
Qed.

Lemma sync_from_fork_point_requests fork_point_height target peak_hash :
  all_runs (sync_from_fork_point fork_point_height target peak_hash)
    (fun _ t =>
       let windows := fork_point_windows fork_point_height target
                        (MAX_BLOCK_COUNT_PER_REQUESTS constants) in
       exists counts,
         (List.length counts <= List.length windows)%nat
         /\ Forall (fun k => (1 <= k)%nat) (removelast counts)
         /\ collect requested_window t = repeated windows counts).
Proof.
  assert (Hnone : forall (ws : list (Z * Z * bool)) t,
             collect requested_window t = [] ->
             exists counts,
               (List.length counts <= List.length ws)%nat
               /\ Forall (fun k => (1 <= k)%nat) (removelast counts)
               /\ collect requested_window t = repeated ws counts).
  { intros ws t Ht. exists []. split; [cbn; lia |]. split; [constructor |].
    rewrite Ht. symmetry. apply repeated_nil. }
  unfold sync_from_fork_point, fork_point_windows. cbv zeta.
  apply all_runs_bind_call. intros [].
  eapply all_runs_bind_with; [apply get_peers_with_peaks_calls |].
  cbn beta. intros o t Ht.
  pose proof (collect_outside requested_window (@peers_with_peaks_calls)
                requested_window_outside_peers_with_peaks Ht) as Hquiet.
  destruct o as [peers_with_peak | e |]; cbn [then_all];
    [| apply Hnone; cbn [collect requested_window ev_call]; exact Hquiet
     | apply Hnone; cbn [collect requested_window ev_call]; exact Hquiet].
  destruct (List.length peers_with_peak =? 0)%nat.
  { apply Hnone. cbn [collect requested_window ev_call]. rewrite app_nil_r. exact Hquiet. }
  destruct (py_range _ _ _) as [starts |].
  - eapply all_runs_mono; [| apply sync_windows_requests].
    cbn beta. intros _ t' (counts & Hlen & Hpos & Hcounts). exists counts.
    split; [rewrite length_map; exact Hlen |]. split; [exact Hpos |].
    cbn [collect requested_window ev_call]. rewrite collect_app, Hquiet. exact Hcounts.
  - apply Hnone. cbn [collect requested_window ev_call]. rewrite app_nil_r. exact Hquiet.
Qed.

(** X18: [sync_from_fork_point] asks the peers for the windows of
    [range(fork_point_height, target_peak_sb_height, batch_size)] in that
    order, each from its start to the smaller of the target height and
    start plus batch size, with the transaction generators included. What
    it requests is the first window [counts_1] times, then the second
    [counts_2] times, and so on, over a first part of the windows: no
    window is skipped, since every window before the last one reached is
    requested at least once; only the last window reached can go without a
    request. *)
Theorem sync_from_fork_point_requests_windows_in_order (w : W)
  (fork_point_height target_peak_sb_height : Z) (peak_hash : bytes32) :
  let t := trace_of (run env (sync_from_fork_point fork_point_height
                                target_peak_sb_height peak_hash) w) in
  let windows := fork_point_windows fork_point_height target_peak_sb_height
                   (MAX_BLOCK_COUNT_PER_REQUESTS constants) in
  exists counts : list nat,
    (List.length counts <= List.length windows)%nat
    /\ Forall (fun k => (1 <= k)%nat) (removelast counts)
    /\ collect requested_window t = repeated windows counts.
Proof.
  cbv zeta.
  exact (all_runs_run env (sync_from_fork_point fork_point_height target_peak_sb_height
                             peak_hash) _ w
           (sync_from_fork_point_requests fork_point_height target_peak_sb_height
              peak_hash)).
Qed.

Lemma last_cons (A : Type) (l : list A) :
  forall a d : A, last (a :: l) d = last l a.
Proof.
  induction l as [| b l IH]; intros a d; [reflexivity |].
  change (last (a :: b :: l) d) with (last (b :: l) d).
  rewrite (IH b d), (IH b a). reflexivity.
Qed.

Lemma last_csb_or_first_in_ss_walks n :
  forall curr,
    all_runs (last_csb_or_first_in_ss n curr)
      (fun o t =>
         collect sent_to_timelords t = []
         /\ forall found, o = Returned found ->
              walks_back curr (collect record_lookup t)
              /\ last (map snd (collect record_lookup t)) curr = found
              /\ ends_walk found = true).
Proof.
  induction n as [| n IH]; intros curr; cbn [last_csb_or_first_in_ss].
  - destruct (is_challenge_sub_block curr constants) eqn:Hc;
      [| destruct (SubBlockRecord.first_in_sub_slot curr) eqn:Hf];
      cbn [negb andb all_runs collect].
    + split; [reflexivity |]. intros found [= <-]. unfold ends_walk. rewrite Hc.
      repeat split.
    + split; [reflexivity |]. intros found [= <-]. unfold ends_walk. rewrite Hc, Hf.
      repeat split.
    + split; [reflexivity | discriminate].
  - destruct (is_challenge_sub_block curr constants) eqn:Hc;
      [| destruct (SubBlockRecord.first_in_sub_slot curr) eqn:Hf];
      cbn [negb andb].
    + cbn [all_runs collect]. split; [reflexivity |]. intros found [= <-].
      unfold ends_walk. rewrite Hc. repeat split.
    + cbn [all_runs collect]. split; [reflexivity |]. intros found [= <-].
      unfold ends_walk. rewrite Hc, Hf. repeat split.
    + apply all_runs_bind_call. intros curr'.
      eapply all_runs_mono; [| apply IH]. cbn beta. intros o t [Hsent Hfound].
      split; [exact Hsent |]. intros found Ho.
      destruct (Hfound found Ho) as (Hwalk & Hlast & Hends).
      cbn [collect record_lookup walks_back map].
      split; [| split; [| exact Hends]].
      * split; [unfold ends_walk; rewrite Hc, Hf; reflexivity |].
        split; [reflexivity | exact Hwalk].
      * cbn [snd]. rewrite last_cons. exact Hlast.
Qed.

Lemma send_peak_to_timelords_sends :
  all_runs (send_peak_to_timelords fuel)
    (fun _ t =>
       match collect sent_to_timelords t with
       | [] => True
       | [messages] =>
           exists peak_block peak walk difficulty ses recent_rc,
             collect record_lookup t = (FullBlock.header_hash peak_block, peak) :: walk
             /\ walks_back peak walk
             /\ ends_walk (last (map snd walk) peak) = true
             /\ messages
                = [{| function := "new_peak";
                      data :=
                        timelord_NewPeak (FullBlock.reward_chain_sub_block peak_block)
                          difficulty (SubBlockRecord.deficit peak)
                          (SubBlockRecord.sub_slot_iters peak) ses recent_rc
                          (let curr := last (map snd walk) peak in
                           if is_challenge_sub_block curr constants
                           then SubBlockRecord.total_iters curr
                           else ip_sub_slot_total_iters curr constants) |}]
       | _ => False
       end).
Proof.
  unfold send_peak_to_timelords.
  apply all_runs_bind_call. intros [peak_block |]; [| exact I].
  apply all_runs_bind_call. intros peak.
  apply all_runs_bind_call. intros difficulty.
  apply all_runs_bind_call. intros ses.
  apply all_runs_bind_call. intros recent_rc.
  eapply all_runs_bind_with; [apply last_csb_or_first_in_ss_walks |].
  cbn beta. intros o t [Hsent Hfound].
  destruct o as [curr | e |]; cbn [then_all].
  - cbv zeta. cbn [call all_runs]. intros [].
    destruct (Hfound curr eq_refl) as (Hwalk & Hlast & Hends).
    cbn [collect sent_to_timelords record_lookup ev_call].
    rewrite !collect_app, Hsent.
    cbn [collect sent_to_timelords record_lookup ev_call app].
    exists peak_block, peak, (collect record_lookup t), difficulty, ses, recent_rc.
    rewrite app_nil_r, Hlast. repeat split; assumption.
  - cbn [collect sent_to_timelords ev_call]. rewrite Hsent. exact I.
  - cbn [collect sent_to_timelords ev_call]. rewrite Hsent. exact I.
Qed.

(** X19: [send_peak_to_timelords] sends the timelords at most one list of
    messages, and it is one [new_peak] message. Its
    [last_challenge_sb_or_eos_total_iters] is read off the record the walk
    ends at: the walk starts at the record of the full peak, follows
    [prev_hash] and passes only records that are neither challenge
    sub-blocks nor first in their sub-slot; the record it ends at is one or
    the other, and gives its [total_iters] if it is a challenge sub-block
    and its [ip_sub_slot_total_iters] otherwise. The deficit and the
    sub-slot iterations are those of the peak. *)
Theorem timelord_peak_iters_from_walk_back (w : W) :
  let t := trace_of (run env (send_peak_to_timelords fuel) w) in
  match collect sent_to_timelords t with
  | [] => True
  | [messages] =>
      exists peak_block peak walk difficulty ses recent_rc,
        collect record_lookup t = (FullBlock.header_hash peak_block, peak) :: walk
        /\ walks_back peak walk
        /\ ends_walk (last (map snd walk) peak) = true
        /\ messages
           = [{| function := "new_peak";
                 data :=
                   timelord_NewPeak (FullBlock.reward_chain_sub_block peak_block)
                     difficulty (SubBlockRecord.deficit peak)
                     (SubBlockRecord.sub_slot_iters peak) ses recent_rc
                     (let curr := last (map snd walk) peak in
                      if is_challenge_sub_block curr constants
                      then SubBlockRecord.total_iters curr
                      else ip_sub_slot_total_iters curr constants) |}]
  | _ => False
  end.
Proof.
  cbv zeta.
  exact (all_runs_run env (send_peak_to_timelords fuel) _ w send_peak_to_timelords_sends).
Qed.

End Handlers.

End handler_facts.

(** ** The sample node again *)

Module more_examples.

Import full_node readings Sample Scenario more_scenarios handler_facts.

(** A batch sync from a peer that serves the next block registers the
    peer and removes the registration with its last call; the same batch
    sync, cancelled while it waits for the peer's blocks, leaves the peer
    registered. *)
Lemma short_sync_batch_registration_removed_witness :
  let r := run env (short_sync_batch 10 peer 0 6) with_next_peer in
  let cancelled := run env_cancelled (short_sync_batch 10 peer 0 6) with_next_peer in
  let unchanged := Forall (fun e => on (@batch_syncing_changes) e = false) in
  (result_of r = Returned true
   /\ batch_syncing (state_of r) = []
   /\ (unchanged (trace_of r)
       \/ exists t1 t2,
            trace_of r
            = t1 ++ Ev (batch_syncing_add (peer_node_id peer)) tt
                 :: t2 ++ [Ev (batch_syncing_remove (peer_node_id peer)) tt]
            /\ unchanged t1 /\ unchanged t2))
  /\
  (result_of cancelled = Raised CancelledError
   /\ batch_syncing (state_of cancelled) = [peer_node_id peer]
   /\ (unchanged (trace_of cancelled)
       \/ exists t1 t2,
            trace_of cancelled
            = t1 ++ Ev (batch_syncing_add (peer_node_id peer)) tt :: t2
            /\ unchanged t1 /\ unchanged t2)).
Proof.
  cbv zeta.
  assert (Hr : result_of (run env (short_sync_batch 10 peer 0 6) with_next_peer)
               = Returned true) by (vm_compute; reflexivity).
  assert (Hc : result_of (run env_cancelled (short_sync_batch 10 peer 0 6) with_next_peer)
               = Raised CancelledError) by (vm_compute; reflexivity).
  split.
  - split; [exact Hr |]. split; [vm_compute; reflexivity |].
    pose proof (@short_sync_batch_registration_removed sample_node 10 World env
                  with_next_peer peer 0 6) as H.
    cbv zeta in H. rewrite Hr in H. exact H.
  - split; [exact Hc |]. split; [vm_compute; reflexivity |].
    pose proof (@short_sync_batch_registration_removed sample_node 10 World env_cancelled
                  with_next_peer peer 0 6) as H.
    cbv zeta in H. rewrite Hc in H. exact H.
Defined.

(** A long sync that is served a wrong weight proof ends, and leaves sync
    mode as the theorem says. *)
Lemma sync_restores_sync_mode_witness :
  let r := run env (_sync 10) (lied_to false) in
  let writes := collect sync_mode_write (trace_of r) in
  let shut_down_reads := collect shut_down_read (trace_of r) in
  result_of r <> Diverged
  /\ ((trace_of r = [Ev sync_store_get_sync_mode true] /\ result_of r = Returned tt)
      \/ (writes = [true] /\ last shut_down_reads false = true
          /\ result_of r = Returned tt)
      \/ (writes = [true; false] /\ last shut_down_reads true = false)).
Proof.
  cbv zeta. split; [vm_compute; discriminate |].
  apply (@sync_restores_sync_mode sample_node 10 World env (lied_to false)).
  vm_compute; discriminate.
Defined.

(** The long sync of the sample node selects its target after 200 polls,
    and never sleeps: three peers with the peak are known from the first
    poll on. *)
Lemma sync_polls_200_times_before_target_witness :
  let t := trace_of (run env (_sync 10) (lied_to false)) in
  (count_before (on (@selects_target)) (on (@polls_peer_peaks)) t = Some 200%nat
   /\ count_before (on (@selects_target)) (on (@sleeps)) t = Some 0%nat)
  /\ (match count_before (on (@selects_target)) (on (@polls_peer_peaks)) t with
      | Some polls => polls = 200%nat
      | None => True
      end
      /\ match count_before (on (@selects_target)) (on (@sleeps)) t with
         | Some naps => (naps <= 200)%nat
         | None => True
         end).
Proof.
  cbv zeta. split; [split; vm_compute; reflexivity |].
  apply (@sync_polls_200_times_before_target sample_node 10 World env (lied_to false)).
Defined.

(** A sync from the fork point 0 up to height 70 in batches of 32 asks for
    the three windows from 0 to 32, from 32 to 64 and from 64 to 70, each
    once and in this order. *)
Lemma sync_from_fork_point_requests_windows_in_order_witness :
  let t := trace_of (run env (sync_from_fork_point 0 70 (hash x09)) (lied_to false)) in
  let windows := fork_point_windows 0 70 (MAX_BLOCK_COUNT_PER_REQUESTS constants) in
  windows = [(0, 32, true); (32, 64, true); (64, 70, true)]
  /\ collect requested_window t = windows
  /\ exists counts : list nat,
       (List.length counts <= List.length windows)%nat
       /\ Forall (fun k => (1 <= k)%nat) (removelast counts)
       /\ collect requested_window t = repeated windows counts.
Proof.
  cbv zeta. split; [vm_compute; reflexivity |]. split; [vm_compute; reflexivity |].
  apply (@sync_from_fork_point_requests_windows_in_order sample_node World env
           (lied_to false) 0 70 (hash x09)).
Defined.

(** At its peak the sample node sends the timelords one message; the peak
    is a challenge sub-block, so the walk ends where it starts. *)
Lemma timelord_peak_iters_from_walk_back_witness :
  let t := trace_of (run env (send_peak_to_timelords 10) at_peak) in
  (List.length (collect sent_to_timelords t) = 1%nat
   /\ map fst (collect record_lookup t) = [hash x01])
  /\ match collect sent_to_timelords t with
     | [] => True
     | [messages] =>
         exists peak_block peak walk difficulty ses recent_rc,
           collect record_lookup t = (FullBlock.header_hash peak_block, peak) :: walk
           /\ walks_back peak walk
           /\ ends_walk (last (map snd walk) peak) = true
           /\ messages
              = [{| function := "new_peak";
                    data :=
                      timelord_NewPeak (FullBlock.reward_chain_sub_block peak_block)
                        difficulty (SubBlockRecord.deficit peak)
                        (SubBlockRecord.sub_slot_iters peak) ses recent_rc
                        (let curr := last (map snd walk) peak in
                         if is_challenge_sub_block curr constants
                         then SubBlockRecord.total_iters curr
                         else ip_sub_slot_total_iters curr constants) |}]
     | _ => False
     end.
Proof.
  cbv zeta. split; [split; vm_compute; reflexivity |].
  apply (@timelord_peak_iters_from_walk_back sample_node 10 World env at_peak).
Defined.

(** Both blocks of the sample batch are handed over, and the call
    reports success. *)
Lemma batch_blocks_received_in_order_witness :
  let r := run env (receive_sub_block_batch batch peer None) at_peak in
  let handed := collect received_block (trace_of r) in
  (result_of r = Returned (true, true, None) /\ map fst handed = batch)
  /\ match answer env (blockchain_pre_validate_blocks_multiprocessing batch) at_peak with
     | None => handed = []
     | Some pre_validation_results =>
         (exists n, handed = firstn n (combine batch pre_validation_results))
         /\ forall advanced_peak fork_height,
              result_of r = Returned (true, advanced_peak, fork_height) ->
              map fst handed = batch
     end.
Proof.
  cbv zeta. split; [split; vm_compute; reflexivity |].
  apply (@batch_blocks_received_in_order sample_node World env at_peak batch peer None).
Defined.

End more_examples.

(** * The locks *)

Module lock_facts.

Import full_node run_facts every_run full_node_facts readings stepping handler_facts.
Local Open Scope prog_scope.

Section Discipline.

Variable guarded : forall X : Type, Call X -> bool.

Lemma lock_discipline_app (t1 t2 : list entry) :
  forall held,
    lock_discipline guarded held (t1 ++ t2)
    = match lock_discipline guarded held t1 with
      | Some held' => lock_discipline guarded held' t2
      | None => None
      end.
Proof.
  induction t1 as [| [X c x] t1 IH]; intros held; [reflexivity |].
  cbn [app lock_discipline ev_call].
  destruct c; cbn [on ev_call ev_type];
    repeat match goal with
           | |- context [if ?b then _ else _] => destruct b
           end; try reflexivity; apply IH.
Qed.

Lemma lock_discipline_allowed (held : Held) (t : list entry) :
  Forall (fun e => on (fun X c => negb (allowed guarded held c)) e = false) t ->
  lock_discipline guarded held t = Some held.
Proof.
  induction 1 as [| [X c x] t He _ IH]; [reflexivity |].
  unfold on in He. cbn [ev_call ev_type] in He. apply negb_false_iff in He.
  cbn [lock_discipline ev_call].
  destruct c; unfold on; cbn [ev_call ev_type]; rewrite ?He; try exact IH;
    unfold allowed in He; cbn in He; discriminate He.
Qed.

Lemma keeps_of_silent (held : Held) (R : Type) (p : Prog R) :
  silent (fun X c => negb (allowed guarded held c)) p -> keeps_locks guarded held p.
Proof.
  intros Hp. unfold keeps_locks. eapply all_runs_mono; [| exact Hp].
  cbn beta. intros o t Ht. rewrite (@lock_discipline_allowed held t Ht). right. reflexivity.
Qed.

Lemma keeps_ret (held : Held) (R : Type) (r : R) : keeps_locks guarded held (Ret r).
Proof. cbn. right. reflexivity. Qed.

Lemma keeps_raise (held : Held) (R : Type) (e : PyExn) :
  keeps_locks guarded held (@Raise R e).
Proof. cbn. right. reflexivity. Qed.

Lemma keeps_out_of_fuel (held : Held) (R : Type) : keeps_locks guarded held (@OutOfFuel R).
Proof. cbn. right. reflexivity. Qed.

Lemma keeps_call (held : Held) (X : Type) (c : Call X) :
  allowed guarded held c = true -> keeps_locks guarded held (call c).
Proof.
  intros Hc. apply keeps_of_silent. apply silent_call. rewrite Hc. reflexivity.
Qed.

Lemma keeps_py_assert (held : Held) (b : bool) : keeps_locks guarded held (py_assert b).
Proof. destruct b; [apply keeps_ret | apply keeps_raise]. Qed.

Lemma keeps_bind (held : Held) (A B : Type) (p : Prog A) (f : A -> Prog B) :
  keeps_locks guarded held p -> (forall a, keeps_locks guarded held (f a)) ->
  keeps_locks guarded held (bind p f).
Proof.
  intros Hp Hf. unfold keeps_locks. eapply all_runs_bind_with; [exact Hp |].
  cbn beta. intros o t Ht.
  destruct (lock_discipline guarded held t) as [held' |] eqn:Hd; [| destruct Ht].
  destruct o as [a | e |]; cbn [then_all].
  - destruct Ht as [Ht | ->]; [discriminate Ht |].
    eapply all_runs_mono; [| exact (Hf a)]. cbn beta. intros o' t' Ht'.
    rewrite lock_discipline_app, Hd. exact Ht'.
  - rewrite Hd. destruct Ht as [Ht | ->]; [discriminate Ht | right; reflexivity].
  - rewrite Hd. left. reflexivity.
Qed.

Lemma keeps_try_except (held : Held) (R : Type) (p : Prog R) (handler : PyExn -> Prog R) :
  keeps_locks guarded held p -> (forall e, keeps_locks guarded held (handler e)) ->
  keeps_locks guarded held (try_except p handler).
Proof.
  intros Hp Hh. unfold keeps_locks. apply all_runs_try_except.
  eapply all_runs_mono; [| exact Hp]. cbn beta. intros o t Ht.
  destruct o as [r | e |]; try exact Ht.
  destruct (lock_discipline guarded held t) as [held' |] eqn:Hd; [| destruct Ht].
  destruct Ht as [Ht | ->]; [discriminate Ht |].
  eapply all_runs_mono; [| exact (Hh e)]. cbn beta. intros o' t' Ht'.
  rewrite lock_discipline_app, Hd. exact Ht'.
Qed.

Lemma keeps_try_finally (held : Held) (R : Type) (p : Prog R) (fin : Prog (option R)) :
  keeps_locks guarded held p -> keeps_locks guarded held fin ->
  keeps_locks guarded held (try_finally p fin).
Proof.
  intros Hp Hfin. unfold keeps_locks. apply all_runs_try_finally.
  eapply all_runs_mono; [| exact Hp]. cbn beta. intros o t Ht.
  destruct (lock_discipline guarded held t) as [held' |] eqn:Hd; [| destruct Ht].
  destruct o as [r | e |].
  - destruct Ht as [Ht | ->]; [discriminate Ht |].
    eapply all_runs_mono; [| exact Hfin]. cbn beta. intros o' t' Ht'.
    rewrite lock_discipline_app, Hd.
    destruct (lock_discipline guarded held t') as [held'' |]; [| destruct Ht'].
    destruct o' as [[r' |] | e' |]; destruct Ht' as [Ht' | ->];
      first [discriminate Ht' | right; reflexivity | left; reflexivity].
  - destruct Ht as [Ht | ->]; [discriminate Ht |].
    eapply all_runs_mono; [| exact Hfin]. cbn beta. intros o' t' Ht'.
    rewrite lock_discipline_app, Hd.
    destruct (lock_discipline guarded held t') as [held'' |]; [| destruct Ht'].
    destruct o' as [[r' |] | e' |]; destruct Ht' as [Ht' | ->];
      first [discriminate Ht' | right; reflexivity | left; reflexivity].
  - left. reflexivity.
Qed.

Lemma set_held_back (held : Held) (l : Lock) :
  holds held l = false -> set_held (set_held held l true) l false = held.
Proof.
  destruct held as [b tl], l; cbn; intros ->; reflexivity.
Qed.

Lemma keeps_with_lock (held : Held) (l : Lock) (R : Type) (p : Prog R) :
  holds held l = false ->
  keeps_locks guarded (set_held held l true) p ->
  keeps_locks guarded held (with_lock l p).
Proof.
  intros Hfree Hp. unfold keeps_locks, with_lock.
  apply all_runs_bind_call. intros []. apply all_runs_try_finally.
  assert (Hheld : holds (set_held held l true) l = true)
    by (destruct held, l; reflexivity).
  eapply all_runs_mono; [| exact Hp]. cbn beta. intros o t Ht.
  destruct (lock_discipline guarded (set_held held l true) t) as [held' |] eqn:Hd;
    [| destruct Ht].
  assert (Hrelease : forall t0 : list entry,
             t0 = Ev (acquire l) tt :: t ++ [Ev (release l) tt] ->
             held' = set_held held l true ->
             lock_discipline guarded held t0 = Some held).
  { intros t0 -> ->. cbn [lock_discipline ev_call]. rewrite Hfree.
    rewrite lock_discipline_app, Hd. cbn [lock_discipline ev_call].
    rewrite Hheld, (set_held_back _ _ Hfree). reflexivity. }
  destruct o as [r | e |].
  - destruct Ht as [Ht | Heq]; [discriminate Ht |].
    apply all_runs_bind_call. intros []. cbn [all_runs].
    rewrite (Hrelease _ eq_refl Heq). right. reflexivity.
  - destruct Ht as [Ht | Heq]; [discriminate Ht |].
    apply all_runs_bind_call. intros []. cbn [all_runs].
    rewrite (Hrelease _ eq_refl Heq). right. reflexivity.
  - cbn [lock_discipline ev_call]. rewrite Hfree, Hd. left. reflexivity.
Qed.

End Discipline.

(** One step through a program, for a goal [keeps_locks guarded held p]. *)
Ltac keeps_step :=
  lazymatch goal with
  | |- keeps_locks _ _ (Ret _) => apply keeps_ret
  | |- keeps_locks _ _ (Raise _) => apply keeps_raise
  | |- keeps_locks _ _ OutOfFuel => apply keeps_out_of_fuel
  | |- keeps_locks _ _ (call _) => apply keeps_call; reflexivity
  | |- keeps_locks _ _ (py_assert _) => apply keeps_py_assert
  | |- keeps_locks _ _ (bind _ _) => apply keeps_bind; [| intros ?]
  | |- keeps_locks _ _ (with_lock _ _) =>
      apply keeps_with_lock; [reflexivity |]; cbn [set_held fst snd]
  | |- keeps_locks _ _ (try_except _ _) => apply keeps_try_except; [| intros ?]
  | |- keeps_locks _ _ (try_finally _ _) => apply keeps_try_finally
  | |- keeps_locks _ _ (match ?x with _ => _ end) => destruct x
  | |- keeps_locks _ _ (let _ := _ in _) => cbv zeta
  end.

Section Handlers.

Context {node : Node}.
Variable fuel : nat.

Lemma keeps_plain (held : Held) (R : Type) (p : Prog R) : silent (fun X c => @is_lock_call X c || needs_blockchain_lock c) p -> keeps_locks (@needs_blockchain_lock) held p.
Proof.
  intros Hp. apply keeps_of_silent. eapply silent_weaken; [| exact Hp].
  intros X c. unfold allowed. destruct (is_lock_call c), (needs_blockchain_lock c);
    cbn; intros H; first [reflexivity | discriminate H].
Qed.

Lemma peak_post_processing_keeps tl sub_block record fork_height peer :
  keeps_locks (@needs_blockchain_lock) (true, tl) (peak_post_processing fuel sub_block record fork_height peer).
Proof.
  apply keeps_of_silent. within peak_post_processing_calls.
Qed.

Lemma receive_sub_block_batch_keeps tl blocks peer fork_point :
  keeps_locks (@needs_blockchain_lock) (true, tl) (receive_sub_block_batch blocks peer fork_point).
Proof.
  apply keeps_of_silent. within receive_sub_block_batch_calls.
Qed.

Lemma sync_from_fork_point_keeps tl fork_point_height target peak_hash :
  keeps_locks (@needs_blockchain_lock) (true, tl) (sync_from_fork_point fork_point_height target peak_hash).
Proof.
  apply keeps_of_silent. within sync_from_fork_point_calls.
Qed.

Lemma get_peers_with_peaks_keeps held peak_hashes :
  keeps_locks (@needs_blockchain_lock) held (get_peers_with_peaks peak_hashes).
Proof.
  apply keeps_plain. within get_peers_with_peaks_calls.
Qed.

Lemma respond_sub_block_keeps tl sub_block peer :
  keeps_locks (@needs_blockchain_lock) (false, tl) (respond_sub_block fuel sub_block peer).
Proof.
  unfold respond_sub_block.
  repeat first [apply peak_post_processing_keeps | keeps_step].
Qed.

Lemma short_sync_batch_step_keeps tl peer target_sub_height batch_size sub_height :
  keeps_locks (@needs_blockchain_lock) (false, tl) (short_sync_batch_step fuel peer target_sub_height batch_size sub_height).
Proof.
  unfold short_sync_batch_step, cancellation_point.
  repeat first [apply peak_post_processing_keeps | apply receive_sub_block_batch_keeps
               | keeps_step].
Qed.

Lemma for_each_keeps held (A : Type) (body : A -> Prog unit) (l : list A) :
  (forall a, keeps_locks (@needs_blockchain_lock) held (body a)) -> keeps_locks (@needs_blockchain_lock) held (for_each l body).
Proof.
  intros Hbody. induction l as [| a l IH]; cbn [for_each];
    repeat first [apply IH | apply Hbody | keeps_step].
Qed.

Lemma short_sync_batch_keeps tl peer start_sub_height target_sub_height :
  keeps_locks (@needs_blockchain_lock) (false, tl) (short_sync_batch fuel peer start_sub_height target_sub_height).
Proof.
  unfold short_sync_batch.
  repeat first [apply for_each_keeps; intros ? | apply short_sync_batch_step_keeps
               | keeps_step].
Qed.

Lemma short_sync_backtrack_loop_keeps held n :
  forall peer peak_sub_height curr_sub_height responses,
    keeps_locks (@needs_blockchain_lock) held (short_sync_backtrack_loop n peer peak_sub_height curr_sub_height responses).
Proof.
  induction n as [| n IH]; intros; cbn [short_sync_backtrack_loop];
    repeat first [apply IH | keeps_step].
Qed.

Lemma short_sync_backtrack_keeps tl peer peak_sub_height target_sub_height :
  keeps_locks (@needs_blockchain_lock) (false, tl) (short_sync_backtrack fuel peer peak_sub_height target_sub_height).
Proof.
  unfold short_sync_backtrack.
  repeat first [apply short_sync_backtrack_loop_keeps
               | apply for_each_keeps; intros ? | apply respond_sub_block_keeps
               | keeps_step].
Qed.

Lemma new_peak_keeps tl request peer :
  keeps_locks (@needs_blockchain_lock) (false, tl) (new_peak fuel request peer).
Proof.
  unfold new_peak.
  repeat first [apply short_sync_backtrack_keeps | apply short_sync_batch_keeps
               | keeps_step].
Qed.

Lemma walk_to_first_in_sub_slot_keeps held n curr num :
  keeps_locks (@needs_blockchain_lock) held (walk_to_first_in_sub_slot n curr num).
Proof.
  apply keeps_plain. apply walk_to_first_in_sub_slot_silent. reflexivity.
Qed.

Lemma unfinished_entry_checks_keeps held block :
  keeps_locks (@needs_blockchain_lock) held (unfinished_entry_checks block).
Proof.
  unfold unfinished_entry_checks. repeat keeps_step.
Qed.

Lemma unfinished_count_and_new_epoch_keeps held block prev_sb :
  keeps_locks (@needs_blockchain_lock) held
    (unfinished_count_and_new_epoch fuel block prev_sb).
Proof.
  unfold unfinished_count_and_new_epoch.
  repeat first [apply walk_to_first_in_sub_slot_keeps | keeps_step].
Qed.

Lemma respond_unfinished_sub_block_keeps tl block peer farmed_block :
  keeps_locks (@needs_blockchain_lock) (false, tl)
    (respond_unfinished_sub_block fuel block peer farmed_block).
Proof.
  unfold respond_unfinished_sub_block, unfinished_validate_store_broadcast.
  repeat first [apply unfinished_entry_checks_keeps
               | apply unfinished_count_and_new_epoch_keeps | keeps_step].
Qed.

Lemma find_prev_sb_keeps held n curr target :
  keeps_locks (@needs_blockchain_lock) held (find_prev_sb n curr target).
Proof.
  apply keeps_plain. apply find_prev_sb_silent. reflexivity.
Qed.

Lemma walk_records_to_first_in_sub_slot_keeps held n curr :
  keeps_locks (@needs_blockchain_lock) held (walk_records_to_first_in_sub_slot n curr).
Proof.
  apply keeps_plain. apply walk_records_to_first_in_sub_slot_silent. reflexivity.
Qed.

Lemma new_infusion_point_vdf_keeps request :
  keeps_locks (@needs_blockchain_lock) none_held (new_infusion_point_vdf fuel request).
Proof.
  unfold new_infusion_point_vdf, infusion_point_assemble, infusion_first_ss_new_epoch,
    none_held.
  repeat first [apply find_prev_sb_keeps | apply walk_records_to_first_in_sub_slot_keeps
               | apply respond_sub_block_keeps | keeps_step].
Qed.

Lemma _finish_sync_keeps tl :
  keeps_locks (@needs_blockchain_lock) (false, tl) (_finish_sync fuel).
Proof.
  unfold _finish_sync. repeat first [apply peak_post_processing_keeps | keeps_step].
Qed.

Lemma wait_for_peaks_keeps held n :
  forall current_peer_ids peaks,
    keeps_locks (@needs_blockchain_lock) held (wait_for_peaks n current_peer_ids peaks).
Proof.
  induction n as [| n IH]; intros; cbn [wait_for_peaks];
    repeat first [apply IH | apply get_peers_with_peaks_keeps | keeps_step].
Qed.

Lemma gather_requests_keeps held peers :
  forall height, keeps_locks (@needs_blockchain_lock) held (gather_requests peers height).
Proof.
  induction peers as [| peer rest IH]; intros; cbn [gather_requests];
    repeat first [apply IH | keeps_step].
Qed.

Lemma record_peers_with_peak_keeps held peers :
  forall responses h wt ht,
    keeps_locks (@needs_blockchain_lock) held
      (record_peers_with_peak peers responses h wt ht).
Proof.
  induction peers as [| peer rest IH]; intros [| r responses] h wt ht;
    cbn [record_peers_with_peak]; repeat first [apply IH | keeps_step].
Qed.

Lemma _sync_keeps tl :
  keeps_locks (@needs_blockchain_lock) (false, tl) (_sync fuel).
Proof.
  unfold _sync, _sync_body.
  repeat first [apply wait_for_peaks_keeps | apply gather_requests_keeps
               | apply record_peers_with_peak_keeps | apply get_peers_with_peaks_keeps
               | apply sync_from_fork_point_keeps | apply _finish_sync_keeps
               | keeps_step].
Qed.

End Handlers.

Lemma lock_discipline_unguarded (guarded : forall X : Type, Call X -> bool)
  (t : list entry) :
  forall held held',
    lock_discipline guarded held t = Some held' ->
    lock_discipline (@needs_no_lock) held t = Some held'.
Proof.
  induction t as [| [X c x] t IH]; intros held held'; [intros H; exact H |].
  cbn [lock_discipline ev_call].
  destruct c; unfold on; cbn [ev_call ev_type];
    try (destruct (holds held l); [| discriminate]; apply IH);
    try (destruct (holds held l); [discriminate |]; apply IH);
    (match goal with
     | |- context [allowed guarded held ?c] =>
         destruct (allowed guarded held c); [| discriminate]
     end; apply IH).
Qed.

Lemma lock_discipline_under_lock (guarded : forall X : Type, Call X -> bool)
  (t : list entry) :
  forall held held',
    lock_discipline guarded held t = Some held' ->
    under_blockchain_lock guarded (fst held) t = true.
Proof.
  induction t as [| [X c x] t IH]; intros held held'; [reflexivity |].
  cbn [lock_discipline under_blockchain_lock ev_call].
  destruct c; unfold on; cbn [ev_call ev_type];
    try (destruct l, held as [[|] [|]]; cbn [holds set_held fst snd];
         first [discriminate | intros H; exact (IH _ _ H)]);
    (match goal with
     | |- context [allowed guarded held ?c] =>
         destruct (allowed guarded held c) eqn:Hc; [| discriminate]
     end;
     intros H; rewrite (IH _ _ H), andb_true_r;
     unfold allowed in Hc; cbn [is_lock_call negb andb holds] in Hc; exact Hc).
Qed.

Section Runs.

Context {node : Node}.
Variable fuel : nat.
Variable W : Type.
Variable env : forall X : Type, Call X -> W -> X * W.

Lemma keeps_run (R : Type) (p : Prog R) (w : W) :
  keeps_locks (@needs_blockchain_lock) none_held p ->
  disciplined (@needs_blockchain_lock) (result_of (run env p w))
    (trace_of (run env p w)).
Proof.
  intros Hp. exact (all_runs_run env p _ w Hp).
Qed.

Lemma disciplined_unguarded (R : Type) (o : outcome R) (t : list entry) :
  disciplined (@needs_blockchain_lock) o t -> disciplined (@needs_no_lock) o t.
Proof.
  unfold disciplined.
  destruct (lock_discipline (@needs_blockchain_lock) none_held t) as [held |] eqn:Hd;
    [| intros []].
  rewrite (lock_discipline_unguarded _ _ _ Hd). intros H. exact H.
Qed.

Lemma disciplined_under_lock (R : Type) (o : outcome R) (t : list entry) :
  disciplined (@needs_blockchain_lock) o t ->
  under_blockchain_lock (@needs_blockchain_lock) false t = true.
Proof.
  unfold disciplined.
  destruct (lock_discipline (@needs_blockchain_lock) none_held t) as [held |] eqn:Hd;
    [| intros []].
  intros _. exact (lock_discipline_under_lock _ _ _ Hd).
Qed.

(** X20: The handlers use their locks as [asyncio.Lock] asks. Started with no
    lock held, a run of [new_peak], [respond_sub_block],
    [respond_unfinished_sub_block], [new_infusion_point_vdf],
    [short_sync_batch], [short_sync_backtrack] or [_sync] never acquires a
    lock it holds and never releases a lock it does not hold, and when it
    returns or raises it holds no lock. *)
Theorem handlers_release_their_locks (w : W) (request : NewPeak.t)
  (peer : WSChiaConnection.t) (sub_block : FullBlock.t)
  (sender : option WSChiaConnection.t) (block : UnfinishedBlock.t) (farmed_block : bool)
  (infusion : NewInfusionPointVDF.t) (start_sub_height peak_sub_height target_sub_height : Z) :
  let released (R : Type) (p : Prog R) :=
    disciplined (@needs_no_lock) (result_of (run env p w)) (trace_of (run env p w)) in
  released _ (new_peak fuel request peer)
  /\ released _ (respond_sub_block fuel sub_block sender)
  /\ released _ (respond_unfinished_sub_block fuel block sender farmed_block)
  /\ released _ (new_infusion_point_vdf fuel infusion)
  /\ released _ (short_sync_batch fuel peer start_sub_height target_sub_height)
  /\ released _ (short_sync_backtrack fuel peer peak_sub_height target_sub_height)
  /\ released _ (_sync fuel).
Proof.
  cbv zeta.
  repeat split; apply disciplined_unguarded, keeps_run;
    first [ apply new_peak_keeps | apply respond_sub_block_keeps
          | apply respond_unfinished_sub_block_keeps | apply new_infusion_point_vdf_keeps
          | apply short_sync_batch_keeps | apply short_sync_backtrack_keeps
          | apply _sync_keeps ].
Qed.

(** X21: The block chain changes under its lock only. In every run of
    [new_peak], [respond_sub_block], [new_infusion_point_vdf],
    [short_sync_batch], [short_sync_backtrack] and [_sync] that starts
    without the lock, each call of [blockchain.receive_block],
    [full_node_store.new_peak] and [mempool_manager.new_peak] is made
    between an acquire of [blockchain.lock] and its release. *)
Theorem chain_changes_under_blockchain_lock (w : W) (request : NewPeak.t)
  (peer : WSChiaConnection.t) (sub_block : FullBlock.t)
  (sender : option WSChiaConnection.t) (infusion : NewInfusionPointVDF.t)
  (start_sub_height peak_sub_height target_sub_height : Z) :
  let locked (R : Type) (p : Prog R) :=
    under_blockchain_lock (@needs_blockchain_lock) false (trace_of (run env p w)) = true in
  locked _ (new_peak fuel request peer)
  /\ locked _ (respond_sub_block fuel sub_block sender)
  /\ locked _ (new_infusion_point_vdf fuel infusion)
  /\ locked _ (short_sync_batch fuel peer start_sub_height target_sub_height)
  /\ locked _ (short_sync_backtrack fuel peer peak_sub_height target_sub_height)
  /\ locked _ (_sync fuel).
Proof.
  cbv zeta.
  repeat split;
    match goal with
    | |- under_blockchain_lock _ _ (trace_of (run env ?p w)) = true =>
        apply (@disciplined_under_lock _ (result_of (run env p w)))
    end;
    apply keeps_run;
    first [ apply new_peak_keeps | apply respond_sub_block_keeps
          | apply new_infusion_point_vdf_keeps
          | apply short_sync_batch_keeps | apply short_sync_backtrack_keeps
          | apply _sync_keeps ].
Qed.

End Runs.

End lock_facts.

(** ** The locks on the sample node *)

Module lock_examples.

Import full_node readings Sample Scenario more_scenarios lock_facts.

(** The sample node receives the block on top of its peak: the run hands
    the block to the block chain, and does so under the lock. *)
Lemma chain_changes_under_blockchain_lock_witness :
  let t := trace_of (run env (respond_sub_block 10 next_block (Some peer)) at_peak) in
  existsb (on (@needs_blockchain_lock)) t = true
  /\ under_blockchain_lock (@needs_blockchain_lock) false t = true.
Proof.
  cbv zeta. split; [vm_compute; reflexivity |].
  apply (@chain_changes_under_blockchain_lock sample_node 10 World env at_peak
           (announcement 100) peer next_block (Some peer) infusion 0 5 6).
Defined.

End lock_examples.

(** * The end of a sub-slot *)

Module end_of_sub_slot_facts.

Import full_node end_of_sub_slot.
Local Open Scope slot_scope.

Lemma all_slot_runs_run (W : Type) (env : forall X : Type, SlotCall X -> W -> X * W)
  (R : Type) (p : SlotProg R) (Q : outcome R -> list slot_entry -> Prop) (w : W) :
  all_slot_runs p Q ->
  Q (fst (fst (slot_run env p w))) (slot_trace (slot_run env p w)).
Proof.
  revert Q w. induction p as [a | e | | X c k IH]; intros Q w H; try exact H.
  cbn [slot_run]. specialize (IH (fst (env X c w)) _ (snd (env X c w)) (H (fst (env X c w)))).
  destruct (slot_run env (k (fst (env X c w))) (snd (env X c w))) as [[o w'] t].
  exact IH.
Qed.

Lemma all_slot_runs_always (R : Type) (p : SlotProg R)
  (Q : outcome R -> list slot_entry -> Prop) :
  (forall o t, Q o t) -> all_slot_runs p Q.
Proof.
  revert Q. induction p as [a | e | | X c k IH]; intros Q HQ; cbn; auto.
Qed.

Lemma all_slot_runs_bind (A B : Type) (p : SlotProg A) (f : A -> SlotProg B)
  (Q : outcome B -> list slot_entry -> Prop) :
  all_slot_runs p
    (fun o t =>
       match o with
       | Returned a => all_slot_runs (f a) (fun o' t' => Q o' (t ++ t')%list)
       | Raised e => Q (Raised e) t
       | Diverged => Q Diverged t
       end) ->
  all_slot_runs (sbind p f) Q.
Proof.
  revert Q. induction p as [a | e | | X c k IH]; intros Q H; cbn in *;
    [exact H | exact H | exact H | intros x; apply IH; apply H].
Qed.

(** The part of a program that runs first. *)
Ltac slot_head p :=
  lazymatch p with
  | sbind ?q _ => slot_head q
  | s_try_finally ?q _ => slot_head q
  | s_for_each ?l _ => destruct l
  | lift (new_infusion_point_vdf _ _) =>
      unfold new_infusion_point_vdf, with_lock; cbn [lift bind call]
  | match ?x with _ => _ end => destruct x
  end.

(** One step through a program, for a goal [all_slot_runs p Q]. *)
Ltac slot_step :=
  lazymatch goal with
  | |- forall _, _ => intros ?
  | |- _ = _ => reflexivity
  | |- all_slot_runs (SVis _ _) _ => cbn [all_slot_runs]
  | |- all_slot_runs (SRet _) _ => cbn [all_slot_runs]; reflexivity
  | |- all_slot_runs (SRaise _) _ => cbn [all_slot_runs]; reflexivity
  | |- all_slot_runs SOutOfFuel _ => cbn [all_slot_runs]; reflexivity
  | |- all_slot_runs ?p _ =>
      first [progress cbn [sbind scall s_try_finally s_for_each] | slot_head p]
  end.

Section Handler.

Context {node : Node}.
Variable starting : StartingConstants.
Variable fuel : nat.

Lemma respond_end_of_sub_slot_reacquires end_of_slot_bundle peer :
  all_slot_runs (respond_end_of_sub_slot starting fuel end_of_slot_bundle peer)
    (fun _ t => reacquires timelord_lock false t = existsb gives_infusions t).
Proof.
  unfold respond_end_of_sub_slot, s_with_lock. cbv zeta.
  repeat first [ solve [apply all_slot_runs_always; intros ? ?; cbn; reflexivity]
               | slot_step ].
Qed.

Variable W : Type.
Variable env : forall X : Type, SlotCall X -> W -> X * W.

(** X22: [respond_end_of_sub_slot] acquires the timelord lock while it holds it
    in exactly the runs in which [new_finished_sub_slot] answers at least
    one infusion point: inside its [async with self.timelord_lock] it then
    awaits [new_infusion_point_vdf], which starts by taking the same lock.
    An [asyncio.Lock] is not reentrant, so the handler waits for itself
    there. In the other runs it takes the lock once. *)
Theorem respond_end_of_sub_slot_reacquires_timelord_lock (w : W)
  (end_of_slot_bundle : EndOfSubSlotBundle.t) (peer : WSChiaConnection.t) :
  let t := slot_trace (slot_run env (respond_end_of_sub_slot starting fuel
                                       end_of_slot_bundle peer) w) in
  reacquires timelord_lock false t = existsb gives_infusions t.
Proof.
  cbv zeta.
  exact (all_slot_runs_run env
           (respond_end_of_sub_slot starting fuel end_of_slot_bundle peer) _ w
           (respond_end_of_sub_slot_reacquires end_of_slot_bundle peer)).
Qed.

End Handler.

End end_of_sub_slot_facts.

(** ** The sample node at the end of a sub-slot *)

Module end_of_sub_slot_examples.

Import full_node Sample Scenario end_of_sub_slot slot_scenario end_of_sub_slot_facts.

(** On the sample node, with a store that answers one infusion point, the
    handler takes the timelord lock twice without a release between. *)
Lemma respond_end_of_sub_slot_reacquires_timelord_lock_witness :
  let t := slot_trace
             (slot_run (slot_env (Some [infusion]))
                (respond_end_of_sub_slot starting 10
                   first_end_of_slot peer)
                at_peak) in
  (reacquires timelord_lock false t = true
   /\ map lock_use (firstn 11 t)
      = [Some (true, timelord_lock); None; None; None; None; None; None; None; None;
         None; Some (true, timelord_lock)])
  /\ reacquires timelord_lock false t = existsb gives_infusions t.
Proof.
  cbv zeta. split; [split; vm_compute; reflexivity |].
  apply (@respond_end_of_sub_slot_reacquires_timelord_lock sample_node
           starting 10 World
           (slot_env (Some [infusion])) at_peak
           first_end_of_slot peer).
Defined.

End end_of_sub_slot_examples.
